(** * ETL pipeline: orchestrator, cleansing transformer and quality metrics

    A shallow embedding of

    - [pipeline/ejecutor.py]                               (the orchestrator),
    - [pipeline/transformadores/transformador_limpieza.py] (the cleansing
      transformer),
    - [utilidades/helpers/helpers_pipeline.py]             (the quality metrics
      and the text helper),
    - [pipeline/extractores/extractor_api.py]              (the REST extractor),

    together with the part of pandas (1.5 to 2.x) these files rely on
    (construction of a frame from a list of records, dtype inference,
    [dropna], [duplicated], [drop_duplicates], [isin], the [.str]
    accessor, [quantile], [to_dict('records')]).

    Conventions of the embedding:

    - a Python [float] is an exact rational, one of the two infinities, or
      NaN; the arithmetic on the special values follows IEEE 754, the
      arithmetic on finite values is exact: no rounding error is modelled,
      except where an integer is stored as a float64, which keeps the 53
      leading bits of it (the exponent range of float64 is not modelled:
      numbers are taken below 2^1024 in absolute value);
    - a Python [str] is a Rocq [string] whose characters are read as the code
      points 0..255;
    - a record (a Python [dict]) is an association list in insertion order;
      when a key is bound twice the first binding is the one that is read;
      its values are the scalars [None], [int], [float], [str] and [bool]
      (timestamps are not modelled; nested values, a [list] or a [dict],
      appear only where the quality scorer is handed them);
    - a call that can raise returns a [Resultado]; what is raised is an
      [Exception] (the [except Exception] handlers catch it);
    - the coroutines run one after the other, so [await] is a plain call;
      log calls are dropped, and so is the decorator [logging_metodo] of
      [ejecutar], whose module is not among the sources (its sibling
      [logging_funcion] logs and hands on the result or the exception);
    - the collaborators of the orchestrator act on an explicit state of the
      world and receive the record set by value: they do not mutate the
      list they are handed;
    - every section of the transformer's configuration that is given is a
      complete dictionary (a missing key would raise [KeyError] at its
      first use). *)

From Stdlib Require Import List String Ascii Bool Arith ZArith QArith Qround Lia.
From Stdlib Require Import Sorted Lqa Qabs.
From Stdlib Require DecimalString.
Import ListNotations.

Local Open Scope string_scope.
Local Open Scope Z_scope.

(** ** Exceptions and results *)

(** A raised exception: the name of its class and [str(e)]. *)
Record Excepcion := { tipo : string; mensaje : string }.

Inductive Resultado (A : Type) : Type :=
| Ok (a : A)
| Error (e : Excepcion).
Arguments Ok {A} a.
Arguments Error {A} e.

Definition ligar {A B} (r : Resultado A) (k : A -> Resultado B) : Resultado B :=
  match r with
  | Ok a => k a
  | Error e => Error e
  end.

Declare Scope resultado_scope.
Delimit Scope resultado_scope with res.
Notation "'sea' x '<-' r ';;' k" := (ligar r (fun x => k))
  (at level 10, x name, r at level 100, k at level 200) : resultado_scope.

(** ** Scalars *)

Inductive Flotante : Type :=
| FNaN
| FInf (negativo : bool)
| FFin (q : Q).

Inductive Valor : Type :=
| VNone
| VInt (z : Z)
| VFloat (f : Flotante)
| VStr (s : string)
| VBool (b : bool).

Definition Registro := list (string * Valor).

Module Flt.

Definition Qlt_bool (a b : Q) : bool := negb (Qle_bool b a).

Definition es_nan (a : Flotante) : bool :=
  match a with FNaN => true | _ => false end.

Definition es_inf (a : Flotante) : bool :=
  match a with FInf _ => true | _ => false end.

Definition de_Z (z : Z) : Flotante := FFin (inject_Z z).

(** The float64 nearest to an integer, a tie going to the even significand:
    an integer of at most 53 bits is kept, a longer one loses the bits
    beyond the 53rd.  (The exponent range of float64 is not modelled.) *)
Definition entero_float64 (z : Z) : Z :=
  let n := Z.abs z in
  let sobran := Z.log2 n - 52 in
  if sobran <=? 0 then z
  else
    let alto := Z.shiftr n sobran in
    let bajo := n - Z.shiftl alto sobran in
    let mitad := Z.shiftl 1 (sobran - 1) in
    let alto := if bajo <? mitad then alto
                else if mitad <? bajo then alto + 1
                else if Z.even alto then alto else alto + 1 in
    Z.sgn z * Z.shiftl alto sobran.

(** [float(z)], as numpy stores an integer in a float64 column. *)
Definition float64_de_Z (z : Z) : Flotante := de_Z (entero_float64 z).

Definition opuesto (a : Flotante) : Flotante :=
  match a with
  | FNaN => FNaN
  | FInf s => FInf (negb s)
  | FFin q => FFin (Qred (- q))
  end.

Definition suma (a b : Flotante) : Flotante :=
  match a, b with
  | FNaN, _ | _, FNaN => FNaN
  | FInf s, FInf t => if Bool.eqb s t then FInf s else FNaN
  | FInf s, FFin _ | FFin _, FInf s => FInf s
  | FFin p, FFin q => FFin (Qred (p + q))
  end.

Definition resta (a b : Flotante) : Flotante := suma a (opuesto b).

Definition mult (a b : Flotante) : Flotante :=
  match a, b with
  | FNaN, _ | _, FNaN => FNaN
  | FInf s, FInf t => FInf (xorb s t)
  | FInf s, FFin q | FFin q, FInf s =>
      if Qeq_bool q 0 then FNaN else FInf (xorb s (Qlt_bool q 0))
  | FFin p, FFin q => FFin (Qred (p * q))
  end.

(** Division by a positive count, as in a mean. *)
Definition entre_nat (a : Flotante) (n : nat) : Flotante :=
  match n with
  | O => match a with
         | FFin q => if Qeq_bool q 0 then FNaN else FInf (Qlt_bool q 0)
         | _ => a
         end
  | S _ => match a with
           | FFin q => FFin (Qred (q / inject_Z (Z.of_nat n)))
           | _ => a
           end
  end.

Definition eqb (a b : Flotante) : bool :=
  match a, b with
  | FInf s, FInf t => Bool.eqb s t
  | FFin p, FFin q => Qeq_bool p q
  | _, _ => false
  end.

Definition ltb (a b : Flotante) : bool :=
  match a, b with
  | FNaN, _ | _, FNaN => false
  | FInf s, FInf t => s && negb t
  | FInf s, FFin _ => s
  | FFin _, FInf t => negb t
  | FFin p, FFin q => Qlt_bool p q
  end.

Definition leb (a b : Flotante) : bool := ltb a b || eqb a b.

End Flt.

(** [pd.isnull] on a scalar: [None] and NaN are the missing values. *)
Definition es_nulo (v : Valor) : bool :=
  match v with
  | VNone | VFloat FNaN => true
  | _ => false
  end.

(** The number a cell of a numeric column stands for. *)
Definition a_flotante (v : Valor) : Flotante :=
  match v with
  | VInt z => Flt.de_Z z
  | VFloat f => f
  | VBool b => Flt.de_Z (if b then 1 else 0)
  | _ => FNaN
  end.

(** ** Frames *)

Inductive DType : Type := Int64 | UInt64 | Float64 | BoolT | Object.

Definition dtype_eqb (a b : DType) : bool :=
  match a, b with
  | Int64, Int64 | UInt64, UInt64 | Float64, Float64
  | BoolT, BoolT | Object, Object => true
  | _, _ => false
  end.

(** [dtype in ['int64', 'float64']] *)
Definition es_dtype_numerico (d : DType) : bool :=
  match d with Int64 | Float64 => true | _ => false end.

(** A frame in row-major form: the columns with their dtypes, and one list
    of cells per row, aligned with the columns. *)
Record DataFrame := {
  columnas : list (string * DType);
  filas : list (list Valor)
}.

Definition nombres (df : DataFrame) : list string := map fst (columnas df).

Fixpoint buscar {V : Type} (c : string) (r : list (string * V)) : option V :=
  match r with
  | [] => None
  | (k, v) :: r' => if String.eqb k c then Some v else buscar c r'
  end.

Definition contiene (c : string) (l : list string) : bool :=
  existsb (String.eqb c) l.

(** Column labels: the keys of the records in order of first appearance. *)
Fixpoint agregar_nuevas (vistas claves : list string) : list string :=
  match claves with
  | [] => vistas
  | k :: ks =>
      if contiene k vistas then agregar_nuevas vistas ks
      else agregar_nuevas (vistas ++ [k])%list ks
  end.

Definition nombres_columnas {V : Type} (datos : list (list (string * V))) : list string :=
  fold_left (fun vistas r => agregar_nuevas vistas (map fst r)) datos [].

(** A key that a record lacks is filled with NaN. *)
Definition celda (r : Registro) (c : string) : Valor :=
  match buscar c r with
  | Some v => v
  | None => VFloat FNaN
  end.

Definition es_int64 (v : Valor) : bool :=
  match v with VInt z => (- 2 ^ 63 <=? z) && (z <? 2 ^ 63) | _ => false end.
Definition es_num (v : Valor) : bool :=
  match v with VInt _ | VFloat _ => true | _ => false end.
Definition es_bool (v : Valor) : bool :=
  match v with VBool _ => true | _ => false end.
Definition es_str (v : Valor) : bool :=
  match v with VStr _ => true | _ => false end.

(** dtype inference of [pd.DataFrame] on a column of Python objects
    ([lib.maybe_convert_objects]): one pass over the cells that records
    what has been seen.  A text makes the column an object column and ends
    the pass; so does an integer outside [-2^63, 2^64), or an integer below 0
    together with one from 2^63 on, but only as long as no [None] has been
    seen before it. *)
Record Visto := {
  null_ : bool;
  nan_ : bool;
  bool_ : bool;
  float_ : bool;
  int_ : bool;
  uint_ : bool;
  sint_ : bool;
  object_ : bool
}.

Definition nada_visto : Visto :=
  {| null_ := false; nan_ := false; bool_ := false; float_ := false;
     int_ := false; uint_ := false; sint_ := false; object_ := false |}.

Definition ver (s : Visto) (v : Valor) : Visto :=
  if object_ s then s
  else
    match v with
    | VNone =>
        {| null_ := true; nan_ := nan_ s; bool_ := bool_ s; float_ := float_ s;
           int_ := int_ s; uint_ := uint_ s; sint_ := sint_ s; object_ := false |}
    | VFloat FNaN =>
        {| null_ := null_ s; nan_ := true; bool_ := bool_ s; float_ := float_ s;
           int_ := int_ s; uint_ := uint_ s; sint_ := sint_ s; object_ := false |}
    | VBool _ =>
        {| null_ := null_ s; nan_ := nan_ s; bool_ := true; float_ := float_ s;
           int_ := int_ s; uint_ := uint_ s; sint_ := sint_ s; object_ := false |}
    | VFloat _ =>
        {| null_ := null_ s; nan_ := nan_ s; bool_ := bool_ s; float_ := true;
           int_ := int_ s; uint_ := uint_ s; sint_ := sint_ s; object_ := false |}
    | VInt z =>
        if null_ s then
          {| null_ := true; nan_ := nan_ s; bool_ := bool_ s; float_ := float_ s;
             int_ := true; uint_ := uint_ s; sint_ := sint_ s; object_ := false |}
        else
          let uint := uint_ s || ((2 ^ 63 <=? z) && (z <? 2 ^ 64)) in
          let sint := sint_ s || ((- 2 ^ 63 <=? z) && (z <? 0)) in
          {| null_ := false; nan_ := nan_ s; bool_ := bool_ s; float_ := float_ s;
             int_ := true; uint_ := uint; sint_ := sint;
             object_ := (uint && sint) || (2 ^ 64 <=? z) || (z <? - 2 ^ 63) |}
    | VStr _ =>
        {| null_ := null_ s; nan_ := nan_ s; bool_ := bool_ s; float_ := float_ s;
           int_ := int_ s; uint_ := uint_ s; sint_ := sint_ s; object_ := true |}
    end.

Definition inferir_dtype (vals : list Valor) : DType :=
  let seen := fold_left ver vals nada_visto in
  if object_ seen then Object
  else if bool_ seen then
    if null_ seen || nan_ seen || float_ seen || int_ seen then Object else BoolT
  else if null_ seen || nan_ seen then
    if float_ seen || int_ seen || nan_ seen then Float64 else Object
  else if float_ seen then Float64
  else if int_ seen then (if uint_ seen then UInt64 else Int64)
  else Object.

(** The value stored once the column has its dtype: in a float64 column an
    integer becomes the nearest float64 and [None] becomes NaN. *)
Definition convertir (d : DType) (v : Valor) : Valor :=
  match d, v with
  | Float64, VInt z => VFloat (Flt.float64_de_Z z)
  | Float64, VNone => VFloat FNaN
  | _, _ => v
  end.

Definition columna_cruda (datos : list Registro) (c : string) : list Valor :=
  map (fun r => celda r c) datos.

(** [pd.DataFrame(datos)] *)
Definition crear_dataframe (datos : list Registro) : DataFrame :=
  let cols :=
    map (fun c => (c, inferir_dtype (columna_cruda datos c)))
        (nombres_columnas datos) in
  {| columnas := cols;
     filas := map (fun r => map (fun cd => convertir (snd cd) (celda r (fst cd))) cols)
                  datos |}.

(** [df.to_dict('records')]: one record per row; a frame without a column
    gives no record, whatever the number of its rows. *)
Definition to_dict_records (df : DataFrame) : list Registro :=
  match columnas df with
  | [] => []
  | _ => map (fun fila => combine (nombres df) fila) (filas df)
  end.

(** Position of a column label. *)
Fixpoint indice (c : string) (l : list string) : option nat :=
  match l with
  | [] => None
  | k :: l' =>
      if String.eqb k c then Some O
      else option_map S (indice c l')
  end.

Definition celda_en (fila : list Valor) (i : nat) : Valor :=
  nth i fila (VFloat FNaN).

(** [df[c]] as a list of cells; [None] when the label is absent. *)
Definition columna (df : DataFrame) (c : string) : option (list Valor) :=
  option_map (fun i => map (fun fila => celda_en fila i) (filas df))
             (indice c (nombres df)).

Definition dtype_de (df : DataFrame) (c : string) : option DType :=
  option_map (fun i => nth i (map snd (columnas df)) Object)
             (indice c (nombres df)).

Definition con_filas (df : DataFrame) (fs : list (list Valor)) : DataFrame :=
  {| columnas := columnas df; filas := fs |}.

(** ** Configuration of the cleansing transformer

    The sections of [configuracion_default]; every section is a complete
    dictionary.  The key [habilitado] (or [habilitada]) of a section carries
    the name of its section here, and [columnas_especificas], which the
    transformer never reads, is left out. *)

Record ConfigNulos := {
  estrategia : string;
  imputacion : string;
  valor_fijo : option Valor
}.

Record ConfigOutliers := {
  outliers_habilitado : bool;
  metodo : string;
  factor : Q;
  columnas_numericas : option (list string)
}.

Record ConfigDuplicados := {
  duplicados_habilitado : bool;
  mantener : string;
  subset : option (list string)
}.

Record ConfigTexto := {
  texto_habilitada : bool;
  minusculas : bool;
  eliminar_espacios : bool;
  eliminar_caracteres_especiales : bool;
  normalizar_acentos : bool
}.

Record ConfigFechas := {
  fechas_habilitada : bool;
  formato_entrada : string;
  formato_salida : string;
  zona_horaria : string
}.

Record Limites := { minimo : option Q; maximo : option Q }.

Record ConfigValidacion := {
  validacion_habilitada : bool;
  rangos_numericos : list (string * Limites);
  valores_permitidos : list (string * list Valor);
  longitud_texto : list (string * Limites)
}.

Record ConfiguracionFinal := {
  manejo_nulos : ConfigNulos;
  manejo_outliers : ConfigOutliers;
  manejo_duplicados : ConfigDuplicados;
  normalizacion_texto : ConfigTexto;
  normalizacion_fechas : ConfigFechas;
  validacion_datos : ConfigValidacion
}.

(** What the caller passes: any subset of the sections. *)
Record Configuracion := {
  cfg_manejo_nulos : option ConfigNulos;
  cfg_manejo_outliers : option ConfigOutliers;
  cfg_manejo_duplicados : option ConfigDuplicados;
  cfg_normalizacion_texto : option ConfigTexto;
  cfg_normalizacion_fechas : option ConfigFechas;
  cfg_validacion_datos : option ConfigValidacion
}.

Definition configuracion_default : ConfiguracionFinal := {|
  manejo_nulos :=
    {| estrategia := "eliminar"; imputacion := "media"; valor_fijo := None |};
  manejo_outliers :=
    {| outliers_habilitado := true; metodo := "iqr"; factor := 3 # 2;
       columnas_numericas := None |};
  manejo_duplicados :=
    {| duplicados_habilitado := true; mantener := "primero"; subset := None |};
  normalizacion_texto :=
    {| texto_habilitada := true; minusculas := true; eliminar_espacios := true;
       eliminar_caracteres_especiales := false; normalizar_acentos := true |};
  normalizacion_fechas :=
    {| fechas_habilitada := true; formato_entrada := "auto";
       formato_salida := "%Y-%m-%d %H:%M:%S"; zona_horaria := "UTC" |};
  validacion_datos :=
    {| validacion_habilitada := true; rangos_numericos := [];
       valores_permitidos := []; longitud_texto := [] |}
|}.

Definition o_defecto {A} (o : option A) (d : A) : A :=
  match o with Some a => a | None => d end.

(** [{**self.configuracion_default, **self.configuracion}]: the merge is
    shallow, a section that is given replaces the default section whole. *)
Definition configuracion_final (c : Configuracion) : ConfiguracionFinal := {|
  manejo_nulos := o_defecto (cfg_manejo_nulos c) (manejo_nulos configuracion_default);
  manejo_outliers :=
    o_defecto (cfg_manejo_outliers c) (manejo_outliers configuracion_default);
  manejo_duplicados :=
    o_defecto (cfg_manejo_duplicados c) (manejo_duplicados configuracion_default);
  normalizacion_texto :=
    o_defecto (cfg_normalizacion_texto c) (normalizacion_texto configuracion_default);
  normalizacion_fechas :=
    o_defecto (cfg_normalizacion_fechas c) (normalizacion_fechas configuracion_default);
  validacion_datos :=
    o_defecto (cfg_validacion_datos c) (validacion_datos configuracion_default)
|}.

Definition sin_configuracion : Configuracion := {|
  cfg_manejo_nulos := None; cfg_manejo_outliers := None;
  cfg_manejo_duplicados := None; cfg_normalizacion_texto := None;
  cfg_normalizacion_fechas := None; cfg_validacion_datos := None
|}.

Definition ErrorConfiguracion (m : string) : Excepcion :=
  {| tipo := "ErrorConfiguracion"; mensaje := m |}.
Definition ErrorTransformacion (m : string) : Excepcion :=
  {| tipo := "ErrorTransformacion"; mensaje := m |}.

(** [TransformadorLimpieza.validar_configuracion] *)
Definition validar_configuracion (cf : ConfiguracionFinal) : Resultado bool :=
  let estrategias_validas := ["eliminar"; "imputar"; "marcar"] in
  if negb (contiene (estrategia (manejo_nulos cf)) estrategias_validas) then
    Error (ErrorConfiguracion
             ("Estrategia de nulos inválida: " ++ estrategia (manejo_nulos cf)))
  else if String.eqb (estrategia (manejo_nulos cf)) "imputar"
          && negb (contiene (imputacion (manejo_nulos cf))
                            ["media"; "mediana"; "moda"; "valor_fijo"]) then
    Error (ErrorConfiguracion
             ("Método de imputación inválido: " ++ imputacion (manejo_nulos cf)))
  else if negb (contiene (metodo (manejo_outliers cf))
                         ["iqr"; "zscore"; "isolation_forest"]) then
    Error (ErrorConfiguracion
             ("Método de outliers inválido: " ++ metodo (manejo_outliers cf)))
  else Ok true.

(** ** Duplicates ([DataFrame.duplicated], [DataFrame.drop_duplicates]) *)

(** Equality of two cells of a key of several columns.  Each column is
    factorized, which gives every missing value, [None] or NaN, one label:
    missing values are equal to one another; other values are compared as
    Python compares them, so an integer, a float and a boolean of the same
    numeric value are equal. *)
Definition clave_valor_eqb (a b : Valor) : bool :=
  match a, b with
  | VStr s, VStr t => String.eqb s t
  | VStr _, _ | _, VStr _ => false
  | _, _ =>
      if es_nulo a then es_nulo b
      else if es_nulo b then false
      else Flt.eqb (a_flotante a) (a_flotante b)
  end.

Definition es_none (v : Valor) : bool :=
  match v with VNone => true | _ => false end.

(** Equality of two cells in a hash table of Python objects
    ([Series.duplicated], [isin]): [==], with NaN equal to NaN.  It differs
    from the former in that [None] is equal to [None] alone. *)
Definition objeto_eqb (a b : Valor) : bool :=
  Bool.eqb (es_none a) (es_none b) && clave_valor_eqb a b.

Fixpoint clave_eqb (k1 k2 : list Valor) : bool :=
  match k1, k2 with
  | [], [] => true
  | a :: k1', b :: k2' => clave_valor_eqb a b && clave_eqb k1' k2'
  | _, _ => false
  end.

(** The cells of a row that belong to the key columns. *)
Definition clave_de (ns : list string) (en_clave : string -> bool)
    (fila : list Valor) : list Valor :=
  map snd (filter (fun nv => en_clave (fst nv)) (combine ns fila)).

(** The key columns under a [subset]. *)
Definition en_clave (subset : option (list string)) (c : string) : bool :=
  match subset with
  | None => true
  | Some s => contiene c s
  end.

Fixpoint es_unico (l : list string) : bool :=
  match l with
  | [] => true
  | c :: l' => negb (contiene c l') && es_unico l'
  end.

(** [len(subset) == 1 and self.columns.is_unique], where a [subset] that is
    [None] stands for all the columns: the one key column is then handed to
    [Series.duplicated]. *)
Definition por_serie (df : DataFrame) (subset : option (list string)) : bool :=
  Nat.eqb (List.length (match subset with
                        | None => nombres df
                        | Some s => s
                        end)) 1
  && es_unico (nombres df).

(** A key whose cells carry the mark of [None]: two such keys are equal
    under [clave_eqb] when their cells are equal under [objeto_eqb]. *)
Definition con_none (k : list Valor) : list Valor :=
  flat_map (fun v => [v; VBool (es_none v)]) k.

(** The key of a row under a [subset]. *)
Definition clave_fila (df : DataFrame) (subset : option (list string))
    (fila : list Valor) : list Valor :=
  let k := clave_de (nombres df) (en_clave subset) fila in
  if por_serie df subset then con_none k else k.

Inductive Keep : Type := KeepFirst | KeepLast | KeepFalse.

(** A row is marked when its key was already seen. *)
Fixpoint marcar_vistos (vistos claves : list (list Valor)) : list bool :=
  match claves with
  | [] => []
  | k :: ks => existsb (clave_eqb k) vistos :: marcar_vistos (k :: vistos) ks
  end.

Fixpoint orb_listas (l1 l2 : list bool) : list bool :=
  match l1, l2 with
  | a :: l1', b :: l2' => (a || b) :: orb_listas l1' l2'
  | _, _ => []
  end.

Definition duplicated_claves (keep : Keep) (claves : list (list Valor)) : list bool :=
  match keep with
  | KeepFirst => marcar_vistos [] claves
  | KeepLast => rev (marcar_vistos [] (rev claves))
  | KeepFalse =>
      orb_listas (marcar_vistos [] claves) (rev (marcar_vistos [] (rev claves)))
  end.

Definition es_vacio (df : DataFrame) : bool :=
  match columnas df, filas df with
  | [], _ | _, [] => true
  | _, _ => false
  end.

(** [df.duplicated(subset=subset, keep=keep)] of pandas 1.5 to 2.x.  An
    empty frame has no duplicate; a label of [subset] that is not a column
    raises [KeyError]; an empty [subset] leaves nothing to unpack and raises
    [ValueError]. *)
Definition duplicated (df : DataFrame) (subset : option (list string)) (keep : Keep)
  : Resultado (list bool) :=
  if es_vacio df then Ok []
  else
    match subset with
    | None =>
        Ok (duplicated_claves keep (map (clave_fila df subset) (filas df)))
    | Some s =>
        if negb (forallb (fun c => contiene c (nombres df)) s) then
          Error {| tipo := "KeyError"; mensaje := "Index" |}
        else
          match s with
          | [] => Error {| tipo := "ValueError";
                           mensaje := "not enough values to unpack (expected 2, got 0)" |}
          | _ =>
              Ok (duplicated_claves keep (map (clave_fila df subset) (filas df)))
          end
    end.

(** Rows whose mark is [false]. *)
Fixpoint sin_marcados {A} (l : list A) (marcas : list bool) : list A :=
  match l, marcas with
  | x :: l', m :: ms => if m then sin_marcados l' ms else x :: sin_marcados l' ms
  | _, _ => []
  end.

(** [df.drop_duplicates(subset=subset, keep=keep)] *)
Definition drop_duplicates (df : DataFrame) (subset : option (list string)) (keep : Keep)
  : Resultado DataFrame :=
  if es_vacio df then Ok df
  else
    (sea marcas <- duplicated df subset keep ;;
     Ok (con_filas df (sin_marcados (filas df) marcas)))%res.

(** [TransformadorLimpieza._manejar_duplicados] *)
Definition _manejar_duplicados (cf : ConfiguracionFinal) (df : DataFrame)
  : Resultado DataFrame :=
  let config_duplicados := manejo_duplicados cf in
  (sea duplicados_antes <- duplicated df (subset config_duplicados) KeepFirst ;;
   sea df_limpio <-
     (if String.eqb (mantener config_duplicados) "primero" then
        drop_duplicates df (subset config_duplicados) KeepFirst
      else if String.eqb (mantener config_duplicados) "ultimo" then
        drop_duplicates df (subset config_duplicados) KeepLast
      else if String.eqb (mantener config_duplicados) "ninguno" then
        drop_duplicates df (subset config_duplicados) KeepFalse
      else Ok df) ;;
   sea duplicados_despues <- duplicated df_limpio (subset config_duplicados) KeepFirst ;;
   Ok df_limpio)%res.

(** ** Order statistics ([Series.quantile], [mean], [median], [std]) *)

Fixpoint insertar (x : Flotante) (l : list Flotante) : list Flotante :=
  match l with
  | [] => [x]
  | y :: l' => if Flt.leb x y then x :: l else y :: insertar x l'
  end.

Definition ordenar (l : list Flotante) : list Flotante := fold_right insertar [] l.

(** The numbers of a column, NaN skipped. *)
Definition sin_nan (vals : list Valor) : list Flotante :=
  filter (fun f => negb (Flt.es_nan f)) (map a_flotante vals).

(** Linear interpolation as numpy computes it. *)
Definition lerp (a b : Flotante) (t : Q) : Flotante :=
  let diff_b_a := Flt.resta b a in
  if Qle_bool (1 # 2) t then Flt.resta b (Flt.mult diff_b_a (FFin (Qred (1 - t))))
  else Flt.suma a (Flt.mult diff_b_a (FFin t)).

(** [serie.quantile(p)] with the default linear interpolation. *)
Definition quantile (vals : list Valor) (p : Q) : Flotante :=
  let xs := ordenar (sin_nan vals) in
  match xs with
  | [] => FNaN
  | _ =>
      let pos := (p * inject_Z (Z.of_nat (List.length xs - 1)))%Q in
      let anterior := Z.to_nat (Qfloor pos) in
      let siguiente := Nat.min (anterior + 1) (List.length xs - 1) in
      let gamma := Qred (pos - inject_Z (Qfloor pos)) in
      lerp (nth anterior xs FNaN) (nth siguiente xs FNaN) gamma
  end.

Definition sumar (l : list Flotante) : Flotante := fold_left Flt.suma l (FFin 0).

(** [serie.mean()] *)
Definition mean (vals : list Valor) : Flotante :=
  match sin_nan vals with
  | [] => FNaN
  | xs => Flt.entre_nat (sumar xs) (List.length xs)
  end.

(** [serie.median()] *)
Definition median (vals : list Valor) : Flotante :=
  let xs := ordenar (sin_nan vals) in
  match xs with
  | [] => FNaN
  | _ =>
      let n := List.length xs in
      if Nat.even n then
        Flt.entre_nat (Flt.suma (nth (n / 2 - 1) xs FNaN) (nth (n / 2) xs FNaN)) 2
      else nth (n / 2) xs FNaN
  end.

(** The square of [serie.std()] (sample variance, [ddof = 1]). *)
Definition varianza (vals : list Valor) : Flotante :=
  let xs := sin_nan vals in
  match List.length xs with
  | O | S O => FNaN
  | S n =>
      let m := mean vals in
      Flt.entre_nat
        (sumar (map (fun x => Flt.mult (Flt.resta x m) (Flt.resta x m)) xs)) n
  end.

(** [np.abs(d / std) > factor], decided on the squares: [var] is the
    square of [std]. *)
Definition zscore_supera (d var : Flotante) (factor : Q) : bool :=
  match d, var with
  | FNaN, _ | _, FNaN => false
  | FInf _, FInf _ => false
  | FInf _, FFin _ => true
  | FFin _, FInf _ => Flt.Qlt_bool factor 0
  | FFin x, FFin v =>
      if Qeq_bool v 0 then negb (Qeq_bool x 0)
      else Flt.Qlt_bool factor 0 || Flt.Qlt_bool (factor * factor * v) (x * x)
  end.

(** ** Outliers *)

Definition outliers_iqr (vals : list Valor) (factor : Q) : list bool :=
  let Q1 := quantile vals (1 # 4) in
  let Q3 := quantile vals (3 # 4) in
  let IQR := Flt.resta Q3 Q1 in
  let limite_inferior := Flt.resta Q1 (Flt.mult (FFin factor) IQR) in
  let limite_superior := Flt.suma Q3 (Flt.mult (FFin factor) IQR) in
  map (fun v => Flt.ltb (a_flotante v) limite_inferior
                || Flt.ltb limite_superior (a_flotante v)) vals.

Definition outliers_zscore (vals : list Valor) (factor : Q) : list bool :=
  let m := mean vals in
  let var := varianza vals in
  map (fun v => zscore_supera (Flt.resta (a_flotante v) m) var factor) vals.

(** [df.select_dtypes(include=[np.number]).columns.tolist()] *)
Definition columnas_de_numeros (df : DataFrame) : list string :=
  map fst (filter (fun cd => match snd cd with
                             | Int64 | UInt64 | Float64 => true
                             | _ => false
                             end) (columnas df)).

(** [df_limpio[~outliers]]: the mask carries the row labels of [df], the
    rows of [df_limpio] that it marks are dropped. *)
Definition quitar_marcadas (etiquetadas : list (nat * list Valor)) (outliers : list bool)
  : list (nat * list Valor) :=
  filter (fun ef => negb (nth (fst ef) outliers false)) etiquetadas.

Definition etiquetar (fs : list (list Valor)) : list (nat * list Valor) :=
  combine (seq 0 (List.length fs)) fs.

(** [TransformadorLimpieza._manejar_outliers] *)
Definition _manejar_outliers (cf : ConfiguracionFinal) (df : DataFrame) : DataFrame :=
  let config_outliers := manejo_outliers cf in
  let cols := match columnas_numericas config_outliers with
              | None => columnas_de_numeros df
              | Some l => l
              end in
  let paso (df_limpio : list (nat * list Valor)) (c : string) :=
    match columna df c, dtype_de df c with
    | Some vals, Some d =>
        if es_dtype_numerico d then
          if String.eqb (metodo config_outliers) "iqr" then
            quitar_marcadas df_limpio (outliers_iqr vals (factor config_outliers))
          else if String.eqb (metodo config_outliers) "zscore" then
            quitar_marcadas df_limpio (outliers_zscore vals (factor config_outliers))
          else df_limpio
        else df_limpio
    | _, _ => df_limpio
    end in
  con_filas df (map snd (fold_left paso cols (etiquetar (filas df)))).

(** ** Text ([str.lower], [str.strip], [re.sub], NFD folding) on the code
    points 0..255 *)

Definition en_rango (lo n hi : nat) : bool := (Nat.leb lo n && Nat.leb n hi)%bool.

Definition a_minuscula (c : ascii) : ascii :=
  let n := nat_of_ascii c in
  if en_rango 65 n 90 || (en_rango 192 n 222 && negb (Nat.eqb n 215))
  then ascii_of_nat (n + 32) else c.

(** [str.isspace], which is also [\s] of a [str] pattern. *)
Definition es_espacio (c : ascii) : bool :=
  let n := nat_of_ascii c in
  en_rango 9 n 13 || en_rango 28 n 32 || Nat.eqb n 133 || Nat.eqb n 160.

Definition es_alfanumerico_ascii (c : ascii) : bool :=
  let n := nat_of_ascii c in
  en_rango 48 n 57 || en_rango 65 n 90 || en_rango 97 n 122.

(** NFD decomposition followed by [encode('ascii', errors='ignore')]: an
    accented letter leaves its base letter, any other code point above 127
    is dropped. *)
Definition plegar_acento (c : ascii) : option ascii :=
  let n := nat_of_ascii c in
  if Nat.ltb n 128 then Some c
  else if en_rango 192 n 197 then Some "A"%char
  else if Nat.eqb n 199 then Some "C"%char
  else if en_rango 200 n 203 then Some "E"%char
  else if en_rango 204 n 207 then Some "I"%char
  else if Nat.eqb n 209 then Some "N"%char
  else if en_rango 210 n 214 then Some "O"%char
  else if en_rango 217 n 220 then Some "U"%char
  else if Nat.eqb n 221 then Some "Y"%char
  else if en_rango 224 n 229 then Some "a"%char
  else if Nat.eqb n 231 then Some "c"%char
  else if en_rango 232 n 235 then Some "e"%char
  else if en_rango 236 n 239 then Some "i"%char
  else if Nat.eqb n 241 then Some "n"%char
  else if en_rango 242 n 246 then Some "o"%char
  else if en_rango 249 n 252 then Some "u"%char
  else if Nat.eqb n 253 || Nat.eqb n 255 then Some "y"%char
  else None.

Fixpoint mapear_texto (f : ascii -> ascii) (s : string) : string :=
  match s with
  | EmptyString => EmptyString
  | String c s' => String (f c) (mapear_texto f s')
  end.

Fixpoint filtrar_texto (f : ascii -> option ascii) (s : string) : string :=
  match s with
  | EmptyString => EmptyString
  | String c s' =>
      match f c with
      | Some c' => String c' (filtrar_texto f s')
      | None => filtrar_texto f s'
      end
  end.

Fixpoint quitar_espacios_inicio (s : string) : string :=
  match s with
  | EmptyString => EmptyString
  | String c s' => if es_espacio c then quitar_espacios_inicio s' else s
  end.

Definition invertir (s : string) : string :=
  string_of_list_ascii (rev (list_ascii_of_string s)).

Definition lower (s : string) : string := mapear_texto a_minuscula s.

Definition strip (s : string) : string :=
  invertir (quitar_espacios_inicio (invertir (quitar_espacios_inicio s))).

(** [re.sub(r'[^a-zA-Z0-9\s]', '', s)] *)
Definition sin_caracteres_especiales (s : string) : string :=
  filtrar_texto (fun c => if es_alfanumerico_ascii c || es_espacio c
                          then Some c else None) s.

Definition sin_acentos (s : string) : string := filtrar_texto plegar_acento s.

(** ** Frame updates *)

Fixpoint reemplazar {A} (i : nat) (x : A) (l : list A) : list A :=
  match l, i with
  | [], _ => []
  | _ :: l', O => x :: l'
  | y :: l', S i' => y :: reemplazar i' x l'
  end.

Definition columna_n (df : DataFrame) (i : nat) : list Valor :=
  map (fun fila => celda_en fila i) (filas df).

(** [df[c] = vals]: an existing column is overwritten in place, a new one
    is appended. *)
Definition asignar_columna (df : DataFrame) (c : string) (d : DType)
    (vals : list Valor) : DataFrame :=
  match indice c (nombres df) with
  | Some i =>
      {| columnas := reemplazar i (c, d) (columnas df);
         filas := map (fun fv => reemplazar i (snd fv) (fst fv))
                      (combine (filas df) vals) |}
  | None =>
      {| columnas := (columnas df ++ [(c, d)])%list;
         filas := map (fun fv => (fst fv ++ [snd fv])%list) (combine (filas df) vals) |}
  end.

(** The columns of a frame with their positions. *)
Definition columnas_numeradas (df : DataFrame) : list (nat * (string * DType)) :=
  combine (seq 0 (List.length (columnas df))) (columnas df).

(** [serie.fillna(v)]: filling a float column with something that is not
    a number turns it into an object column. *)
Definition fillna (d : DType) (vals : list Valor) (v : Valor) : DType * list Valor :=
  if es_nulo v then (d, vals)
  else
    match d with
    | Float64 =>
        if es_num v then
          (Float64, map (fun x => if es_nulo x then convertir Float64 v else x) vals)
        else if existsb es_nulo vals then
          (Object, map (fun x => if es_nulo x then v else x) vals)
        else (d, vals)
    | _ => (d, map (fun x => if es_nulo x then v else x) vals)
    end.

(** [serie.mode()[0]] of a numeric column: the most frequent number, the
    smallest one among equals; nothing when the column holds no number. *)
Definition cuenta (x : Flotante) (xs : list Flotante) : nat :=
  List.length (filter (Flt.eqb x) xs).

Definition moda_numerica (vals : list Valor) : option Flotante :=
  let xs := ordenar (sin_nan vals) in
  fold_left (fun mejor x =>
               match mejor with
               | None => Some x
               | Some m => if Nat.ltb (cuenta m xs) (cuenta x xs) then Some x else Some m
               end) xs None.

Definition str_de_Z (z : Z) : string :=
  DecimalString.NilZero.string_of_int (Z.to_int z).

Section Limpieza.

(** Three library functions are left abstract: the text Python prints for
    a finite float, the first mode of an object column (nothing when the
    column has no value), and the date pipeline
    [pd.to_datetime(...).dt.tz_localize(...).dt.strftime(...)] applied to
    one column (nothing when it raises). *)
Variable repr_racional : Q -> string.
Variable moda_objeto : list Valor -> option Valor.
Variable normalizar_columna_fecha : ConfigFechas -> list Valor -> option (list Valor).

(** [str(v)], as [astype(str)] applies it to the cells. *)
Definition str_valor (v : Valor) : string :=
  match v with
  | VNone => "None"
  | VInt z => str_de_Z z
  | VFloat FNaN => "nan"
  | VFloat (FInf false) => "inf"
  | VFloat (FInf true) => "-inf"
  | VFloat (FFin q) => repr_racional q
  | VStr s => s
  | VBool true => "True"
  | VBool false => "False"
  end.

(** One column of the imputation loop of [_manejar_valores_nulos]: the
    new dtype and cells of the column. *)
Definition imputar_columna (config_nulos : ConfigNulos) (d : DType)
    (vals : list Valor) : Resultado (DType * list Valor) :=
  let metodo := imputacion config_nulos in
  if es_dtype_numerico d then
    if String.eqb metodo "media" then Ok (fillna d vals (VFloat (mean vals)))
    else if String.eqb metodo "mediana" then Ok (fillna d vals (VFloat (median vals)))
    else if String.eqb metodo "moda" then
      match moda_numerica vals with
      | Some m => Ok (fillna d vals (VFloat m))
      | None => Error {| tipo := "KeyError"; mensaje := "0" |}
      end
    else if String.eqb metodo "valor_fijo" then
      match valor_fijo config_nulos with
      | Some valor => Ok (fillna d vals valor)
      | None => Ok (d, vals)
      end
    else Ok (d, vals)
  else
    if String.eqb metodo "moda" then
      match moda_objeto vals with
      | Some m => Ok (fillna d vals m)
      | None => Ok (d, vals)
      end
    else if String.eqb metodo "valor_fijo" then
      match valor_fijo config_nulos with
      | Some valor => Ok (fillna d vals valor)
      | None => Ok (d, vals)
      end
    else Ok (d, vals).

(** [TransformadorLimpieza._manejar_valores_nulos]; with a strategy that is
    none of the three, [df_limpio] is returned without having been bound. *)
Definition _manejar_valores_nulos (cf : ConfiguracionFinal) (df : DataFrame)
  : Resultado DataFrame :=
  let config_nulos := manejo_nulos cf in
  if String.eqb (estrategia config_nulos) "eliminar" then
    Ok (con_filas df (filter (fun fila => negb (existsb es_nulo fila)) (filas df)))
  else if String.eqb (estrategia config_nulos) "imputar" then
    fold_left
      (fun acc icd =>
         (sea df_limpio <- acc ;;
          sea dv <- imputar_columna config_nulos (snd (snd icd))
                                    (columna_n df (fst icd)) ;;
          Ok (asignar_columna df_limpio (fst (snd icd)) (fst dv) (snd dv)))%res)
      (columnas_numeradas df) (Ok df)
  else if String.eqb (estrategia config_nulos) "marcar" then
    Ok (fold_left
          (fun df_limpio icd =>
             asignar_columna df_limpio (fst (snd icd) ++ "_es_nulo") BoolT
               (map (fun v => VBool (es_nulo v)) (columna_n df (fst icd))))
          (columnas_numeradas df) df)
  else
    Error {| tipo := "UnboundLocalError";
             mensaje := "local variable 'df_limpio' referenced before assignment" |}.

(** The string operations of [_normalizar_texto], in its order. *)
Definition normalizar_cadena (config_texto : ConfigTexto) (s : string) : string :=
  let s := if minusculas config_texto then lower s else s in
  let s := if eliminar_espacios config_texto then strip s else s in
  let s := if eliminar_caracteres_especiales config_texto
           then sin_caracteres_especiales s else s in
  if normalizar_acentos config_texto then sin_acentos s else s.

(** [TransformadorLimpieza._normalizar_texto] *)
Definition _normalizar_texto (cf : ConfiguracionFinal) (df : DataFrame) : DataFrame :=
  let config_texto := normalizacion_texto cf in
  fold_left
    (fun df_limpio icd =>
       if dtype_eqb (snd (snd icd)) Object then
         asignar_columna df_limpio (fst (snd icd)) Object
           (map (fun v => VStr (normalizar_cadena config_texto (str_valor v)))
                (columna_n df (fst icd)))
       else df_limpio)
    (columnas_numeradas df) df.

(** [TransformadorLimpieza._normalizar_fechas] *)
Definition _normalizar_fechas (cf : ConfiguracionFinal) (df : DataFrame) : DataFrame :=
  let config_fechas := normalizacion_fechas cf in
  fold_left
    (fun df_limpio icd =>
       if dtype_eqb (snd (snd icd)) Object then
         match normalizar_columna_fecha config_fechas (columna_n df (fst icd)) with
         | Some vals => asignar_columna df_limpio (fst (snd icd)) Object vals
         | None => df_limpio
         end
       else df_limpio)
    (columnas_numeradas df) df.

(** [df_limpio[p(df_limpio[c])]]: the rows whose cell in column [c]
    passes. *)
Definition filtrar_celda (df : DataFrame) (c : string) (p : Valor -> bool)
    (fs : list (list Valor)) : list (list Valor) :=
  match indice c (nombres df) with
  | Some i => filter (fun fila => p (celda_en fila i)) fs
  | None => fs
  end.

Definition longitud_de (v : Valor) : Flotante :=
  match v with
  | VStr s => Flt.de_Z (Z.of_nat (String.length s))
  | _ => FNaN
  end.

Definition aplicar_limites (df : DataFrame) (c : string) (medida : Valor -> Flotante)
    (l : Limites) (fs : list (list Valor)) : list (list Valor) :=
  let fs := match minimo l with
            | Some m => filtrar_celda df c (fun v => Flt.leb (FFin m) (medida v)) fs
            | None => fs
            end in
  match maximo l with
  | Some m => filtrar_celda df c (fun v => Flt.leb (medida v) (FFin m)) fs
  | None => fs
  end.

(** The number a cell of an int64 column stands for once the column is
    cast to float64. *)
Definition a_float64 (v : Valor) : Flotante :=
  match v with
  | VInt z => Flt.float64_de_Z z
  | _ => a_flotante v
  end.

(** [np.asarray(valores)] is a float64 array when compared with an int64
    column: the values are numbers, none of them outside [-2^63, 2^64), and
    they are not all integers of int64. *)
Definition valores_float64 (valores : list Valor) : bool :=
  forallb es_num valores
  && forallb (fun v => match v with
                       | VInt z => (- 2 ^ 63 <=? z) && (z <? 2 ^ 64)
                       | _ => true
                       end) valores
  && negb (forallb es_int64 valores).

(** [serie.isin(valores)] on a cell of a column of dtype [d].  The cell is
    looked up in a hash table of the values: of Python objects, unless an
    int64 column meets values that make a float64 array, where both sides
    are compared as float64. *)
Definition isin (d : DType) (valores : list Valor) (v : Valor) : bool :=
  if dtype_eqb d Int64 && valores_float64 valores
  then existsb (fun x => Flt.eqb (a_float64 v) (a_float64 x)) valores
  else existsb (objeto_eqb v) valores.

(** [serie.str]: the accessor is refused when the values of the column
    that are not missing are all booleans, or all numbers. *)
Definition acceso_str (serie : list Valor) : Resultado (list Valor) :=
  match filter (fun v => negb (es_nulo v)) serie with
  | [] => Ok serie
  | presentes =>
      if forallb es_bool presentes || forallb es_num presentes then
        Error {| tipo := "AttributeError";
                 mensaje := "Can only use .str accessor with string values!" |}
      else Ok serie
  end.

(** [df_limpio[p(df_limpio[c].str.len())]] *)
Definition filtrar_longitud (df : DataFrame) (c : string) (p : Flotante -> bool)
    (fs : list (list Valor)) : Resultado (list (list Valor)) :=
  match indice c (nombres df) with
  | Some i =>
      (sea serie <- acceso_str (map (fun fila => celda_en fila i) fs) ;;
       Ok (filter (fun fila => p (longitud_de (celda_en fila i))) fs))%res
  | None => Ok fs
  end.

Definition aplicar_longitudes (df : DataFrame) (c : string) (l : Limites)
    (fs : list (list Valor)) : Resultado (list (list Valor)) :=
  (sea fs <- match minimo l with
             | Some m => filtrar_longitud df c (fun n => Flt.leb (FFin m) n) fs
             | None => Ok fs
             end ;;
   match maximo l with
   | Some m => filtrar_longitud df c (fun n => Flt.leb n (FFin m)) fs
   | None => Ok fs
   end)%res.

(** [TransformadorLimpieza._validar_datos] *)
Definition _validar_datos (cf : ConfiguracionFinal) (df : DataFrame)
  : Resultado DataFrame :=
  let config_validacion := validacion_datos cf in
  let fs :=
    fold_left
      (fun fs regla =>
         match dtype_de df (fst regla) with
         | Some d => if es_dtype_numerico d
                     then aplicar_limites df (fst regla) a_flotante (snd regla) fs
                     else fs
         | None => fs
         end)
      (rangos_numericos config_validacion) (filas df) in
  let fs :=
    fold_left
      (fun fs regla =>
         match dtype_de df (fst regla) with
         | Some d => filtrar_celda df (fst regla) (isin d (snd regla)) fs
         | None => fs
         end)
      (valores_permitidos config_validacion) fs in
  (sea fs <-
     fold_left
       (fun acc regla =>
          sea fs <- acc ;;
          match dtype_de df (fst regla) with
          | Some d => if dtype_eqb d Object
                      then aplicar_longitudes df (fst regla) (snd regla) fs
                      else Ok fs
          | None => Ok fs
          end)
       (longitud_texto config_validacion) (Ok fs) ;;
   Ok (con_filas df fs))%res.

(** [TransformadorLimpieza._aplicar_limpieza] *)
Definition _aplicar_limpieza (cf : ConfiguracionFinal) (df : DataFrame)
  : Resultado DataFrame :=
  (sea df_limpio <- _manejar_valores_nulos cf df ;;
   let df_limpio := if texto_habilitada (normalizacion_texto cf)
                    then _normalizar_texto cf df_limpio else df_limpio in
   let df_limpio := if fechas_habilitada (normalizacion_fechas cf)
                    then _normalizar_fechas cf df_limpio else df_limpio in
   sea df_limpio <- (if duplicados_habilitado (manejo_duplicados cf)
                     then _manejar_duplicados cf df_limpio else Ok df_limpio) ;;
   let df_limpio := if outliers_habilitado (manejo_outliers cf)
                    then _manejar_outliers cf df_limpio else df_limpio in
   sea df_limpio <- (if validacion_habilitada (validacion_datos cf)
                     then _validar_datos cf df_limpio else Ok df_limpio) ;;
   Ok df_limpio)%res.

(** [TransformadorLimpieza.transformar]: whatever is raised inside comes
    out as an [ErrorTransformacion]. *)
Definition envolver {A} (r : Resultado A) : Resultado A :=
  match r with
  | Ok a => Ok a
  | Error e =>
      Error (ErrorTransformacion ("Error en transformación de limpieza: " ++ mensaje e))
  end.

Definition transformar (c : Configuracion) (datos : list Registro)
  : Resultado (list Registro) :=
  let cf := configuracion_final c in
  envolver
    (sea valida <- validar_configuracion cf ;;
     match datos with
     | [] => Ok []
     | _ =>
         let df := crear_dataframe datos in
         sea df_limpio <- _aplicar_limpieza cf df ;;
         Ok (to_dict_records df_limpio)
     end)%res.

End Limpieza.

(** ** Quality metrics ([helpers_pipeline.py]) *)

Definition contar_si {A} (p : A -> bool) (l : list A) : nat :=
  List.length (filter p l).

(** [round(x, 2)] of the exact value: to the nearest hundredth, a tie goes
    to the even one.  (The code rounds a binary float, which may lie on
    either side of a tie.) *)
Definition redondear (q : Q) : Z :=
  let piso := Qfloor q in
  let resto := (q - inject_Z piso)%Q in
  if Flt.Qlt_bool resto (1 # 2) then piso
  else if Flt.Qlt_bool (1 # 2) resto then piso + 1
  else if Z.even piso then piso else piso + 1.

Definition round2 (q : Q) : Q := Qred (inject_Z (redondear (q * 100)) / 100).

Definition razon (a b : nat) : Q := inject_Z (Z.of_nat a) / inject_Z (Z.of_nat b).

(** [_tiene_outliers_extremos] *)
Definition _tiene_outliers_extremos (d : DType) (serie : list Valor) : bool :=
  if negb (es_dtype_numerico d) then false
  else
    let Q1 := quantile serie (1 # 4) in
    let Q3 := quantile serie (3 # 4) in
    let IQR := Flt.resta Q3 Q1 in
    if Flt.eqb IQR (FFin 0) then false
    else
      let limite_inferior := Flt.resta Q1 (Flt.mult (FFin 3) IQR) in
      let limite_superior := Flt.suma Q3 (Flt.mult (FFin 3) IQR) in
      existsb (fun v => Flt.ltb (a_flotante v) limite_inferior) serie
      || existsb (fun v => Flt.ltb limite_superior (a_flotante v)) serie.

(** [_es_texto_consistente] *)
Definition _es_texto_consistente (serie : list Valor) : bool :=
  forallb es_str (filter (fun v => negb (es_nulo v)) serie).

Definition b2n (b : bool) : nat := if b then 1%nat else 0%nat.

(** The score of one column in [_calcular_precision_datos], out of three. *)
Definition col_puntuacion (d : DType) (serie : list Valor) : nat :=
  if Nat.eqb (contar_si (fun v => negb (es_nulo v)) serie) 0 then 0%nat
  else
    ((if es_dtype_numerico d then
        b2n (negb (existsb (fun v => Flt.es_inf (a_flotante v)) serie))
        + b2n (negb (_tiene_outliers_extremos d serie))
      else if dtype_eqb d Object then b2n (_es_texto_consistente serie)
      else 0)
     + b2n (Flt.Qlt_bool (razon (contar_si es_nulo serie) (List.length serie)) (1 # 2)))%nat.

(** [_calcular_precision_datos] *)
Definition _calcular_precision_datos (df : DataFrame) : Q :=
  let total_columnas := List.length (columnas df) in
  if Nat.eqb total_columnas 0 then 0
  else
    let puntuacion :=
      fold_left (fun puntuacion icd =>
                   (puntuacion + col_puntuacion (snd (snd icd)) (columna_n df (fst icd)))%nat)
                (columnas_numeradas df) 0%nat in
    (razon puntuacion (total_columnas * 3) * 100)%Q.

Record Metricas := {
  completitud : Q;
  consistencia : Q;
  precision : Q;
  total_registros : nat;
  registros_duplicados : option nat;
  celdas_nulas : option nat
}.

(** [calcular_metricas_calidad] *)
Definition calcular_metricas_calidad (datos : list Registro) : Resultado Metricas :=
  match datos with
  | [] =>
      Ok {| completitud := 0; consistencia := 0; precision := 0;
            total_registros := 0; registros_duplicados := None; celdas_nulas := None |}
  | _ =>
      let df := crear_dataframe datos in
      let total_celdas := (List.length (filas df) * List.length (columnas df))%nat in
      let nulas := contar_si es_nulo (List.concat (filas df)) in
      let completitud :=
        if Nat.ltb 0 total_celdas
        then (razon (total_celdas - nulas) total_celdas * 100)%Q else 0%Q in
      (sea marcas <- duplicated df None KeepFirst ;;
       let duplicados := contar_si (fun m : bool => m) marcas in
       let total := List.length (filas df) in
       let consistencia :=
         if Nat.ltb 0 total then (razon (total - duplicados) total * 100)%Q else 0%Q in
       let precision := _calcular_precision_datos df in
       Ok {| completitud := round2 completitud;
             consistencia := round2 consistencia;
             precision := round2 precision;
             total_registros := total;
             registros_duplicados := Some duplicados;
             celdas_nulas := Some nulas |})%res
  end.

(** *** Records with nested values

    A value of a record as the scorer may receive it: a scalar, or a
    container (a [list] or a [dict]), of which only the class matters
    here. *)
Inductive Clase : Type := ClaseList | ClaseDict.

Definition nombre_de_clase (clase : Clase) : string :=
  match clase with
  | ClaseList => "list"
  | ClaseDict => "dict"
  end.

Inductive Objeto : Type :=
| Escalar (v : Valor)
| Contenedor (clase : Clase).

(** The cells of the frame in the order in which [duplicated] hashes
    them: column by column, and in a column row by row. *)
Definition celdas_por_columna (datos : list (list (string * Objeto))) : list Objeto :=
  flat_map (fun c => map (fun r => match buscar c r with
                                   | Some o => o
                                   | None => Escalar (VFloat FNaN)
                                   end) datos)
           (nombres_columnas datos).

Fixpoint primer_contenedor (celdas : list Objeto) : option Clase :=
  match celdas with
  | [] => None
  | Contenedor clase :: _ => Some clase
  | Escalar _ :: resto => primer_contenedor resto
  end.

(** The scalar fields of a record. *)
Definition escalares (r : list (string * Objeto)) : Registro :=
  flat_map (fun kv => match snd kv with
                      | Escalar v => [(fst kv, v)]
                      | Contenedor _ => []
                      end) r.

(** [calcular_metricas_calidad] on such records.  Nothing before
    [df.duplicated()] looks into a container: [pd.DataFrame] stores it in
    an object column and [isnull] finds it present.  [duplicated] hashes
    the cells, and a container cannot be hashed: the first one raises
    [TypeError].  Without a container the records are records of
    scalars. *)
Definition calcular_metricas_calidad_objetos (datos : list (list (string * Objeto)))
  : Resultado Metricas :=
  match primer_contenedor (celdas_por_columna datos) with
  | Some clase =>
      Error {| tipo := "TypeError";
               mensaje := "unhashable type: '" ++ nombre_de_clase clase ++ "'" |}
  | None => calcular_metricas_calidad (map escalares datos)
  end.

(** A record of scalars, as a record of such values. *)
Definition de_escalares (r : Registro) : list (string * Objeto) :=
  map (fun kv => (fst kv, Escalar (snd kv))) r.

(** ** The orchestrator ([ejecutor.py]) *)

Module ConfiguracionPipeline.
Record t := {
  nombre_pipeline : string;
  version : string;
  descripcion : string;
  tamano_lote : Z;
  max_workers : Z;
  timeout_segundos : Z;
  nivel_log : string;
  incluir_metricas : bool;
  validar_entrada : bool;
  validar_salida : bool;
  tolerancia_errores : Q
}.

(** The dataclass defaults, given the pipeline name. *)
Definition por_defecto (nombre : string) : t := {|
  nombre_pipeline := nombre; version := "1.0.0"; descripcion := "";
  tamano_lote := 10000; max_workers := 4; timeout_segundos := 300;
  nivel_log := "INFO"; incluir_metricas := true;
  validar_entrada := true; validar_salida := true;
  tolerancia_errores := 5 # 100
|}.
End ConfiguracionPipeline.

Record ResultadoPipeline := {
  nombre_pipeline : string;
  fecha_inicio : Q;
  fecha_fin : Q;
  duracion_segundos : Q;
  registros_procesados : Z;
  registros_exitosos : Z;
  registros_fallidos : Z;
  tasa_exito : Q;
  completitud_datos : Q;
  consistencia_datos : Q;
  precision_datos : Q;
  errores : list string;
  advertencias : list string;
  archivos_salida : list string;
  reportes_generados : list string
}.

Section Orquestador.

(** The state the collaborators act on (files, network, their own
    caches) and the clock read by [datetime.utcnow()], in seconds.
    Collaborators receive the record set by value. *)
Variable Mundo : Type.
Variable utcnow : Mundo -> Q.

Definition Accion (A : Type) : Type := Mundo -> Mundo * Resultado A.

Definition devolver {A} (a : A) : Accion A := fun w => (w, Ok a).

Definition encadenar {A B} (m : Accion A) (k : A -> Accion B) : Accion B :=
  fun w =>
    match m w with
    | (w', Ok a) => k a w'
    | (w', Error e) => (w', Error e)
    end.

Notation "'hacer' x '<-' m ';;' k" := (encadenar m (fun x => k))
  (at level 10, x name, m at level 100, k at level 200).

Definition Parametros := option Registro.

(** [ExtractorBase.extraer] and [TransformadorBase.transformar], the abstract
    methods the orchestrator calls. *)
Definition ExtractorBase := Parametros -> Accion (list Registro).
Definition TransformadorBase := list Registro -> Accion (list Registro).

(** Modelled from the spec: [pipeline/cargadores/cargador_base.py] is not
    among the sources.  A loader persists the record set and returns the
    identifiers of the artifacts it produced, or raises; the orchestrator
    calls it as [cargador.cargar(datos)]. *)
Definition CargadorBase := list Registro -> Accion (list string).

(** Modelled from the spec: [pipeline/validadores/validador_base.py] is not
    among the sources.  A validator has two optional hooks, each of which
    returns normally or raises; the orchestrator calls a hook only when
    the validator has it ([hasattr]). *)
Record ValidadorBase := {
  validar_entrada : option (list Registro -> Accion unit);
  validar_salida : option (list Registro -> Accion unit)
}.

Record EjecutorPipeline := {
  configuracion : ConfiguracionPipeline.t;
  extractores : list ExtractorBase;
  transformadores : list TransformadorBase;
  cargadores : list CargadorBase;
  validadores : list ValidadorBase
}.

(** [EjecutorPipeline.__init__] *)
Definition nuevo_ejecutor (c : ConfiguracionPipeline.t) : EjecutorPipeline :=
  {| configuracion := c; extractores := []; transformadores := [];
     cargadores := []; validadores := [] |}.

(** The registration methods append and return. *)
Definition agregar_extractor (e : EjecutorPipeline) (x : ExtractorBase)
  : Resultado EjecutorPipeline :=
  Ok {| configuracion := configuracion e;
        extractores := (extractores e ++ [x])%list;
        transformadores := transformadores e;
        cargadores := cargadores e;
        validadores := validadores e |}.

Definition agregar_transformador (e : EjecutorPipeline) (t : TransformadorBase)
  : Resultado EjecutorPipeline :=
  Ok {| configuracion := configuracion e;
        extractores := extractores e;
        transformadores := (transformadores e ++ [t])%list;
        cargadores := cargadores e;
        validadores := validadores e |}.

Definition agregar_cargador (e : EjecutorPipeline) (c : CargadorBase)
  : Resultado EjecutorPipeline :=
  Ok {| configuracion := configuracion e;
        extractores := extractores e;
        transformadores := transformadores e;
        cargadores := (cargadores e ++ [c])%list;
        validadores := validadores e |}.

Definition agregar_validador (e : EjecutorPipeline) (v : ValidadorBase)
  : Resultado EjecutorPipeline :=
  Ok {| configuracion := configuracion e;
        extractores := extractores e;
        transformadores := transformadores e;
        cargadores := cargadores e;
        validadores := (validadores e ++ [v])%list |}.

(** [_ejecutar_extraccion]: the handler logs and raises again. *)
Fixpoint extraer_con (xs : list ExtractorBase) (parametros : Parametros)
    (datos_extraidos : list Registro) : Accion (list Registro) :=
  match xs with
  | [] => devolver datos_extraidos
  | extractor :: xs' =>
      hacer datos <- extractor parametros ;;
      extraer_con xs' parametros (datos_extraidos ++ datos)%list
  end.

Definition _ejecutar_extraccion (e : EjecutorPipeline) (parametros : Parametros)
  : Accion (list Registro) :=
  extraer_con (extractores e) parametros [].

Fixpoint validar_con (hook : ValidadorBase -> option (list Registro -> Accion unit))
    (vs : list ValidadorBase) (datos : list Registro) : Accion unit :=
  match vs with
  | [] => devolver tt
  | validador :: vs' =>
      match hook validador with
      | Some validar => hacer u <- validar datos ;; validar_con hook vs' datos
      | None => validar_con hook vs' datos
      end
  end.

Definition _ejecutar_validacion_entrada (e : EjecutorPipeline) (datos : list Registro)
  : Accion unit :=
  validar_con validar_entrada (validadores e) datos.

Definition _ejecutar_validacion_salida (e : EjecutorPipeline) (datos : list Registro)
  : Accion unit :=
  validar_con validar_salida (validadores e) datos.

Fixpoint transformar_con (ts : list TransformadorBase)
    (datos_transformados : list Registro) : Accion (list Registro) :=
  match ts with
  | [] => devolver datos_transformados
  | transformador :: ts' =>
      hacer datos_transformados <- transformador datos_transformados ;;
      transformar_con ts' datos_transformados
  end.

Definition _ejecutar_transformacion (e : EjecutorPipeline) (datos : list Registro)
  : Accion (list Registro) :=
  transformar_con (transformadores e) datos.

Fixpoint cargar_con (cs : list CargadorBase) (datos : list Registro)
    (archivos_generados : list string) : Accion (list string) :=
  match cs with
  | [] => devolver archivos_generados
  | cargador :: cs' =>
      hacer archivos <- cargador datos ;;
      cargar_con cs' datos (archivos_generados ++ archivos)%list
  end.

Definition _ejecutar_carga (e : EjecutorPipeline) (datos : list Registro)
  : Accion (list string) :=
  cargar_con (cargadores e) datos [].

(** What the [try] block of [ejecutar] has computed when it reaches the
    construction of the result. *)
Record Fases := {
  datos_extraidos : list Registro;
  datos_transformados : list Registro;
  archivos_generados : list string;
  metricas : Metricas
}.

(** The phases that come before the load: extraction, input validation,
    transformation, output validation. *)
Definition fases_previas (e : EjecutorPipeline) (parametros : Parametros)
  : Accion (list Registro * list Registro) :=
  hacer datos_extraidos <- _ejecutar_extraccion e parametros ;;
  hacer u <- (if ConfiguracionPipeline.validar_entrada (configuracion e)
              then _ejecutar_validacion_entrada e datos_extraidos
              else devolver tt) ;;
  hacer datos_transformados <- _ejecutar_transformacion e datos_extraidos ;;
  hacer u <- (if ConfiguracionPipeline.validar_salida (configuracion e)
              then _ejecutar_validacion_salida e datos_transformados
              else devolver tt) ;;
  devolver (datos_extraidos, datos_transformados).

Definition cuerpo (e : EjecutorPipeline) (parametros : Parametros) : Accion Fases :=
  hacer previas <- fases_previas e parametros ;;
  hacer archivos_generados <- _ejecutar_carga e (snd previas) ;;
  hacer metricas <- (fun w => (w, calcular_metricas_calidad (snd previas))) ;;
  devolver {| datos_extraidos := fst previas;
              datos_transformados := snd previas;
              archivos_generados := archivos_generados;
              metricas := metricas |}.

Definition len (l : list Registro) : Z := Z.of_nat (List.length l).

(** [EjecutorPipeline.ejecutar] *)
Definition ejecutar (e : EjecutorPipeline) (parametros : Parametros)
  : Mundo -> Mundo * ResultadoPipeline :=
  fun w =>
    let fecha_inicio := utcnow w in
    match cuerpo e parametros w with
    | (w', Ok f) =>
        let fecha_fin := utcnow w' in
        (w', {| nombre_pipeline := ConfiguracionPipeline.nombre_pipeline (configuracion e);
                fecha_inicio := fecha_inicio;
                fecha_fin := fecha_fin;
                duracion_segundos := fecha_fin - fecha_inicio;
                registros_procesados := len (datos_extraidos f);
                registros_exitosos := len (datos_transformados f);
                registros_fallidos := len (datos_extraidos f) - len (datos_transformados f);
                tasa_exito :=
                  match datos_extraidos f with
                  | [] => 0
                  | _ => inject_Z (len (datos_transformados f))
                         / inject_Z (len (datos_extraidos f))
                  end;
                completitud_datos := completitud (metricas f);
                consistencia_datos := consistencia (metricas f);
                precision_datos := precision (metricas f);
                errores := [];
                advertencias := [];
                archivos_salida := archivos_generados f;
                reportes_generados := [] |})
    | (w', Error ex) =>
        let fecha_fin := utcnow w' in
        (w', {| nombre_pipeline := ConfiguracionPipeline.nombre_pipeline (configuracion e);
                fecha_inicio := fecha_inicio;
                fecha_fin := fecha_fin;
                duracion_segundos := fecha_fin - fecha_inicio;
                registros_procesados := 0;
                registros_exitosos := 0;
                registros_fallidos := 0;
                tasa_exito := 0;
                completitud_datos := 0;
                consistencia_datos := 0;
                precision_datos := 0;
                errores := [mensaje ex];
                advertencias := [];
                archivos_salida := [];
                reportes_generados := [] |})
    end.

(** Some registered extractor raises during the run that starts in [w]:
    the extractors before it return, it raises [ex] and leaves [w']. *)
Inductive extractor_lanza (parametros : Parametros)
  : list ExtractorBase -> Mundo -> Mundo -> Excepcion -> Prop :=
| lanza_este : forall x xs w w' ex,
    x parametros w = (w', Error ex) ->
    extractor_lanza parametros (x :: xs) w w' ex
| lanza_otro : forall x xs w w1 datos w' ex,
    x parametros w = (w1, Ok datos) ->
    extractor_lanza parametros xs w1 w' ex ->
    extractor_lanza parametros (x :: xs) w w' ex.

End Orquestador.

Arguments devolver {Mundo A} a.
Arguments encadenar {Mundo A B} m k.
Arguments validar_entrada {Mundo} v.
Arguments validar_salida {Mundo} v.
Arguments configuracion {Mundo} e.
Arguments extractores {Mundo} e.
Arguments transformadores {Mundo} e.
Arguments cargadores {Mundo} e.
Arguments validadores {Mundo} e.
Arguments nuevo_ejecutor {Mundo} c.
Arguments agregar_extractor {Mundo} e x.
Arguments agregar_transformador {Mundo} e t.
Arguments agregar_cargador {Mundo} e c.
Arguments agregar_validador {Mundo} e v.
Arguments extraer_con {Mundo} xs parametros datos_extraidos.
Arguments validar_con {Mundo} hook vs datos.
Arguments transformar_con {Mundo} ts datos_transformados.
Arguments cargar_con {Mundo} cs datos archivos_generados.
Arguments _ejecutar_extraccion {Mundo} e parametros.
Arguments _ejecutar_validacion_entrada {Mundo} e datos.
Arguments _ejecutar_validacion_salida {Mundo} e datos.
Arguments _ejecutar_transformacion {Mundo} e datos.
Arguments _ejecutar_carga {Mundo} e datos.
Arguments fases_previas {Mundo} e parametros.
Arguments cuerpo {Mundo} e parametros.
Arguments ejecutar {Mundo} utcnow e parametros.
Arguments extractor_lanza {Mundo} parametros xs w w' ex.

(** A cleansing transformer as a collaborator of the orchestrator: it does
    not touch the state of the world. *)
Definition TransformadorLimpieza {Mundo : Type}
    (repr_racional : Q -> string)
    (moda_objeto : list Valor -> option Valor)
    (normalizar_columna_fecha : ConfigFechas -> list Valor -> option (list Valor))
    (c : Configuracion) : TransformadorBase Mundo :=
  fun datos w => (w, transformar repr_racional moda_objeto normalizar_columna_fecha c datos).

(** ** Scenarios

    Concrete collaborators, configurations and record sets on which the
    statements below are evaluated.  The world of these scenarios is the
    number of collaborator calls made so far, which is also what the clock
    shows. *)

Definition reloj (w : nat) : Q := inject_Z (Z.of_nat w).

Definition registro_1 : Registro := [("id", VInt 1)].

Definition extractor_fijo (datos : list Registro) : ExtractorBase nat :=
  fun _ w => (S w, Ok datos).

(** An extractor that answers its first call and raises from the second
    call on. *)
Definition extractor_agotable : ExtractorBase nat :=
  fun _ w =>
    match w with
    | O => (S w, Ok [registro_1])
    | S _ => (S w, Error {| tipo := "ErrorExtraccion"; mensaje := "fuente agotada" |})
    end.

Definition transformador_duplica : TransformadorBase nat :=
  fun datos w => (S w, Ok (datos ++ datos)%list).

Definition transformador_descarta : TransformadorBase nat :=
  fun datos w => (S w, Ok []).

Definition cargador_falla : CargadorBase nat :=
  fun _ w => (S w, Error {| tipo := "ErrorCarga"; mensaje := "destino no disponible" |}).

Definition config_demo : ConfiguracionPipeline.t := ConfiguracionPipeline.por_defecto "demo".

Definition ejecutor_extractor_agotable : EjecutorPipeline nat := {|
  configuracion := config_demo;
  extractores := [extractor_agotable; extractor_agotable];
  transformadores := []; cargadores := []; validadores := []
|}.

Definition ejecutor_un_agotable : EjecutorPipeline nat := {|
  configuracion := config_demo;
  extractores := [extractor_agotable];
  transformadores := []; cargadores := []; validadores := []
|}.

Definition ejecutor_cargador_falla : EjecutorPipeline nat := {|
  configuracion := config_demo;
  extractores := [extractor_fijo [registro_1]];
  transformadores := []; cargadores := [cargador_falla]; validadores := []
|}.

Definition ejecutor_duplica : EjecutorPipeline nat := {|
  configuracion := config_demo;
  extractores := [extractor_fijo [registro_1]];
  transformadores := [transformador_duplica]; cargadores := []; validadores := []
|}.

Definition ejecutor_descarta : EjecutorPipeline nat := {|
  configuracion := config_demo;
  extractores := [extractor_fijo [registro_1]];
  transformadores := [transformador_descarta]; cargadores := []; validadores := []
|}.

(** Stand-ins for the three library functions of [Limpieza].  None of them
    decides a scenario below: no float is printed, no object column is
    imputed, and the only text column offered to the date pipeline holds
    the value ["x"], which is not a date. *)
Definition repr_de_prueba (q : Q) : string :=
  str_de_Z (Qnum (Qred q)) ++ "/" ++ str_de_Z (Zpos (Qden (Qred q))).
Definition moda_de_prueba (vals : list Valor) : option Valor :=
  List.find (fun v => negb (es_nulo v)) vals.
Definition fechas_de_prueba (c : ConfigFechas) (vals : list Valor)
  : option (list Valor) := None.

Definition transformar_de_prueba : Configuracion -> list Registro -> Resultado (list Registro) :=
  transformar repr_de_prueba moda_de_prueba fechas_de_prueba.

Definition texto_deshabilitado : ConfigTexto :=
  {| texto_habilitada := false; minusculas := true; eliminar_espacios := true;
     eliminar_caracteres_especiales := false; normalizar_acentos := true |}.
Definition fechas_deshabilitadas : ConfigFechas :=
  {| fechas_habilitada := false; formato_entrada := "auto";
     formato_salida := "%Y-%m-%d %H:%M:%S"; zona_horaria := "UTC" |}.
Definition outliers_deshabilitado : ConfigOutliers :=
  {| outliers_habilitado := false; metodo := "iqr"; factor := 3 # 2;
     columnas_numericas := None |}.
Definition duplicados_deshabilitado : ConfigDuplicados :=
  {| duplicados_habilitado := false; mantener := "primero"; subset := None |}.
Definition duplicados_primero : ConfigDuplicados :=
  {| duplicados_habilitado := true; mantener := "primero"; subset := None |}.
Definition validacion_deshabilitada : ConfigValidacion :=
  {| validacion_habilitada := false; rangos_numericos := [];
     valores_permitidos := []; longitud_texto := [] |}.
Definition nulos_con (e : string) : ConfigNulos :=
  {| estrategia := e; imputacion := "media"; valor_fijo := None |}.

(** Null strategy "marcar", every optional stage switched off. *)
Definition config_marcar : Configuracion := {|
  cfg_manejo_nulos := Some (nulos_con "marcar");
  cfg_manejo_outliers := Some outliers_deshabilitado;
  cfg_manejo_duplicados := Some duplicados_deshabilitado;
  cfg_normalizacion_texto := Some texto_deshabilitado;
  cfg_normalizacion_fechas := Some fechas_deshabilitadas;
  cfg_validacion_datos := Some validacion_deshabilitada
|}.

(** Null strategy "eliminar", only the outlier stage (IQR, 1.5) on. *)
Definition config_solo_outliers : Configuracion := {|
  cfg_manejo_nulos := Some (nulos_con "eliminar");
  cfg_manejo_outliers := None;
  cfg_manejo_duplicados := Some duplicados_deshabilitado;
  cfg_normalizacion_texto := Some texto_deshabilitado;
  cfg_normalizacion_fechas := Some fechas_deshabilitadas;
  cfg_validacion_datos := Some validacion_deshabilitada
|}.

(** Null strategy "eliminar", duplicates "primero", the rest off. *)
Definition config_eliminar_primero : Configuracion := {|
  cfg_manejo_nulos := Some (nulos_con "eliminar");
  cfg_manejo_outliers := Some outliers_deshabilitado;
  cfg_manejo_duplicados := Some duplicados_primero;
  cfg_normalizacion_texto := Some texto_deshabilitado;
  cfg_normalizacion_fechas := Some fechas_deshabilitadas;
  cfg_validacion_datos := Some validacion_deshabilitada
|}.

(** The end-to-end scenario: null strategy "eliminar", duplicates
    "primero", outliers disabled; the sections that are not given take
    their defaults. *)
Definition config_escenario : Configuracion := {|
  cfg_manejo_nulos := Some (nulos_con "eliminar");
  cfg_manejo_outliers := Some outliers_deshabilitado;
  cfg_manejo_duplicados := Some duplicados_primero;
  cfg_normalizacion_texto := None;
  cfg_normalizacion_fechas := None;
  cfg_validacion_datos := None
|}.

Definition datos_escenario : list Registro :=
  [ [("a", VInt 1); ("b", VStr "X")];
    [("a", VNone); ("b", VStr "x")];
    [("a", VInt 1); ("b", VStr "X")] ].

(** Two integers that differ and have the same nearest float64, in a
    field that also holds a float and a text. *)
Definition datos_enteros_grandes : list Registro :=
  [ [("a", VInt (2 ^ 53)); ("b", VInt 1)];
    [("a", VInt (2 ^ 53 + 1)); ("b", VInt 1)];
    [("a", VFloat (FFin (3 # 2))); ("b", VInt 1)];
    [("a", VStr "x"); ("b", VNone)] ].

(** One text field whose first two values are missing, the one [None], the
    other NaN. *)
Definition datos_ausentes : list Registro :=
  [ [("a", VNone)]; [("a", VFloat FNaN)]; [("a", VStr "x")] ].

(** Null strategy "imputar" with the mean, duplicates "primero" on the
    field ["k"], the rest off. *)
Definition config_imputar_media : Configuracion := {|
  cfg_manejo_nulos := Some (nulos_con "imputar");
  cfg_manejo_outliers := Some outliers_deshabilitado;
  cfg_manejo_duplicados :=
    Some {| duplicados_habilitado := true; mantener := "primero"; subset := Some ["k"] |};
  cfg_normalizacion_texto := Some texto_deshabilitado;
  cfg_normalizacion_fechas := Some fechas_deshabilitadas;
  cfg_validacion_datos := Some validacion_deshabilitada
|}.

(** Null strategy "eliminar" and two validation rules: ["a"] at least 5,
    ["b"] equal to ["ok"]; the rest off. *)
Definition config_con_reglas : Configuracion := {|
  cfg_manejo_nulos := Some (nulos_con "eliminar");
  cfg_manejo_outliers := Some outliers_deshabilitado;
  cfg_manejo_duplicados := Some duplicados_deshabilitado;
  cfg_normalizacion_texto := Some texto_deshabilitado;
  cfg_normalizacion_fechas := Some fechas_deshabilitadas;
  cfg_validacion_datos :=
    Some {| validacion_habilitada := true;
            rangos_numericos := [("a", {| minimo := Some (5 # 1); maximo := None |})];
            valores_permitidos := [("b", [VStr "ok"])];
            longitud_texto := [] |}
|}.

(** Null strategy "eliminar" and the default text normalisation; the
    rest off. *)
Definition config_solo_texto : Configuracion := {|
  cfg_manejo_nulos := Some (nulos_con "eliminar");
  cfg_manejo_outliers := Some outliers_deshabilitado;
  cfg_manejo_duplicados := Some duplicados_deshabilitado;
  cfg_normalizacion_texto := None;
  cfg_normalizacion_fechas := Some fechas_deshabilitadas;
  cfg_validacion_datos := Some validacion_deshabilitada
|}.

(** The text "a (c)", the last character being the copyright sign
    (code point 169), which has no ASCII base letter. *)
Definition texto_con_simbolo : string :=
  String "a" (String " " (String (ascii_of_nat 169) EmptyString)).

(** An unknown null strategy. *)
Definition config_estrategia_desconocida : Configuracion := {|
  cfg_manejo_nulos := Some (nulos_con "interpolar");
  cfg_manejo_outliers := None; cfg_manejo_duplicados := None;
  cfg_normalizacion_texto := None; cfg_normalizacion_fechas := None;
  cfg_validacion_datos := None
|}.

Definition columna_v (zs : list Z) : list Registro :=
  map (fun z => [("v", VInt z)]) zs.

Definition datos_outlier : list Registro := columna_v [10; 12; 11; 13; 1000].

(** ** The stated properties, as predicates *)

(** The run reports the record count of the transformation phase although
    a loader raised. *)
Definition carga_fallida_conserva_conteo {Mundo} (utcnow : Mundo -> Q)
    (e : EjecutorPipeline Mundo) (p : Parametros) (w : Mundo) : Prop :=
  forall w1 datos_e datos_t w2 ex,
    fases_previas e p w = (w1, Ok (datos_e, datos_t)) ->
    _ejecutar_carga e datos_t w1 = (w2, Error ex) ->
    let r := snd (ejecutar utcnow e p w) in
    registros_exitosos r = len datos_t /\ archivos_salida r = [] /\ errores r <> [].

(** The arithmetic invariants of a result. *)
Definition conteos_coherentes (r : ResultadoPipeline) : Prop :=
  registros_fallidos r = registros_procesados r - registros_exitosos r
  /\ (tasa_exito r ==
      if registros_procesados r =? 0 then 0
      else inject_Z (registros_exitosos r) / inject_Z (registros_procesados r))%Q.

Definition tasa_acotada (r : ResultadoPipeline) : Prop :=
  (0 <= tasa_exito r /\ tasa_exito r <= 1)%Q.

(** A second application of the transformer returns its input. *)
Definition segunda_pasada_identica
    (T : Configuracion -> list Registro -> Resultado (list Registro))
    (c : Configuracion) (datos : list Registro) : Prop :=
  forall limpios, T c datos = Ok limpios -> T c limpios = Ok limpios.

(** The same number, read as an integer or as a float. *)
Definition mismo_valor (a b : Valor) : Prop :=
  a = b \/ exists z, a = VInt z /\ b = VFloat (Flt.de_Z z).

(** An integer that a float64 holds exactly: one of at most 2^53 in
    absolute value; and the record sets whose integers are all such. *)
Definition entero_exacto (v : Valor) : bool :=
  match v with
  | VInt z => Z.abs z <=? 2 ^ 53
  | _ => true
  end.

Definition enteros_exactos (datos : list Registro) : Prop :=
  Forall (fun r : Registro => Forall (fun kv => entero_exacto (snd kv) = true) r) datos.

Definition mismo_registro (r1 r2 : Registro) : Prop :=
  Forall2 (fun kv1 kv2 => fst kv1 = fst kv2 /\ mismo_valor (snd kv1) (snd kv2)) r1 r2.

Definition mismos_registros (l1 l2 : list Registro) : Prop := Forall2 mismo_registro l1 l2.

(** The configurations under which a second pass changes nothing: rows
    with nulls are dropped, and apart from the duplicate stage every
    optional stage is off or has no rule. *)
Definition solo_eliminar_y_duplicados (cf : ConfiguracionFinal) : Prop :=
  estrategia (manejo_nulos cf) = "eliminar"
  /\ texto_habilitada (normalizacion_texto cf) = false
  /\ fechas_habilitada (normalizacion_fechas cf) = false
  /\ outliers_habilitado (manejo_outliers cf) = false
  /\ (validacion_habilitada (validacion_datos cf) = false
      \/ (rangos_numericos (validacion_datos cf) = []
          /\ valores_permitidos (validacion_datos cf) = []
          /\ longitud_texto (validacion_datos cf) = [])).

(** Registering a transformer with an invalid configuration raises the
    [ErrorConfiguracion] of [validar_configuracion]. *)
Definition registro_valida_configuracion {Mundo} (e : EjecutorPipeline Mundo)
    (T : Configuracion -> TransformadorBase Mundo) (c : Configuracion) : Prop :=
  forall ex, validar_configuracion (configuracion_final c) = Error ex ->
             agregar_transformador e (T c) = Error ex.

(** The finite number a cell holds: Python compares an integer, a float
    and a boolean by their numeric value. *)
Definition numero (v : Valor) : option Q :=
  match v with
  | VInt z => Some (inject_Z z)
  | VBool b => Some (inject_Z (if b then 1 else 0))
  | VFloat (FFin q) => Some q
  | _ => None
  end.

(** Two cells hold the same value: the same text, the same number, the
    same infinity, or the same missing value. *)
Inductive mismo_dato : Valor -> Valor -> Prop :=
| mismo_texto : forall s, mismo_dato (VStr s) (VStr s)
| mismo_numero : forall a b p q,
    numero a = Some p -> numero b = Some q -> (p == q)%Q -> mismo_dato a b
| mismo_infinito : forall negativo,
    mismo_dato (VFloat (FInf negativo)) (VFloat (FInf negativo))
| mismo_none : mismo_dato VNone VNone
| mismo_nan : mismo_dato (VFloat FNaN) (VFloat FNaN).

(** Two cells of a key column are equal: they hold the same value or,
    unless the key is a single column, both are missing. *)
Definition celdas_iguales (una_columna : bool) (a b : Valor) : Prop :=
  mismo_dato a b \/ (una_columna = false /\ es_nulo a = true /\ es_nulo b = true).

(** Two rows are equal under the dedupe key: their cells in the key
    columns are pairwise equal. *)
Definition iguales_bajo_clave (df : DataFrame) (subset : option (list string))
    (fila1 fila2 : list Valor) : Prop :=
  Forall2 (celdas_iguales (por_serie df subset))
          (clave_de (nombres df) (en_clave subset) fila1)
          (clave_de (nombres df) (en_clave subset) fila2).

(** [idx] lists, in increasing order, the rows of [df] that have no
    key-equal row before them. *)
Definition primeras_apariciones (df : DataFrame) (subset : option (list string))
    (idx : list nat) : Prop :=
  StronglySorted lt idx
  /\ forall i, In i idx <->
       (i < List.length (filas df)
        /\ forall j, j < i ->
             ~ iguales_bajo_clave df subset (nth i (filas df) []) (nth j (filas df) []))%nat.

(** What "keep first" promises of the duplicate stage: the output rows are
    the first appearances, in their original order. *)
Definition conserva_primeras (cf : ConfiguracionFinal) (df : DataFrame) : Prop :=
  forall df', _manejar_duplicados cf df = Ok df' ->
    columnas df' = columnas df
    /\ exists idx, primeras_apariciones df (subset (manejo_duplicados cf)) idx
                   /\ filas df' = map (fun i => nth i (filas df) []) idx.

(** ** Notions used by the statements *)

(** The positions a mask leaves unmarked, counted from [desde]. *)
Fixpoint indices_sin_marca (desde : nat) (marcas : list bool) : list nat :=
  match marcas with
  | [] => []
  | b :: ms =>
      if b then indices_sin_marca (S desde) ms
      else desde :: indices_sin_marca (S desde) ms
  end.

(** A [subset] that [duplicated] accepts: absent, or a non-empty list of
    column labels of the frame. *)
Definition subset_valido (df : DataFrame) (sub : option (list string)) : Prop :=
  match sub with
  | None => True
  | Some s => s <> [] /\ forallb (fun c => contiene c (nombres df)) s = true
  end.

(** C4 as it is stated, of records of any values: the scorer returns,
    and its three scores lie in [0, 100]. *)
Definition metricas_acotadas (datos : list (list (string * Objeto))) : Prop :=
  exists m, calcular_metricas_calidad_objetos datos = Ok m
    /\ (0 <= completitud m <= 100)%Q
    /\ (0 <= consistencia m <= 100)%Q
    /\ (0 <= precision m <= 100)%Q.

Definition valor_presente (r : Registro) (c : string) : bool :=
  match buscar c r with
  | Some v => negb (es_nulo v)
  | None => false
  end.

Definition valores_presentes (datos : list Registro) : nat :=
  list_sum (map (fun r => contar_si (valor_presente r) (nombres_columnas datos)) datos).

Definition tiene_datos (serie : list Valor) : Prop :=
  exists v, In v serie /\ es_nulo v = false.

Definition sin_infinitos (serie : list Valor) : Prop :=
  forall v, In v serie -> Flt.es_inf (a_flotante v) = false.

Definition es_extremo (serie : list Valor) (v : Valor) : Prop :=
  let Q1 := quantile serie (1 # 4) in
  let Q3 := quantile serie (3 # 4) in
  let IQR := Flt.resta Q3 Q1 in
  Flt.eqb IQR (FFin 0) = false
  /\ (Flt.ltb (a_flotante v) (Flt.resta Q1 (Flt.mult (FFin 3) IQR)) = true
      \/ Flt.ltb (Flt.suma Q3 (Flt.mult (FFin 3) IQR)) (a_flotante v) = true).

Definition sin_extremos (serie : list Valor) : Prop :=
  forall v, In v serie -> ~ es_extremo serie v.

Definition solo_texto (serie : list Valor) : Prop :=
  forall v, In v serie -> es_nulo v = false -> exists s, v = VStr s.

Definition pocos_nulos (serie : list Valor) : Prop :=
  (2 * contar_si es_nulo serie < List.length serie)%nat.

Definition punto (P : Prop) (n : nat) : Prop :=
  (P /\ n = 1%nat) \/ (~ P /\ n = 0%nat).

Definition puntos_de_columna (d : DType) (serie : list Valor) (p : nat) : Prop :=
  (~ tiene_datos serie /\ p = 0%nat)
  \/ (tiene_datos serie
      /\ exists a b c,
           p = (a + b + c)%nat
           /\ punto (pocos_nulos serie) c
           /\ match d with
              | Int64 | Float64 =>
                  punto (sin_infinitos serie) a /\ punto (sin_extremos serie) b
              | Object => punto (solo_texto serie) a /\ b = 0%nat
              | _ => a = 0%nat /\ b = 0%nat
              end).

(** [a] out of [b], as a percentage; 0 when [b] is 0. *)
Definition porcentaje (a b : nat) : Q :=
  if Nat.ltb 0 b then (razon a b * 100)%Q else 0%Q.

Definition total_celdas (df : DataFrame) : nat :=
  (List.length (filas df) * List.length (columnas df))%nat.

Definition celdas_no_nulas (df : DataFrame) : nat :=
  contar_si (fun v => negb (es_nulo v)) (List.concat (filas df)).

(** The rows that remain once duplicates are dropped. *)
Definition registros_unicos (df : DataFrame) : nat :=
  match drop_duplicates df None KeepFirst with
  | Ok unicos => List.length (filas unicos)
  | Error _ => 0%nat
  end.

(** The column scores of [_calcular_precision_datos], added up. *)
Definition puntuacion_total (df : DataFrame) : nat :=
  list_sum (map (fun icd => col_puntuacion (snd (snd icd)) (columna_n df (fst icd)))
                (columnas_numeradas df)).

Definition mismas_claves (ks ks' : list (list Valor)) : Prop :=
  Forall2 (Forall2 mismo_valor) ks ks'.

(** One mask marks at least what another marks. *)
Definition cubre (m1 m : list bool) : Prop :=
  Forall2 (fun a b => a = true -> b = true) m1 m.

(** The policy named by [mantener], if any. *)
Definition politica (cf : ConfiguracionFinal) : option Keep :=
  if String.eqb (mantener (manejo_duplicados cf)) "primero" then Some KeepFirst
  else if String.eqb (mantener (manejo_duplicados cf)) "ultimo" then Some KeepLast
  else if String.eqb (mantener (manejo_duplicados cf)) "ninguno" then Some KeepFalse
  else None.

(** The outcome the scenario is expected to have: the single record
    [{"a": 1, "b": "X"}], the number read as an integer or as a float. *)
Definition escenario_sin_cambios
    (T : Configuracion -> list Registro -> Resultado (list Registro)) : Prop :=
  exists salida, T config_escenario datos_escenario = Ok salida
                 /\ mismos_registros [[("a", VInt 1); ("b", VStr "X")]] salida.

Definition sin_filas_nulas (df : DataFrame) : DataFrame :=
  con_filas df (filter (fun fila => negb (existsb es_nulo fila)) (filas df)).

(** ** Notions for the further properties *)

(** The registered extractors all return: the record sets they return, in
    order, and the world they leave. *)
Inductive extraen {Mundo : Type} (parametros : Parametros)
  : list (ExtractorBase Mundo) -> Mundo -> Mundo -> list (list Registro) -> Prop :=
| extraen_ninguno : forall w, extraen parametros [] w w []
| extraen_otro : forall x xs w w1 w2 datos resto,
    x parametros w = (w1, Ok datos) ->
    extraen parametros xs w1 w2 resto ->
    extraen parametros (x :: xs) w w2 (datos :: resto).

(** The registered loaders all return, each one handed the same records. *)
Inductive cargan {Mundo : Type} (datos : list Registro)
  : list (CargadorBase Mundo) -> Mundo -> Mundo -> list (list string) -> Prop :=
| cargan_ninguno : forall w, cargan datos [] w w []
| cargan_otro : forall c cs w w1 w2 archivos resto,
    c datos w = (w1, Ok archivos) ->
    cargan datos cs w1 w2 resto ->
    cargan datos (c :: cs) w w2 (archivos :: resto).

(** Some transformer raises: the ones before it return, the last of them
    [datos'], and it raises [ex] on [datos']. *)
Inductive transformador_lanza {Mundo : Type}
  : list (TransformadorBase Mundo) -> list Registro -> Mundo -> Mundo -> Excepcion -> Prop :=
| transformador_lanza_este : forall t ts datos w w' ex,
    t datos w = (w', Error ex) ->
    transformador_lanza (t :: ts) datos w w' ex
| transformador_lanza_otro : forall t ts datos w w1 datos' w' ex,
    t datos w = (w1, Ok datos') ->
    transformador_lanza ts datos' w1 w' ex ->
    transformador_lanza (t :: ts) datos w w' ex.

(** The hooks of a validator that a configuration lets the orchestrator
    call. *)
Definition ganchos_activos {Mundo : Type} (c : ConfiguracionPipeline.t)
    (v : ValidadorBase Mundo) : ValidadorBase Mundo :=
  {| validar_entrada := if ConfiguracionPipeline.validar_entrada c
                        then validar_entrada v else None;
     validar_salida := if ConfiguracionPipeline.validar_salida c
                       then validar_salida v else None |}.

Definition tiene_gancho {Mundo : Type} (v : ValidadorBase Mundo) : bool :=
  match validar_entrada v, validar_salida v with
  | None, None => false
  | _, _ => true
  end.

(** The orchestrator with only the validators, and only the hooks, that
    its configuration lets it call. *)
Definition sin_validadores_ociosos {Mundo : Type} (e : EjecutorPipeline Mundo)
  : EjecutorPipeline Mundo :=
  {| configuracion := configuracion e;
     extractores := extractores e;
     transformadores := transformadores e;
     cargadores := cargadores e;
     validadores := filter tiene_gancho
                      (map (ganchos_activos (configuracion e)) (validadores e)) |}.

(** A result of [ejecutar] is either a success without error or a
    failure with one error and nothing else. *)
Definition resultado_exitoso (r : ResultadoPipeline) : Prop :=
  errores r = [] /\ 0 <= registros_procesados r /\ 0 <= registros_exitosos r.

Definition resultado_fallido (r : ResultadoPipeline) : Prop :=
  List.length (errores r) = 1%nat
  /\ registros_procesados r = 0 /\ registros_exitosos r = 0
  /\ registros_fallidos r = 0 /\ tasa_exito r = 0%Q
  /\ completitud_datos r = 0%Q /\ consistencia_datos r = 0%Q
  /\ precision_datos r = 0%Q /\ archivos_salida r = [].

(** More collaborators for the scenarios. *)
Definition validador_rechaza : ValidadorBase nat :=
  {| validar_entrada :=
       Some (fun _ w => (S w, Error {| tipo := "ErrorValidacion";
                                       mensaje := "entrada rechazada" |}));
     validar_salida := None |}.

Definition transformador_falla : TransformadorBase nat :=
  fun _ w => (S w, Error {| tipo := "ErrorTransformacion"; mensaje := "sin memoria" |}).

Definition cargador_fijo (archivos : list string) : CargadorBase nat :=
  fun _ w => (S w, Ok archivos).

Definition ejecutor_validador_rechaza : EjecutorPipeline nat := {|
  configuracion := config_demo;
  extractores := [extractor_fijo [registro_1]];
  transformadores := [transformador_duplica];
  cargadores := [cargador_fijo ["a.csv"]];
  validadores := [validador_rechaza]
|}.

Definition ejecutor_transformador_falla : EjecutorPipeline nat := {|
  configuracion := config_demo;
  extractores := [extractor_fijo [registro_1]];
  transformadores := [transformador_duplica; transformador_falla; transformador_descarta];
  cargadores := [cargador_fijo ["a.csv"]];
  validadores := []
|}.

Definition ejecutor_completo : EjecutorPipeline nat := {|
  configuracion := config_demo;
  extractores := [extractor_fijo [registro_1]; extractor_fijo [registro_1]];
  transformadores := [];
  cargadores := [cargador_fijo ["a.csv"]; cargador_fijo ["b.csv"; "c.csv"]];
  validadores := []
|}.

(** [l1] is [l2] with some elements removed, the others in their order. *)
Inductive subsecuencia {A : Type} : list A -> list A -> Prop :=
| subsecuencia_nil : subsecuencia [] []
| subsecuencia_toma : forall x l1 l2,
    subsecuencia l1 l2 -> subsecuencia (x :: l1) (x :: l2)
| subsecuencia_salta : forall x l1 l2,
    subsecuencia l1 l2 -> subsecuencia l1 (x :: l2).

(** A transformer of the orchestrator that is a cleansing transformer. *)
Definition es_limpieza {Mundo : Type} (t : TransformadorBase Mundo) : Prop :=
  exists rp mo nf c, t = TransformadorLimpieza rp mo nf c.

(** [idx] lists, in increasing order, the rows of [df] that have no
    key-equal row after them. *)
Definition ultimas_apariciones (df : DataFrame) (sub : option (list string))
    (idx : list nat) : Prop :=
  StronglySorted lt idx
  /\ forall i, In i idx <->
       (i < List.length (filas df)
        /\ forall j, i < j < List.length (filas df) ->
             ~ iguales_bajo_clave df sub (nth i (filas df) []) (nth j (filas df) []))%nat.

(** [idx] lists, in increasing order, the rows of [df] whose key no other
    row has. *)
Definition apariciones_unicas (df : DataFrame) (sub : option (list string))
    (idx : list nat) : Prop :=
  StronglySorted lt idx
  /\ forall i, In i idx <->
       (i < List.length (filas df)
        /\ forall j, j < List.length (filas df) -> j <> i ->
             ~ iguales_bajo_clave df sub (nth i (filas df) []) (nth j (filas df) []))%nat.

(** The marks of "keep last", computed front to back: a row is marked
    when its key appears again further down. *)
Fixpoint marcar_posteriores (claves : list (list Valor)) : list bool :=
  match claves with
  | [] => []
  | k :: ks => existsb (clave_eqb k) ks :: marcar_posteriores ks
  end.

(** Every character of a text satisfies [p]. *)
Fixpoint todos_los_caracteres (p : ascii -> bool) (s : string) : bool :=
  match s with
  | EmptyString => true
  | String c s' => p c && todos_los_caracteres p s'
  end.

Definition es_ascii (c : ascii) : bool := Nat.ltb (nat_of_ascii c) 128.

(** A frame whose labels are distinct and whose rows have one cell per
    column. *)
Definition bien_formado (df : DataFrame) : Prop :=
  NoDup (nombres df)
  /\ Forall (fun fila => List.length fila = List.length (columnas df)) (filas df).

(** A frame without a missing cell. *)
Definition sin_nulos (df : DataFrame) : Prop :=
  Forall (fun fila => existsb es_nulo fila = false) (filas df).

(** One extractor that hands out the scenario, the cleansing transformer of
    the scenario, no loader. *)
Definition ejecutor_limpieza : EjecutorPipeline nat := {|
  configuracion := config_demo;
  extractores := [extractor_fijo datos_escenario];
  transformadores :=
    [TransformadorLimpieza repr_de_prueba moda_de_prueba fechas_de_prueba config_escenario];
  cargadores := [];
  validadores := []
|}.

(** The default configuration with another [mantener]. *)
Definition duplicados_con (m : string) : ConfiguracionFinal := {|
  manejo_nulos := manejo_nulos configuracion_default;
  manejo_outliers := manejo_outliers configuracion_default;
  manejo_duplicados := {| duplicados_habilitado := true; mantener := m; subset := None |};
  normalizacion_texto := normalizacion_texto configuracion_default;
  normalizacion_fechas := normalizacion_fechas configuracion_default;
  validacion_datos := validacion_datos configuracion_default
|}.

(** The default configuration with another outlier method. *)
Definition outliers_con (m : string) : ConfiguracionFinal := {|
  manejo_nulos := manejo_nulos configuracion_default;
  manejo_outliers := {| outliers_habilitado := true; metodo := m; factor := 3 # 2;
                        columnas_numericas := None |};
  manejo_duplicados := manejo_duplicados configuracion_default;
  normalizacion_texto := normalizacion_texto configuracion_default;
  normalizacion_fechas := normalizacion_fechas configuracion_default;
  validacion_datos := validacion_datos configuracion_default
|}.

(** The default configuration with one validation rule: the texts of the
    column [c] have at least [n] characters. *)
Definition longitud_minima (c : string) (n : Z) : ConfiguracionFinal := {|
  manejo_nulos := manejo_nulos configuracion_default;
  manejo_outliers := manejo_outliers configuracion_default;
  manejo_duplicados := manejo_duplicados configuracion_default;
  normalizacion_texto := normalizacion_texto configuracion_default;
  normalizacion_fechas := normalizacion_fechas configuracion_default;
  validacion_datos :=
    {| validacion_habilitada := true; rangos_numericos := []; valores_permitidos := [];
       longitud_texto := [(c, {| minimo := Some (inject_Z n); maximo := None |})] |}
|}.

(** The default configuration with a [subset] for the duplicate stage. *)
Definition duplicados_sobre (s : list string) : ConfiguracionFinal := {|
  manejo_nulos := manejo_nulos configuracion_default;
  manejo_outliers := manejo_outliers configuracion_default;
  manejo_duplicados :=
    {| duplicados_habilitado := true; mantener := "primero"; subset := Some s |};
  normalizacion_texto := normalizacion_texto configuracion_default;
  normalizacion_fechas := normalizacion_fechas configuracion_default;
  validacion_datos := validacion_datos configuracion_default
|}.

(** The cell the text stage leaves in a column of dtype [d], and the row
    it leaves. *)
Definition celda_normalizada (repr_racional : Q -> string) (config_texto : ConfigTexto)
    (d : DType) (v : Valor) : Valor :=
  if dtype_eqb d Object
  then VStr (normalizar_cadena config_texto (str_valor repr_racional v))
  else v.

Definition fila_normalizada (repr_racional : Q -> string) (config_texto : ConfigTexto)
    (cols : list (string * DType)) (fila : list Valor) : list Valor :=
  map (fun cv => celda_normalizada repr_racional config_texto (snd (fst cv)) (snd cv))
      (combine cols fila).

(** An ASCII letter, digit or white-space character. *)
Definition es_simple (c : ascii) : bool :=
  es_alfanumerico_ascii c || (es_espacio c && es_ascii c).

(** What is left of a text when only those characters are kept. *)
Definition solo_simples (s : string) : string :=
  filtrar_texto (fun c => if es_simple c then Some c else None) s.

(** The text [normalizar_cadena] has in hand before it removes special
    characters. *)
Definition texto_previo (config_texto : ConfigTexto) (s : string) : string :=
  let s := if minusculas config_texto then lower s else s in
  if eliminar_espacios config_texto then strip s else s.

(** The text "Café", the last character being the code point 233. *)
Definition texto_acentuado : string :=
  String "C" (String "a" (String "f" (String (ascii_of_nat 233) EmptyString))).

(** A one-column frame of texts, and a text configuration that removes
    special characters and folds accents. *)
Definition frame_de_textos : DataFrame :=
  crear_dataframe [[("t", VStr texto_con_simbolo)]; [("t", VStr "B")]].

Definition texto_sin_especiales : ConfigTexto :=
  {| texto_habilitada := true; minusculas := true; eliminar_espacios := true;
     eliminar_caracteres_especiales := true; normalizar_acentos := true |}.

(** Records whose every field is a text. *)
Definition datos_de_texto : list Registro :=
  [ [("nombre", VStr "ana"); ("ciudad", VStr "lima")];
    [("nombre", VStr "luis"); ("ciudad", VStr "quito")] ].

(** ** The text helper of [helpers_pipeline.py] *)

(** [str.split()]: the maximal runs of characters that are not white
    space; [palabra] is the run being read. *)
Fixpoint split_desde (palabra s : string) : list string :=
  match s with
  | EmptyString =>
      match palabra with
      | EmptyString => []
      | _ => [palabra]
      end
  | String c s' =>
      if es_espacio c then
        match palabra with
        | EmptyString => split_desde EmptyString s'
        | _ => palabra :: split_desde EmptyString s'
        end
      else split_desde (palabra ++ String c EmptyString) s'
  end.

Definition split (s : string) : list string := split_desde EmptyString s.

(** [sep.join(l)] *)
Fixpoint join (sep : string) (l : list string) : string :=
  match l with
  | [] => EmptyString
  | [x] => x
  | x :: l' => x ++ sep ++ join sep l'
  end.

(** [normalizar_texto] *)
Definition normalizar_texto (repr_racional : Q -> string) (texto : Valor) : string :=
  match texto with
  | VStr t =>
      let texto := lower t in
      let texto := join " " (split texto) in
      sin_caracteres_especiales texto
  | _ => str_valor repr_racional texto
  end.

(** A lower-case ASCII letter, a digit or the space. *)
Definition es_normal (c : ascii) : bool :=
  let n := nat_of_ascii c in
  en_rango 48 n 57 || en_rango 97 n 122 || Nat.eqb n 32.

Definition no_es_mayuscula (c : ascii) : bool := negb (en_rango 65 (nat_of_ascii c) 90).

(** What a character of a word of a lower-cased text can be, or the
    separator. *)
Definition de_palabra_o_separador (c : ascii) : bool :=
  (no_es_mayuscula c && negb (es_espacio c)) || Ascii.eqb c " ".

(** ** The REST extractor ([extractor_api.py])

    A JSON value as [response.json()] returns it; a request as
    [session.request] receives it; of a response, what the extractor
    reads: the status, the decoded body (decoding may raise) and the text.
    The extractor is modelled from [configuracion_final] on, every section
    of which is a complete dictionary.  Entries of the configuration that
    are tested for truth are [None] or a string, and a string is true when
    it is not empty. *)

#[warnings="-register-all"]
Inductive Json : Type :=
| JNull
| JBool (b : bool)
| JNum (q : Q)
| JStr (s : string)
| JList (l : list Json)
| JDict (d : list (string * Json)).

(** [d[k] = v] on a dictionary in insertion order, and [d.update(otros)]. *)
Fixpoint asignar {V} (k : string) (v : V) (d : list (string * V)) : list (string * V) :=
  match d with
  | [] => [(k, v)]
  | (k', v') :: d' =>
      if String.eqb k' k then (k', v) :: d' else (k', v') :: asignar k v d'
  end.

Definition actualizar {V} (d otros : list (string * V)) : list (string * V) :=
  fold_left (fun d kv => asignar (fst kv) (snd kv) d) otros d.

Fixpoint obtener {V} (k : string) (d : list (string * V)) : option V :=
  match d with
  | [] => None
  | (k', v) :: d' => if String.eqb k' k then Some v else obtener k d'
  end.

Definition ErrorExtraccion (m : string) : Excepcion :=
  {| tipo := "ErrorExtraccion"; mensaje := m |}.

Module ExtractorAPI.

Record Paginacion := {
  habilitada : bool;
  parametro_pagina : string;
  parametro_tamano : string;
  tamano_pagina : Z;
  max_paginas : Z
}.

(** [auth_tipo] is the entry ["tipo"], [contrasena] the entry
    ["contraseña"]. *)
Record Autenticacion := {
  auth_tipo : option string;
  token : option string;
  usuario : option string;
  contrasena : option string;
  api_key : option string;
  header_auth : string
}.

Record Configuracion := {
  endpoint : string;
  metodo : string;
  headers : list (string * string);
  timeout : Z;
  max_retries : Z;
  delay_retry : Z;
  rate_limit : Z;
  paginacion : Paginacion;
  autenticacion : Autenticacion;
  filtros : Registro;
  transformacion_respuesta : bool
}.

Record Peticion := {
  method : string;
  url : string;
  peticion_headers : list (string * string);
  params : Registro;
  total : Z
}.

Record Respuesta := {
  status : Z;
  json : Resultado Json;
  text : string
}.

(** The truth of an entry that is [None] or a string. *)
Definition verdadero (o : option string) : bool :=
  match o with
  | Some s => negb (String.eqb s "")
  | None => false
  end.

Definition es (o : option string) (s : string) : bool :=
  match o with
  | Some t => String.eqb t s
  | None => false
  end.

(** [_agregar_autenticacion], which writes into the headers it is
    handed. *)
Definition _agregar_autenticacion (auth_config : Autenticacion)
    (headers : list (string * string)) : list (string * string) :=
  if es (auth_tipo auth_config) "bearer" && verdadero (token auth_config) then
    asignar (header_auth auth_config)
            ("Bearer " ++ match token auth_config with Some t => t | None => "" end)
            headers
  else if es (auth_tipo auth_config) "api_key" && verdadero (api_key auth_config) then
    asignar (header_auth auth_config)
            (match api_key auth_config with Some k => k | None => "" end)
            headers
  else headers.

(** The first of the keys whose entry in [data] is a list. *)
Fixpoint primera_lista (claves_datos : list string) (data : list (string * Json))
  : option (list Json) :=
  match claves_datos with
  | [] => None
  | clave :: resto =>
      match obtener clave data with
      | Some (JList l) => Some l
      | _ => primera_lista resto data
      end
  end.

(** [_extraer_registros_de_respuesta] *)
Definition _extraer_registros_de_respuesta (data : Json) : list Json :=
  match data with
  | JList l => l
  | JDict d =>
      let claves_datos := ["data"; "results"; "items"; "records"; "content"] in
      match primera_lista claves_datos d with
      | Some l => l
      | None => [data]
      end
  | _ => []
  end.

(** [_aplicar_transformacion] *)
Definition _aplicar_transformacion (registros : list Json) : list Json := registros.

Section Extractor.

(** [urlparse] raises or not; [urljoin], which returns the joined URL or
    raises ([ValueError] on a reference it cannot parse); the state of the
    world, on which [session.request] acts and in which [asyncio.sleep] lets
    time pass. *)
Variable urlparse_lanza : string -> bool.
Variable urljoin : string -> string -> Resultado string.
Variable Mundo : Type.
Variable solicitar : Peticion -> Accion Mundo Respuesta.
Variable dormir : Q -> Mundo -> Mundo.

Variable url_base : string.
Variable configuracion_final : Configuracion.

(** [validar_configuracion] *)
Definition validar_configuracion : Resultado bool :=
  if urlparse_lanza url_base then
    Error (ErrorConfiguracion ("URL base inválida: " ++ url_base))
  else
    let metodos_validos := ["GET"; "POST"; "PUT"; "DELETE"; "PATCH"] in
    if negb (contiene (metodo configuracion_final) metodos_validos) then
      Error (ErrorConfiguracion
               ("Método HTTP inválido: " ++ metodo configuracion_final))
    else
      let auth_config := autenticacion configuracion_final in
      if verdadero (auth_tipo auth_config)
         && negb (match auth_tipo auth_config with
                  | Some t => contiene t ["bearer"; "basic"; "api_key"]
                  | None => false
                  end) then
        Error (ErrorConfiguracion
                 ("Tipo de autenticación inválido: "
                  ++ match auth_tipo auth_config with Some t => t | None => "" end))
      else if rate_limit configuracion_final <=? 0 then
        Error (ErrorConfiguracion "Rate limit debe ser mayor a 0")
      else Ok true.

Definition peticion (url : string) (headers : list (string * string)) (params : Registro)
  : Peticion :=
  {| method := metodo configuracion_final;
     url := url;
     peticion_headers := headers;
     params := params;
     total := timeout configuracion_final |}.

(** [_extraer_sin_paginacion] *)
Definition _extraer_sin_paginacion (url : string) (headers : list (string * string))
    (params : Registro) : Accion Mundo (list Json) :=
  fun w =>
    match solicitar (peticion url headers params) w with
    | (w', Error ex) => (w', Error ex)
    | (w', Ok response) =>
        if negb (status response =? 200) then
          (w', Error (ErrorExtraccion ("Error HTTP " ++ str_de_Z (status response)
                                       ++ ": " ++ text response)))
        else
          match json response with
          | Error ex => (w', Error ex)
          | Ok data =>
              match data with
              | JList l => (w', Ok l)
              | JDict d =>
                  let claves_datos := ["data"; "results"; "items"; "records"; "content"] in
                  match primera_lista claves_datos d with
                  | Some l => (w', Ok l)
                  | None => (w', Ok [data])
                  end
              | _ => (w', Ok [])
              end
          end
    end.

(** The [while] loop of [_extraer_con_paginacion]; [combustible] bounds
    the number of turns. *)
Fixpoint paginar (combustible : nat) (url : string) (headers : list (string * string))
    (params : Registro) (pagina_actual : Z) (registros : list Json)
  : Accion Mundo (list Json) :=
  fun w =>
    let paginacion_config := paginacion configuracion_final in
    let max_paginas := max_paginas paginacion_config in
    let tamano_pagina := tamano_pagina paginacion_config in
    match combustible with
    | O => (w, Ok registros)
    | S combustible' =>
        if pagina_actual <=? max_paginas then
          let params_pagina :=
            asignar (parametro_tamano paginacion_config) (VInt tamano_pagina)
              (asignar (parametro_pagina paginacion_config) (VInt pagina_actual) params) in
          match solicitar (peticion url headers params_pagina) w with
          | (w1, Error e) => (w1, Ok registros)
          | (w1, Ok response) =>
              if negb (status response =? 200) then (w1, Ok registros)
              else
                match json response with
                | Error e => (w1, Ok registros)
                | Ok data =>
                    let registros_pagina := _extraer_registros_de_respuesta data in
                    match registros_pagina with
                    | [] => (w1, Ok registros)
                    | _ =>
                        let registros := (registros ++ registros_pagina)%list in
                        if Z.of_nat (List.length registros_pagina) <? tamano_pagina then
                          (w1, Ok registros)
                        else
                          paginar combustible' url headers params (pagina_actual + 1)
                            registros
                            (if 0 <? rate_limit configuracion_final
                             then dormir (60 / inject_Z (rate_limit configuracion_final)) w1
                             else w1)
                    end
                end
          end
        else (w, Ok registros)
    end.

(** [_extraer_con_paginacion]: the page number starts at 1 and grows by
    one each turn, so [max_paginas] turns are enough. *)
Definition _extraer_con_paginacion (url : string) (headers : list (string * string))
    (params : Registro) : Accion Mundo (list Json) :=
  paginar (Z.to_nat (max_paginas (paginacion configuracion_final))) url headers params 1 [].

(** [extraer]: whatever is raised inside comes out as an
    [ErrorExtraccion]. *)
Definition extraer (parametros : Parametros) : Accion Mundo (list Json) :=
  fun w =>
    let intento : Mundo * Resultado (list Json) :=
      match validar_configuracion with
      | Error ex => (w, Error ex)
      | Ok _ =>
          match urljoin url_base (endpoint configuracion_final) with
          | Error ex => (w, Error ex)
          | Ok url =>
              let headers :=
                _agregar_autenticacion (autenticacion configuracion_final)
                                       (headers configuracion_final) in
              let params :=
                match parametros with
                | Some (kv :: otros) =>
                    actualizar (filtros configuracion_final) (kv :: otros)
                | _ => filtros configuracion_final
                end in
              match (if habilitada (paginacion configuracion_final)
                     then _extraer_con_paginacion url headers params
                     else _extraer_sin_paginacion url headers params) w with
              | (w', Ok registros) =>
                  (w', Ok (if transformacion_respuesta configuracion_final
                           then _aplicar_transformacion registros else registros))
              | (w', Error ex) => (w', Error ex)
              end
          end
      end in
    match intento with
    | (w', Ok registros) => (w', Ok registros)
    | (w', Error e) =>
        (w', Error (ErrorExtraccion ("Error en extracción API: " ++ mensaje e)))
    end.

(** One turn of the loop that reads a page: the request returns with
    status 200, the body decodes and holds at least one record. *)
Definition pagina_leida (url : string) (headers : list (string * string))
    (params : Registro) (pagina : Z) (w w' : Mundo) (registros_pagina : list Json) : Prop :=
  let pc := paginacion configuracion_final in
  exists response data,
    solicitar (peticion url headers
                 (asignar (parametro_tamano pc) (VInt (tamano_pagina pc))
                    (asignar (parametro_pagina pc) (VInt pagina) params))) w
    = (w', Ok response)
    /\ status response = 200
    /\ json response = Ok data
    /\ registros_pagina = _extraer_registros_de_respuesta data
    /\ registros_pagina <> [].

(** One turn of the loop that reads nothing: the request raises, the
    status is not 200, the body does not decode or holds no record. *)
Definition pagina_fallida (url : string) (headers : list (string * string))
    (params : Registro) (pagina : Z) (w w' : Mundo) : Prop :=
  let pc := paginacion configuracion_final in
  let r := solicitar (peticion url headers
                        (asignar (parametro_tamano pc) (VInt (tamano_pagina pc))
                           (asignar (parametro_pagina pc) (VInt pagina) params))) w in
  fst r = w'
  /\ match snd r with
     | Error _ => True
     | Ok response =>
         status response <> 200
         \/ match json response with
            | Error _ => True
            | Ok data => _extraer_registros_de_respuesta data = []
            end
     end.

(** The pause between two pages. *)
Definition pausa (w : Mundo) : Mundo :=
  if 0 <? rate_limit configuracion_final
  then dormir (60 / inject_Z (rate_limit configuracion_final)) w
  else w.

(** The pages read from page [pagina] on: reading stops past
    [max_paginas], at a turn that reads nothing, and after a page shorter
    than [tamano_pagina]. *)
Inductive paginado (url : string) (headers : list (string * string)) (params : Registro)
  : Z -> Mundo -> Mundo -> list (list Json) -> Prop :=
| paginado_tope : forall pagina w,
    max_paginas (paginacion configuracion_final) < pagina ->
    paginado url headers params pagina w w []
| paginado_falla : forall pagina w w',
    pagina <= max_paginas (paginacion configuracion_final) ->
    pagina_fallida url headers params pagina w w' ->
    paginado url headers params pagina w w' []
| paginado_ultima : forall pagina w w' registros_pagina,
    pagina <= max_paginas (paginacion configuracion_final) ->
    pagina_leida url headers params pagina w w' registros_pagina ->
    Z.of_nat (List.length registros_pagina) < tamano_pagina (paginacion configuracion_final) ->
    paginado url headers params pagina w w' [registros_pagina]
| paginado_sigue : forall pagina w w1 w' registros_pagina resto,
    pagina <= max_paginas (paginacion configuracion_final) ->
    pagina_leida url headers params pagina w w1 registros_pagina ->
    tamano_pagina (paginacion configuracion_final)
      <= Z.of_nat (List.length registros_pagina) ->
    paginado url headers params (pagina + 1) (pausa w1) w' resto ->
    paginado url headers params pagina w w' (registros_pagina :: resto).

End Extractor.

End ExtractorAPI.

(** A configuration of the REST extractor and a server that answers 503
    to every request. *)
Definition sin_autenticacion : ExtractorAPI.Autenticacion :=
  {| ExtractorAPI.auth_tipo := None; ExtractorAPI.token := None;
     ExtractorAPI.usuario := None; ExtractorAPI.contrasena := None;
     ExtractorAPI.api_key := None; ExtractorAPI.header_auth := "Authorization" |}.

Definition config_api (paginada : bool) (auth : ExtractorAPI.Autenticacion)
  : ExtractorAPI.Configuracion :=
  {| ExtractorAPI.endpoint := "/";
     ExtractorAPI.metodo := "GET";
     ExtractorAPI.headers := [("Content-Type", "application/json")];
     ExtractorAPI.timeout := 30;
     ExtractorAPI.max_retries := 3;
     ExtractorAPI.delay_retry := 1;
     ExtractorAPI.rate_limit := 100;
     ExtractorAPI.paginacion :=
       {| ExtractorAPI.habilitada := paginada;
          ExtractorAPI.parametro_pagina := "page";
          ExtractorAPI.parametro_tamano := "size";
          ExtractorAPI.tamano_pagina := 100;
          ExtractorAPI.max_paginas := 1000 |};
     ExtractorAPI.autenticacion := auth;
     ExtractorAPI.filtros := [];
     ExtractorAPI.transformacion_respuesta := false |}.

Definition servidor_caido : ExtractorAPI.Peticion -> Accion nat ExtractorAPI.Respuesta :=
  fun _ w => (S w, Ok {| ExtractorAPI.status := 503;
                         ExtractorAPI.json := Ok JNull;
                         ExtractorAPI.text := "Service Unavailable" |}).

Definition autenticacion_basica : ExtractorAPI.Autenticacion :=
  {| ExtractorAPI.auth_tipo := Some "basic"; ExtractorAPI.token := None;
     ExtractorAPI.usuario := Some "ana"; ExtractorAPI.contrasena := Some "secreto";
     ExtractorAPI.api_key := None; ExtractorAPI.header_auth := "Authorization" |}.

Definition autenticacion_bearer : ExtractorAPI.Autenticacion :=
  {| ExtractorAPI.auth_tipo := Some "bearer"; ExtractorAPI.token := Some "abc";
     ExtractorAPI.usuario := None; ExtractorAPI.contrasena := None;
     ExtractorAPI.api_key := None; ExtractorAPI.header_auth := "Authorization" |}.

(** Stand-ins for [urlparse] (which accepts every URL), [urljoin] (which
    rejects the reference ["//["], the opening of an IPv6 host that is never
    closed, and otherwise appends) and [asyncio.sleep]. *)
Definition urlparse_de_prueba (url : string) : bool := false.

Definition urljoin_de_prueba (base ruta : string) : Resultado string :=
  if String.eqb ruta "//["
  then Error {| tipo := "ValueError"; mensaje := "Invalid IPv6 URL" |}
  else Ok (base ++ ruta).

Definition dormir_de_prueba (segundos : Q) (w : nat) : nat := w.

(** The request [extraer] builds for the URL it has joined: the method,
    the headers with the authentication, the filters updated with the
    parameters of the call, the timeout. *)
Definition peticion_de (cf : ExtractorAPI.Configuracion) (parametros : Parametros)
    (url : string) : ExtractorAPI.Peticion :=
  {| ExtractorAPI.method := ExtractorAPI.metodo cf;
     ExtractorAPI.url := url;
     ExtractorAPI.peticion_headers :=
       ExtractorAPI._agregar_autenticacion (ExtractorAPI.autenticacion cf)
         (ExtractorAPI.headers cf);
     ExtractorAPI.params :=
       match parametros with
       | Some (kv :: otros) => actualizar (ExtractorAPI.filtros cf) (kv :: otros)
       | _ => ExtractorAPI.filtros cf
       end;
     ExtractorAPI.total := ExtractorAPI.timeout cf |}.

(** The first request of the paginated extraction: page 1 of
    [tamano_pagina] records. *)
Definition primera_pagina (cf : ExtractorAPI.Configuracion) (parametros : Parametros)
    (url : string) : ExtractorAPI.Peticion :=
  let pc := ExtractorAPI.paginacion cf in
  let req := peticion_de cf parametros url in
  {| ExtractorAPI.method := ExtractorAPI.method req;
     ExtractorAPI.url := url;
     ExtractorAPI.peticion_headers := ExtractorAPI.peticion_headers req;
     ExtractorAPI.params :=
       asignar (ExtractorAPI.parametro_tamano pc) (VInt (ExtractorAPI.tamano_pagina pc))
         (asignar (ExtractorAPI.parametro_pagina pc) (VInt 1) (ExtractorAPI.params req));
     ExtractorAPI.total := ExtractorAPI.total req |}.

(** The configuration of the scenario with the endpoint ["//["]. *)
Definition config_api_endpoint (paginada : bool) : ExtractorAPI.Configuracion :=
  {| ExtractorAPI.endpoint := "//[";
     ExtractorAPI.metodo := "GET";
     ExtractorAPI.headers := [("Content-Type", "application/json")];
     ExtractorAPI.timeout := 30;
     ExtractorAPI.max_retries := 3;
     ExtractorAPI.delay_retry := 1;
     ExtractorAPI.rate_limit := 100;
     ExtractorAPI.paginacion :=
       ExtractorAPI.paginacion (config_api paginada sin_autenticacion);
     ExtractorAPI.autenticacion := sin_autenticacion;
     ExtractorAPI.filtros := [];
     ExtractorAPI.transformacion_respuesta := false |}.

(** The default configuration with a rate limit of 0. *)
Definition config_api_sin_limite : ExtractorAPI.Configuracion :=
  {| ExtractorAPI.endpoint := "/";
     ExtractorAPI.metodo := "GET";
     ExtractorAPI.headers := [("Content-Type", "application/json")];
     ExtractorAPI.timeout := 30;
     ExtractorAPI.max_retries := 3;
     ExtractorAPI.delay_retry := 1;
     ExtractorAPI.rate_limit := 0;
     ExtractorAPI.paginacion := ExtractorAPI.paginacion (config_api false sin_autenticacion);
     ExtractorAPI.autenticacion := sin_autenticacion;
     ExtractorAPI.filtros := [];
     ExtractorAPI.transformacion_respuesta := false |}.

(** Null strategy "imputar" with the mode, the rest off; and a record set
    whose only column is a float column without a value. *)
Definition config_imputar_moda : Configuracion := {|
  cfg_manejo_nulos :=
    Some {| estrategia := "imputar"; imputacion := "moda"; valor_fijo := None |};
  cfg_manejo_outliers := Some outliers_deshabilitado;
  cfg_manejo_duplicados := Some duplicados_deshabilitado;
  cfg_normalizacion_texto := Some texto_deshabilitado;
  cfg_normalizacion_fechas := Some fechas_deshabilitadas;
  cfg_validacion_datos := Some validacion_deshabilitada
|}.

Definition datos_sin_valores : list Registro :=
  [ [("a", VFloat FNaN)]; [("a", VFloat FNaN)] ].

(** * Properties *)

(** ** The orchestrator *)

Section PropiedadesOrquestador.

Context {Mundo : Type}.
Variable utcnow : Mundo -> Q.

Lemma extraer_con_lanza (p : Parametros) (xs : list (ExtractorBase Mundo)) w w' ex :
  extractor_lanza p xs w w' ex ->
  forall acc, extraer_con xs p acc w = (w', Error ex).
Proof.
  induction 1 as [x xs w w' ex Hx | x xs w w1 datos w' ex Hx _ IH]; intro acc;
    cbn [extraer_con]; unfold encadenar; rewrite Hx.
  - reflexivity.
  - apply IH.
Qed.

(** Conversely, a failed extraction phase is the failure of one of the
    registered extractors. *)
Lemma extraer_con_error (p : Parametros) (xs : list (ExtractorBase Mundo)) :
  forall acc w w' ex,
    extraer_con xs p acc w = (w', Error ex) -> extractor_lanza p xs w w' ex.
Proof.
  induction xs as [|x xs IH]; intros acc w w' ex H; cbn [extraer_con] in H.
  - discriminate H.
  - unfold encadenar in H. destruct (x p w) as [w1 [datos|ex1]] eqn:Hx.
    + eapply lanza_otro; [exact Hx | eapply IH; exact H].
    + inversion H; subst. apply lanza_este. exact Hx.
Qed.

Lemma transformar_con_app (ts1 ts2 : list (TransformadorBase Mundo)) :
  forall datos w,
    transformar_con (ts1 ++ ts2) datos w =
    match transformar_con ts1 datos w with
    | (w1, Ok d) => transformar_con ts2 d w1
    | (w1, Error ex) => (w1, Error ex)
    end.
Proof.
  induction ts1 as [|t ts1 IH]; intros datos w; cbn [transformar_con app].
  - reflexivity.
  - unfold encadenar. destruct (t datos w) as [w1 [d|ex]]; [apply IH | reflexivity].
Qed.

(** The result built by the [except] branch of [ejecutar]. *)
Lemma ejecutar_error (e : EjecutorPipeline Mundo) p w w' ex :
  cuerpo e p w = (w', Error ex) ->
  exists r, ejecutar utcnow e p w = (w', r)
    /\ errores r = [mensaje ex]
    /\ registros_procesados r = 0 /\ registros_exitosos r = 0
    /\ registros_fallidos r = 0 /\ tasa_exito r = 0%Q
    /\ completitud_datos r = 0%Q /\ consistencia_datos r = 0%Q
    /\ precision_datos r = 0%Q /\ archivos_salida r = [].
Proof.
  intro H. unfold ejecutar. rewrite H. eexists. split; [reflexivity|].
  cbn. repeat split.
Qed.

Lemma cuerpo_previas_error (e : EjecutorPipeline Mundo) p w w' ex :
  fases_previas e p w = (w', Error ex) -> cuerpo e p w = (w', Error ex).
Proof. intro H. unfold cuerpo, encadenar. rewrite H. reflexivity. Qed.

Lemma previas_extraccion_error (e : EjecutorPipeline Mundo) p w w' ex :
  _ejecutar_extraccion e p w = (w', Error ex) ->
  fases_previas e p w = (w', Error ex).
Proof. intro H. unfold fases_previas, encadenar. rewrite H. reflexivity. Qed.

Lemma cuerpo_metricas (e : EjecutorPipeline Mundo) p w w' f :
  cuerpo e p w = (w', Ok f) ->
  calcular_metricas_calidad (datos_transformados f) = Ok (metricas f).
Proof.
  unfold cuerpo, encadenar, devolver. intro H.
  destruct (fases_previas e p w) as [w1 [[de dt]|ex]]; [|discriminate H].
  cbn [snd fst] in H.
  destruct (_ejecutar_carga e dt w1) as [w2 [a|ex]]; [|discriminate H].
  destruct (calcular_metricas_calidad dt) as [m|ex] eqn:Hm; [|discriminate H].
  inversion H; subst. cbn. exact Hm.
Qed.

End PropiedadesOrquestador.

(** C1.  When some registered extractor raises during a run, [ejecutar]
    still returns a result: its error list holds exactly the message of
    the exception, and both [registros_procesados] and
    [registros_exitosos] are 0. *)
Theorem ejecutar_extractor_lanza :
  forall (Mundo : Type) (utcnow : Mundo -> Q) (e : EjecutorPipeline Mundo)
         (p : Parametros) (w w' : Mundo) (ex : Excepcion),
    extractor_lanza p (extractores e) w w' ex ->
    exists r, ejecutar utcnow e p w = (w', r)
      /\ errores r = [mensaje ex]
      /\ List.length (errores r) = 1%nat
      /\ registros_procesados r = 0
      /\ registros_exitosos r = 0.
Proof.
  intros Mundo utcnow e p w w' ex H.
  destruct (ejecutar_error utcnow e p w w' ex) as [r [Hr [He [Hp [Hx _]]]]].
  - apply cuerpo_previas_error, previas_extraccion_error.
    unfold _ejecutar_extraccion. apply extraer_con_lanza. exact H.
  - exists r. rewrite He. repeat split; assumption.
Qed.

Lemma ejecutar_extractor_lanza_testigo :
  extractor_lanza None (extractores ejecutor_extractor_agotable) 0%nat 2%nat
    {| tipo := "ErrorExtraccion"; mensaje := "fuente agotada" |}
  /\ exists r, ejecutar reloj ejecutor_extractor_agotable None 0%nat = (2%nat, r)
       /\ errores r = ["fuente agotada"]
       /\ List.length (errores r) = 1%nat
       /\ registros_procesados r = 0
       /\ registros_exitosos r = 0.
Proof.
  assert (H : extractor_lanza None (extractores ejecutor_extractor_agotable) 0%nat 2%nat
                {| tipo := "ErrorExtraccion"; mensaje := "fuente agotada" |}).
  { eapply lanza_otro; [reflexivity|]. apply lanza_este. reflexivity. }
  split; [exact H|].
  exact (ejecutar_extractor_lanza nat reloj ejecutor_extractor_agotable None 0%nat 2%nat _ H).
Defined.

(** The same across two runs of one orchestrator: the first run answers,
    the second run, in which the extractor is called for the second time,
    fails with one error and zero counts. *)
Lemma segunda_ejecucion_falla :
  let primera := ejecutar reloj ejecutor_un_agotable None 0%nat in
  let segunda := ejecutar reloj ejecutor_un_agotable None (fst primera) in
  errores (snd primera) = [] /\ registros_procesados (snd primera) = 1
  /\ errores (snd segunda) = ["fuente agotada"]
  /\ registros_procesados (snd segunda) = 0 /\ registros_exitosos (snd segunda) = 0.
Proof. cbv zeta. repeat split; vm_compute; reflexivity. Qed.

(** C2, as stated, fails: with one record extracted, no transformer and a
    loader that raises, the run reports [registros_exitosos = 0], not the
    count 1 of the transformation phase. *)
Lemma carga_fallida_no_conserva_conteo :
  ~ carga_fallida_conserva_conteo reloj ejecutor_cargador_falla None 0%nat.
Proof.
  intro H.
  specialize (H 1%nat [registro_1] [registro_1] 2%nat
                {| tipo := "ErrorCarga"; mensaje := "destino no disponible" |}
                eq_refl eq_refl).
  cbn in H. destruct H as [H _]. discriminate H.
Qed.

(** C2, amended.  When the phases before the load complete and a registered
    loader then raises, [ejecutar] returns the result of its [except]
    branch: [registros_exitosos] and [registros_procesados] are 0 (the count
    of the transformation phase is not kept), the artifact list is empty
    and the error list holds the message of the loader's exception. *)
Theorem ejecutar_carga_lanza :
  forall (Mundo : Type) (utcnow : Mundo -> Q) (e : EjecutorPipeline Mundo)
         (p : Parametros) (w w1 w2 : Mundo) (datos_e datos_t : list Registro)
         (ex : Excepcion),
    fases_previas e p w = (w1, Ok (datos_e, datos_t)) ->
    _ejecutar_carga e datos_t w1 = (w2, Error ex) ->
    exists r, ejecutar utcnow e p w = (w2, r)
      /\ registros_exitosos r = 0
      /\ registros_procesados r = 0
      /\ archivos_salida r = []
      /\ errores r = [mensaje ex].
Proof.
  intros Mundo utcnow e p w w1 w2 datos_e datos_t ex Hprev Hcarga.
  destruct (ejecutar_error utcnow e p w w2 ex)
    as [r [Hr [He [Hp [Hx [_ [_ [_ [_ [_ Ha]]]]]]]]]].
  - unfold cuerpo, encadenar. rewrite Hprev. cbn [snd]. rewrite Hcarga. reflexivity.
  - exists r. repeat split; assumption.
Qed.

Lemma ejecutar_carga_lanza_testigo :
  fases_previas ejecutor_cargador_falla None 0%nat = (1%nat, Ok ([registro_1], [registro_1]))
  /\ _ejecutar_carga ejecutor_cargador_falla [registro_1] 1%nat
     = (2%nat, Error {| tipo := "ErrorCarga"; mensaje := "destino no disponible" |})
  /\ exists r, ejecutar reloj ejecutor_cargador_falla None 0%nat = (2%nat, r)
       /\ registros_exitosos r = 0
       /\ registros_procesados r = 0
       /\ archivos_salida r = []
       /\ errores r = ["destino no disponible"].
Proof.
  split; [reflexivity|]. split; [reflexivity|].
  exact (ejecutar_carga_lanza nat reloj ejecutor_cargador_falla None 0%nat 1%nat 2%nat
           [registro_1] [registro_1] _ eq_refl eq_refl).
Defined.

(** C3, as stated, fails: a transformer that returns every record twice
    gives a success rate of 2. *)
Lemma tasa_exito_mayor_que_uno :
  let r := snd (ejecutar reloj ejecutor_duplica None 0%nat) in
  registros_procesados r = 1 /\ registros_exitosos r = 2
  /\ ~ (conteos_coherentes r /\ tasa_acotada r).
Proof.
  cbv zeta. split; [reflexivity|]. split; [reflexivity|].
  intros [_ [_ H]]. vm_compute in H. apply H. reflexivity.
Qed.

Lemma len_no_negativo (l : list Registro) : 0 <= len l.
Proof. unfold len. lia. Qed.

Lemma razon_Z_acotada (a b : Z) :
  0 <= a -> 0 < b ->
  (0 <= inject_Z a / inject_Z b)%Q
  /\ ((inject_Z a / inject_Z b <= 1)%Q <-> a <= b).
Proof.
  intros Ha Hb.
  assert (Hb' : (0 < inject_Z b)%Q) by (rewrite Zlt_Qlt in Hb; exact Hb).
  assert (Ha' : (0 <= inject_Z a)%Q) by (rewrite Zle_Qle in Ha; exact Ha).
  split.
  - apply Qle_shift_div_l; [exact Hb'|]. lra.
  - split; intro H.
    + rewrite Zle_Qle.
      apply (Qmult_le_compat_r _ _ (inject_Z b)) in H; [|lra].
      assert (E : (inject_Z a / inject_Z b * inject_Z b == inject_Z a)%Q)
        by (field; lra).
      rewrite E, Qmult_1_l in H. exact H.
    + apply Qle_shift_div_r; [exact Hb'|]. rewrite Zle_Qle in H. lra.
Qed.

(** C3, amended.  Every result of [ejecutar] satisfies
    [registros_fallidos = registros_procesados - registros_exitosos] and
    [tasa_exito = registros_exitosos / registros_procesados] (0 when
    [registros_procesados] is 0), and [0 <= tasa_exito]; the rate is at
    most 1 whenever no more records come out than went in, and, when some
    record went in, only then. *)
Theorem ejecutar_conteos :
  forall (Mundo : Type) (utcnow : Mundo -> Q) (e : EjecutorPipeline Mundo)
         (p : Parametros) (w : Mundo),
    let r := snd (ejecutar utcnow e p w) in
    conteos_coherentes r
    /\ (0 <= tasa_exito r)%Q
    /\ (registros_exitosos r <= registros_procesados r -> (tasa_exito r <= 1)%Q)
    /\ (0 < registros_procesados r -> (tasa_exito r <= 1)%Q ->
        registros_exitosos r <= registros_procesados r).
Proof.
  intros Mundo utcnow e p w. unfold ejecutar, conteos_coherentes.
  destruct (cuerpo e p w) as [w' [f|ex]]; cbn.
  - destruct (datos_extraidos f) as [|r0 de] eqn:Hde.
    + cbn. repeat split; try reflexivity; try lra; try lia.
    + set (a := len (datos_transformados f)). set (b := len (r0 :: de)).
      assert (Ha : 0 <= a) by apply len_no_negativo.
      assert (Hb : 0 < b) by (unfold b, len; cbn [List.length]; lia).
      destruct (razon_Z_acotada a b Ha Hb) as [H0 H1].
      assert (Hbz : (b =? 0) = false) by (apply Z.eqb_neq; lia).
      rewrite Hbz. repeat split; try reflexivity; try exact H0; intros; apply H1; assumption.
  - repeat split; try reflexivity; try lra; try lia.
Qed.

Lemma ejecutar_conteos_testigo :
  let r := snd (ejecutar reloj ejecutor_descarta None 0%nat) in
  registros_exitosos r <= registros_procesados r /\ (tasa_exito r <= 1)%Q.
Proof.
  cbv zeta.
  assert (H : registros_exitosos (snd (ejecutar reloj ejecutor_descarta None 0%nat))
              <= registros_procesados (snd (ejecutar reloj ejecutor_descarta None 0%nat))).
  { vm_compute. discriminate. }
  split; [exact H|].
  exact (proj1 (proj2 (proj2 (ejecutar_conteos nat reloj ejecutor_descarta None 0%nat))) H).
Defined.

(** C10.  On the empty record set [calcular_metricas_calidad] returns
    completeness, consistency and precision 0; so a run that completes
    with every record dropped by its transformers reports the three
    quality scores as 0. *)
Theorem metricas_de_conjunto_vacio :
  calcular_metricas_calidad [] =
    Ok {| completitud := 0; consistencia := 0; precision := 0;
          total_registros := 0; registros_duplicados := None; celdas_nulas := None |}
  /\ forall (Mundo : Type) (utcnow : Mundo -> Q) (e : EjecutorPipeline Mundo)
            (p : Parametros) (w w' : Mundo) (f : Fases),
       cuerpo e p w = (w', Ok f) ->
       datos_transformados f = [] ->
       let r := snd (ejecutar utcnow e p w) in
       errores r = []
       /\ registros_exitosos r = 0
       /\ completitud_datos r = 0%Q
       /\ consistencia_datos r = 0%Q
       /\ precision_datos r = 0%Q.
Proof.
  split; [reflexivity|].
  intros Mundo utcnow e p w w' f Hc Hvacio.
  pose proof (cuerpo_metricas e p w w' f Hc) as Hm.
  rewrite Hvacio in Hm. cbn in Hm. inversion Hm as [Hm'].
  unfold ejecutar. rewrite Hc. cbn. rewrite Hvacio, <- Hm'. cbn.
  repeat split; reflexivity.
Qed.

Lemma metricas_de_conjunto_vacio_testigo :
  exists f, cuerpo ejecutor_descarta None 0%nat = (2%nat, Ok f)
    /\ datos_transformados f = []
    /\ let r := snd (ejecutar reloj ejecutor_descarta None 0%nat) in
       errores r = []
       /\ registros_exitosos r = 0
       /\ completitud_datos r = 0%Q
       /\ consistencia_datos r = 0%Q
       /\ precision_datos r = 0%Q.
Proof.
  eexists. split; [reflexivity|]. split; [reflexivity|].
  exact (proj2 metricas_de_conjunto_vacio nat reloj ejecutor_descarta None 0%nat 2%nat _
           eq_refl eq_refl).
Defined.

(** ** Validation of the transformer's configuration *)

(** C6, as stated, fails: registering a cleansing transformer whose null
    strategy is unknown returns normally. *)
Lemma registro_no_valida_configuracion :
  validar_configuracion (configuracion_final config_estrategia_desconocida)
    = Error (ErrorConfiguracion "Estrategia de nulos inválida: interpolar")
  /\ ~ registro_valida_configuracion ejecutor_descarta
         (TransformadorLimpieza repr_de_prueba moda_de_prueba fechas_de_prueba)
         config_estrategia_desconocida.
Proof.
  split; [reflexivity|].
  intro H. specialize (H _ eq_refl). discriminate H.
Qed.

Lemma validar_configuracion_tipo (cf : ConfiguracionFinal) (ex : Excepcion) :
  validar_configuracion cf = Error ex -> tipo ex = "ErrorConfiguracion".
Proof.
  unfold validar_configuracion.
  repeat match goal with |- context [if ?b then _ else _] => destruct b end;
    intro H; inversion H; reflexivity.
Qed.

(** [validar_configuracion] raises exactly on an unknown null strategy,
    on an unknown imputation method when the strategy is "imputar", and
    on an unknown outlier method. *)
Lemma validar_configuracion_error (cf : ConfiguracionFinal) :
  (exists ex, validar_configuracion cf = Error ex) <->
  (contiene (estrategia (manejo_nulos cf)) ["eliminar"; "imputar"; "marcar"] = false
   \/ (estrategia (manejo_nulos cf) = "imputar"
       /\ contiene (imputacion (manejo_nulos cf))
                   ["media"; "mediana"; "moda"; "valor_fijo"] = false)
   \/ contiene (metodo (manejo_outliers cf)) ["iqr"; "zscore"; "isolation_forest"] = false).
Proof.
  unfold validar_configuracion.
  destruct (contiene (estrategia (manejo_nulos cf)) ["eliminar"; "imputar"; "marcar"]);
    cbn [negb].
  2: { split; [auto | intros _; eexists; reflexivity]. }
  destruct (String.eqb (estrategia (manejo_nulos cf)) "imputar") eqn:Ei.
  - apply String.eqb_eq in Ei.
    destruct (contiene (imputacion (manejo_nulos cf)) _); cbn [negb andb].
    2: { split; [auto | intros _; eexists; reflexivity]. }
    destruct (contiene (metodo (manejo_outliers cf)) _); cbn [negb].
    + split; [intros [ex H]; discriminate H | intros [H|[[_ H]|H]]; discriminate H].
    + split; [auto | intros _; eexists; reflexivity].
  - cbn [andb]. apply String.eqb_neq in Ei.
    destruct (contiene (metodo (manejo_outliers cf)) _); cbn [negb].
    + split; [intros [ex H]; discriminate H|].
      intros [H|[[H _]|H]]; try discriminate H. contradiction.
    + split; [auto | intros _; eexists; reflexivity].
Qed.

(** C6, amended.  [agregar_transformador] never validates: it appends the
    transformer and returns.  An invalid setting (unknown null strategy,
    unknown imputation method under "imputar", unknown outlier method) is
    detected by [validar_configuracion] at every call of [transformar],
    which raises an [ErrorTransformacion] that carries the message of the
    [ErrorConfiguracion]; a run that reaches the transformer returns a
    failed result with that message as its only error. *)
Theorem configuracion_invalida_falla_al_transformar :
  forall (Mundo : Type) (rp : Q -> string) (mo : list Valor -> option Valor)
         (nf : ConfigFechas -> list Valor -> option (list Valor))
         (e : EjecutorPipeline Mundo) (c : Configuracion) (ex : Excepcion),
    validar_configuracion (configuracion_final c) = Error ex ->
    let t := TransformadorLimpieza rp mo nf c in
    let e' := {| configuracion := configuracion e;
                 extractores := extractores e;
                 transformadores := (transformadores e ++ [t])%list;
                 cargadores := cargadores e;
                 validadores := validadores e |} in
    let error := "Error en transformación de limpieza: " ++ mensaje ex in
    agregar_transformador e t = Ok e'
    /\ tipo ex = "ErrorConfiguracion"
    /\ (forall datos, transformar rp mo nf c datos = Error (ErrorTransformacion error))
    /\ (forall (utcnow : Mundo -> Q) (p : Parametros) (w w1 w2 w3 : Mundo)
               (datos_e datos_t : list Registro),
          _ejecutar_extraccion e p w = (w1, Ok datos_e) ->
          (if ConfiguracionPipeline.validar_entrada (configuracion e)
           then _ejecutar_validacion_entrada e datos_e
           else devolver tt) w1 = (w2, Ok tt) ->
          _ejecutar_transformacion e datos_e w2 = (w3, Ok datos_t) ->
          exists r, ejecutar utcnow e' p w = (w3, r)
            /\ errores r = [error]
            /\ registros_exitosos r = 0).
Proof.
  intros Mundo rp mo nf e c ex Hval t e' error.
  assert (Htr : forall datos,
             transformar rp mo nf c datos = Error (ErrorTransformacion error)).
  { intro datos. unfold transformar. rewrite Hval. reflexivity. }
  split; [reflexivity|]. split; [exact (validar_configuracion_tipo _ _ Hval)|].
  split; [exact Htr|].
  intros utcnow p w w1 w2 w3 datos_e datos_t Hext Hvalid Htrans.
  destruct (ejecutar_error utcnow e' p w w3 (ErrorTransformacion error))
    as [r [Hr [He [_ [Hx _]]]]].
  - apply cuerpo_previas_error. unfold fases_previas, encadenar.
    change (_ejecutar_extraccion e' p w) with (_ejecutar_extraccion e p w).
    rewrite Hext.
    change ((if ConfiguracionPipeline.validar_entrada (configuracion e')
             then _ejecutar_validacion_entrada e' datos_e else devolver tt) w1)
      with ((if ConfiguracionPipeline.validar_entrada (configuracion e)
             then _ejecutar_validacion_entrada e datos_e else devolver tt) w1).
    rewrite Hvalid.
    unfold _ejecutar_transformacion. cbn [transformadores e'].
    rewrite transformar_con_app.
    unfold _ejecutar_transformacion in Htrans. rewrite Htrans.
    cbn [transformar_con]. unfold encadenar, t, TransformadorLimpieza.
    rewrite Htr. reflexivity.
  - exists r. repeat split; assumption.
Qed.

Lemma configuracion_invalida_falla_al_transformar_testigo :
  validar_configuracion (configuracion_final config_estrategia_desconocida)
    = Error (ErrorConfiguracion "Estrategia de nulos inválida: interpolar")
  /\ exists e', agregar_transformador ejecutor_duplica
                  (TransformadorLimpieza repr_de_prueba moda_de_prueba fechas_de_prueba
                     config_estrategia_desconocida) = Ok e'
       /\ exists r, ejecutar reloj e' None 0%nat = (2%nat, r)
            /\ errores r =
                 ["Error en transformación de limpieza: Estrategia de nulos inválida: interpolar"]
            /\ registros_exitosos r = 0.
Proof.
  split; [reflexivity|].
  pose proof (configuracion_invalida_falla_al_transformar nat
                repr_de_prueba moda_de_prueba fechas_de_prueba
                ejecutor_duplica config_estrategia_desconocida _ eq_refl) as H.
  cbv zeta in H. destruct H as [Hreg [_ [_ Hrun]]].
  eexists. split; [exact Hreg|].
  exact (Hrun reloj None 0%nat 1%nat 1%nat 2%nat [registro_1] [registro_1; registro_1]
           eq_refl eq_refl eq_refl).
Defined.

(** ** Outliers *)

(** C9.  With the IQR method and factor 1.5, the outlier stage applied to
    the column [10, 12, 11, 13, 1000] drops the row of 1000 and keeps the
    other four rows, in order. *)
Theorem outliers_iqr_escenario :
  forall cf : ConfiguracionFinal,
    metodo (manejo_outliers cf) = "iqr" ->
    factor (manejo_outliers cf) = 3 # 2 ->
    (columnas_numericas (manejo_outliers cf) = None
     \/ columnas_numericas (manejo_outliers cf) = Some ["v"]) ->
    to_dict_records (crear_dataframe datos_outlier) = columna_v [10; 12; 11; 13; 1000]
    /\ to_dict_records (_manejar_outliers cf (crear_dataframe datos_outlier))
       = columna_v [10; 12; 11; 13].
Proof.
  intros cf Hm Hf Hc. split; [reflexivity|].
  unfold _manejar_outliers. rewrite Hm, Hf.
  destruct Hc as [Hc|Hc]; rewrite Hc; vm_compute; reflexivity.
Qed.

Lemma outliers_iqr_escenario_testigo :
  to_dict_records (_manejar_outliers configuracion_default (crear_dataframe datos_outlier))
  = columna_v [10; 12; 11; 13].
Proof.
  exact (proj2 (outliers_iqr_escenario configuracion_default eq_refl eq_refl
                  (or_introl eq_refl))).
Defined.

(** The quartiles behind C9: Q1 = 11, Q3 = 13, so the fences are 8 and 16. *)
Lemma cuartiles_escenario :
  quantile (map VInt [10; 12; 11; 13; 1000]) (1 # 4) = FFin 11
  /\ quantile (map VInt [10; 12; 11; 13; 1000]) (3 # 4) = FFin 13
  /\ outliers_iqr (map VInt [10; 12; 11; 13; 1000]) (3 # 2)
     = [false; false; false; false; true].
Proof. repeat split; vm_compute; reflexivity. Qed.

(** ** The end-to-end scenario *)

(** C7, as stated, fails: the text section is not part of the scenario's
    configuration, so it takes its default, which lower-cases: the value
    of ["b"] comes out as ["x"]. *)
Lemma escenario_cambia_texto : ~ escenario_sin_cambios transformar_de_prueba.
Proof.
  intros [salida [H Hm]]. vm_compute in H. inversion H; subst salida.
  inversion Hm as [|r1 r2 l1 l2 Hr _]; subst.
  inversion Hr as [|kv1 kv2 t1 t2 _ Hr']; subst.
  inversion Hr' as [|kv1' kv2' t1' t2' [_ Hb] _]; subst.
  cbn in Hb. destruct Hb as [Hb | [z [Hb _]]]; discriminate Hb.
Qed.

(** C7, amended.  With null strategy "eliminar", duplicates "primero",
    outliers disabled and the other sections at their defaults, the
    transformer maps the three records of the scenario to the single
    record [{"a": 1.0, "b": "x"}]: the row with the null is dropped and
    the duplicate removed, the text is lower-cased by the default text
    normalisation, and the number comes back as a float because its column
    held a null.  Three records go in and one comes out, also as counted
    by a run whose extraction yields these records.  (The date stage sees
    the column ["x", "x"], which it cannot convert.) *)
Theorem transformar_escenario :
  forall (rp : Q -> string) (mo : list Valor -> option Valor)
         (nf : ConfigFechas -> list Valor -> option (list Valor)),
    nf (normalizacion_fechas configuracion_default) [VStr "x"; VStr "x"] = None ->
    transformar rp mo nf config_escenario datos_escenario
      = Ok [[("a", VFloat (FFin 1)); ("b", VStr "x")]]
    /\ List.length datos_escenario = 3%nat
    /\ forall (Mundo : Type) (utcnow : Mundo -> Q) (x : ExtractorBase Mundo)
              (p : Parametros) (w w1 : Mundo),
         x p w = (w1, Ok datos_escenario) ->
         let e := {| configuracion := ConfiguracionPipeline.por_defecto "escenario";
                     extractores := [x];
                     transformadores := [TransformadorLimpieza rp mo nf config_escenario];
                     cargadores := []; validadores := [] |} in
         let r := snd (ejecutar utcnow e p w) in
         errores r = [] /\ registros_procesados r = 3 /\ registros_exitosos r = 1.
Proof.
  intros rp mo nf Hnf.
  assert (Ht : transformar rp mo nf config_escenario datos_escenario
               = Ok [[("a", VFloat (FFin 1)); ("b", VStr "x")]]).
  { cbv in Hnf. unfold transformar. cbv. rewrite Hnf. reflexivity. }
  split; [exact Ht|]. split; [reflexivity|].
  intros Mundo utcnow x p w w1 Hx e r. subst r e.
  unfold ejecutar, cuerpo, fases_previas, encadenar, devolver,
    _ejecutar_extraccion, _ejecutar_transformacion, _ejecutar_validacion_entrada,
    _ejecutar_validacion_salida, _ejecutar_carga.
  cbn [extractores transformadores cargadores validadores configuracion
       extraer_con transformar_con cargar_con validar_con
       ConfiguracionPipeline.validar_entrada ConfiguracionPipeline.validar_salida
       ConfiguracionPipeline.por_defecto].
  unfold encadenar, devolver, TransformadorLimpieza. rewrite Hx.
  cbn [app]. rewrite Ht. cbn [snd fst].
  vm_compute. repeat split; reflexivity.
Qed.

Lemma transformar_escenario_testigo :
  fechas_de_prueba (normalizacion_fechas configuracion_default) [VStr "x"; VStr "x"] = None
  /\ transformar_de_prueba config_escenario datos_escenario
     = Ok [[("a", VFloat (FFin 1)); ("b", VStr "x")]].
Proof.
  split; [reflexivity|].
  exact (proj1 (transformar_escenario repr_de_prueba moda_de_prueba fechas_de_prueba
                  eq_refl)).
Defined.

(** ** Duplicates *)

Lemma indices_sin_marca_In (marcas : list bool) :
  forall desde i,
    In i (indices_sin_marca desde marcas) <->
    (desde <= i < desde + List.length marcas
     /\ nth (i - desde) marcas true = false)%nat.
Proof.
  induction marcas as [|b ms IH]; intros desde i; cbn [indices_sin_marca List.length].
  - split; [intros [] | intros [H _]; lia].
  - assert (Hcola : In i (indices_sin_marca (S desde) ms) <->
                    (desde < i < desde + S (List.length ms)
                     /\ nth (i - desde) (b :: ms) true = false)%nat).
    { rewrite IH. split; intros [Hr Hn]; (split; [lia|]).
      - replace (i - desde)%nat with (S (i - S desde)) by lia. exact Hn.
      - replace (i - desde)%nat with (S (i - S desde)) in Hn by lia. exact Hn. }
    destruct b.
    + rewrite Hcola. split; intros [Hr Hn]; (split; [|exact Hn]); [lia|].
      destruct (Nat.eq_dec i desde) as [->|]; [|lia].
      rewrite Nat.sub_diag in Hn. discriminate Hn.
    + cbn [In]. rewrite Hcola. split.
      * intros [<- | [Hr Hn]].
        -- split; [lia|]. rewrite Nat.sub_diag. reflexivity.
        -- split; [lia | exact Hn].
      * intros [Hr Hn]. destruct (Nat.eq_dec desde i) as [->|]; [left; reflexivity|].
        right. split; [lia | exact Hn].
Qed.

Lemma indices_sin_marca_ordenados (marcas : list bool) :
  forall desde, StronglySorted lt (indices_sin_marca desde marcas).
Proof.
  induction marcas as [|b ms IH]; intro desde; cbn [indices_sin_marca].
  - constructor.
  - destruct b; [apply IH|]. constructor; [apply IH|].
    apply Forall_forall. intros i Hi. apply indices_sin_marca_In in Hi. lia.
Qed.

Lemma sin_marcados_indices {A} (d : A) (l : list A) :
  forall marcas desde,
    List.length marcas = List.length l ->
    sin_marcados l marcas
    = map (fun i => nth (i - desde) l d) (indices_sin_marca desde marcas).
Proof.
  induction l as [|x l IH]; intros [|b ms] desde Hlen; cbn in Hlen; try discriminate;
    cbn [sin_marcados indices_sin_marca map]; [reflexivity|].
  assert (Hcola : sin_marcados l ms
                  = map (fun i => nth (i - desde) (x :: l) d)
                        (indices_sin_marca (S desde) ms)).
  { rewrite (IH ms (S desde)) by lia. apply map_ext_in. intros i Hi.
    apply indices_sin_marca_In in Hi.
    replace (i - desde)%nat with (S (i - S desde)) by lia. reflexivity. }
  destruct b; cbn [map]; rewrite Hcola; [reflexivity|].
  rewrite Nat.sub_diag. reflexivity.
Qed.

Lemma marcar_vistos_length (claves : list (list Valor)) :
  forall vistos, List.length (marcar_vistos vistos claves) = List.length claves.
Proof.
  induction claves as [|k ks IH]; intro vistos; cbn; [reflexivity|].
  rewrite IH. reflexivity.
Qed.

(** The mark of a row looks at the rows before it and at the keys seen
    beforehand. *)
Lemma marcar_vistos_nth (claves : list (list Valor)) :
  forall vistos i,
    (i < List.length claves)%nat ->
    nth i (marcar_vistos vistos claves) true
    = existsb (clave_eqb (nth i claves [])) (rev (firstn i claves) ++ vistos).
Proof.
  induction claves as [|k ks IH]; intros vistos i Hi; cbn in Hi; [lia|].
  destruct i as [|i]; cbn [marcar_vistos nth firstn rev app]; [reflexivity|].
  rewrite IH by lia. rewrite <- app_assoc. reflexivity.
Qed.

Lemma existsb_falso {A} (f : A -> bool) (l : list A) :
  existsb f l = false <-> forall x, In x l -> f x = false.
Proof.
  split.
  - intros H x Hx. destruct (f x) eqn:Hf; [|reflexivity].
    assert (existsb f l = true) by (apply existsb_exists; exists x; auto).
    congruence.
  - intro H. destruct (existsb f l) eqn:He; [|reflexivity].
    apply existsb_exists in He. destruct He as [x [Hx Hf]].
    rewrite (H x Hx) in Hf. discriminate Hf.
Qed.

Lemma In_firstn_nth {A} (d : A) (l : list A) (i : nat) (x : A) :
  (i <= List.length l)%nat ->
  (In x (firstn i l) <-> exists j, (j < i)%nat /\ nth j l d = x).
Proof.
  revert i. induction l as [|y l IH]; intros i Hi; cbn in Hi.
  - replace i with 0%nat by lia. cbn. split; [intros [] | intros [j [Hj _]]; lia].
  - destruct i as [|i]; cbn [firstn In].
    + split; [intros [] | intros [j [Hj _]]; lia].
    + rewrite IH by lia. split.
      * intros [<- | [j [Hj Hx]]]; [exists 0%nat | exists (S j)]; split; auto; lia.
      * intros [[|j] [Hj Hx]]; [left; exact Hx | right; exists j; split; [lia | exact Hx]].
Qed.

Lemma primera_aparicion_nth (claves : list (list Valor)) (i : nat) :
  (i < List.length claves)%nat ->
  (nth i (marcar_vistos [] claves) true = false <->
   forall j, (j < i)%nat -> clave_eqb (nth i claves []) (nth j claves []) = false).
Proof.
  intro Hi. rewrite marcar_vistos_nth by exact Hi. rewrite app_nil_r, existsb_falso.
  split.
  - intros H j Hj. apply H. apply in_rev. rewrite rev_involutive.
    apply (In_firstn_nth [] claves i); [lia|]. exists j. auto.
  - intros H x Hx. apply in_rev in Hx.
    apply (In_firstn_nth [] claves i) in Hx; [|lia].
    destruct Hx as [j [Hj <-]]. apply H. exact Hj.
Qed.

Lemma clave_de_nil (ns : list string) (f : string -> bool) : clave_de ns f [] = [].
Proof. unfold clave_de. rewrite combine_nil. reflexivity. Qed.

(** The hash table of Python objects tells apart exactly the cells that do
    not hold the same value. *)
Lemma objeto_eqb_mismo_dato (a b : Valor) :
  objeto_eqb a b = true <-> mismo_dato a b.
Proof.
  split.
  - unfold objeto_eqb. intro H. apply andb_true_iff in H. destruct H as [Hn H].
    destruct a as [|z|[|s|p]|s|x], b as [|y|[|t|q]|t|y];
      cbn in Hn, H; try discriminate; try constructor.
    + apply Qeq_bool_iff in H. eapply mismo_numero; [reflexivity | reflexivity | exact H].
    + apply Qeq_bool_iff in H. eapply mismo_numero; [reflexivity | reflexivity | exact H].
    + apply Qeq_bool_iff in H. eapply mismo_numero; [reflexivity | reflexivity | exact H].
    + apply Bool.eqb_prop in H. subst t. constructor.
    + apply Qeq_bool_iff in H. eapply mismo_numero; [reflexivity | reflexivity | exact H].
    + apply Qeq_bool_iff in H. eapply mismo_numero; [reflexivity | reflexivity | exact H].
    + apply Qeq_bool_iff in H. eapply mismo_numero; [reflexivity | reflexivity | exact H].
    + apply String.eqb_eq in H. subst t. constructor.
    + apply Qeq_bool_iff in H. eapply mismo_numero; [reflexivity | reflexivity | exact H].
    + apply Qeq_bool_iff in H. eapply mismo_numero; [reflexivity | reflexivity | exact H].
    + apply Qeq_bool_iff in H. eapply mismo_numero; [reflexivity | reflexivity | exact H].
  - intro H. destruct H as [s|a b p q Ha Hb Hpq|n| |].
    + unfold objeto_eqb. cbn. apply String.eqb_refl.
    + apply Qeq_bool_iff in Hpq.
      destruct a as [|z|[|s|p']|s|x], b as [|y|[|t|q']|t|y]; cbn in Ha, Hb;
        try discriminate; injection Ha as <-; injection Hb as <-; exact Hpq.
    + unfold objeto_eqb. cbn. apply Bool.eqb_reflx.
    + reflexivity.
    + reflexivity.
Qed.

Lemma clave_valor_eqb_celdas_iguales (a b : Valor) :
  clave_valor_eqb a b = true <-> celdas_iguales false a b.
Proof.
  unfold celdas_iguales. rewrite <- objeto_eqb_mismo_dato. unfold objeto_eqb. split.
  - intro H. destruct (es_nulo a) eqn:Ha, (es_nulo b) eqn:Hb.
    + right. auto.
    + destruct a as [|z|[|s|p]|s|x]; try discriminate Ha;
        destruct b as [|y|[|t|q]|t|y]; try discriminate Hb; discriminate H.
    + destruct a as [|z|[|s|p]|s|x]; try discriminate Ha;
        destruct b as [|y|[|t|q]|t|y]; try discriminate Hb; discriminate H.
    + left. rewrite H.
      destruct a as [|z|[|s|p]|s|x]; try discriminate Ha;
        destruct b as [|y|[|t|q]|t|y]; try discriminate Hb; reflexivity.
  - intros [H|[_ [Ha Hb]]].
    + apply andb_true_iff in H. tauto.
    + destruct a as [|z|[|s|p]|s|x]; try discriminate Ha;
        destruct b as [|y|[|t|q]|t|y]; try discriminate Hb; reflexivity.
Qed.

Lemma clave_eqb_Forall2 (k1 : list Valor) :
  forall k2, clave_eqb k1 k2 = true <-> Forall2 (celdas_iguales false) k1 k2.
Proof.
  induction k1 as [|a k1 IH]; intros [|b k2]; cbn [clave_eqb].
  - split; [constructor | reflexivity].
  - split; [discriminate | intro H; inversion H].
  - split; [discriminate | intro H; inversion H].
  - rewrite andb_true_iff, clave_valor_eqb_celdas_iguales, IH. split.
    + intros [H1 H2]. constructor; assumption.
    + intro H. inversion H; subst. split; assumption.
Qed.

Lemma clave_eqb_con_none (k1 : list Valor) :
  forall k2, clave_eqb (con_none k1) (con_none k2) = true
             <-> Forall2 (celdas_iguales true) k1 k2.
Proof.
  induction k1 as [|a k1 IH]; intros [|b k2]; cbn [con_none flat_map app clave_eqb].
  - split; [constructor | reflexivity].
  - split; [discriminate | intro H; inversion H].
  - split; [discriminate | intro H; inversion H].
  - fold (con_none k1). fold (con_none k2).
    assert (Hab : clave_valor_eqb a b && clave_valor_eqb (VBool (es_none a)) (VBool (es_none b))
                  = true <-> celdas_iguales true a b).
    { unfold celdas_iguales. rewrite <- objeto_eqb_mismo_dato. unfold objeto_eqb.
      assert (Hn : clave_valor_eqb (VBool (es_none a)) (VBool (es_none b))
                   = Bool.eqb (es_none a) (es_none b))
        by (destruct (es_none a), (es_none b); reflexivity).
      rewrite Hn, andb_comm. split; [intro H; left; exact H|].
      intros [H|[H _]]; [exact H | discriminate H]. }
    rewrite andb_assoc, andb_true_iff, Hab, IH. split.
    + intros [H1 H2]. constructor; assumption.
    + intro H. inversion H; subst. split; assumption.
Qed.

(** The keys of two rows are equal exactly when the rows are equal under
    the dedupe key. *)
Lemma clave_fila_iguales (df : DataFrame) (sub : option (list string))
    (fila1 fila2 : list Valor) :
  clave_eqb (clave_fila df sub fila1) (clave_fila df sub fila2) = true
  <-> iguales_bajo_clave df sub fila1 fila2.
Proof.
  unfold clave_fila, iguales_bajo_clave. cbv zeta.
  destruct (por_serie df sub); [apply clave_eqb_con_none | apply clave_eqb_Forall2].
Qed.

Lemma clave_fila_distintas (df : DataFrame) (sub : option (list string))
    (fila1 fila2 : list Valor) :
  clave_eqb (clave_fila df sub fila1) (clave_fila df sub fila2) = false
  <-> ~ iguales_bajo_clave df sub fila1 fila2.
Proof.
  rewrite <- clave_fila_iguales.
  destruct (clave_eqb _ _); split; intro H; try reflexivity; try discriminate.
  exfalso. apply H. reflexivity.
Qed.

Lemma clave_fila_nil (df : DataFrame) (sub : option (list string)) :
  clave_fila df sub [] = [].
Proof.
  unfold clave_fila. cbv zeta. rewrite clave_de_nil. destruct (por_serie df sub); reflexivity.
Qed.

(** The rows kept under "keep first" are the first appearances. *)
Lemma sin_marcados_primeras (df : DataFrame) (sub : option (list string)) :
  exists idx,
    primeras_apariciones df sub idx
    /\ sin_marcados (filas df)
         (marcar_vistos [] (map (clave_fila df sub) (filas df)))
       = map (fun i => nth i (filas df) []) idx.
Proof.
  set (k := clave_fila df sub).
  set (marcas := marcar_vistos [] (map k (filas df))).
  assert (Hlen : List.length marcas = List.length (filas df)).
  { unfold marcas. rewrite marcar_vistos_length, length_map. reflexivity. }
  exists (indices_sin_marca 0 marcas). split; [split|].
  - apply indices_sin_marca_ordenados.
  - intro i. rewrite indices_sin_marca_In, Nat.sub_0_r, Hlen. cbn [Nat.add].
    split; intros [Hi Hm]; (split; [lia|]).
    + assert (Hi' : (i < List.length (map k (filas df)))%nat)
        by (rewrite length_map; lia).
      intros j Hj. unfold marcas in Hm.
      pose proof (proj1 (primera_aparicion_nth _ i Hi') Hm j Hj) as Hf.
      rewrite <- (clave_fila_nil df sub) in Hf.
      fold k in Hf. rewrite !map_nth in Hf. apply clave_fila_distintas. exact Hf.
    + assert (Hi' : (i < List.length (map k (filas df)))%nat)
        by (rewrite length_map; lia).
      unfold marcas. apply (proj2 (primera_aparicion_nth _ i Hi')).
      intros j Hj. rewrite <- (clave_fila_nil df sub).
      fold k. rewrite !map_nth. apply clave_fila_distintas, Hm. exact Hj.
  - rewrite (sin_marcados_indices [] (filas df) marcas 0%nat Hlen).
    apply map_ext. intro i. rewrite Nat.sub_0_r. reflexivity.
Qed.

Lemma duplicated_marcas (df : DataFrame) (sub : option (list string)) (keep : Keep)
    (marcas : list bool) :
  duplicated df sub keep = Ok marcas ->
  es_vacio df = false ->
  marcas = duplicated_claves keep (map (clave_fila df sub) (filas df)).
Proof.
  unfold duplicated. intros H Hv. rewrite Hv in H. destruct sub as [s|].
  - destruct (negb (forallb (fun c => contiene c (nombres df)) s)); [discriminate H|].
    destruct s; [discriminate H|]. inversion H. reflexivity.
  - inversion H. reflexivity.
Qed.

Lemma duplicated_valido (df : DataFrame) (sub : option (list string)) (keep : Keep) :
  subset_valido df sub -> exists marcas, duplicated df sub keep = Ok marcas.
Proof.
  unfold duplicated, subset_valido. intro H.
  destruct (es_vacio df); [eexists; reflexivity|].
  destruct sub as [s|]; [|eexists; reflexivity].
  destruct H as [Hs Hc]. rewrite Hc. cbn [negb].
  destruct s; [contradiction|]. eexists; reflexivity.
Qed.

Lemma drop_duplicates_filas (df df' : DataFrame) (sub : option (list string))
    (keep : Keep) :
  drop_duplicates df sub keep = Ok df' ->
  df' = if es_vacio df then df
        else con_filas df
               (sin_marcados (filas df)
                  (duplicated_claves keep (map (clave_fila df sub) (filas df)))).
Proof.
  unfold drop_duplicates. destruct (es_vacio df) eqn:Hv; intro H.
  - inversion H. reflexivity.
  - destruct (duplicated df sub keep) as [marcas|ex] eqn:Hd; [|discriminate H].
    cbn in H. inversion H. rewrite (duplicated_marcas _ _ _ _ Hd Hv). reflexivity.
Qed.

Lemma manejar_duplicados_primero (cf : ConfiguracionFinal) (df df' : DataFrame) :
  mantener (manejo_duplicados cf) = "primero" ->
  _manejar_duplicados cf df = Ok df' ->
  drop_duplicates df (subset (manejo_duplicados cf)) KeepFirst = Ok df'.
Proof.
  unfold _manejar_duplicados. intros Hm H. rewrite Hm, String.eqb_refl in H.
  destruct (duplicated df _ KeepFirst) as [antes|ex]; [|discriminate H]. cbn [ligar] in H.
  destruct (drop_duplicates df _ KeepFirst) as [df_limpio|ex]; [|discriminate H].
  cbn [ligar] in H.
  destruct (duplicated df_limpio _ KeepFirst) as [despues|ex]; [|discriminate H].
  cbn [ligar] in H. inversion H. reflexivity.
Qed.

Lemma subset_valido_con_filas (df : DataFrame) (fs : list (list Valor))
    (sub : option (list string)) :
  subset_valido df sub -> subset_valido (con_filas df fs) sub.
Proof. intro H. exact H. Qed.

(** The stage returns whenever the configured [subset] is valid. *)
Lemma manejar_duplicados_total (cf : ConfiguracionFinal) (df : DataFrame) :
  subset_valido df (subset (manejo_duplicados cf)) ->
  exists df', _manejar_duplicados cf df = Ok df'.
Proof.
  intro Hs. unfold _manejar_duplicados.
  destruct (duplicated_valido df _ KeepFirst Hs) as [antes ->]. cbn [ligar].
  assert (Hdrop : forall keep, exists df_limpio,
             drop_duplicates df (subset (manejo_duplicados cf)) keep = Ok df_limpio
             /\ subset_valido df_limpio (subset (manejo_duplicados cf))).
  { intro keep. unfold drop_duplicates. destruct (es_vacio df).
    - exists df. split; [reflexivity | exact Hs].
    - destruct (duplicated_valido df _ keep Hs) as [marcas ->]. cbn [ligar].
      eexists. split; [reflexivity|]. apply subset_valido_con_filas. exact Hs. }
  assert (Hfin : forall df_limpio,
             subset_valido df_limpio (subset (manejo_duplicados cf)) ->
             exists df', (sea despues <- duplicated df_limpio
                                           (subset (manejo_duplicados cf)) KeepFirst ;;
                          Ok df_limpio)%res = Ok df').
  { intros df_limpio Hl.
    destruct (duplicated_valido df_limpio _ KeepFirst Hl) as [despues ->].
    eexists. reflexivity. }
  destruct (String.eqb (mantener (manejo_duplicados cf)) "primero").
  { destruct (Hdrop KeepFirst) as [d [-> Hd]]. cbn [ligar]. apply Hfin, Hd. }
  destruct (String.eqb (mantener (manejo_duplicados cf)) "ultimo").
  { destruct (Hdrop KeepLast) as [d [-> Hd]]. cbn [ligar]. apply Hfin, Hd. }
  destruct (String.eqb (mantener (manejo_duplicados cf)) "ninguno").
  { destruct (Hdrop KeepFalse) as [d [-> Hd]]. cbn [ligar]. apply Hfin, Hd. }
  cbn [ligar]. apply Hfin, Hs.
Qed.

(** C8, as stated, fails on a record set whose records have no field: the
    frame built from [[{}, {}]] has two rows and no column; it is empty,
    [drop_duplicates] returns it as it is, and both rows, equal under the
    (empty) key, are in the output of the stage. *)
Lemma duplicados_sin_columnas_sobreviven :
  _manejar_duplicados configuracion_default (crear_dataframe [[]; []])
    = Ok {| columnas := []; filas := [[]; []] |}
  /\ iguales_bajo_clave (crear_dataframe [[]; []]) None [] []
  /\ ~ conserva_primeras configuracion_default (crear_dataframe [[]; []]).
Proof.
  split; [reflexivity|]. split; [constructor|].
  intro H. destruct (H _ eq_refl) as [_ [idx [[Hord Hin] Hfilas]]].
  cbn in Hfilas.
  assert (Hcero : forall i, In i idx -> i = 0%nat).
  { intros i Hi. apply Hin in Hi. destruct Hi as [Hi Hj].
    destruct i as [|i]; [reflexivity|].
    specialize (Hj 0%nat (Nat.lt_0_succ i)). cbn in Hi.
    exfalso. apply Hj. destruct i as [|[|i]]; cbn; constructor. }
  destruct idx as [|a [|b idx]]; try discriminate Hfilas.
  inversion Hord as [|? ? _ Hall]; subst. inversion Hall as [|? ? Hab _]; subst.
  rewrite (Hcero a), (Hcero b) in Hab by (cbn; auto). lia.
Qed.

(** C8, amended.  On a frame with at least one column, what the duplicate
    stage returns under "primero" keeps the columns and holds exactly the
    rows that have no key-equal row before them, in their original order:
    of two rows equal under the key only the one with the lowest index
    survives.  Two rows are equal under the key when their cells in the key
    columns (all the columns, or those named by the subset) hold pairwise
    the same value, an integer, a float and a boolean of one numeric value
    being the same; two missing cells, [None] or NaN, are equal as well,
    except that a key of a single column keeps [None] and NaN apart. *)
Theorem duplicados_primero_conserva_primeras :
  forall (cf : ConfiguracionFinal) (df : DataFrame),
    mantener (manejo_duplicados cf) = "primero" ->
    columnas df <> [] ->
    conserva_primeras cf df.
Proof.
  intros cf df Hm Hcols.
  intros df' H. apply (manejar_duplicados_primero cf df df' Hm) in H.
  apply drop_duplicates_filas in H.
  destruct (sin_marcados_primeras df (subset (manejo_duplicados cf))) as [idx [Hp Hs]].
  destruct (es_vacio df) eqn:Hv; subst df'.
  - split; [reflexivity|]. exists idx. split; [exact Hp|].
    unfold es_vacio in Hv. destruct (columnas df); [contradiction|].
    destruct (filas df) eqn:Hf; [|discriminate Hv].
    rewrite <- Hs. reflexivity.
  - split; [reflexivity|]. exists idx. split; [exact Hp|]. exact Hs.
Qed.

Lemma duplicados_primero_conserva_primeras_testigo :
  _manejar_duplicados configuracion_default (crear_dataframe datos_ausentes)
  = Ok (crear_dataframe datos_ausentes)
  /\ conserva_primeras configuracion_default (crear_dataframe datos_ausentes)
  /\ _manejar_duplicados configuracion_default (crear_dataframe datos_escenario)
     = Ok {| columnas := [("a", Float64); ("b", Object)];
             filas := [[VFloat (FFin 1); VStr "X"]; [VFloat FNaN; VStr "x"]] |}
  /\ conserva_primeras configuracion_default (crear_dataframe datos_escenario).
Proof.
  split; [reflexivity|]. split.
  - apply duplicados_primero_conserva_primeras; [reflexivity | discriminate].
  - split; [reflexivity|].
    apply duplicados_primero_conserva_primeras; [reflexivity | discriminate].
Defined.

(** ** Quality metrics *)

Lemma Qlt_bool_iff (a b : Q) : Flt.Qlt_bool a b = true <-> (a < b)%Q.
Proof.
  unfold Flt.Qlt_bool. rewrite negb_true_iff. split; intro H.
  - apply Qnot_le_lt. intro Hle. apply Qle_bool_iff in Hle. congruence.
  - destruct (Qle_bool b a) eqn:E; [|reflexivity].
    apply Qle_bool_iff in E. apply Qle_not_lt in E. contradiction.
Qed.

Lemma redondear_acotado (x : Q) (n : Z) :
  (0 <= x)%Q -> (x <= inject_Z n)%Q -> 0 <= redondear x <= n.
Proof.
  intros H0 Hn. unfold redondear.
  assert (Hp0 : 0 <= Qfloor x).
  { change 0 with (Qfloor 0). apply Qfloor_resp_le. exact H0. }
  assert (Hpn : Qfloor x <= n).
  { rewrite <- (Qfloor_Z n). apply Qfloor_resp_le. exact Hn. }
  pose proof (Qfloor_le x) as Hfl.
  destruct (Flt.Qlt_bool (x - inject_Z (Qfloor x)) (1 # 2)) eqn:E1; [lia|].
  assert (Hlt : Qfloor x < n).
  { destruct (Z.eq_dec (Qfloor x) n) as [Heq|]; [|lia].
    assert (Hx : (x - inject_Z (Qfloor x) < 1 # 2)%Q) by (rewrite Heq; lra).
    apply Qlt_bool_iff in Hx. congruence. }
  destruct (Flt.Qlt_bool (1 # 2) (x - inject_Z (Qfloor x))); [lia|].
  destruct (Z.even (Qfloor x)); lia.
Qed.

Lemma round2_acotado (q : Q) :
  (0 <= q <= 100)%Q -> (0 <= round2 q <= 100)%Q.
Proof.
  intros [H0 H1]. unfold round2. rewrite Qred_correct.
  destruct (redondear_acotado (q * 100) 10000) as [Ha Hb].
  - lra.
  - change (inject_Z 10000) with (100 * 100)%Q. lra.
  - rewrite Zle_Qle in Ha, Hb. change (inject_Z 0) with 0%Q in Ha.
    change (inject_Z 10000) with (100 * 100)%Q in Hb.
    split.
    + apply Qle_shift_div_l; lra.
    + apply Qle_shift_div_r; lra.
Qed.

Lemma razon_acotada (a b : nat) :
  (a <= b)%nat -> (0 < b)%nat -> (0 <= razon a b * 100 <= 100)%Q.
Proof.
  intros Hab Hb. unfold razon.
  destruct (razon_Z_acotada (Z.of_nat a) (Z.of_nat b)) as [H0 H1]; [lia | lia |].
  assert (H1' : (inject_Z (Z.of_nat a) / inject_Z (Z.of_nat b) <= 1)%Q)
    by (apply H1; lia).
  split; lra.
Qed.

Lemma porcentaje_acotado (a b : nat) :
  (a <= b)%nat -> (0 <= porcentaje a b <= 100)%Q.
Proof.
  intro Hab. unfold porcentaje. destruct (Nat.ltb 0 b) eqn:E.
  - apply razon_acotada; [exact Hab | apply Nat.ltb_lt; exact E].
  - split; lra.
Qed.

Lemma col_puntuacion_max (d : DType) (serie : list Valor) :
  (col_puntuacion d serie <= 3)%nat.
Proof.
  unfold col_puntuacion, b2n.
  repeat match goal with |- context [if ?b then _ else _] => destruct b end; lia.
Qed.

Lemma fold_left_suma {A} (f : A -> nat) (l : list A) :
  forall acc, fold_left (fun s x => (s + f x)%nat) l acc = (acc + list_sum (map f l))%nat.
Proof.
  induction l as [|x l IH]; intro acc; simpl; [lia|].
  rewrite IH. lia.
Qed.

Lemma list_sum_max {A} (f : A -> nat) (k : nat) (l : list A) :
  (forall x, f x <= k)%nat -> (list_sum (map f l) <= k * List.length l)%nat.
Proof.
  intro H. induction l as [|x l IH]; simpl; [lia|].
  specialize (H x). lia.
Qed.

Lemma columnas_numeradas_length (df : DataFrame) :
  List.length (columnas_numeradas df) = List.length (columnas df).
Proof.
  unfold columnas_numeradas. rewrite length_combine, length_seq. lia.
Qed.

Lemma puntuacion_total_max (df : DataFrame) :
  (puntuacion_total df <= 3 * List.length (columnas df))%nat.
Proof.
  unfold puntuacion_total. rewrite <- columnas_numeradas_length.
  apply list_sum_max. intro icd. apply col_puntuacion_max.
Qed.

Lemma precision_porcentaje (df : DataFrame) :
  _calcular_precision_datos df
  = porcentaje (puntuacion_total df) (3 * List.length (columnas df)).
Proof.
  unfold _calcular_precision_datos, porcentaje.
  destruct (List.length (columnas df)) as [|n] eqn:E; [reflexivity|].
  cbn [Nat.eqb]. rewrite fold_left_suma. cbn [Nat.add].
  replace (Nat.ltb 0 (3 * S n)) with true by (symmetry; apply Nat.ltb_lt; lia).
  unfold puntuacion_total. rewrite (Nat.mul_comm (S n) 3). reflexivity.
Qed.

(** Every row of a frame built from records has one cell per column. *)
Lemma crear_dataframe_ancho (datos : list Registro) :
  Forall (fun fila => List.length fila = List.length (columnas (crear_dataframe datos)))
         (filas (crear_dataframe datos)).
Proof.
  unfold crear_dataframe. cbn [filas columnas]. apply Forall_forall.
  intros fila Hf. apply in_map_iff in Hf. destruct Hf as [r [<- _]].
  rewrite !length_map. reflexivity.
Qed.

Lemma concat_length_ancho {A} (k : nat) (l : list (list A)) :
  Forall (fun fila => List.length fila = k) l ->
  List.length (List.concat l) = (List.length l * k)%nat.
Proof.
  induction 1 as [|fila l Hf _ IH]; cbn [List.concat List.length]; [reflexivity|].
  rewrite length_app, IH, Hf. lia.
Qed.

Lemma contar_si_complemento {A} (p : A -> bool) (l : list A) :
  (contar_si p l + contar_si (fun x => negb (p x)) l = List.length l)%nat.
Proof.
  unfold contar_si. induction l as [|x l IH]; cbn [filter List.length]; [reflexivity|].
  destruct (p x); cbn [negb List.length]; lia.
Qed.

Lemma sin_marcados_length {A} (l : list A) :
  forall marcas,
    List.length marcas = List.length l ->
    (List.length (sin_marcados l marcas) + contar_si (fun m : bool => m) marcas
     = List.length l)%nat.
Proof.
  unfold contar_si.
  induction l as [|x l IH]; intros [|b ms] Hlen; cbn in Hlen; try discriminate;
    cbn [sin_marcados filter List.length]; [reflexivity|].
  specialize (IH ms ltac:(lia)). destruct b; cbn [List.length]; lia.
Qed.

Lemma no_nulas_por_resta (datos : list Registro) :
  let df := crear_dataframe datos in
  (total_celdas df - contar_si es_nulo (List.concat (filas df)))%nat = celdas_no_nulas df.
Proof.
  intro df. unfold total_celdas, celdas_no_nulas.
  pose proof (contar_si_complemento es_nulo (List.concat (filas df))) as Hc.
  rewrite (concat_length_ancho (List.length (columnas df))) in Hc
    by apply crear_dataframe_ancho.
  lia.
Qed.

Lemma unicos_por_resta (df : DataFrame) :
  exists marcas,
    duplicated df None KeepFirst = Ok marcas
    /\ (List.length (filas df) - contar_si (fun m : bool => m) marcas)%nat
       = registros_unicos df.
Proof.
  unfold registros_unicos, drop_duplicates, duplicated.
  destruct (es_vacio df); [exists []; split; [reflexivity | cbn; lia]|].
  eexists. split; [reflexivity|]. cbn [ligar con_filas filas duplicated_claves].
  set (marcas := marcar_vistos [] _).
  pose proof (sin_marcados_length (filas df) marcas) as H.
  unfold marcas in H at 1. rewrite marcar_vistos_length, length_map in H.
  specialize (H eq_refl). lia.
Qed.

Lemma registros_unicos_max (df : DataFrame) :
  (registros_unicos df <= List.length (filas df))%nat.
Proof.
  destruct (unicos_por_resta df) as [marcas [_ <-]]. lia.
Qed.

Lemma redondear_comp (p q : Q) : (p == q)%Q -> redondear p = redondear q.
Proof.
  intro H. unfold redondear, Flt.Qlt_bool. rewrite (Qfloor_comp _ _ H).
  assert (Hr : (p - inject_Z (Qfloor q) == q - inject_Z (Qfloor q))%Q)
    by (rewrite H; reflexivity).
  rewrite (Qleb_comp _ _ (Qeq_refl (1 # 2)) _ _ Hr).
  rewrite (Qleb_comp _ _ Hr _ _ (Qeq_refl (1 # 2))). reflexivity.
Qed.

Lemma round2_comp (p q : Q) : (p == q)%Q -> round2 p = round2 q.
Proof.
  intro H. unfold round2. rewrite (redondear_comp (p * 100) (q * 100)); [reflexivity|].
  rewrite H. reflexivity.
Qed.

Lemma round2_total (n : nat) : (0 < n)%nat -> round2 (razon n n * 100) = 100%Q.
Proof.
  intro Hn. rewrite (round2_comp _ 100); [reflexivity|].
  unfold razon. field. intro H0.
  assert (Hz : (0 < inject_Z (Z.of_nat n))%Q).
  { rewrite <- (Zlt_Qlt 0). lia. }
  rewrite H0 in Hz. exact (Qlt_irrefl _ Hz).
Qed.

Lemma convertir_es_nulo (d : DType) (v : Valor) : es_nulo (convertir d v) = es_nulo v.
Proof. destruct d, v; reflexivity. Qed.

Lemma nombres_crear_dataframe (datos : list Registro) :
  nombres (crear_dataframe datos) = nombres_columnas datos.
Proof.
  unfold nombres, crear_dataframe. cbn [columnas]. rewrite map_map. cbn [fst].
  apply map_id.
Qed.

Lemma crear_dataframe_length (datos : list Registro) :
  List.length (filas (crear_dataframe datos)) = List.length datos.
Proof. unfold crear_dataframe. cbn [filas]. apply length_map. Qed.

Lemma es_vacio_sin_columnas (df : DataFrame) : nombres df = [] -> es_vacio df = true.
Proof.
  unfold nombres, es_vacio. destruct (columnas df); [reflexivity | discriminate].
Qed.

(** The formulas of the scorer on the frame it builds: each score is a
    percentage rounded to two decimals. *)
Lemma metricas_calidad_formulas :
  forall datos : list Registro,
    exists m, calcular_metricas_calidad datos = Ok m
      /\ (0 <= completitud m <= 100)%Q
      /\ (0 <= consistencia m <= 100)%Q
      /\ (0 <= precision m <= 100)%Q
      /\ (datos <> [] ->
          let df := crear_dataframe datos in
          completitud m = round2 (porcentaje (celdas_no_nulas df) (total_celdas df))
          /\ consistencia m
             = round2 (porcentaje (registros_unicos df) (List.length (filas df)))
          /\ precision m
             = round2 (porcentaje (puntuacion_total df) (3 * List.length (columnas df)))
          /\ (celdas_no_nulas df <= total_celdas df)%nat
          /\ (registros_unicos df <= List.length (filas df))%nat
          /\ (puntuacion_total df <= 3 * List.length (columnas df))%nat).
Proof.
  intros [|r datos].
  - eexists. split; [reflexivity|]. cbn [completitud consistencia precision].
    split; [split; lra|]. split; [split; lra|]. split; [split; lra|].
    intro H. contradiction.
  - set (todos := r :: datos). set (df := crear_dataframe todos).
    destruct (unicos_por_resta df) as [marcas [Hd Hu]].
    pose proof (no_nulas_por_resta todos) as Hn. cbv zeta in Hn. fold df in Hn.
    assert (Hnn : (celdas_no_nulas df <= total_celdas df)%nat) by (rewrite <- Hn; lia).
    pose proof (registros_unicos_max df) as Hum.
    pose proof (puntuacion_total_max df) as Hpm.
    unfold calcular_metricas_calidad. fold todos. fold df. rewrite Hd. cbn [ligar].
    fold (total_celdas df). rewrite Hn, Hu, precision_porcentaje.
    fold (porcentaje (celdas_no_nulas df) (total_celdas df)).
    fold (porcentaje (registros_unicos df) (List.length (filas df))).
    eexists. split; [reflexivity|]. cbn [completitud consistencia precision].
    split; [apply round2_acotado, porcentaje_acotado, Hnn|].
    split; [apply round2_acotado, porcentaje_acotado, Hum|].
    split; [apply round2_acotado, porcentaje_acotado, Hpm|].
    intros _. repeat split; assumption.
Qed.

Lemma contar_si_cero {A} (p : A -> bool) (l : list A) :
  contar_si p l = 0%nat <-> forall x, In x l -> p x = false.
Proof.
  unfold contar_si. induction l as [|x l IH]; cbn [filter].
  - split; [intros _ y [] | reflexivity].
  - destruct (p x) eqn:Hp; cbn [List.length].
    + split; [discriminate|]. intro H. specialize (H x (or_introl eq_refl)). congruence.
    + rewrite IH. split.
      * intros H y [<-|Hy]; [exact Hp | exact (H y Hy)].
      * intros H y Hy. apply H. right. exact Hy.
Qed.

Lemma tiene_datos_contar (serie : list Valor) :
  Nat.eqb (contar_si (fun v => negb (es_nulo v)) serie) 0 = false <-> tiene_datos serie.
Proof.
  unfold tiene_datos. split.
  - intro H. apply Nat.eqb_neq in H.
    destruct (existsb (fun v => negb (es_nulo v)) serie) eqn:He.
    + apply existsb_exists in He. destruct He as [v [Hv Hn]]. exists v.
      split; [exact Hv|]. apply negb_true_iff. exact Hn.
    + exfalso. apply H. apply contar_si_cero. apply existsb_falso. exact He.
  - intros [v [Hv Hn]]. apply Nat.eqb_neq. intro H.
    rewrite contar_si_cero in H. specialize (H v Hv). rewrite Hn in H. discriminate H.
Qed.

Lemma punto_de_bool (b : bool) (P : Prop) :
  (b = true <-> P) -> punto P (b2n b).
Proof.
  intro H. destruct b; cbn [b2n].
  - left. split; [apply H; reflexivity | reflexivity].
  - right. split; [|reflexivity]. intro HP. apply H in HP. discriminate HP.
Qed.

Lemma sin_infinitos_existsb (serie : list Valor) :
  negb (existsb (fun v => Flt.es_inf (a_flotante v)) serie) = true <-> sin_infinitos serie.
Proof.
  rewrite negb_true_iff, existsb_falso. reflexivity.
Qed.

Lemma sin_extremos_tiene (d : DType) (serie : list Valor) :
  es_dtype_numerico d = true ->
  (negb (_tiene_outliers_extremos d serie) = true <-> sin_extremos serie).
Proof.
  intro Hd. unfold _tiene_outliers_extremos, sin_extremos, es_extremo. rewrite Hd.
  cbn [negb]. cbv zeta.
  set (Q1 := quantile serie (1 # 4)). set (Q3 := quantile serie (3 # 4)).
  set (IQR := Flt.resta Q3 Q1).
  destruct (Flt.eqb IQR (FFin 0)) eqn:Hi.
  - split; [|reflexivity]. intros _ v _ [H _]. discriminate H.
  - rewrite negb_true_iff, orb_false_iff, !existsb_falso. split.
    + intros [H1 H2] v Hv [_ [H|H]].
      * rewrite (H1 v Hv) in H. discriminate H.
      * rewrite (H2 v Hv) in H. discriminate H.
    + intro H. split; intros v Hv.
      * destruct (Flt.ltb (a_flotante v) _) eqn:E; [|reflexivity].
        exfalso. apply (H v Hv). split; [reflexivity|]. left. exact E.
      * destruct (Flt.ltb _ (a_flotante v)) eqn:E; [|reflexivity].
        exfalso. apply (H v Hv). split; [reflexivity|]. right. exact E.
Qed.

Lemma solo_texto_consistente (serie : list Valor) :
  _es_texto_consistente serie = true <-> solo_texto serie.
Proof.
  unfold _es_texto_consistente, solo_texto. rewrite forallb_forall. split.
  - intros H v Hv Hn. specialize (H v). rewrite filter_In in H.
    assert (Hs : es_str v = true) by (apply H; split; [exact Hv | rewrite Hn; reflexivity]).
    destruct v; try discriminate Hs. eexists. reflexivity.
  - intros H v Hv. apply filter_In in Hv. destruct Hv as [Hv Hn].
    apply negb_true_iff in Hn. destruct (H v Hv Hn) as [s ->]. reflexivity.
Qed.

Lemma pocos_nulos_razon (serie : list Valor) :
  serie <> [] ->
  (Flt.Qlt_bool (razon (contar_si es_nulo serie) (List.length serie)) (1 # 2) = true
   <-> pocos_nulos serie).
Proof.
  intro Hne. unfold pocos_nulos, razon. rewrite Qlt_bool_iff.
  assert (Hl : (0 < List.length serie)%nat) by (destruct serie; [contradiction | cbn; lia]).
  set (a := contar_si es_nulo serie). set (b := List.length serie) in *.
  assert (Hb : (0 < inject_Z (Z.of_nat b))%Q).
  { rewrite <- (Zlt_Qlt 0). lia. }
  split.
  - intro H.
    assert (H0 : (inject_Z (Z.of_nat a) / inject_Z (Z.of_nat b) * inject_Z (Z.of_nat b)
                  < (1 # 2) * inject_Z (Z.of_nat b))%Q)
      by (apply Qmult_lt_r; assumption).
    assert (H1 : (inject_Z (Z.of_nat a) / inject_Z (Z.of_nat b) * inject_Z (Z.of_nat b)
                  == inject_Z (Z.of_nat a))%Q) by (field; lra).
    rewrite H1 in H0.
    assert (H' : (inject_Z (Z.of_nat a) * 2 < inject_Z (Z.of_nat b))%Q) by lra.
    change 2%Q with (inject_Z 2) in H'. rewrite <- inject_Z_mult, <- Zlt_Qlt in H'. lia.
  - intro H. apply Qlt_shift_div_r; [exact Hb|].
    assert (H' : (inject_Z (Z.of_nat a) * 2 < inject_Z (Z.of_nat b))%Q).
    { change 2%Q with (inject_Z 2). rewrite <- inject_Z_mult, <- Zlt_Qlt. lia. }
    lra.
Qed.

Lemma col_puntuacion_puntos (d : DType) (serie : list Valor) :
  puntos_de_columna d serie (col_puntuacion d serie).
Proof.
  unfold col_puntuacion, puntos_de_columna.
  destruct (Nat.eqb (contar_si (fun v => negb (es_nulo v)) serie) 0) eqn:Hc.
  - left. split; [|reflexivity]. intro Ht. apply tiene_datos_contar in Ht. congruence.
  - right. pose proof (proj1 (tiene_datos_contar serie) Hc) as Ht. split; [exact Ht|].
    assert (Hne : serie <> []).
    { destruct Ht as [v [Hv _]]. intros ->. destruct Hv. }
    pose proof (punto_de_bool _ _ (pocos_nulos_razon serie Hne)) as Hn.
    destruct (es_dtype_numerico d) eqn:Hd.
    + exists (b2n (negb (existsb (fun v => Flt.es_inf (a_flotante v)) serie))),
             (b2n (negb (_tiene_outliers_extremos d serie))),
             (b2n (Flt.Qlt_bool (razon (contar_si es_nulo serie) (List.length serie)) (1 # 2))).
      split; [reflexivity|]. split; [exact Hn|].
      assert (Hp : punto (sin_infinitos serie)
                     (b2n (negb (existsb (fun v => Flt.es_inf (a_flotante v)) serie)))
                   /\ punto (sin_extremos serie)
                        (b2n (negb (_tiene_outliers_extremos d serie)))).
      { split; apply punto_de_bool;
          [apply sin_infinitos_existsb | apply sin_extremos_tiene; exact Hd]. }
      destruct d; try discriminate Hd; exact Hp.
    + destruct (dtype_eqb d Object) eqn:Ho.
      * exists (b2n (_es_texto_consistente serie)), 0%nat,
               (b2n (Flt.Qlt_bool (razon (contar_si es_nulo serie) (List.length serie))
                       (1 # 2))).
        split; [lia|]. split; [exact Hn|].
        destruct d; try discriminate Ho.
        split; [apply punto_de_bool, solo_texto_consistente | reflexivity].
      * exists 0%nat, 0%nat,
               (b2n (Flt.Qlt_bool (razon (contar_si es_nulo serie) (List.length serie))
                       (1 # 2))).
        split; [reflexivity|]. split; [exact Hn|].
        destruct d; try discriminate Hd; try discriminate Ho; split; reflexivity.
Qed.

Lemma redondear_cerca (x : Q) :
  (- (1 # 2) <= inject_Z (redondear x) - x <= 1 # 2)%Q.
Proof.
  unfold redondear. cbv zeta.
  pose proof (Qfloor_le x) as Hle. pose proof (Qlt_floor x) as Hlt.
  rewrite inject_Z_plus in Hlt. change (inject_Z 1) with 1%Q in Hlt.
  destruct (Flt.Qlt_bool (x - inject_Z (Qfloor x)) (1 # 2)) eqn:E1.
  - apply Qlt_bool_iff in E1. split; lra.
  - assert (H1 : (1 # 2 <= x - inject_Z (Qfloor x))%Q).
    { apply Qnot_lt_le. intro H. apply Qlt_bool_iff in H. congruence. }
    destruct (Flt.Qlt_bool (1 # 2) (x - inject_Z (Qfloor x))) eqn:E2.
    + rewrite inject_Z_plus. change (inject_Z 1) with 1%Q. split; lra.
    + assert (H2 : (x - inject_Z (Qfloor x) <= 1 # 2)%Q).
      { apply Qnot_lt_le. intro H. apply Qlt_bool_iff in H. congruence. }
      destruct (Z.even (Qfloor x)).
      * split; lra.
      * rewrite inject_Z_plus. change (inject_Z 1) with 1%Q. split; lra.
Qed.

Lemma round2_cerca (q : Q) : (Qabs (round2 q - q) <= 1 # 100)%Q.
Proof.
  apply Qabs_Qle_condition. unfold round2. rewrite Qred_correct.
  pose proof (redondear_cerca (q * 100)) as [H1 H2].
  set (r := inject_Z (redondear (q * 100))) in *.
  assert (Hr : (r / 100 - q == (r - q * 100) / 100)%Q) by (field).
  rewrite Hr. split.
  - apply Qle_shift_div_l; lra.
  - apply Qle_shift_div_r; lra.
Qed.

Lemma contar_si_concat {A} (p : A -> bool) (l : list (list A)) :
  contar_si p (List.concat l) = list_sum (map (contar_si p) l).
Proof.
  unfold contar_si. induction l as [|x l IH]; [reflexivity|].
  cbn [List.concat map]. rewrite filter_app, length_app, IH. reflexivity.
Qed.

Lemma contar_si_map {A B} (f : A -> B) (p : B -> bool) (l : list A) :
  contar_si p (map f l) = contar_si (fun x => p (f x)) l.
Proof.
  unfold contar_si. induction l as [|x l IH]; [reflexivity|].
  cbn [map filter]. destruct (p (f x)); cbn [List.length]; rewrite IH; reflexivity.
Qed.

Lemma contar_si_ext {A} (p q : A -> bool) (l : list A) :
  (forall x, p x = q x) -> contar_si p l = contar_si q l.
Proof. intro H. unfold contar_si. rewrite (filter_ext _ _ H). reflexivity. Qed.

(** The cells of the frame that are not missing are the values present in
    the records. *)
Lemma celdas_no_nulas_presentes (datos : list Registro) :
  celdas_no_nulas (crear_dataframe datos) = valores_presentes datos.
Proof.
  unfold celdas_no_nulas, valores_presentes, crear_dataframe. cbn [filas].
  rewrite contar_si_concat, map_map. f_equal. apply map_ext. intro r.
  rewrite contar_si_map, contar_si_map. apply contar_si_ext. intro c. cbn [fst snd].
  rewrite convertir_es_nulo. unfold valor_presente, celda.
  destruct (buscar c r); reflexivity.
Qed.

Lemma total_celdas_campos (datos : list Registro) :
  total_celdas (crear_dataframe datos)
  = (List.length datos * List.length (nombres_columnas datos))%nat.
Proof.
  unfold total_celdas, crear_dataframe. cbn [filas columnas]. rewrite !length_map.
  reflexivity.
Qed.

(** The records the scorer counts as not duplicated are the first
    appearances. *)
Lemma registros_unicos_primeras (df : DataFrame) :
  es_vacio df = false ->
  exists idx, primeras_apariciones df None idx /\ registros_unicos df = List.length idx.
Proof.
  intro Hv. destruct (sin_marcados_primeras df None) as [idx [Hp Hs]].
  exists idx. split; [exact Hp|].
  unfold registros_unicos, drop_duplicates, duplicated. rewrite Hv.
  cbn [ligar con_filas filas duplicated_claves]. rewrite Hs. apply length_map.
Qed.

Lemma registros_unicos_vacio (df : DataFrame) :
  es_vacio df = true -> registros_unicos df = List.length (filas df).
Proof.
  intro Hv. unfold registros_unicos, drop_duplicates. rewrite Hv. reflexivity.
Qed.

Lemma primer_contenedor_escalares (celdas : list Objeto) :
  Forall (fun o => exists v, o = Escalar v) celdas -> primer_contenedor celdas = None.
Proof.
  induction 1 as [|o celdas [v ->] _ IH]; [reflexivity | exact IH].
Qed.

Lemma buscar_de_escalares (c : string) (r : Registro) :
  buscar c (de_escalares r) = option_map Escalar (buscar c r).
Proof.
  induction r as [|[k v] r IH]; [reflexivity|].
  cbn [de_escalares map buscar fst snd]. destruct (String.eqb k c); [reflexivity | exact IH].
Qed.

Lemma escalares_de_escalares (r : Registro) : escalares (de_escalares r) = r.
Proof.
  induction r as [|[k v] r IH]; [reflexivity|].
  cbn [de_escalares map escalares flat_map fst snd app]. f_equal. exact IH.
Qed.

(** On records of scalars the scorer meets no container. *)
Lemma calcular_metricas_calidad_de_escalares (datos : list Registro) :
  calcular_metricas_calidad_objetos (map de_escalares datos)
  = calcular_metricas_calidad datos.
Proof.
  unfold calcular_metricas_calidad_objetos.
  rewrite primer_contenedor_escalares.
  - f_equal. rewrite map_map. rewrite <- (map_id datos) at 2. apply map_ext.
    apply escalares_de_escalares.
  - unfold celdas_por_columna. apply Forall_forall. intros o Ho.
    apply in_flat_map in Ho. destruct Ho as [c [_ Ho]].
    apply in_map_iff in Ho. destruct Ho as [r' [<- Hr]].
    apply in_map_iff in Hr. destruct Hr as [r [<- _]].
    rewrite buscar_de_escalares. destruct (buscar c r); eexists; reflexivity.
Qed.

Lemma puntos_de_las_columnas (df : DataFrame) :
  exists puntos,
    Forall2 (fun icd p => puntos_de_columna (snd (snd icd)) (columna_n df (fst icd)) p)
            (columnas_numeradas df) puntos
    /\ puntuacion_total df = list_sum puntos.
Proof.
  unfold puntuacion_total.
  exists (map (fun icd => col_puntuacion (snd (snd icd)) (columna_n df (fst icd)))
              (columnas_numeradas df)).
  split; [|reflexivity].
  induction (columnas_numeradas df) as [|icd l IH]; cbn [map]; constructor;
    [apply col_puntuacion_puntos | exact IH].
Qed.




(** ** Frames built from records *)

Lemma contiene_In (c : string) (l : list string) : contiene c l = true <-> In c l.
Proof.
  unfold contiene. rewrite existsb_exists. split.
  - intros [x [Hx He]]. apply String.eqb_eq in He. subst x. exact Hx.
  - intro H. exists c. split; [exact H | apply String.eqb_refl].
Qed.

Lemma agregar_nuevas_NoDup (claves : list string) :
  forall vistas, NoDup vistas -> NoDup (agregar_nuevas vistas claves).
Proof.
  induction claves as [|k ks IH]; intros vistas Hv; cbn [agregar_nuevas]; [exact Hv|].
  destruct (contiene k vistas) eqn:E; apply IH; [exact Hv|].
  apply NoDup_app; [exact Hv | repeat constructor; intros [] | ].
  intros x Hx [<- | []]. apply contiene_In in Hx. congruence.
Qed.

Lemma nombres_columnas_NoDup (datos : list Registro) : NoDup (nombres_columnas datos).
Proof.
  unfold nombres_columnas.
  assert (H : forall vistas, NoDup vistas ->
                NoDup (fold_left (fun v r => agregar_nuevas v (map fst r)) datos vistas)).
  { induction datos as [|r datos IH]; intros vistas Hv; cbn [fold_left]; [exact Hv|].
    apply IH, agregar_nuevas_NoDup, Hv. }
  apply H. constructor.
Qed.

Lemma agregar_nuevas_conocidas (claves : list string) :
  forall vistas, (forall k, In k claves -> In k vistas) ->
                 agregar_nuevas vistas claves = vistas.
Proof.
  induction claves as [|k ks IH]; intros vistas H; cbn [agregar_nuevas]; [reflexivity|].
  replace (contiene k vistas) with true
    by (symmetry; apply contiene_In, H; left; reflexivity).
  apply IH. intros x Hx. apply H. right. exact Hx.
Qed.

Lemma agregar_nuevas_distintas (claves : list string) :
  forall vistas, NoDup (vistas ++ claves) ->
                 agregar_nuevas vistas claves = (vistas ++ claves)%list.
Proof.
  induction claves as [|k ks IH]; intros vistas H; cbn [agregar_nuevas].
  - rewrite app_nil_r. reflexivity.
  - assert (Hk : contiene k vistas = false).
    { destruct (contiene k vistas) eqn:E; [|reflexivity].
      apply contiene_In in E. apply NoDup_remove_2 in H.
      exfalso. apply H. apply in_or_app. left. exact E. }
    rewrite Hk, IH; rewrite <- app_assoc; [reflexivity | exact H].
Qed.

Lemma fst_combine {A B} (l : list A) :
  forall l' : list B, List.length l' = List.length l -> map fst (combine l l') = l.
Proof.
  induction l as [|a l IH]; intros [|b l'] H; cbn in H; try discriminate;
    cbn [combine map fst]; [reflexivity|].
  rewrite IH by lia. reflexivity.
Qed.

(** The labels of a frame read back from its own records. *)
Lemma nombres_columnas_combine (ns : list string) (fs : list (list Valor)) :
  NoDup ns -> fs <> [] ->
  Forall (fun fila => List.length fila = List.length ns) fs ->
  nombres_columnas (map (fun fila => combine ns fila) fs) = ns.
Proof.
  intros Hnd Hne Hw. unfold nombres_columnas.
  destruct fs as [|fila fs]; [contradiction|].
  inversion Hw as [|? ? Hfila Hresto]; subst.
  cbn [map fold_left]. rewrite fst_combine by exact Hfila.
  rewrite (agregar_nuevas_distintas ns []) by exact Hnd. cbn [app].
  clear Hne Hw Hfila. induction Hresto as [|f fs' Hf _ IH]; cbn [map fold_left].
  - reflexivity.
  - rewrite fst_combine by exact Hf.
    rewrite agregar_nuevas_conocidas by auto. exact IH.
Qed.

Lemma buscar_fuera (c : string) (ns : list string) :
  forall fila : list Valor, ~ In c ns -> buscar c (combine ns fila) = None.
Proof.
  induction ns as [|k ns IH]; intros fila Hc; [reflexivity|].
  destruct fila as [|v fila]; [reflexivity|]. cbn [combine buscar].
  destruct (String.eqb k c) eqn:E.
  - apply String.eqb_eq in E. exfalso. apply Hc. left. exact E.
  - apply IH. intro H. apply Hc. right. exact H.
Qed.

(** Reading the cells of a record by the labels it was built with gives
    back the row. *)
Lemma celdas_de_combine (g : string -> Valor -> Valor) (ns : list string) :
  forall fila : list Valor,
    NoDup ns -> List.length fila = List.length ns ->
    forall r, (forall c, In c ns -> celda r c = celda (combine ns fila) c) ->
    map (fun c => g c (celda r c)) ns
    = map (fun cv => g (fst cv) (snd cv)) (combine ns fila).
Proof.
  induction ns as [|k ns IH]; intros fila Hnd Hlen r Hr; [reflexivity|].
  destruct fila as [|v fila]; [discriminate Hlen|].
  inversion Hnd as [|? ? Hk Hnd']; subst.
  cbn [map combine fst snd]. f_equal.
  - rewrite Hr by (left; reflexivity). unfold celda. cbn [combine buscar].
    rewrite String.eqb_refl. reflexivity.
  - apply IH; [exact Hnd' | cbn in Hlen; lia |].
    intros c Hc. rewrite Hr by (right; exact Hc). unfold celda. cbn [combine buscar].
    destruct (String.eqb k c) eqn:E; [|reflexivity].
    apply String.eqb_eq in E. subst c. contradiction.
Qed.

Lemma entero_float64_exacto (z : Z) :
  Z.abs z <= 2 ^ 53 -> Flt.entero_float64 z = z.
Proof.
  intro H. unfold Flt.entero_float64. cbv zeta.
  destruct (Z.eq_dec (Z.abs z) (2 ^ 53)) as [He|Hne].
  - destruct (Z.abs_spec z) as [[_ Ha]|[_ Ha]]; rewrite Ha in He.
    + subst z. reflexivity.
    + replace z with (- 2 ^ 53) by lia. reflexivity.
  - destruct (Z.eq_dec z 0) as [->|Hz]; [reflexivity|].
    assert (Hl : Z.log2 (Z.abs z) < 53) by (apply Z.log2_lt_pow2; lia).
    replace (Z.log2 (Z.abs z) - 52 <=? 0) with true by (symmetry; apply Z.leb_le; lia).
    reflexivity.
Qed.

Lemma convertir_mismo_valor (d : DType) (v : Valor) :
  es_nulo v = false -> entero_exacto v = true -> mismo_valor v (convertir d v).
Proof.
  intros H He. destruct d, v; try (left; reflexivity); try discriminate H.
  right. exists z. split; [reflexivity|]. cbn [convertir]. unfold Flt.float64_de_Z.
  rewrite entero_float64_exacto; [reflexivity|]. apply Z.leb_le. exact He.
Qed.

(** A frame read back from its own records, when no cell is null: same
    labels, and row by row the cells converted to the dtype of their
    column. *)
Lemma crear_dataframe_de_registros_convertidos (ns : list string)
    (fs : list (list Valor)) :
  NoDup ns -> fs <> [] ->
  Forall (fun fila => List.length fila = List.length ns) fs ->
  Forall (fun fila => existsb es_nulo fila = false) fs ->
  let df := crear_dataframe (map (fun fila => combine ns fila) fs) in
  nombres df = ns
  /\ Forall2 (Forall2 (fun v v' => exists d, v' = convertir d v)) fs (filas df)
  /\ Forall (fun fila => existsb es_nulo fila = false) (filas df).
Proof.
  intros Hnd Hne Hw Hnn df.
  assert (Hns : nombres df = ns).
  { unfold df. rewrite nombres_crear_dataframe. apply nombres_columnas_combine; assumption. }
  split; [exact Hns|].
  set (datos := map (fun fila => combine ns fila) fs) in *.
  set (dt := fun c => inferir_dtype (columna_cruda datos c)).
  assert (Hfila : forall fila,
             List.length fila = List.length ns ->
             map (fun cd => convertir (snd cd) (celda (combine ns fila) (fst cd)))
                 (columnas df)
             = map (fun cv => convertir (dt (fst cv)) (snd cv)) (combine ns fila)).
  { intros fila Hlen. unfold df, crear_dataframe. cbn [columnas].
    fold datos. rewrite map_map. cbn [fst snd].
    replace (nombres_columnas datos) with ns
      by (symmetry; apply nombres_columnas_combine; assumption).
    apply (celdas_de_combine (fun c v => convertir (dt c) v)); auto. }
  assert (Hfilas : filas df
                   = map (fun fila => map (fun cv => convertir (dt (fst cv)) (snd cv))
                                          (combine ns fila)) fs).
  { assert (H0 : filas df
                 = map (fun r => map (fun cd => convertir (snd cd) (celda r (fst cd)))
                                     (columnas df)) datos) by reflexivity.
    rewrite H0. unfold datos. rewrite map_map. apply map_ext_in. intros fila Hin.
    apply Hfila. rewrite Forall_forall in Hw. apply Hw. exact Hin. }
  rewrite Hfilas. clear Hfilas Hfila Hne Hns. clearbody dt. clear df datos. split.
  - induction fs as [|fila fs IH]; cbn [map]; constructor.
    + inversion Hw as [|? ? Hlen _]; subst.
      clear - Hlen. revert fila Hlen.
      induction ns as [|k ns IHn]; intros [|v fila] Hlen; cbn in Hlen;
        try discriminate; cbn [combine map fst snd]; constructor.
      * eexists. reflexivity.
      * apply IHn. lia.
    + inversion Hw; inversion Hnn; subst. apply IH; assumption.
  - apply Forall_forall. intros fila' Hin. apply in_map_iff in Hin.
    destruct Hin as [fila [<- Hin]].
    rewrite Forall_forall in Hw, Hnn. specialize (Hw fila Hin). specialize (Hnn fila Hin).
    clear - Hw Hnn. revert fila Hw Hnn.
    induction ns as [|k ns IHn]; intros [|v fila] Hlen Hnul; cbn in Hlen;
      try discriminate; cbn [combine map fst snd existsb]; [reflexivity|].
    cbn in Hnul. apply orb_false_iff in Hnul. destruct Hnul as [Hv Hresto].
    rewrite convertir_es_nulo, Hv. cbn [orb]. apply IHn; [lia | exact Hresto].
Qed.

Lemma Forall2_impl_In {A B} (R S : A -> B -> Prop) (l : list A) (l' : list B) :
  Forall2 R l l' -> (forall a b, In a l -> R a b -> S a b) -> Forall2 S l l'.
Proof.
  induction 1 as [|a b l l' Hab _ IH]; intro H; constructor.
  - apply H; [left; reflexivity | exact Hab].
  - apply IH. intros x y Hx. apply H. right. exact Hx.
Qed.

(** When, moreover, float64 holds every integer exactly, the values are
    the same, an integer possibly turned into the float of the same
    value. *)
Lemma crear_dataframe_de_registros (ns : list string) (fs : list (list Valor)) :
  NoDup ns -> fs <> [] ->
  Forall (fun fila => List.length fila = List.length ns) fs ->
  Forall (fun fila => existsb es_nulo fila = false) fs ->
  Forall (fun fila => forallb entero_exacto fila = true) fs ->
  let df := crear_dataframe (map (fun fila => combine ns fila) fs) in
  nombres df = ns
  /\ Forall2 (Forall2 mismo_valor) fs (filas df)
  /\ Forall (fun fila => existsb es_nulo fila = false) (filas df).
Proof.
  intros Hnd Hne Hw Hnn Hex df.
  destruct (crear_dataframe_de_registros_convertidos ns fs Hnd Hne Hw Hnn)
    as [Hns [Hconv Hnul]].
  fold df in Hns, Hconv, Hnul. split; [exact Hns|]. split; [|exact Hnul].
  apply (Forall2_impl_In _ _ _ _ Hconv). intros fila fila' Hin Hf.
  rewrite Forall_forall in Hnn, Hex. specialize (Hnn fila Hin). specialize (Hex fila Hin).
  apply (Forall2_impl_In _ _ _ _ Hf). intros v v' Hv [d ->].
  apply convertir_mismo_valor.
  - exact (proj1 (existsb_falso _ _) Hnn v Hv).
  - exact (proj1 (forallb_forall _ _) Hex v Hv).
Qed.

(** ** A second pass of the duplicate stage *)

Lemma clave_valor_eqb_mismo (a a' b b' : Valor) :
  mismo_valor a a' -> mismo_valor b b' ->
  clave_valor_eqb a b = clave_valor_eqb a' b'.
Proof.
  intros [->|[z [-> ->]]] [->|[y [-> ->]]]; reflexivity.
Qed.

Lemma clave_eqb_mismo (k1 k1' : list Valor) :
  Forall2 mismo_valor k1 k1' ->
  forall k2 k2', Forall2 mismo_valor k2 k2' -> clave_eqb k1 k2 = clave_eqb k1' k2'.
Proof.
  induction 1 as [|a a' k1 k1' Ha _ IH]; intros k2 k2' H2;
    inversion H2 as [|b b' t2 t2' Hb Ht]; subst; cbn [clave_eqb]; try reflexivity.
  rewrite (clave_valor_eqb_mismo a a' b b' Ha Hb), (IH _ _ Ht). reflexivity.
Qed.

Lemma clave_de_mismo (f : string -> bool) (ns : list string) :
  forall fila fila',
    Forall2 mismo_valor fila fila' ->
    Forall2 mismo_valor (clave_de ns f fila) (clave_de ns f fila').
Proof.
  unfold clave_de.
  induction ns as [|k ns IH]; intros fila fila' H; [constructor|].
  inversion H as [|v v' t t' Hv Ht]; subst; cbn [combine filter fst]; [constructor|].
  destruct (f k); cbn [map snd]; [constructor; [exact Hv|]|]; apply IH; exact Ht.
Qed.

Lemma con_none_mismo (k k' : list Valor) :
  Forall2 mismo_valor k k' -> Forall2 mismo_valor (con_none k) (con_none k').
Proof.
  induction 1 as [|v v' k k' Hv _ IH]; cbn [con_none flat_map app]; [constructor|].
  constructor; [exact Hv|]. constructor; [|exact IH].
  destruct Hv as [->|[z [-> ->]]]; left; reflexivity.
Qed.

Lemma clave_fila_mismo (df : DataFrame) (sub : option (list string)) :
  forall fila fila',
    Forall2 mismo_valor fila fila' ->
    Forall2 mismo_valor (clave_fila df sub fila) (clave_fila df sub fila').
Proof.
  intros fila fila' H. unfold clave_fila. cbv zeta.
  destruct (por_serie df sub); [apply con_none_mismo|]; apply clave_de_mismo; exact H.
Qed.

(** The key of a row depends on the frame through its labels only. *)
Lemma clave_fila_nombres (df df' : DataFrame) (sub : option (list string))
    (fila : list Valor) :
  nombres df' = nombres df -> clave_fila df' sub fila = clave_fila df sub fila.
Proof. intro H. unfold clave_fila, por_serie. rewrite H. reflexivity. Qed.

Lemma existsb_clave_mismo (k k' : list Valor) (vs vs' : list (list Valor)) :
  Forall2 mismo_valor k k' -> mismas_claves vs vs' ->
  existsb (clave_eqb k) vs = existsb (clave_eqb k') vs'.
Proof.
  intros Hk Hv. induction Hv as [|v v' vs vs' Hvv _ IH]; cbn [existsb]; [reflexivity|].
  rewrite (clave_eqb_mismo k k' Hk v v' Hvv), IH. reflexivity.
Qed.

Lemma marcar_vistos_mismo (ks ks' : list (list Valor)) :
  mismas_claves ks ks' ->
  forall vs vs', mismas_claves vs vs' -> marcar_vistos vs ks = marcar_vistos vs' ks'.
Proof.
  induction 1 as [|k k' ks ks' Hk _ IH]; intros vs vs' Hv; cbn [marcar_vistos];
    [reflexivity|].
  rewrite (existsb_clave_mismo k k' vs vs' Hk Hv).
  rewrite (IH (k :: vs) (k' :: vs')) by (constructor; assumption). reflexivity.
Qed.

Lemma Forall2_rev_ {A B} (R : A -> B -> Prop) (l : list A) (l' : list B) :
  Forall2 R l l' -> Forall2 R (rev l) (rev l').
Proof.
  induction 1 as [|a b l l' Hab _ IH]; cbn [rev]; [constructor|].
  apply Forall2_app; [exact IH | repeat constructor; exact Hab].
Qed.

Lemma duplicated_claves_mismo (keep : Keep) (ks ks' : list (list Valor)) :
  mismas_claves ks ks' -> duplicated_claves keep ks = duplicated_claves keep ks'.
Proof.
  intro H.
  assert (H1 : marcar_vistos [] ks = marcar_vistos [] ks')
    by (apply marcar_vistos_mismo; [exact H | constructor]).
  assert (H2 : marcar_vistos [] (rev ks) = marcar_vistos [] (rev ks'))
    by (apply marcar_vistos_mismo; [apply Forall2_rev_; exact H | constructor]).
  destruct keep; cbn [duplicated_claves]; rewrite ?H1, ?H2; reflexivity.
Qed.

Lemma cubre_refl (m : list bool) : cubre m m.
Proof. induction m; constructor; auto. Qed.

Lemma cubre_orb_l (a : list bool) :
  forall b, List.length a = List.length b -> cubre a (orb_listas a b).
Proof.
  induction a as [|x a IH]; intros [|y b] H; cbn in H; try discriminate;
    cbn [orb_listas]; constructor.
  - intros ->. reflexivity.
  - apply IH. lia.
Qed.

Lemma cubre_orb_r (a : list bool) :
  forall b, List.length a = List.length b -> cubre b (orb_listas a b).
Proof.
  induction a as [|x a IH]; intros [|y b] H; cbn in H; try discriminate;
    cbn [orb_listas]; constructor.
  - intros ->. apply orb_true_r.
  - apply IH. lia.
Qed.

(** Among the keys that survive a mask covering the "seen before" marks,
    none has been seen before. *)
Lemma marcar_sobrevivientes (ks : list (list Valor)) :
  forall V W m,
    incl W V ->
    cubre (marcar_vistos V ks) m ->
    marcar_vistos W (sin_marcados ks m)
    = repeat false (List.length (sin_marcados ks m)).
Proof.
  induction ks as [|k ks IH]; intros V W m Hinc Hc; [reflexivity|].
  cbn [marcar_vistos] in Hc. inversion Hc as [|a b t m' Hab Hresto]; subst.
  cbn [sin_marcados]. destruct b.
  - apply (IH (k :: V)); [|exact Hresto]. intros x Hx. right. apply Hinc. exact Hx.
  - assert (HV : existsb (clave_eqb k) V = false).
    { destruct (existsb (clave_eqb k) V); [|reflexivity]. discriminate (Hab eq_refl). }
    assert (HW : existsb (clave_eqb k) W = false).
    { apply existsb_falso. intros x Hx.
      apply (proj1 (existsb_falso _ V) HV). apply Hinc. exact Hx. }
    cbn [marcar_vistos List.length repeat]. rewrite HW. f_equal.
    apply (IH (k :: V)); [|exact Hresto].
    intros x [<-|Hx]; [left; reflexivity | right; apply Hinc; exact Hx].
Qed.

Lemma sin_marcados_app {A} (l1 : list A) :
  forall m1 l2 m2,
    List.length m1 = List.length l1 ->
    sin_marcados (l1 ++ l2) (m1 ++ m2) = (sin_marcados l1 m1 ++ sin_marcados l2 m2)%list.
Proof.
  induction l1 as [|x l1 IH]; intros [|b m1] l2 m2 H; cbn in H; try discriminate;
    cbn [app sin_marcados]; [reflexivity|].
  rewrite IH by lia. destruct b; reflexivity.
Qed.

Lemma sin_marcados_rev {A} (l : list A) :
  forall m, List.length m = List.length l ->
            rev (sin_marcados l m) = sin_marcados (rev l) (rev m).
Proof.
  induction l as [|x l IH]; intros [|b m] H; cbn in H; try discriminate;
    cbn [sin_marcados rev]; [reflexivity|].
  rewrite sin_marcados_app by (rewrite !length_rev; lia).
  rewrite <- IH by lia. destruct b; cbn [sin_marcados rev].
  - rewrite app_nil_r. reflexivity.
  - reflexivity.
Qed.

Lemma sin_marcados_map {A B} (f : A -> B) (l : list A) :
  forall m, sin_marcados (map f l) m = map f (sin_marcados l m).
Proof.
  induction l as [|x l IH]; intros [|b m]; cbn [map sin_marcados]; try reflexivity.
  rewrite IH. destruct b; reflexivity.
Qed.

Lemma sin_marcados_falsos {A} (l : list A) :
  sin_marcados l (repeat false (List.length l)) = l.
Proof.
  induction l as [|x l IH]; cbn [List.length repeat sin_marcados]; [reflexivity|].
  rewrite IH. reflexivity.
Qed.

Lemma orb_listas_length (a : list bool) :
  forall b, List.length a = List.length b ->
            List.length (orb_listas a b) = List.length a.
Proof.
  induction a as [|x a IH]; intros [|y b] H; cbn in H; try discriminate;
    cbn [orb_listas List.length]; [reflexivity|].
  rewrite IH by lia. reflexivity.
Qed.

Lemma duplicated_claves_length (keep : Keep) (ks : list (list Valor)) :
  List.length (duplicated_claves keep ks) = List.length ks.
Proof.
  assert (H1 : List.length (marcar_vistos [] ks) = List.length ks)
    by apply marcar_vistos_length.
  assert (H2 : List.length (rev (marcar_vistos [] (rev ks))) = List.length ks)
    by (rewrite length_rev, marcar_vistos_length, length_rev; reflexivity).
  destruct keep; cbn [duplicated_claves]; [exact H1 | exact H2 |].
  rewrite orb_listas_length; [exact H1 | rewrite H1, H2; reflexivity].
Qed.

Lemma orb_listas_falsos (n : nat) :
  orb_listas (repeat false n) (repeat false n) = repeat false n.
Proof. induction n as [|n IH]; cbn; [reflexivity | rewrite IH; reflexivity]. Qed.

Lemma rev_repeat_ {A} (x : A) (n : nat) : rev (repeat x n) = repeat x n.
Proof.
  induction n as [|n IH]; cbn [repeat rev]; [reflexivity|].
  rewrite IH. clear IH. induction n as [|n IH]; cbn [repeat app]; [reflexivity|].
  rewrite IH. reflexivity.
Qed.

(** What a policy keeps has no duplicate left under the same policy. *)
Lemma duplicated_claves_sobrevivientes (keep : Keep) (ks : list (list Valor)) :
  let quedan := sin_marcados ks (duplicated_claves keep ks) in
  duplicated_claves keep quedan = repeat false (List.length quedan).
Proof.
  intro quedan.
  set (m := duplicated_claves keep ks) in *.
  assert (Hlen : List.length m = List.length ks) by apply duplicated_claves_length.
  assert (Hprimero : cubre (marcar_vistos [] ks) m ->
                     marcar_vistos [] quedan = repeat false (List.length quedan)).
  { intro Hc. apply (marcar_sobrevivientes ks [] [] m); [intros x Hx; exact Hx | exact Hc]. }
  assert (Hultimo : cubre (rev (marcar_vistos [] (rev ks))) m ->
                    rev (marcar_vistos [] (rev quedan))
                    = repeat false (List.length quedan)).
  { intro Hc. unfold quedan. rewrite sin_marcados_rev by exact Hlen.
    rewrite (marcar_sobrevivientes (rev ks) [] [] (rev m)).
    - rewrite rev_repeat_, <- sin_marcados_rev, length_rev by exact Hlen. reflexivity.
    - intros x Hx; exact Hx.
    - apply Forall2_rev_ in Hc. rewrite rev_involutive in Hc. exact Hc. }
  assert (L1 : List.length (marcar_vistos [] ks) = List.length ks)
    by apply marcar_vistos_length.
  assert (L2 : List.length (rev (marcar_vistos [] (rev ks))) = List.length ks)
    by (rewrite length_rev, marcar_vistos_length, length_rev; reflexivity).
  destruct keep; cbn [duplicated_claves] in *.
  - apply Hprimero, cubre_refl.
  - apply Hultimo, cubre_refl.
  - rewrite Hprimero by (apply cubre_orb_l; rewrite L1, L2; reflexivity).
    rewrite Hultimo by (apply cubre_orb_r; rewrite L1, L2; reflexivity).
    apply orb_listas_falsos.
Qed.

Lemma manejar_duplicados_politica (cf : ConfiguracionFinal) (df : DataFrame) :
  _manejar_duplicados cf df
  = (sea antes <- duplicated df (subset (manejo_duplicados cf)) KeepFirst ;;
     sea df_limpio <- match politica cf with
                      | Some keep => drop_duplicates df (subset (manejo_duplicados cf)) keep
                      | None => Ok df
                      end ;;
     sea despues <- duplicated df_limpio (subset (manejo_duplicados cf)) KeepFirst ;;
     Ok df_limpio)%res.
Proof.
  unfold _manejar_duplicados, politica.
  destruct (String.eqb (mantener (manejo_duplicados cf)) "primero"); [reflexivity|].
  destruct (String.eqb (mantener (manejo_duplicados cf)) "ultimo"); [reflexivity|].
  destruct (String.eqb (mantener (manejo_duplicados cf)) "ninguno"); reflexivity.
Qed.

Lemma con_filas_id (df : DataFrame) : con_filas df (filas df) = df.
Proof. destruct df; reflexivity. Qed.

Lemma sin_marcados_incl {A} (l : list A) :
  forall m, incl (sin_marcados l m) l.
Proof.
  induction l as [|x l IH]; intros [|b m] y Hy; cbn [sin_marcados] in Hy;
    try contradiction.
  destruct b; [right; exact (IH m y Hy)|].
  destruct Hy as [<-|Hy]; [left; reflexivity | right; exact (IH m y Hy)].
Qed.

(** The duplicate stage keeps the columns and returns rows of its input. *)
Lemma manejar_duplicados_filas (cf : ConfiguracionFinal) (df d : DataFrame) :
  _manejar_duplicados cf df = Ok d ->
  columnas d = columnas df /\ incl (filas d) (filas df).
Proof.
  rewrite manejar_duplicados_politica. intro H.
  destruct (duplicated df _ KeepFirst) as [antes|ex]; [|discriminate H]. cbn [ligar] in H.
  assert (Hd : forall d0, (sea despues <- duplicated d0 (subset (manejo_duplicados cf))
                                            KeepFirst ;; Ok d0)%res = Ok d -> d0 = d).
  { intros d0 H0. destruct (duplicated d0 _ KeepFirst); [|discriminate H0].
    cbn [ligar] in H0. inversion H0. reflexivity. }
  destruct (politica cf) as [keep|].
  - destruct (drop_duplicates df _ keep) as [d0|ex] eqn:Hdrop; [|discriminate H].
    cbn [ligar] in H. apply Hd in H. subst d0.
    apply drop_duplicates_filas in Hdrop. rewrite Hdrop.
    destruct (es_vacio df); [split; [reflexivity | apply incl_refl]|].
    split; [reflexivity | apply sin_marcados_incl].
  - cbn [ligar] in H. apply Hd in H. subst d. split; [reflexivity | apply incl_refl].
Qed.

Lemma duplicated_ok_mismo (df df' : DataFrame) (sub : option (list string))
    (keep keep' : Keep) (marcas : list bool) :
  es_vacio df = false ->
  nombres df' = nombres df ->
  duplicated df sub keep = Ok marcas ->
  duplicated df' sub keep'
  = if es_vacio df' then Ok []
    else Ok (duplicated_claves keep' (map (clave_fila df sub) (filas df'))).
Proof.
  unfold duplicated. intros Hv Hn H. rewrite Hv in H.
  destruct (es_vacio df'); [reflexivity|].
  rewrite (map_ext _ _ (fun fila => clave_fila_nombres df df' sub fila Hn)).
  destruct sub as [s|]; [|reflexivity]. rewrite Hn.
  destruct (negb (forallb (fun c => contiene c (nombres df)) s)); [discriminate H|].
  destruct s; [discriminate H | reflexivity].
Qed.

Lemma manejar_duplicados_vacio (cf : ConfiguracionFinal) (df : DataFrame) :
  es_vacio df = true -> _manejar_duplicados cf df = Ok df.
Proof.
  intro Hv. rewrite manejar_duplicados_politica.
  unfold drop_duplicates, duplicated. rewrite Hv. cbn [ligar].
  destruct (politica cf); cbn [ligar]; rewrite Hv; reflexivity.
Qed.

(** A frame that holds what the duplicate stage returned, up to the
    reading of integers as floats, goes through the stage unchanged. *)
Lemma manejar_duplicados_estable (cf : ConfiguracionFinal) (df d df' : DataFrame) :
  _manejar_duplicados cf df = Ok d ->
  filas d <> [] ->
  nombres df' = nombres df ->
  mismas_claves (filas d) (filas df') ->
  _manejar_duplicados cf df' = Ok df'.
Proof.
  intros H Hne Hn Hfilas.
  destruct (es_vacio df') eqn:Hv'; [apply manejar_duplicados_vacio; exact Hv'|].
  destruct (es_vacio df) eqn:Hv.
  { (* no column on either side *)
    assert (Hcols : nombres df = []).
    { pose proof (manejar_duplicados_filas cf df d H) as [_ Hinc].
      unfold es_vacio in Hv. unfold nombres. destruct (columnas df); [reflexivity|].
      destruct (filas df); [|discriminate Hv].
      destruct (filas d) as [|f fs]; [contradiction|].
      destruct (Hinc f (or_introl eq_refl)). }
    rewrite <- Hn in Hcols. apply es_vacio_sin_columnas in Hcols. congruence. }
  rewrite manejar_duplicados_politica in H |- *.
  destruct (duplicated df _ KeepFirst) as [antes|ex] eqn:Hd1; [|discriminate H].
  cbn [ligar] in H.
  rewrite (duplicated_ok_mismo df df' _ KeepFirst KeepFirst antes Hv Hn Hd1), Hv'.
  cbn [ligar].
  assert (Hfin : (sea despues <- duplicated df' (subset (manejo_duplicados cf)) KeepFirst ;;
                  Ok df')%res = Ok df').
  { rewrite (duplicated_ok_mismo df df' _ KeepFirst KeepFirst antes Hv Hn Hd1), Hv'.
    reflexivity. }
  destruct (politica cf) as [keep|]; [|cbn [ligar]; exact Hfin].
  destruct (drop_duplicates df _ keep) as [d0|ex] eqn:Hdrop; [|discriminate H].
  cbn [ligar] in H.
  assert (Hd0 : d0 = d).
  { destruct (duplicated d0 _ KeepFirst); [|discriminate H]. cbn [ligar] in H.
    inversion H. reflexivity. }
  subst d0. apply drop_duplicates_filas in Hdrop. rewrite Hv in Hdrop.
  unfold drop_duplicates. rewrite Hv'.
  rewrite (duplicated_ok_mismo df df' _ KeepFirst keep antes Hv Hn Hd1), Hv'.
  cbn [ligar].
  set (sub := subset (manejo_duplicados cf)) in *.
  set (k := clave_fila df sub) in *.
  assert (Hmarcas : duplicated_claves keep (map k (filas df'))
                    = repeat false (List.length (filas df'))).
  { rewrite <- (duplicated_claves_mismo keep (map k (filas d)) (map k (filas df'))).
    - rewrite Hdrop. cbn [con_filas filas]. rewrite <- sin_marcados_map.
      rewrite (duplicated_claves_sobrevivientes keep (map k (filas df))).
      f_equal. rewrite sin_marcados_map, <- (Forall2_length Hfilas), Hdrop.
      cbn [con_filas filas]. apply length_map.
    - clear - Hfilas. unfold k. induction Hfilas as [|f f' fs fs' Hf _ IH]; cbn [map];
        constructor; [apply clave_fila_mismo; exact Hf | exact IH]. }
  rewrite Hmarcas, sin_marcados_falsos, con_filas_id. exact Hfin.
Qed.

(** ** A second pass of the cleansing transformer *)

(** C5, as stated, fails.  Under "marcar" each pass adds a
    [<campo>_es_nulo] field for every field it finds, the ones added by
    the pass before included: cleaning [{"a": 1}] gives
    [{"a": 1, "a_es_nulo": False}], and cleaning that gives a record with
    the third field ["a_es_nulo_es_nulo"]. *)
Lemma limpieza_marcar_agrega_campos :
  transformar_de_prueba config_marcar [[("a", VInt 1)]]
    = Ok [[("a", VInt 1); ("a_es_nulo", VBool false)]]
  /\ transformar_de_prueba config_marcar [[("a", VInt 1); ("a_es_nulo", VBool false)]]
     = Ok [[("a", VInt 1); ("a_es_nulo", VBool false); ("a_es_nulo_es_nulo", VBool false)]]
  /\ ~ segunda_pasada_identica transformar_de_prueba config_marcar [[("a", VInt 1)]].
Proof.
  split; [reflexivity|]. split; [reflexivity|].
  intro H. specialize (H [[("a", VInt 1); ("a_es_nulo", VBool false)]] eq_refl).
  vm_compute in H. discriminate H.
Qed.

(** With the outlier stage on, the quartiles of the second pass are those
    of the cleaned column: of [1, 2, 3, 4, 100, 1000] the first pass drops
    1000 only, the second pass then drops 100. *)
Lemma limpieza_outliers_segunda_pasada :
  transformar_de_prueba config_solo_outliers (columna_v [1; 2; 3; 4; 100; 1000])
    = Ok (columna_v [1; 2; 3; 4; 100])
  /\ transformar_de_prueba config_solo_outliers (columna_v [1; 2; 3; 4; 100])
     = Ok (columna_v [1; 2; 3; 4])
  /\ ~ segunda_pasada_identica transformar_de_prueba config_solo_outliers
         (columna_v [1; 2; 3; 4; 100; 1000]).
Proof.
  split; [vm_compute; reflexivity|]. split; [vm_compute; reflexivity|].
  intro H. specialize (H (columna_v [1; 2; 3; 4; 100])). vm_compute in H.
  specialize (H eq_refl). discriminate H.
Qed.

(** Under "imputar" a column can change its dtype between the passes:
    once the duplicate stage has dropped the row that held a text, the
    column ["a"] is numeric and its null is filled with the mean. *)
Lemma limpieza_imputar_segunda_pasada :
  transformar_de_prueba config_imputar_media
    [ [("a", VInt 1); ("k", VInt 0)];
      [("a", VNone); ("k", VInt 1)];
      [("a", VStr "x"); ("k", VInt 0)] ]
    = Ok [ [("a", VInt 1); ("k", VInt 0)]; [("a", VNone); ("k", VInt 1)] ]
  /\ transformar_de_prueba config_imputar_media
       [ [("a", VInt 1); ("k", VInt 0)]; [("a", VNone); ("k", VInt 1)] ]
     = Ok [ [("a", VFloat (FFin 1)); ("k", VInt 0)];
            [("a", VFloat (FFin 1)); ("k", VInt 1)] ].
Proof. split; vm_compute; reflexivity. Qed.

(** Two integers beyond 2^53 that differ are two records for the first
    pass, in which the text of the fourth record makes ["a"] an object
    column; the second pass stores them in a float64 column, where both
    are 2^53, and drops one as a duplicate. *)
Lemma limpieza_enteros_grandes_segunda_pasada :
  transformar_de_prueba config_eliminar_primero datos_enteros_grandes
    = Ok [ [("a", VInt (2 ^ 53)); ("b", VFloat (FFin 1))];
           [("a", VInt (2 ^ 53 + 1)); ("b", VFloat (FFin 1))];
           [("a", VFloat (FFin (3 # 2))); ("b", VFloat (FFin 1))] ]
  /\ transformar_de_prueba config_eliminar_primero
       [ [("a", VInt (2 ^ 53)); ("b", VFloat (FFin 1))];
         [("a", VInt (2 ^ 53 + 1)); ("b", VFloat (FFin 1))];
         [("a", VFloat (FFin (3 # 2))); ("b", VFloat (FFin 1))] ]
     = Ok [ [("a", VFloat (FFin (inject_Z (2 ^ 53)))); ("b", VFloat (FFin 1))];
            [("a", VFloat (FFin (3 # 2))); ("b", VFloat (FFin 1))] ]
  /\ ~ segunda_pasada_identica transformar_de_prueba config_eliminar_primero
         datos_enteros_grandes.
Proof.
  split; [vm_compute; reflexivity|]. split; [vm_compute; reflexivity|].
  intro H. specialize (H _ eq_refl). vm_compute in H. discriminate H.
Qed.

(** The same happens to a numeric range rule: it is skipped while the
    column holds a text, and applies in the second pass. *)
Lemma limpieza_reglas_segunda_pasada :
  transformar_de_prueba config_con_reglas
    [ [("a", VInt 1); ("b", VStr "ok")]; [("a", VStr "x"); ("b", VStr "no")] ]
    = Ok [ [("a", VInt 1); ("b", VStr "ok")] ]
  /\ transformar_de_prueba config_con_reglas [ [("a", VInt 1); ("b", VStr "ok")] ]
     = Ok [].
Proof. split; vm_compute; reflexivity. Qed.

(** Text normalisation strips the blanks before it drops the characters
    without an ASCII form, so a blank in front of such a character is
    stripped by the second pass only. *)
Lemma limpieza_texto_segunda_pasada :
  transformar_de_prueba config_solo_texto [ [("t", VStr texto_con_simbolo)] ]
    = Ok [ [("t", VStr "a ")] ]
  /\ transformar_de_prueba config_solo_texto [ [("t", VStr "a ")] ]
     = Ok [ [("t", VStr "a")] ].
Proof. split; vm_compute; reflexivity. Qed.

Section SegundaPasada.

Variable repr_racional : Q -> string.
Variable moda_objeto : list Valor -> option Valor.
Variable normalizar_columna_fecha : ConfigFechas -> list Valor -> option (list Valor).

(** Under such a configuration only two stages act. *)
Lemma aplicar_limpieza_solo (cf : ConfiguracionFinal) (df : DataFrame) :
  solo_eliminar_y_duplicados cf ->
  _aplicar_limpieza repr_racional moda_objeto normalizar_columna_fecha cf df
  = (sea d <- (if duplicados_habilitado (manejo_duplicados cf)
               then _manejar_duplicados cf (sin_filas_nulas df)
               else Ok (sin_filas_nulas df)) ;;
     Ok d)%res.
Proof.
  intros [Hest [Htxt [Hfec [Hout Hval]]]].
  unfold _aplicar_limpieza, _manejar_valores_nulos.
  rewrite Hest, String.eqb_refl, Htxt, Hfec, Hout. cbn [ligar].
  fold (sin_filas_nulas df).
  destruct (duplicados_habilitado (manejo_duplicados cf)).
  - destruct (_manejar_duplicados cf (sin_filas_nulas df)) as [d|ex]; [|reflexivity].
    cbn [ligar]. destruct Hval as [-> | [Hr [Hv Hl]]]; [reflexivity|].
    destruct (validacion_habilitada (validacion_datos cf)); [|reflexivity].
    unfold _validar_datos. rewrite Hr, Hv, Hl. cbn [fold_left ligar].
    rewrite con_filas_id. reflexivity.
  - cbn [ligar]. destruct Hval as [-> | [Hr [Hv Hl]]]; [reflexivity|].
    destruct (validacion_habilitada (validacion_datos cf)); [|reflexivity].
    unfold _validar_datos. rewrite Hr, Hv, Hl. cbn [fold_left ligar].
    rewrite con_filas_id. reflexivity.
Qed.

Lemma filter_todos {A} (p : A -> bool) (l : list A) :
  Forall (fun x => p x = true) l -> filter p l = l.
Proof.
  induction 1 as [|x l Hx _ IH]; cbn [filter]; [reflexivity|].
  rewrite Hx, IH. reflexivity.
Qed.

Lemma mismo_registro_combine (ns : list string) :
  forall fila fila',
    Forall2 mismo_valor fila fila' ->
    mismo_registro (combine ns fila) (combine ns fila').
Proof.
  unfold mismo_registro.
  induction ns as [|k ns IH]; intros fila fila' H; [constructor|].
  inversion H as [|v v' t t' Hv Ht]; subst; cbn [combine]; constructor.
  - split; [reflexivity | exact Hv].
  - apply IH. exact Ht.
Qed.

Lemma to_dict_records_sin_columnas (d : DataFrame) :
  columnas d = [] -> to_dict_records d = [].
Proof. intro H. unfold to_dict_records. rewrite H. reflexivity. Qed.

Lemma to_dict_records_columnas (d : DataFrame) :
  columnas d <> [] ->
  to_dict_records d = map (fun fila => combine (nombres d) fila) (filas d).
Proof. intro H. unfold to_dict_records. destruct (columnas d); [contradiction | reflexivity]. Qed.

Lemma enteros_exactos_filas (ns : list string) (fs : list (list Valor)) :
  Forall (fun fila => List.length fila = List.length ns) fs ->
  enteros_exactos (map (fun fila => combine ns fila) fs) ->
  Forall (fun fila => forallb entero_exacto fila = true) fs.
Proof.
  unfold enteros_exactos. intros Hw He. rewrite Forall_map in He.
  rewrite Forall_forall in Hw, He |- *. intros fila Hin.
  specialize (Hw fila Hin). specialize (He fila Hin). cbv beta in He.
  clear Hin. revert fila Hw He.
  induction ns as [|k ns IH]; intros [|v fila] Hlen He; cbn in Hlen; try discriminate;
    [reflexivity|].
  cbn [combine] in He. inversion He as [|? ? Hv Hresto]; subst.
  cbn [forallb snd] in *. rewrite Hv. cbn [andb]. apply IH; [lia | exact Hresto].
Qed.

(** C5, amended.  When the null strategy is "eliminar" and, the duplicate
    stage apart (any policy, any key), every optional stage is off or has
    no rule, cleaning a cleaned record set whose integers are all held
    exactly by a float64 (at most 2^53 in absolute value) returns it: the
    same records in the same order with the same fields and the same
    values, except that an integer may come back as the float of the same
    value.  (The claim does not extend to "marcar", which adds fields at
    every pass, nor to the outlier stage, whose quartiles change with the
    data, nor to larger integers, which the second pass may round to one
    float and drop as duplicates.) *)
Theorem limpieza_segunda_pasada :
  forall (c : Configuracion) (datos limpios : list Registro),
    solo_eliminar_y_duplicados (configuracion_final c) ->
    transformar repr_racional moda_objeto normalizar_columna_fecha c datos = Ok limpios ->
    enteros_exactos limpios ->
    exists otra_vez,
      transformar repr_racional moda_objeto normalizar_columna_fecha c limpios = Ok otra_vez
      /\ mismos_registros limpios otra_vez.
Proof.
  intros c datos limpios Hcfg H Hexactos. unfold transformar in H |- *.
  set (cf := configuracion_final c) in *.
  destruct (validar_configuracion cf) as [valida|ex]; [|discriminate H].
  cbn [ligar] in H |- *.
  assert (Hvacio : forall l : list Registro, l = [] ->
             exists otra_vez,
               envolver (match l with
                         | [] => Ok []
                         | _ => (sea df_limpio <- _aplicar_limpieza repr_racional moda_objeto
                                    normalizar_columna_fecha cf (crear_dataframe l) ;;
                                 Ok (to_dict_records df_limpio))%res
                         end) = Ok otra_vez
               /\ mismos_registros l otra_vez).
  { intros l ->. exists []. split; [reflexivity | constructor]. }
  destruct datos as [|r datos].
  { cbn in H. inversion H. exact (Hvacio [] eq_refl). }
  set (df0 := crear_dataframe (r :: datos)) in *.
  rewrite (aplicar_limpieza_solo cf df0 Hcfg) in H.
  set (df1 := sin_filas_nulas df0) in *.
  set (etapa := fun df => if duplicados_habilitado (manejo_duplicados cf)
                          then _manejar_duplicados cf df else Ok df).
  fold (etapa df1) in H.
  destruct (etapa df1) as [d|ex] eqn:Hetapa; [|discriminate H].
  cbn [ligar envolver] in H. injection H as Hl.
  destruct (columnas d) as [|cd0 cds0] eqn:Hcd.
  { apply Hvacio. rewrite <- Hl. apply to_dict_records_sin_columnas. exact Hcd. }
  assert (Hcne : columnas d <> []) by (rewrite Hcd; discriminate).
  clear Hcd.
  destruct (filas d) as [|f0 fs0] eqn:Hfd.
  { apply Hvacio. rewrite <- Hl. rewrite to_dict_records_columnas by exact Hcne.
    rewrite Hfd. reflexivity. }
  (* the output of the first pass *)
  assert (Hd : columnas d = columnas df1 /\ incl (filas d) (filas df1)).
  { unfold etapa in Hetapa. destruct (duplicados_habilitado (manejo_duplicados cf)).
    - apply (manejar_duplicados_filas cf). exact Hetapa.
    - inversion Hetapa. split; [reflexivity | apply incl_refl]. }
  destruct Hd as [Hcols Hinc].
  set (ns := nombres df0).
  assert (Hns : nombres d = ns) by (unfold nombres; rewrite Hcols; reflexivity).
  assert (Hnd : NoDup ns)
    by (unfold ns, df0; rewrite nombres_crear_dataframe; apply nombres_columnas_NoDup).
  assert (Hancho : Forall (fun fila => List.length fila = List.length ns) (filas d)).
  { apply Forall_forall. intros fila Hin. apply Hinc in Hin.
    unfold df1, sin_filas_nulas in Hin. cbn [con_filas filas] in Hin.
    apply filter_In in Hin. destruct Hin as [Hin _].
    pose proof (crear_dataframe_ancho (r :: datos)) as Hw. rewrite Forall_forall in Hw.
    fold df0 in Hw. rewrite (Hw fila Hin). unfold ns, nombres. rewrite length_map.
    reflexivity. }
  assert (Hnn : Forall (fun fila => existsb es_nulo fila = false) (filas d)).
  { apply Forall_forall. intros fila Hin. apply Hinc in Hin.
    unfold df1, sin_filas_nulas in Hin. cbn [con_filas filas] in Hin.
    apply filter_In in Hin. destruct Hin as [_ Hp]. apply negb_true_iff in Hp. exact Hp. }
  assert (Hne : filas d <> []) by (rewrite Hfd; discriminate).
  (* the frame of the second pass *)
  assert (Hlimpios : limpios = map (fun fila => combine ns fila) (filas d)).
  { rewrite <- Hl. rewrite to_dict_records_columnas by exact Hcne. rewrite Hns.
    reflexivity. }
  assert (Hex : Forall (fun fila => forallb entero_exacto fila = true) (filas d)).
  { apply (enteros_exactos_filas ns); [exact Hancho|]. rewrite <- Hlimpios. exact Hexactos. }
  destruct (crear_dataframe_de_registros ns (filas d) Hnd Hne Hancho Hnn Hex)
    as [Hns' [Hmismas Hnn']].
  rewrite <- Hlimpios in Hns', Hmismas, Hnn'.
  set (df0' := crear_dataframe limpios) in *.
  assert (Hetapa' : etapa (sin_filas_nulas df0') = Ok df0').
  { assert (Hsn : sin_filas_nulas df0' = df0').
    { unfold sin_filas_nulas. rewrite filter_todos; [apply con_filas_id|].
      apply Forall_forall. intros fila Hin. rewrite Forall_forall in Hnn'.
      rewrite (Hnn' fila Hin). reflexivity. }
    rewrite Hsn. unfold etapa in Hetapa |- *.
    destruct (duplicados_habilitado (manejo_duplicados cf)); [|reflexivity].
    apply (manejar_duplicados_estable cf df1 d df0' Hetapa Hne); [|exact Hmismas].
    rewrite Hns'. reflexivity. }
  assert (Hcons : exists r' resto, limpios = r' :: resto).
  { rewrite Hlimpios, Hfd. cbn [map]. eauto. }
  destruct Hcons as [r' [resto Hcons]].
  exists (to_dict_records df0'). split.
  - assert (Hm : forall X Y : Resultado (list Registro),
               match limpios with [] => X | _ :: _ => Y end = Y)
      by (intros; rewrite Hcons; reflexivity).
    rewrite Hm. rewrite (aplicar_limpieza_solo cf df0' Hcfg). fold (etapa (sin_filas_nulas df0')).
    rewrite Hetapa'. reflexivity.
  - assert (Hcne' : columnas df0' <> []).
    { intro H0. assert (Hn0 : nombres df0' = []) by (unfold nombres; rewrite H0; reflexivity).
      rewrite Hns', <- Hns in Hn0. unfold nombres in Hn0.
      destruct (columnas d); [contradiction | discriminate Hn0]. }
    rewrite to_dict_records_columnas by exact Hcne'. rewrite Hns'. rewrite Hlimpios at 1.
    clear - Hmismas. unfold mismos_registros.
    induction Hmismas as [|f f' fs fs' Hf _ IH]; cbn [map]; constructor;
      [apply mismo_registro_combine; exact Hf | exact IH].
Qed.

End SegundaPasada.

Lemma limpieza_segunda_pasada_testigo :
  solo_eliminar_y_duplicados (configuracion_final config_eliminar_primero)
  /\ transformar_de_prueba config_eliminar_primero datos_escenario
     = Ok [[("a", VFloat (FFin 1)); ("b", VStr "X")]]
  /\ enteros_exactos [[("a", VFloat (FFin 1)); ("b", VStr "X")]]
  /\ exists otra_vez,
       transformar_de_prueba config_eliminar_primero
         [[("a", VFloat (FFin 1)); ("b", VStr "X")]] = Ok otra_vez
       /\ mismos_registros [[("a", VFloat (FFin 1)); ("b", VStr "X")]] otra_vez.
Proof.
  assert (Hc : solo_eliminar_y_duplicados (configuracion_final config_eliminar_primero)).
  { repeat split; try reflexivity. left. reflexivity. }
  assert (He : enteros_exactos [[("a", VFloat (FFin 1)); ("b", VStr "X")]]).
  { repeat constructor. }
  split; [exact Hc|]. split; [reflexivity|]. split; [exact He|].
  exact (limpieza_segunda_pasada repr_de_prueba moda_de_prueba fechas_de_prueba
           config_eliminar_primero datos_escenario _ Hc eq_refl He).
Defined.

(** * Further properties *)

(** ** The phases of the orchestrator *)

Section FasesDelOrquestador.

Context {Mundo : Type}.
Variable utcnow : Mundo -> Q.

Lemma extraer_con_extraen (p : Parametros) (xs : list (ExtractorBase Mundo)) :
  forall acc w w' d,
    extraer_con xs p acc w = (w', Ok d) <->
    exists ds, extraen p xs w w' ds /\ d = (acc ++ List.concat ds)%list.
Proof.
  induction xs as [|x xs IH]; intros acc w w' d; cbn [extraer_con].
  - unfold devolver. split.
    + intro H. inversion H; subst. exists []. split; [constructor|].
      cbn. rewrite app_nil_r. reflexivity.
    + intros [ds [He ->]]. inversion He; subst. cbn. rewrite app_nil_r. reflexivity.
  - unfold encadenar. destruct (x p w) as [w1 [datos|ex]] eqn:Hx.
    + rewrite IH. split.
      * intros [ds [He ->]]. exists (datos :: ds). split.
        -- econstructor; eassumption.
        -- cbn [List.concat]. rewrite app_assoc. reflexivity.
      * intros [ds [He ->]]. inversion He as [|? ? ? w1' ? datos' resto Hx' Hresto]; subst.
        rewrite Hx in Hx'. inversion Hx'; subst.
        exists resto. split; [exact Hresto|].
        cbn [List.concat]. rewrite app_assoc. reflexivity.
    + split; [intro H; discriminate H|].
      intros [ds [He _]]. inversion He as [|? ? ? w1' ? datos' resto Hx' _]; subst.
      rewrite Hx in Hx'. discriminate Hx'.
Qed.

Lemma cargar_con_cargan (datos : list Registro) (cs : list (CargadorBase Mundo)) :
  forall acc w w' a,
    cargar_con cs datos acc w = (w', Ok a) <->
    exists archivos, cargan datos cs w w' archivos /\ a = (acc ++ List.concat archivos)%list.
Proof.
  induction cs as [|c cs IH]; intros acc w w' a; cbn [cargar_con].
  - unfold devolver. split.
    + intro H. inversion H; subst. exists []. split; [constructor|].
      cbn. rewrite app_nil_r. reflexivity.
    + intros [l [He ->]]. inversion He; subst. cbn. rewrite app_nil_r. reflexivity.
  - unfold encadenar. destruct (c datos w) as [w1 [arch|ex]] eqn:Hc.
    + rewrite IH. split.
      * intros [l [He ->]]. exists (arch :: l). split.
        -- econstructor; eassumption.
        -- cbn [List.concat]. rewrite app_assoc. reflexivity.
      * intros [l [He ->]]. inversion He as [|? ? ? w1' ? arch' resto Hc' Hresto]; subst.
        rewrite Hc in Hc'. inversion Hc'; subst.
        exists resto. split; [exact Hresto|].
        cbn [List.concat]. rewrite app_assoc. reflexivity.
    + split; [intro H; discriminate H|].
      intros [l [He _]]. inversion He as [|? ? ? w1' ? arch' resto Hc' _]; subst.
      rewrite Hc in Hc'. discriminate Hc'.
Qed.

Lemma extraer_con_acumulado (p : Parametros) (xs : list (ExtractorBase Mundo)) :
  forall acc w,
    extraer_con xs p acc w =
    match extraer_con xs p [] w with
    | (w', Ok d) => (w', Ok (acc ++ d)%list)
    | (w', Error ex) => (w', Error ex)
    end.
Proof.
  induction xs as [|x xs IH]; intros acc w; cbn [extraer_con].
  - unfold devolver. rewrite app_nil_r. reflexivity.
  - unfold encadenar. destruct (x p w) as [w1 [datos|ex]]; [|reflexivity].
    rewrite (IH (acc ++ datos)%list), (IH ([] ++ datos)%list). cbn [app].
    destruct (extraer_con xs p [] w1) as [w2 [d|ex]]; [|reflexivity].
    rewrite app_assoc. reflexivity.
Qed.

Lemma extraer_con_app (p : Parametros) (xs ys : list (ExtractorBase Mundo)) :
  forall acc w,
    extraer_con (xs ++ ys) p acc w =
    match extraer_con xs p acc w with
    | (w', Ok d) => extraer_con ys p d w'
    | (w', Error ex) => (w', Error ex)
    end.
Proof.
  induction xs as [|x xs IH]; intros acc w; cbn [extraer_con app]; [reflexivity|].
  unfold encadenar. destruct (x p w) as [w1 [datos|ex]]; [apply IH | reflexivity].
Qed.

Lemma cargar_con_app (datos : list Registro) (cs ds : list (CargadorBase Mundo)) :
  forall acc w,
    cargar_con (cs ++ ds) datos acc w =
    match cargar_con cs datos acc w with
    | (w', Ok a) => cargar_con ds datos a w'
    | (w', Error ex) => (w', Error ex)
    end.
Proof.
  induction cs as [|c cs IH]; intros acc w; cbn [cargar_con app]; [reflexivity|].
  unfold encadenar. destruct (c datos w) as [w1 [a|ex]]; [apply IH | reflexivity].
Qed.

Lemma transformar_con_lanza (ts : list (TransformadorBase Mundo)) :
  forall datos w w' ex,
    transformador_lanza ts datos w w' ex ->
    transformar_con ts datos w = (w', Error ex).
Proof.
  intros datos w w' ex H.
  induction H as [t ts datos w w' ex Ht | t ts datos w w1 datos' w' ex Ht _ IH];
    cbn [transformar_con]; unfold encadenar; rewrite Ht; [reflexivity | exact IH].
Qed.

Lemma tiene_gancho_falso (v : ValidadorBase Mundo) :
  tiene_gancho v = false -> validar_entrada v = None /\ validar_salida v = None.
Proof.
  unfold tiene_gancho. destruct (validar_entrada v), (validar_salida v);
    intro H; try discriminate H. split; reflexivity.
Qed.

Lemma validar_con_entrada_activos (c : ConfiguracionPipeline.t)
    (vs : list (ValidadorBase Mundo)) (datos : list Registro) :
  ConfiguracionPipeline.validar_entrada c = true ->
  forall w,
    validar_con validar_entrada vs datos w
    = validar_con validar_entrada
        (filter tiene_gancho (map (ganchos_activos c) vs)) datos w.
Proof.
  intro Hflag.
  assert (Hg : forall v : ValidadorBase Mundo,
             validar_entrada (ganchos_activos c v) = validar_entrada v)
    by (intro v; unfold ganchos_activos; cbn [validar_entrada]; rewrite Hflag; reflexivity).
  induction vs as [|v vs IH]; intro w; cbn [map filter validar_con]; [reflexivity|].
  destruct (tiene_gancho (ganchos_activos c v)) eqn:Ht.
  - cbn [validar_con]. rewrite Hg. destruct (validar_entrada v) as [h|]; [|apply IH].
    unfold encadenar. destruct (h datos w) as [w1 [[]|ex]]; [apply IH | reflexivity].
  - apply tiene_gancho_falso in Ht. destruct Ht as [Ht _]. rewrite Hg in Ht.
    rewrite Ht. apply IH.
Qed.

Lemma validar_con_salida_activos (c : ConfiguracionPipeline.t)
    (vs : list (ValidadorBase Mundo)) (datos : list Registro) :
  ConfiguracionPipeline.validar_salida c = true ->
  forall w,
    validar_con validar_salida vs datos w
    = validar_con validar_salida
        (filter tiene_gancho (map (ganchos_activos c) vs)) datos w.
Proof.
  intro Hflag.
  assert (Hg : forall v : ValidadorBase Mundo,
             validar_salida (ganchos_activos c v) = validar_salida v)
    by (intro v; unfold ganchos_activos; cbn [validar_salida]; rewrite Hflag; reflexivity).
  induction vs as [|v vs IH]; intro w; cbn [map filter validar_con]; [reflexivity|].
  destruct (tiene_gancho (ganchos_activos c v)) eqn:Ht.
  - cbn [validar_con]. rewrite Hg. destruct (validar_salida v) as [h|]; [|apply IH].
    unfold encadenar. destruct (h datos w) as [w1 [[]|ex]]; [apply IH | reflexivity].
  - apply tiene_gancho_falso in Ht. destruct Ht as [_ Ht]. rewrite Hg in Ht.
    rewrite Ht. apply IH.
Qed.

End FasesDelOrquestador.

(** X1.  The extraction phase returns exactly when every registered
    extractor returns, and what it returns is the concatenation of their
    record sets in registration order. *)
Theorem extraccion_en_orden_de_registro :
  forall (Mundo : Type) (e : EjecutorPipeline Mundo) (p : Parametros)
         (w w' : Mundo) (datos : list Registro),
    _ejecutar_extraccion e p w = (w', Ok datos) <->
    exists partes, extraen p (extractores e) w w' partes /\ datos = List.concat partes.
Proof.
  intros Mundo e p w w' datos. unfold _ejecutar_extraccion.
  apply (extraer_con_extraen p (extractores e) [] w w' datos).
Qed.

(** X2.  Registration appends: after [agregar_extractor] the extraction
    phase is the old phase followed by the new extractor, whose records
    come last; after [agregar_transformador] the new transformer is fed
    the output of the old chain; after [agregar_cargador] the new loader
    runs last and its artifacts come last. *)
Theorem registro_agrega_al_final :
  forall (Mundo : Type) (e : EjecutorPipeline Mundo) (p : Parametros)
         (datos : list Registro) (w : Mundo),
    (forall x, exists e',
        agregar_extractor e x = Ok e'
        /\ _ejecutar_extraccion e' p w
           = encadenar (_ejecutar_extraccion e p)
               (fun d => encadenar (x p) (fun d' => devolver (d ++ d')%list)) w)
    /\ (forall t, exists e',
          agregar_transformador e t = Ok e'
          /\ _ejecutar_transformacion e' datos w
             = encadenar (_ejecutar_transformacion e datos) t w)
    /\ (forall c, exists e',
          agregar_cargador e c = Ok e'
          /\ _ejecutar_carga e' datos w
             = encadenar (_ejecutar_carga e datos)
                 (fun a => encadenar (c datos) (fun a' => devolver (a ++ a')%list)) w).
Proof.
  intros Mundo e p datos w. split; [|split].
  - intro x. eexists. split; [reflexivity|].
    unfold _ejecutar_extraccion. cbn [extractores]. rewrite extraer_con_app.
    unfold encadenar. destruct (extraer_con (extractores e) p [] w) as [w1 [d|ex]];
      [|reflexivity].
    cbn [extraer_con]. unfold encadenar, devolver.
    destruct (x p w1) as [w2 [d'|ex]]; reflexivity.
  - intro t. eexists. split; [reflexivity|].
    unfold _ejecutar_transformacion. cbn [transformadores]. rewrite transformar_con_app.
    unfold encadenar. destruct (transformar_con (transformadores e) datos w) as [w1 [d|ex]];
      [|reflexivity].
    cbn [transformar_con]. unfold encadenar, devolver.
    destruct (t d w1) as [w2 [d'|ex]]; reflexivity.
  - intro c. eexists. split; [reflexivity|].
    unfold _ejecutar_carga. cbn [cargadores]. rewrite cargar_con_app.
    unfold encadenar. destruct (cargar_con (cargadores e) datos [] w) as [w1 [a|ex]];
      [|reflexivity].
    cbn [cargar_con]. unfold encadenar, devolver.
    destruct (c datos w1) as [w2 [a'|ex]]; reflexivity.
Qed.

(** X3.  Validators count only through the hooks the orchestrator may
    call: a run is the same with every validator reduced to the hooks
    whose flag ([validar_entrada], [validar_salida]) is set, and with the
    validators left without a hook removed. *)
Theorem validadores_ociosos_no_cuentan :
  forall (Mundo : Type) (utcnow : Mundo -> Q) (e : EjecutorPipeline Mundo)
         (p : Parametros) (w : Mundo),
    ejecutar utcnow e p w = ejecutar utcnow (sin_validadores_ociosos e) p w.
Proof.
  intros Mundo utcnow e p w.
  assert (Hprev : fases_previas e p w = fases_previas (sin_validadores_ociosos e) p w).
  { unfold fases_previas, encadenar, _ejecutar_extraccion, _ejecutar_transformacion,
      _ejecutar_validacion_entrada, _ejecutar_validacion_salida.
    cbn [sin_validadores_ociosos configuracion extractores transformadores validadores].
    destruct (extraer_con (extractores e) p [] w) as [w1 [de|ex]]; [|reflexivity].
    assert (Hin : (if ConfiguracionPipeline.validar_entrada (configuracion e)
                   then validar_con validar_entrada (validadores e) de
                   else devolver tt) w1
                  = (if ConfiguracionPipeline.validar_entrada (configuracion e)
                     then validar_con validar_entrada
                            (filter tiene_gancho
                               (map (ganchos_activos (configuracion e)) (validadores e))) de
                     else devolver tt) w1).
    { destruct (ConfiguracionPipeline.validar_entrada (configuracion e)) eqn:Hf;
        [|reflexivity].
      apply validar_con_entrada_activos. exact Hf. }
    rewrite Hin. clear Hin.
    match goal with
    | |- context [(if ?b then ?m1 else ?m2) w1] =>
        destruct ((if b then m1 else m2) w1) as [w2 [[]|ex]]; [|reflexivity]
    end.
    destruct (transformar_con (transformadores e) de w2) as [w3 [dt|ex]]; [|reflexivity].
    assert (Hout : (if ConfiguracionPipeline.validar_salida (configuracion e)
                    then validar_con validar_salida (validadores e) dt
                    else devolver tt) w3
                   = (if ConfiguracionPipeline.validar_salida (configuracion e)
                      then validar_con validar_salida
                             (filter tiene_gancho
                                (map (ganchos_activos (configuracion e)) (validadores e))) dt
                      else devolver tt) w3).
    { destruct (ConfiguracionPipeline.validar_salida (configuracion e)) eqn:Hf;
        [|reflexivity].
      apply validar_con_salida_activos. exact Hf. }
    rewrite Hout. reflexivity. }
  unfold ejecutar, cuerpo, encadenar. rewrite <- Hprev. reflexivity.
Qed.

(** X4.  When input validation is enabled and a validator's input hook
    raises, the run stops there: the result is a failure whose only error
    is the validator's message, with zero counts and no artifact, and the
    world is the one the validator left (no transformer and no loader has
    acted on it). *)
Theorem validacion_entrada_aborta :
  forall (Mundo : Type) (utcnow : Mundo -> Q) (e : EjecutorPipeline Mundo)
         (p : Parametros) (w w1 w2 : Mundo) (datos : list Registro) (ex : Excepcion),
    ConfiguracionPipeline.validar_entrada (configuracion e) = true ->
    _ejecutar_extraccion e p w = (w1, Ok datos) ->
    _ejecutar_validacion_entrada e datos w1 = (w2, Error ex) ->
    exists r, ejecutar utcnow e p w = (w2, r)
      /\ errores r = [mensaje ex]
      /\ registros_procesados r = 0 /\ registros_exitosos r = 0
      /\ archivos_salida r = [].
Proof.
  intros Mundo utcnow e p w w1 w2 datos ex Hflag Hext Hval.
  destruct (ejecutar_error utcnow e p w w2 ex)
    as [r [Hr [He [Hp [Hx [_ [_ [_ [_ [_ Ha]]]]]]]]]].
  - apply cuerpo_previas_error. unfold fases_previas, encadenar.
    rewrite Hext, Hflag, Hval. reflexivity.
  - exists r. repeat split; assumption.
Qed.

Lemma validacion_entrada_aborta_testigo :
  exists r, ejecutar reloj ejecutor_validador_rechaza None 0%nat = (2%nat, r)
    /\ errores r = ["entrada rechazada"]
    /\ registros_procesados r = 0 /\ registros_exitosos r = 0
    /\ archivos_salida r = [].
Proof.
  exact (validacion_entrada_aborta nat reloj ejecutor_validador_rechaza None
           0%nat 1%nat 2%nat [registro_1] _ eq_refl eq_refl eq_refl).
Defined.

(** X5.  When some transformer raises, the transformers after it, the
    output validators and the loaders are not run: the result is a
    failure whose only error is that transformer's message, and the world
    is the one it left. *)
Theorem transformador_lanza_aborta :
  forall (Mundo : Type) (utcnow : Mundo -> Q) (e : EjecutorPipeline Mundo)
         (p : Parametros) (w w1 w2 w3 : Mundo) (datos : list Registro) (ex : Excepcion),
    _ejecutar_extraccion e p w = (w1, Ok datos) ->
    (if ConfiguracionPipeline.validar_entrada (configuracion e)
     then _ejecutar_validacion_entrada e datos
     else devolver tt) w1 = (w2, Ok tt) ->
    transformador_lanza (transformadores e) datos w2 w3 ex ->
    exists r, ejecutar utcnow e p w = (w3, r)
      /\ errores r = [mensaje ex]
      /\ registros_procesados r = 0 /\ registros_exitosos r = 0
      /\ archivos_salida r = [].
Proof.
  intros Mundo utcnow e p w w1 w2 w3 datos ex Hext Hval Hlanza.
  destruct (ejecutar_error utcnow e p w w3 ex)
    as [r [Hr [He [Hp [Hx [_ [_ [_ [_ [_ Ha]]]]]]]]]].
  - apply cuerpo_previas_error. unfold fases_previas, encadenar.
    rewrite Hext, Hval. unfold _ejecutar_transformacion.
    rewrite (transformar_con_lanza _ _ _ _ _ Hlanza). reflexivity.
  - exists r. repeat split; assumption.
Qed.

Lemma transformador_lanza_aborta_testigo :
  exists r, ejecutar reloj ejecutor_transformador_falla None 0%nat = (3%nat, r)
    /\ errores r = ["sin memoria"]
    /\ registros_procesados r = 0 /\ registros_exitosos r = 0
    /\ archivos_salida r = [].
Proof.
  apply (transformador_lanza_aborta nat reloj ejecutor_transformador_falla None
           0%nat 1%nat 1%nat 3%nat [registro_1]
           {| tipo := "ErrorTransformacion"; mensaje := "sin memoria" |} eq_refl eq_refl).
  eapply transformador_lanza_otro; [reflexivity|].
  apply transformador_lanza_este. reflexivity.
Defined.

(** X6.  Every result is of one of two shapes: a success with no error
    and non-negative counts, or a failure with exactly one error, every
    count, rate and score at 0 and no artifact.  A result never carries
    an error together with counts or artifacts. *)
Theorem resultado_exito_o_fallo :
  forall (Mundo : Type) (utcnow : Mundo -> Q) (e : EjecutorPipeline Mundo)
         (p : Parametros) (w : Mundo),
    let r := snd (ejecutar utcnow e p w) in
    (resultado_exitoso r /\ exists w' f, cuerpo e p w = (w', Ok f))
    \/ (resultado_fallido r /\ exists w' ex, cuerpo e p w = (w', Error ex)
                                             /\ errores r = [mensaje ex]).
Proof.
  intros Mundo utcnow e p w. unfold ejecutar.
  destruct (cuerpo e p w) as [w' [f|ex]]; cbn [snd].
  - left. split; [|eauto]. unfold resultado_exitoso. cbn.
    split; [reflexivity|]. split; apply len_no_negativo.
  - right. split; [|eauto]. unfold resultado_fallido. cbn. repeat split.
Qed.



(** ** The stages of the cleansing transformer *)

Lemma subsecuencia_refl {A} (l : list A) : subsecuencia l l.
Proof. induction l; constructor; assumption. Qed.

Lemma subsecuencia_trans {A} (l2 l3 : list A) :
  subsecuencia l2 l3 -> forall l1, subsecuencia l1 l2 -> subsecuencia l1 l3.
Proof.
  induction 1 as [|x l2 l3 _ IH|x l2 l3 _ IH]; intros l1 H1.
  - exact H1.
  - inversion H1; subst.
    + apply subsecuencia_toma, IH; assumption.
    + apply subsecuencia_salta, IH; assumption.
  - apply subsecuencia_salta, IH; assumption.
Qed.

Lemma subsecuencia_length {A} (l1 l2 : list A) :
  subsecuencia l1 l2 -> (List.length l1 <= List.length l2)%nat.
Proof. induction 1; cbn [List.length]; lia. Qed.

Lemma subsecuencia_incl {A} (l1 l2 : list A) : subsecuencia l1 l2 -> incl l1 l2.
Proof.
  induction 1 as [|x l1 l2 _ IH|x l1 l2 _ IH]; intros y Hy.
  - exact Hy.
  - destruct Hy as [<-|Hy]; [left; reflexivity | right; exact (IH y Hy)].
  - right. exact (IH y Hy).
Qed.

Lemma subsecuencia_filter {A} (p : A -> bool) (l : list A) : subsecuencia (filter p l) l.
Proof.
  induction l as [|x l IH]; cbn [filter]; [constructor|].
  destruct (p x); constructor; exact IH.
Qed.

Lemma subsecuencia_sin_marcados {A} (l : list A) :
  forall m, subsecuencia (sin_marcados l m) l.
Proof.
  assert (Hnil : forall l' : list A, subsecuencia [] l')
    by (induction l'; constructor; assumption).
  induction l as [|x l IH]; intros [|b m]; cbn [sin_marcados]; try apply Hnil.
  destruct b; constructor; apply IH.
Qed.

Lemma subsecuencia_map {A B} (f : A -> B) (l1 l2 : list A) :
  subsecuencia l1 l2 -> subsecuencia (map f l1) (map f l2).
Proof. induction 1; cbn [map]; constructor; assumption. Qed.

Lemma subsecuencia_fold_left {A B} (f : list A -> B -> list A) :
  (forall l b, subsecuencia (f l b) l) ->
  forall bs l, subsecuencia (fold_left f bs l) l.
Proof.
  intros Hf bs. induction bs as [|b bs IH]; intro l; cbn [fold_left].
  - apply subsecuencia_refl.
  - eapply subsecuencia_trans; [apply Hf | apply IH].
Qed.

Lemma snd_etiquetar (fs : list (list Valor)) : map snd (etiquetar fs) = fs.
Proof.
  unfold etiquetar. generalize 0%nat. induction fs as [|f fs IH]; intro n; [reflexivity|].
  cbn [List.length seq combine map snd]. rewrite IH. reflexivity.
Qed.

(** The duplicate stage keeps the columns, and its rows are rows of its
    input in their order. *)
Lemma manejar_duplicados_subsecuencia (cf : ConfiguracionFinal) (df d : DataFrame) :
  _manejar_duplicados cf df = Ok d ->
  columnas d = columnas df /\ subsecuencia (filas d) (filas df).
Proof.
  rewrite manejar_duplicados_politica. intro H.
  destruct (duplicated df _ KeepFirst) as [antes|ex]; [|discriminate H]. cbn [ligar] in H.
  assert (Hd : forall d0, (sea despues <- duplicated d0 (subset (manejo_duplicados cf))
                                            KeepFirst ;; Ok d0)%res = Ok d -> d0 = d).
  { intros d0 H0. destruct (duplicated d0 _ KeepFirst); [|discriminate H0].
    cbn [ligar] in H0. inversion H0. reflexivity. }
  destruct (politica cf) as [keep|].
  - destruct (drop_duplicates df _ keep) as [d0|ex] eqn:Hdrop; [|discriminate H].
    cbn [ligar] in H. apply Hd in H. subst d0.
    apply drop_duplicates_filas in Hdrop. rewrite Hdrop.
    destruct (es_vacio df); [split; [reflexivity | apply subsecuencia_refl]|].
    split; [reflexivity | apply subsecuencia_sin_marcados].
  - cbn [ligar] in H. apply Hd in H. subst d.
    split; [reflexivity | apply subsecuencia_refl].
Qed.

Lemma manejar_outliers_subsecuencia (cf : ConfiguracionFinal) (df : DataFrame) :
  columnas (_manejar_outliers cf df) = columnas df
  /\ subsecuencia (filas (_manejar_outliers cf df)) (filas df).
Proof.
  unfold _manejar_outliers. cbn [con_filas columnas filas]. split; [reflexivity|].
  rewrite <- (snd_etiquetar (filas df)) at 2.
  apply subsecuencia_map, subsecuencia_fold_left. intros l c.
  destruct (columna df c); [|apply subsecuencia_refl].
  destruct (dtype_de df c) as [d|]; [|apply subsecuencia_refl].
  destruct (es_dtype_numerico d); [|apply subsecuencia_refl].
  destruct (String.eqb _ "iqr"); [apply subsecuencia_filter|].
  destruct (String.eqb _ "zscore"); [apply subsecuencia_filter | apply subsecuencia_refl].
Qed.

Lemma filtrar_celda_subsecuencia (df : DataFrame) (c : string) (p : Valor -> bool)
    (fs : list (list Valor)) :
  subsecuencia (filtrar_celda df c p fs) fs.
Proof.
  unfold filtrar_celda. destruct (indice c (nombres df));
    [apply subsecuencia_filter | apply subsecuencia_refl].
Qed.

Lemma aplicar_limites_subsecuencia (df : DataFrame) (c : string)
    (medida : Valor -> Flotante) (l : Limites) (fs : list (list Valor)) :
  subsecuencia (aplicar_limites df c medida l fs) fs.
Proof.
  unfold aplicar_limites.
  destruct (maximo l), (minimo l);
    repeat first [apply subsecuencia_refl
                 | apply filtrar_celda_subsecuencia
                 | eapply subsecuencia_trans; [|apply filtrar_celda_subsecuencia]].
Qed.

Lemma filtrar_longitud_subsecuencia (df : DataFrame) (c : string)
    (p : Flotante -> bool) (fs fs' : list (list Valor)) :
  filtrar_longitud df c p fs = Ok fs' -> subsecuencia fs' fs.
Proof.
  unfold filtrar_longitud. destruct (indice c (nombres df)) as [i|].
  - destruct (acceso_str _) as [serie|ex]; [|discriminate]. cbn [ligar].
    intro H. inversion H. apply subsecuencia_filter.
  - intro H. inversion H. apply subsecuencia_refl.
Qed.

Lemma aplicar_longitudes_subsecuencia (df : DataFrame) (c : string) (l : Limites)
    (fs fs' : list (list Valor)) :
  aplicar_longitudes df c l fs = Ok fs' -> subsecuencia fs' fs.
Proof.
  unfold aplicar_longitudes.
  assert (Hmin : forall fs1,
             match minimo l with
             | Some m => filtrar_longitud df c (fun n => Flt.leb (FFin m) n) fs
             | None => Ok fs
             end = Ok fs1 -> subsecuencia fs1 fs).
  { intros fs1. destruct (minimo l).
    - apply filtrar_longitud_subsecuencia.
    - intro H. inversion H. apply subsecuencia_refl. }
  destruct (match minimo l with Some _ => _ | None => _ end) as [fs1|ex]; [|discriminate].
  cbn [ligar]. specialize (Hmin fs1 eq_refl). intro H.
  apply (subsecuencia_trans _ _ Hmin).
  destruct (maximo l).
  - apply (filtrar_longitud_subsecuencia _ _ _ _ _ H).
  - inversion H. apply subsecuencia_refl.
Qed.

(** The validation stage, when it returns, keeps the columns, and its rows
    are rows of its input in their order. *)
Lemma validar_datos_subsecuencia (cf : ConfiguracionFinal) (df d : DataFrame) :
  _validar_datos cf df = Ok d ->
  columnas d = columnas df /\ subsecuencia (filas d) (filas df).
Proof.
  unfold _validar_datos. cbv zeta.
  set (fs1 := fold_left _ (rangos_numericos (validacion_datos cf)) (filas df)).
  set (fs2 := fold_left _ (valores_permitidos (validacion_datos cf)) fs1).
  assert (H1 : subsecuencia fs1 (filas df)).
  { apply subsecuencia_fold_left. intros l r.
    destruct (dtype_de df (fst r)) as [t|]; [|apply subsecuencia_refl].
    destruct (es_dtype_numerico t);
      [apply aplicar_limites_subsecuencia | apply subsecuencia_refl]. }
  assert (H2 : subsecuencia fs2 fs1).
  { apply subsecuencia_fold_left. intros l r.
    destruct (dtype_de df (fst r)) as [t|];
      [apply filtrar_celda_subsecuencia | apply subsecuencia_refl]. }
  assert (H3 : forall reglas acc fs3,
             fold_left
               (fun acc regla =>
                  (sea fs <- acc ;;
                   match dtype_de df (fst regla) with
                   | Some t => if dtype_eqb t Object
                               then aplicar_longitudes df (fst regla) (snd regla) fs
                               else Ok fs
                   | None => Ok fs
                   end)%res) reglas acc = Ok fs3 ->
             exists fs0, acc = Ok fs0 /\ subsecuencia fs3 fs0).
  { induction reglas as [|r reglas IH]; intros acc fs3 H; cbn [fold_left] in H.
    - exists fs3. split; [exact H | apply subsecuencia_refl].
    - apply IH in H. destruct H as [fs0 [H0 Hs]].
      destruct acc as [fs|ex]; [|discriminate H0]. cbn [ligar] in H0.
      exists fs. split; [reflexivity|]. apply (subsecuencia_trans fs0 fs); [|exact Hs].
      destruct (dtype_de df (fst r)) as [t|];
        [|inversion H0; apply subsecuencia_refl].
      destruct (dtype_eqb t Object); [|inversion H0; apply subsecuencia_refl].
      apply (aplicar_longitudes_subsecuencia _ _ _ _ _ H0). }
  destruct (fold_left _ (longitud_texto (validacion_datos cf)) (Ok fs2)) as [fs3|ex] eqn:Hf;
    [|discriminate].
  cbn [ligar]. intro H. inversion H. cbn [con_filas columnas filas].
  split; [reflexivity|].
  apply H3 in Hf. destruct Hf as [fs0 [H0 Hs]]. inversion H0; subst fs0.
  apply (subsecuencia_trans _ _ H1). apply (subsecuencia_trans _ _ H2). exact Hs.
Qed.

(** A length rule on an object column whose only value is a boolean: the
    [.str] accessor is refused and the stage raises. *)
Lemma validar_datos_sin_texto :
  _validar_datos (longitud_minima "a" 1) (crear_dataframe [[("a", VBool true)]; [("a", VNone)]])
  = Error {| tipo := "AttributeError";
             mensaje := "Can only use .str accessor with string values!" |}.
Proof. reflexivity. Qed.

(** X8.  The duplicate, outlier and validation stages only remove rows:
    what each returns keeps the columns of its input, and its rows are rows
    of its input, unchanged and in their order.  The outlier stage always
    returns; the other two may raise. *)
Theorem etapas_de_filtro_solo_quitan_filas :
  forall (cf : ConfiguracionFinal) (df : DataFrame),
    match _manejar_duplicados cf df with
    | Ok d => columnas d = columnas df /\ subsecuencia (filas d) (filas df)
    | Error _ => True
    end
    /\ columnas (_manejar_outliers cf df) = columnas df
    /\ subsecuencia (filas (_manejar_outliers cf df)) (filas df)
    /\ match _validar_datos cf df with
       | Ok d => columnas d = columnas df /\ subsecuencia (filas d) (filas df)
       | Error _ => True
       end.
Proof.
  intros cf df. split.
  - destruct (_manejar_duplicados cf df) as [d|ex] eqn:H; [|exact I].
    apply (manejar_duplicados_subsecuencia cf df d H).
  - pose proof (manejar_outliers_subsecuencia cf df) as [H1 H2].
    split; [exact H1|]. split; [exact H2|].
    destruct (_validar_datos cf df) as [d|ex] eqn:H; [|exact I].
    apply (validar_datos_subsecuencia cf df d H).
Qed.

Lemma asignar_columna_length (df : DataFrame) (c : string) (d : DType)
    (vals : list Valor) :
  (List.length (filas (asignar_columna df c d vals)) <= List.length (filas df))%nat.
Proof.
  unfold asignar_columna.
  destruct (indice c (nombres df)); cbn [filas];
    rewrite length_map, length_combine; lia.
Qed.

Lemma fold_left_filas_length {B} (f : DataFrame -> B -> DataFrame) :
  (forall d b, (List.length (filas (f d b)) <= List.length (filas d))%nat) ->
  forall bs d,
    (List.length (filas (fold_left f bs d)) <= List.length (filas d))%nat.
Proof.
  intros Hf bs. induction bs as [|b bs IH]; intro d; cbn [fold_left]; [lia|].
  specialize (IH (f d b)). specialize (Hf d b). lia.
Qed.

Lemma to_dict_records_length (df : DataFrame) :
  (List.length (to_dict_records df) <= List.length (filas df))%nat.
Proof.
  unfold to_dict_records. destruct (columnas df); cbn [List.length]; [lia|].
  rewrite length_map. lia.
Qed.

Lemma to_dict_records_In (df : DataFrame) (r : Registro) :
  In r (to_dict_records df) ->
  columnas df <> []
  /\ exists fila, combine (nombres df) fila = r /\ In fila (filas df).
Proof.
  unfold to_dict_records. destruct (columnas df) eqn:Hc; [intros []|].
  intro H. split; [discriminate|]. apply in_map_iff in H. exact H.
Qed.

Section EtapasDeLimpieza.

Variable repr_racional : Q -> string.
Variable moda_objeto : list Valor -> option Valor.
Variable normalizar_columna_fecha : ConfigFechas -> list Valor -> option (list Valor).

Lemma manejar_valores_nulos_length (cf : ConfiguracionFinal) (df d : DataFrame) :
  _manejar_valores_nulos moda_objeto cf df = Ok d ->
  (List.length (filas d) <= List.length (filas df))%nat.
Proof.
  unfold _manejar_valores_nulos.
  destruct (String.eqb _ "eliminar").
  { intro H. inversion H. cbn [con_filas filas].
    apply subsecuencia_length, subsecuencia_filter. }
  destruct (String.eqb _ "imputar").
  { generalize (columnas_numeradas df). intro l.
    assert (Hgen : forall acc,
               fold_left
                 (fun acc icd =>
                    (sea df_limpio <- acc ;;
                     sea dv <- imputar_columna moda_objeto (manejo_nulos cf) (snd (snd icd))
                                               (columna_n df (fst icd)) ;;
                     Ok (asignar_columna df_limpio (fst (snd icd)) (fst dv) (snd dv)))%res)
                 l acc = Ok d ->
               exists d0, acc = Ok d0
                          /\ (List.length (filas d) <= List.length (filas d0))%nat).
    { induction l as [|icd l IH]; intros acc H; cbn [fold_left] in H.
      - exists d. split; [exact H | lia].
      - apply IH in H. destruct H as [d1 [H1 Hle]].
        destruct acc as [d0|ex]; [|discriminate H1]. cbn [ligar] in H1.
        destruct (imputar_columna _ _ _ _) as [dv|ex]; [|discriminate H1].
        cbn [ligar] in H1. inversion H1; subst d1. exists d0. split; [reflexivity|].
        pose proof (asignar_columna_length d0 (fst (snd icd)) (fst dv) (snd dv)). lia. }
    intro H. apply Hgen in H. destruct H as [d0 [H0 Hle]]. inversion H0; subst. exact Hle. }
  destruct (String.eqb _ "marcar"); [|discriminate].
  intro H. inversion H. apply fold_left_filas_length.
  intros d0 b. apply asignar_columna_length.
Qed.

Lemma normalizar_texto_length (cf : ConfiguracionFinal) (df : DataFrame) :
  (List.length (filas (_normalizar_texto repr_racional cf df)) <= List.length (filas df))%nat.
Proof.
  unfold _normalizar_texto. apply fold_left_filas_length. intros d b.
  destruct (dtype_eqb _ Object); [apply asignar_columna_length | lia].
Qed.

Lemma normalizar_fechas_length (cf : ConfiguracionFinal) (df : DataFrame) :
  (List.length (filas (_normalizar_fechas normalizar_columna_fecha cf df))
   <= List.length (filas df))%nat.
Proof.
  unfold _normalizar_fechas. apply fold_left_filas_length. intros d b.
  destruct (dtype_eqb _ Object); [|lia].
  destruct (normalizar_columna_fecha _ _); [apply asignar_columna_length | lia].
Qed.

Lemma aplicar_limpieza_length (cf : ConfiguracionFinal) (df d : DataFrame) :
  _aplicar_limpieza repr_racional moda_objeto normalizar_columna_fecha cf df = Ok d ->
  (List.length (filas d) <= List.length (filas df))%nat.
Proof.
  unfold _aplicar_limpieza.
  destruct (_manejar_valores_nulos moda_objeto cf df) as [d1|ex] eqn:H1; [|discriminate].
  cbn [ligar]. apply manejar_valores_nulos_length in H1.
  set (d2 := if texto_habilitada _ then _ else d1).
  assert (H2 : (List.length (filas d2) <= List.length (filas d1))%nat).
  { subst d2. destruct (texto_habilitada _); [apply normalizar_texto_length | lia]. }
  set (d3 := if fechas_habilitada _ then _ else d2).
  assert (H3 : (List.length (filas d3) <= List.length (filas d2))%nat).
  { subst d3. destruct (fechas_habilitada _); [apply normalizar_fechas_length | lia]. }
  assert (H23 : (List.length (filas d3) <= List.length (filas d1))%nat) by lia.
  clearbody d3. clear H3 H2. clear d2. intro H.
  destruct (if duplicados_habilitado _ then _ else _) as [d4|ex] eqn:H4; [|discriminate H].
  cbn [ligar] in H.
  assert (H4' : (List.length (filas d4) <= List.length (filas d3))%nat).
  { destruct (duplicados_habilitado _).
    - apply subsecuencia_length, (manejar_duplicados_subsecuencia cf d3 d4 H4).
    - inversion H4. lia. }
  set (d5 := if outliers_habilitado _ then _ else d4) in H.
  assert (H5 : (List.length (filas d5) <= List.length (filas d4))%nat).
  { subst d5. destruct (outliers_habilitado _); [|lia].
    apply subsecuencia_length, manejar_outliers_subsecuencia. }
  clearbody d5.
  destruct (validacion_habilitada _).
  - destruct (_validar_datos cf d5) as [d6|ex] eqn:H6; [|discriminate H].
    cbn [ligar] in H. inversion H; subst d6.
    pose proof (subsecuencia_length _ _ (proj2 (validar_datos_subsecuencia cf d5 d H6))).
    lia.
  - cbn [ligar] in H. inversion H; subst d. lia.
Qed.

(** A successful run of the transformer is a successful run of its stages
    on the frame built from the records. *)
Lemma transformar_por_etapas (c : Configuracion) (datos salida : list Registro) :
  transformar repr_racional moda_objeto normalizar_columna_fecha c datos = Ok salida ->
  (datos = [] /\ salida = [])
  \/ exists d, _aplicar_limpieza repr_racional moda_objeto normalizar_columna_fecha
                 (configuracion_final c) (crear_dataframe datos) = Ok d
               /\ salida = to_dict_records d.
Proof.
  unfold transformar, envolver.
  destruct (validar_configuracion _); [|discriminate]. cbn [ligar].
  destruct datos as [|r datos]; [intro H; inversion H; left; split; reflexivity|].
  destruct (_aplicar_limpieza _ _ _ _ _) as [d|ex] eqn:Hd; [|discriminate].
  cbn [ligar]. intro H. inversion H. right. exists d. split; reflexivity.
Qed.

(** X9.  The cleansing transformer never returns more records than it
    was given: whatever the configuration, no stage adds a row. *)
Theorem limpieza_no_agrega_registros :
  forall (c : Configuracion) (datos salida : list Registro),
    transformar repr_racional moda_objeto normalizar_columna_fecha c datos = Ok salida ->
    (List.length salida <= List.length datos)%nat.
Proof.
  intros c datos salida H.
  destruct (transformar_por_etapas c datos salida H) as [[-> ->]|[d [Hd ->]]];
    [cbn; lia|].
  pose proof (to_dict_records_length d) as Hl. apply aplicar_limpieza_length in Hd.
  rewrite crear_dataframe_length in Hd. lia.
Qed.

End EtapasDeLimpieza.

Lemma limpieza_no_agrega_registros_testigo :
  transformar_de_prueba config_escenario datos_escenario
    = Ok [[("a", VFloat (FFin 1)); ("b", VStr "x")]]
  /\ (List.length [[("a", VFloat (FFin 1)); ("b", VStr "x")]]
      <= List.length datos_escenario)%nat.
Proof.
  split; [vm_compute; reflexivity|].
  apply (limpieza_no_agrega_registros repr_de_prueba moda_de_prueba fechas_de_prueba
           config_escenario datos_escenario).
  vm_compute. reflexivity.
Defined.

(** ** Cleansing transformers in a pipeline *)

Lemma transformar_con_limpieza {Mundo : Type} (ts : list (TransformadorBase Mundo)) :
  Forall es_limpieza ts ->
  forall datos w w' d,
    transformar_con ts datos w = (w', Ok d) ->
    w' = w /\ (List.length d <= List.length datos)%nat.
Proof.
  induction 1 as [|t ts [rp [mo [nf [c ->]]]] _ IH]; intros datos w w' d H;
    cbn [transformar_con] in H.
  - unfold devolver in H. inversion H. split; [reflexivity | lia].
  - unfold encadenar, TransformadorLimpieza in H.
    destruct (transformar rp mo nf c datos) as [d1|ex] eqn:H1; [|discriminate H].
    apply IH in H. destruct H as [-> H]. split; [reflexivity|].
    destruct (transformar_por_etapas _ _ _ c datos d1 H1) as [[-> ->]|[df [Hd ->]]];
      [exact H|].
    rewrite to_dict_records_length in H. apply aplicar_limpieza_length in Hd.
    rewrite crear_dataframe_length in Hd. lia.
Qed.

Lemma cuerpo_transformacion {Mundo : Type} (e : EjecutorPipeline Mundo) p w w' f :
  cuerpo e p w = (w', Ok f) ->
  exists w1 w2,
    _ejecutar_transformacion e (datos_extraidos f) w1 = (w2, Ok (datos_transformados f)).
Proof.
  unfold cuerpo, fases_previas, encadenar, devolver.
  destruct (_ejecutar_extraccion e p w) as [w1 [de|ex]]; [|discriminate].
  destruct ((if ConfiguracionPipeline.validar_entrada (configuracion e)
             then _ejecutar_validacion_entrada e de else fun w0 => (w0, Ok tt)) w1)
    as [w2 [u|ex]]; [|discriminate].
  destruct (_ejecutar_transformacion e de w2) as [w3 [dt|ex]] eqn:Ht; [|discriminate].
  destruct ((if ConfiguracionPipeline.validar_salida (configuracion e)
             then _ejecutar_validacion_salida e dt else fun w0 => (w0, Ok tt)) w3)
    as [w4 [u'|ex]]; [|discriminate].
  cbn [snd fst].
  destruct (_ejecutar_carga e dt w4) as [w5 [ar|ex]]; [|discriminate].
  destruct (calcular_metricas_calidad dt) as [m|ex]; [|discriminate].
  intro H. inversion H; subst. cbn [datos_extraidos datos_transformados].
  exists w2, w3. exact Ht.
Qed.

(** X10.  In a pipeline whose transformers are all cleansing
    transformers, whatever their configurations, the counts are coherent:
    no more successes than processed records, a non-negative number of
    failures and a success rate between 0 and 1. *)
Theorem limpieza_acota_la_tasa_de_exito :
  forall (Mundo : Type) (utcnow : Mundo -> Q) (e : EjecutorPipeline Mundo)
         (p : Parametros) (w : Mundo),
    Forall es_limpieza (transformadores e) ->
    let r := snd (ejecutar utcnow e p w) in
    registros_exitosos r <= registros_procesados r
    /\ 0 <= registros_fallidos r
    /\ (0 <= tasa_exito r <= 1)%Q.
Proof.
  intros Mundo utcnow e p w Hts. unfold ejecutar.
  destruct (cuerpo e p w) as [w' [f|ex]] eqn:Hc; cbn [snd];
    cbn [registros_exitosos registros_procesados registros_fallidos tasa_exito].
  2:{ split; [lia|]. split; [lia|]. split; [apply Qle_refl | discriminate]. }
  destruct (cuerpo_transformacion e p w w' f Hc) as [w1 [w2 Ht]].
  destruct (transformar_con_limpieza _ Hts _ _ _ _ Ht) as [_ Hle].
  assert (Hz : len (datos_transformados f) <= len (datos_extraidos f))
    by (unfold len; lia).
  split; [exact Hz|]. split; [lia|].
  destruct (datos_extraidos f) as [|r0 de] eqn:Hde.
  { split; [apply Qle_refl | discriminate]. }
  assert (Hpos : 0 < len (r0 :: de)) by (unfold len; cbn [List.length]; lia).
  destruct (razon_Z_acotada (len (datos_transformados f)) (len (r0 :: de))
              (len_no_negativo _) Hpos) as [H0 H1].
  split; [exact H0 | apply H1; exact Hz].
Qed.

Lemma limpieza_acota_la_tasa_de_exito_testigo :
  Forall es_limpieza (transformadores ejecutor_limpieza)
  /\ let r := snd (ejecutar reloj ejecutor_limpieza None 0%nat) in
     registros_exitosos r <= registros_procesados r
     /\ 0 <= registros_fallidos r
     /\ (0 <= tasa_exito r <= 1)%Q.
Proof.
  assert (H : Forall (@es_limpieza nat) (transformadores ejecutor_limpieza)).
  { constructor; [|constructor].
    exists repr_de_prueba, moda_de_prueba, fechas_de_prueba, config_escenario.
    reflexivity. }
  split; [exact H|].
  exact (limpieza_acota_la_tasa_de_exito nat reloj ejecutor_limpieza None 0%nat H).
Defined.

(** ** The cleansing transformer under the strategy "eliminar" *)

Lemma reemplazar_length {A} (x : A) (l : list A) :
  forall i, List.length (reemplazar i x l) = List.length l.
Proof.
  induction l as [|y l IH]; intros [|i]; cbn [reemplazar List.length]; try reflexivity.
  rewrite IH. reflexivity.
Qed.

Lemma existsb_reemplazar {A} (p : A -> bool) (x : A) (l : list A) :
  p x = false -> existsb p l = false ->
  forall i, existsb p (reemplazar i x l) = false.
Proof.
  intro Hx. induction l as [|y l IH]; intros H [|i]; cbn [reemplazar existsb] in *;
    try reflexivity; apply orb_false_iff in H; destruct H as [Hy Hl].
  - rewrite Hx, Hl. reflexivity.
  - rewrite Hy, IH by exact Hl. reflexivity.
Qed.

Lemma indice_None (c : string) (l : list string) : indice c l = None -> ~ In c l.
Proof.
  induction l as [|k l IH]; cbn [indice]; [intros _ []|].
  destruct (String.eqb k c) eqn:Hk; [discriminate|].
  destruct (indice c l); [discriminate|]. intros _ [->|Hin].
  - rewrite String.eqb_refl in Hk. discriminate.
  - exact (IH eq_refl Hin).
Qed.

Lemma nombres_reemplazar (c : string) (d : DType) (cols : list (string * DType)) :
  forall i, indice c (map fst cols) = Some i ->
            map fst (reemplazar i (c, d) cols) = map fst cols.
Proof.
  induction cols as [|[k dk] cols IH]; intros i H; cbn [map fst indice] in H;
    [discriminate|].
  destruct (String.eqb k c) eqn:Hk.
  - inversion H; subst. apply String.eqb_eq in Hk. subst. reflexivity.
  - destruct (indice c (map fst cols)) as [j|]; [|discriminate]. cbn in H.
    inversion H; subst. cbn [reemplazar map fst]. rewrite IH by reflexivity. reflexivity.
Qed.

Lemma asignar_columna_bien_formado (df : DataFrame) (c : string) (d : DType)
    (vals : list Valor) :
  bien_formado df -> bien_formado (asignar_columna df c d vals).
Proof.
  intros [Hn Ha]. unfold asignar_columna, bien_formado.
  destruct (indice c (nombres df)) as [i|] eqn:Hi; unfold nombres in *;
    cbn [columnas filas].
  - split; [rewrite (nombres_reemplazar c d (columnas df) i Hi); exact Hn|].
    apply Forall_forall. intros fila Hin. apply in_map_iff in Hin.
    destruct Hin as [[f v] [<- Hin]]. cbn [fst snd]. apply in_combine_l in Hin.
    rewrite !reemplazar_length. exact (proj1 (Forall_forall _ _) Ha f Hin).
  - split.
    + rewrite map_app. cbn [map fst]. apply indice_None in Hi.
      apply NoDup_app; [exact Hn | repeat constructor; intros [] |].
      intros x Hx [<-|[]]. exact (Hi Hx).
    + apply Forall_forall. intros fila Hin. apply in_map_iff in Hin.
      destruct Hin as [[f v] [<- Hin]]. cbn [fst snd]. apply in_combine_l in Hin.
      rewrite !length_app. cbn [List.length].
      rewrite (proj1 (Forall_forall _ _) Ha f Hin). reflexivity.
Qed.

Lemma asignar_columna_sin_nulos (df : DataFrame) (c : string) (d : DType)
    (vals : list Valor) :
  sin_nulos df -> Forall (fun v => es_nulo v = false) vals ->
  sin_nulos (asignar_columna df c d vals).
Proof.
  intros Hs Hv. unfold asignar_columna, sin_nulos in *.
  destruct (indice c (nombres df)) as [i|]; cbn [filas];
    apply Forall_forall; intros fila Hin; apply in_map_iff in Hin;
    destruct Hin as [[f v] [<- Hin]]; cbn [fst snd];
    pose proof (proj1 (Forall_forall _ _) Hs f (in_combine_l _ _ _ _ Hin)) as Hf;
    pose proof (proj1 (Forall_forall _ _) Hv v (in_combine_r _ _ _ _ Hin)) as Hv'.
  - apply existsb_reemplazar; assumption.
  - rewrite existsb_app, Hf. cbn [existsb]. rewrite Hv'. reflexivity.
Qed.

Lemma fold_left_invariante {A B} (P : A -> Prop) (f : A -> B -> A) :
  (forall a b, P a -> P (f a b)) -> forall bs a, P a -> P (fold_left f bs a).
Proof.
  intros Hf bs. induction bs as [|b bs IH]; intros a Ha; cbn [fold_left];
    [exact Ha | apply IH, Hf, Ha].
Qed.

Lemma filas_de_entrada_bien_formado (df d : DataFrame) :
  columnas d = columnas df -> incl (filas d) (filas df) ->
  bien_formado df -> bien_formado d.
Proof.
  intros Hc Hi [Hn Ha]. unfold bien_formado, nombres. rewrite Hc. split; [exact Hn|].
  apply Forall_forall. intros f Hf. exact (proj1 (Forall_forall _ _) Ha f (Hi f Hf)).
Qed.

Lemma filas_de_entrada_sin_nulos (df d : DataFrame) :
  incl (filas d) (filas df) -> sin_nulos df -> sin_nulos d.
Proof.
  intros Hi Hs. apply Forall_forall. intros f Hf.
  exact (proj1 (Forall_forall _ _) Hs f (Hi f Hf)).
Qed.

Lemma crear_dataframe_bien_formado (datos : list Registro) :
  bien_formado (crear_dataframe datos).
Proof.
  split; [rewrite nombres_crear_dataframe; apply nombres_columnas_NoDup
         | apply crear_dataframe_ancho].
Qed.

Section LimpiezaEliminar.

Variable repr_racional : Q -> string.
Variable moda_objeto : list Valor -> option Valor.
Variable normalizar_columna_fecha : ConfigFechas -> list Valor -> option (list Valor).

Lemma normalizar_texto_bien_formado (cf : ConfiguracionFinal) (df : DataFrame) :
  bien_formado df -> bien_formado (_normalizar_texto repr_racional cf df).
Proof.
  unfold _normalizar_texto. apply fold_left_invariante. intros d b Hd.
  destruct (dtype_eqb _ Object); [apply asignar_columna_bien_formado|]; exact Hd.
Qed.

Lemma normalizar_texto_sin_nulos (cf : ConfiguracionFinal) (df : DataFrame) :
  sin_nulos df -> sin_nulos (_normalizar_texto repr_racional cf df).
Proof.
  unfold _normalizar_texto. apply fold_left_invariante. intros d b Hd.
  destruct (dtype_eqb _ Object); [|exact Hd].
  apply asignar_columna_sin_nulos; [exact Hd|].
  apply Forall_forall. intros v Hv. apply in_map_iff in Hv. destruct Hv as [x [<- _]].
  reflexivity.
Qed.

(** The stages that follow the removal of the rows with a missing cell,
    the date stage being off. *)
Lemma aplicar_limpieza_eliminar (cf : ConfiguracionFinal) (df d : DataFrame) :
  estrategia (manejo_nulos cf) = "eliminar" ->
  fechas_habilitada (normalizacion_fechas cf) = false ->
  _aplicar_limpieza repr_racional moda_objeto normalizar_columna_fecha cf df = Ok d ->
  exists d3 d4,
    d3 = (let d1 := sin_filas_nulas df in
          if texto_habilitada (normalizacion_texto cf)
          then _normalizar_texto repr_racional cf d1 else d1)
    /\ (if duplicados_habilitado (manejo_duplicados cf)
        then _manejar_duplicados cf d3 else Ok d3) = Ok d4
    /\ columnas d4 = columnas d3
    /\ columnas d = columnas d3
    /\ subsecuencia (filas d4) (filas d3)
    /\ subsecuencia (filas d) (filas d4).
Proof.
  intros He Hf. unfold _aplicar_limpieza, _manejar_valores_nulos.
  rewrite He, Hf. cbn [String.eqb Ascii.eqb Bool.eqb ligar]. fold (sin_filas_nulas df).
  set (d3 := if texto_habilitada _ then _ else _).
  destruct (if duplicados_habilitado _ then _ else _) as [d4|ex] eqn:H4; [|discriminate].
  cbn [ligar]. intro H.
  exists d3, d4. split; [reflexivity|]. split; [exact H4|].
  assert (H34 : columnas d4 = columnas d3 /\ subsecuencia (filas d4) (filas d3)).
  { destruct (duplicados_habilitado _).
    - apply (manejar_duplicados_subsecuencia cf d3 d4 H4).
    - inversion H4. split; [reflexivity | apply subsecuencia_refl]. }
  destruct H34 as [Hc4 Hs4].
  set (d5 := if outliers_habilitado _ then _ else d4) in H.
  assert (H45 : columnas d5 = columnas d4 /\ subsecuencia (filas d5) (filas d4)).
  { subst d5. destruct (outliers_habilitado _);
      [apply manejar_outliers_subsecuencia | split; [reflexivity | apply subsecuencia_refl]]. }
  destruct H45 as [Hc5 Hs5]. clearbody d5.
  assert (H56 : columnas d = columnas d5 /\ subsecuencia (filas d) (filas d5)).
  { destruct (validacion_habilitada _).
    - destruct (_validar_datos cf d5) as [d6|ex] eqn:H6; [|discriminate H].
      cbn [ligar] in H. inversion H; subst d6.
      apply (validar_datos_subsecuencia cf d5 d H6).
    - cbn [ligar] in H. inversion H; subst d.
      split; [reflexivity | apply subsecuencia_refl]. }
  destruct H56 as [Hc6 Hs6].
  split; [exact Hc4|]. split; [congruence|]. split; [exact Hs4|].
  exact (subsecuencia_trans _ _ Hs5 _ Hs6).
Qed.

Lemma sin_filas_nulas_sin_nulos (df : DataFrame) : sin_nulos (sin_filas_nulas df).
Proof.
  unfold sin_nulos, sin_filas_nulas. cbn [con_filas filas]. apply Forall_forall.
  intros f Hf. apply filter_In in Hf. destruct Hf as [_ Hf].
  apply negb_true_iff in Hf. exact Hf.
Qed.

Lemma sin_filas_nulas_bien_formado (df : DataFrame) :
  bien_formado df -> bien_formado (sin_filas_nulas df).
Proof.
  apply filas_de_entrada_bien_formado; [reflexivity|].
  unfold sin_filas_nulas. cbn [con_filas filas]. apply incl_filter.
Qed.

(** What the transformer returns under "eliminar" with the date stage
    off: the records of a frame that is well formed and has no missing
    cell. *)
Lemma transformar_eliminar (c : Configuracion) (datos salida : list Registro) :
  estrategia (manejo_nulos (configuracion_final c)) = "eliminar" ->
  fechas_habilitada (normalizacion_fechas (configuracion_final c)) = false ->
  transformar repr_racional moda_objeto normalizar_columna_fecha c datos = Ok salida ->
  salida = []
  \/ exists d, _aplicar_limpieza repr_racional moda_objeto normalizar_columna_fecha
                 (configuracion_final c) (crear_dataframe datos) = Ok d
               /\ salida = to_dict_records d
               /\ bien_formado d /\ sin_nulos d.
Proof.
  intros He Hf. unfold transformar, envolver.
  destruct (validar_configuracion _); [|discriminate]. cbn [ligar].
  destruct datos as [|r datos]; [intro H; inversion H; left; reflexivity|].
  destruct (_aplicar_limpieza _ _ _ _ _) as [d|ex] eqn:Hd; [|discriminate].
  cbn [ligar]. intro H. inversion H. right. exists d. split; [reflexivity|].
  split; [reflexivity|].
  destruct (aplicar_limpieza_eliminar _ _ _ He Hf Hd)
    as [d3 [d4 [H3 [_ [Hc4 [Hc [Hs4 Hs]]]]]]].
  pose proof (subsecuencia_incl _ _ (subsecuencia_trans _ _ Hs4 _ Hs)) as Hincl.
  assert (H3' : bien_formado d3 /\ sin_nulos d3).
  { subst d3. cbv zeta.
    pose proof (sin_filas_nulas_bien_formado _ (crear_dataframe_bien_formado (r :: datos))).
    pose proof (sin_filas_nulas_sin_nulos (crear_dataframe (r :: datos))).
    destruct (texto_habilitada _); split;
      auto using normalizar_texto_bien_formado, normalizar_texto_sin_nulos. }
  destruct H3' as [Hb3 Hn3]. split.
  - exact (filas_de_entrada_bien_formado d3 d Hc Hincl Hb3).
  - exact (filas_de_entrada_sin_nulos d3 d Hincl Hn3).
Qed.

(** X11.  Under the strategy "eliminar" with the date stage off, no
    record that comes out of the cleansing transformer holds a missing
    value ([None] or NaN), whatever the other stages do. *)
Theorem limpieza_eliminar_sin_nulos :
  forall (c : Configuracion) (datos salida : list Registro),
    estrategia (manejo_nulos (configuracion_final c)) = "eliminar" ->
    fechas_habilitada (normalizacion_fechas (configuracion_final c)) = false ->
    transformar repr_racional moda_objeto normalizar_columna_fecha c datos = Ok salida ->
    forall r k v, In r salida -> In (k, v) r -> es_nulo v = false.
Proof.
  intros c datos salida He Hf H r k v Hr Hkv.
  destruct (transformar_eliminar c datos salida He Hf H) as [->|[d [_ [-> [_ Hs]]]]];
    [destruct Hr|].
  apply to_dict_records_In in Hr. destruct Hr as [_ [fila [<- Hfila]]].
  apply in_combine_r in Hkv.
  pose proof (proj1 (Forall_forall _ _) Hs fila Hfila) as Hn. cbv beta in Hn.
  exact (proj1 (existsb_falso es_nulo fila) Hn v Hkv).
Qed.

(** X12.  Under "eliminar" with the text and date stages off, the
    transformer only removes records: what it returns is a subsequence of
    the records of the frame built from its input, values and order
    untouched. *)
Theorem limpieza_eliminar_solo_quita_registros :
  forall (c : Configuracion) (datos salida : list Registro),
    estrategia (manejo_nulos (configuracion_final c)) = "eliminar" ->
    texto_habilitada (normalizacion_texto (configuracion_final c)) = false ->
    fechas_habilitada (normalizacion_fechas (configuracion_final c)) = false ->
    transformar repr_racional moda_objeto normalizar_columna_fecha c datos = Ok salida ->
    subsecuencia salida (to_dict_records (crear_dataframe datos)).
Proof.
  intros c datos salida He Ht Hf. unfold transformar, envolver.
  destruct (validar_configuracion _); [|discriminate]. cbn [ligar].
  destruct datos as [|r datos]; [intro H; inversion H; constructor|].
  destruct (_aplicar_limpieza _ _ _ _ _) as [d|ex] eqn:Hd; [|discriminate].
  cbn [ligar]. intro H. inversion H.
  destruct (aplicar_limpieza_eliminar _ _ _ He Hf Hd)
    as [d3 [d4 [H3 [_ [Hc4 [Hc [Hs4 Hs]]]]]]].
  rewrite Ht in H3. cbv zeta in H3. subst d3.
  unfold to_dict_records, nombres. rewrite Hc. cbn [sin_filas_nulas con_filas columnas].
  destruct (columnas (crear_dataframe (r :: datos))); [constructor|].
  apply subsecuencia_map.
  eapply subsecuencia_trans; [|exact (subsecuencia_trans _ _ Hs4 _ Hs)].
  cbn [sin_filas_nulas con_filas filas]. apply subsecuencia_filter.
Qed.

End LimpiezaEliminar.

Lemma limpieza_eliminar_sin_nulos_testigo :
  estrategia (manejo_nulos (configuracion_final config_eliminar_primero)) = "eliminar"
  /\ fechas_habilitada (normalizacion_fechas (configuracion_final config_eliminar_primero))
     = false
  /\ transformar_de_prueba config_eliminar_primero datos_escenario
     = Ok [[("a", VFloat (FFin 1)); ("b", VStr "X")]]
  /\ forall r k v, In r [[("a", VFloat (FFin 1)); ("b", VStr "X")]] -> In (k, v) r ->
                   es_nulo v = false.
Proof.
  split; [reflexivity|]. split; [reflexivity|]. split; [vm_compute; reflexivity|].
  apply (limpieza_eliminar_sin_nulos repr_de_prueba moda_de_prueba fechas_de_prueba
           config_eliminar_primero datos_escenario _ eq_refl eq_refl).
  vm_compute. reflexivity.
Defined.

Lemma limpieza_eliminar_solo_quita_registros_testigo :
  estrategia (manejo_nulos (configuracion_final config_eliminar_primero)) = "eliminar"
  /\ texto_habilitada (normalizacion_texto (configuracion_final config_eliminar_primero))
     = false
  /\ fechas_habilitada (normalizacion_fechas (configuracion_final config_eliminar_primero))
     = false
  /\ transformar_de_prueba config_eliminar_primero datos_escenario
     = Ok [[("a", VFloat (FFin 1)); ("b", VStr "X")]]
  /\ subsecuencia [[("a", VFloat (FFin 1)); ("b", VStr "X")]]
                  (to_dict_records (crear_dataframe datos_escenario)).
Proof.
  split; [reflexivity|]. split; [reflexivity|]. split; [reflexivity|].
  split; [vm_compute; reflexivity|].
  apply (limpieza_eliminar_solo_quita_registros repr_de_prueba moda_de_prueba
           fechas_de_prueba config_eliminar_primero datos_escenario _
           eq_refl eq_refl eq_refl).
  vm_compute. reflexivity.
Defined.

(** ** The quality of what the cleansing transformer returns *)

Lemma contar_si_concat_sin_nulos (fs : list (list Valor)) :
  Forall (fun fila => existsb es_nulo fila = false) fs ->
  contar_si es_nulo (List.concat fs) = 0%nat.
Proof.
  unfold contar_si. induction 1 as [|f fs Hf _ IH]; [reflexivity|].
  cbn [List.concat]. rewrite filter_app, length_app, IH.
  assert (Hf0 : filter es_nulo f = []).
  { clear - Hf. induction f as [|v f IH]; [reflexivity|]. cbn [existsb filter] in *.
    apply orb_false_iff in Hf. destruct Hf as [Hv Hf]. rewrite Hv. exact (IH Hf). }
  rewrite Hf0. reflexivity.
Qed.

Lemma contar_si_falsos (n : nat) : contar_si (fun m : bool => m) (repeat false n) = 0%nat.
Proof. unfold contar_si. induction n as [|n IH]; [reflexivity | exact IH]. Qed.

Lemma marcar_vistos_subsecuencia (ks1 ks2 : list (list Valor)) :
  subsecuencia ks1 ks2 ->
  forall V W, incl W V ->
    marcar_vistos V ks2 = repeat false (List.length ks2) ->
    marcar_vistos W ks1 = repeat false (List.length ks1).
Proof.
  induction 1 as [|k ks1 ks2 _ IH|k ks1 ks2 _ IH]; intros V W Hi H;
    cbn [marcar_vistos List.length repeat] in *.
  - reflexivity.
  - injection H as Hk Hr. f_equal.
    + apply existsb_falso. intros x Hx.
      exact (proj1 (existsb_falso _ _) Hk x (Hi x Hx)).
    + apply (IH (k :: V)); [|exact Hr].
      intros x [<-|Hx]; [left; reflexivity | right; exact (Hi x Hx)].
  - injection H as Hk Hr. apply (IH (k :: V)); [|exact Hr].
    intros x Hx. right. exact (Hi x Hx).
Qed.

Lemma mismas_claves_fila (df : DataFrame) (sub : option (list string))
    (fs fs' : list (list Valor)) :
  Forall2 (Forall2 mismo_valor) fs fs' ->
  mismas_claves (map (clave_fila df sub) fs) (map (clave_fila df sub) fs').
Proof.
  induction 1 as [|fila fila' fs fs' Hf _ IH]; cbn [map]; constructor;
    [apply clave_fila_mismo; exact Hf | exact IH].
Qed.

(** The formulas of the scorer on a record set that is not empty. *)
Lemma calcular_metricas_calidad_no_vacio (datos : list Registro) :
  datos <> [] ->
  let df := crear_dataframe datos in
  exists marcas,
    duplicated df None KeepFirst = Ok marcas
    /\ exists m, calcular_metricas_calidad datos = Ok m
         /\ completitud m
            = round2 (let total := (List.length (filas df) * List.length (columnas df))%nat in
                      if Nat.ltb 0 total
                      then razon (total - contar_si es_nulo (List.concat (filas df))) total
                           * 100
                      else 0)
         /\ consistencia m
            = round2 (let total := List.length (filas df) in
                      if Nat.ltb 0 total
                      then razon (total - contar_si (fun m : bool => m) marcas) total * 100
                      else 0)
         /\ registros_duplicados m = Some (contar_si (fun m : bool => m) marcas)
         /\ celdas_nulas m = Some (contar_si es_nulo (List.concat (filas df))).
Proof.
  destruct datos as [|r datos]; [contradiction|]. intros _ df.
  destruct (unicos_por_resta df) as [marcas [Hd _]].
  exists marcas. split; [exact Hd|].
  unfold calcular_metricas_calidad. fold df. rewrite Hd. cbn [ligar].
  eexists. split; [reflexivity|]. cbn. repeat split.
Qed.

(** The frame the scorer builds from the records of a well-formed frame
    without a missing cell. *)
Lemma crear_dataframe_to_dict_records_forma (d : DataFrame) :
  bien_formado d -> sin_nulos d -> filas d <> [] -> columnas d <> [] ->
  let df := crear_dataframe (to_dict_records d) in
  nombres df = nombres d
  /\ List.length (filas df) = List.length (filas d)
  /\ Forall (fun fila => existsb es_nulo fila = false) (filas df).
Proof.
  intros [Hn Ha] Hs Hne Hc. rewrite to_dict_records_columnas by exact Hc.
  destruct (crear_dataframe_de_registros_convertidos (nombres d) (filas d))
    as [H1 [H2 H3]]; try assumption.
  { unfold nombres. rewrite length_map. exact Ha. }
  cbv zeta. split; [exact H1|]. split; [|exact H3].
  symmetry. exact (Forall2_length H2).
Qed.

Lemma crear_dataframe_to_dict_records (d : DataFrame) :
  bien_formado d -> sin_nulos d -> filas d <> [] -> columnas d <> [] ->
  enteros_exactos (to_dict_records d) ->
  let df := crear_dataframe (to_dict_records d) in
  nombres df = nombres d
  /\ Forall2 (Forall2 mismo_valor) (filas d) (filas df)
  /\ Forall (fun fila => existsb es_nulo fila = false) (filas df).
Proof.
  intros [Hn Ha] Hs Hne Hc. rewrite to_dict_records_columnas by exact Hc. intro He.
  assert (Hw : Forall (fun fila => List.length fila = List.length (nombres d)) (filas d)).
  { unfold nombres. rewrite length_map. exact Ha. }
  apply crear_dataframe_de_registros; try assumption.
  apply (enteros_exactos_filas (nombres d)); assumption.
Qed.

Section CalidadDeLaLimpieza.

Variable repr_racional : Q -> string.
Variable moda_objeto : list Valor -> option Valor.
Variable normalizar_columna_fecha : ConfigFechas -> list Valor -> option (list Valor).

(** X13.  What comes out of the cleansing transformer under "eliminar"
    with the date stage off is complete for the quality scorer: as soon
    as a record with a field is left, the scorer counts no null cell and
    reports a completeness of 100. *)
Theorem limpieza_eliminar_completitud_total :
  forall (c : Configuracion) (datos salida : list Registro),
    estrategia (manejo_nulos (configuracion_final c)) = "eliminar" ->
    fechas_habilitada (normalizacion_fechas (configuracion_final c)) = false ->
    transformar repr_racional moda_objeto normalizar_columna_fecha c datos = Ok salida ->
    (exists r, In r salida /\ r <> []) ->
    exists m, calcular_metricas_calidad salida = Ok m
      /\ completitud m = 100%Q
      /\ celdas_nulas m = Some 0%nat.
Proof.
  intros c datos salida He Hf H [r [Hr Hrne]].
  destruct (transformar_eliminar _ _ _ c datos salida He Hf H)
    as [->|[d [_ [-> [Hb Hs]]]]]; [destruct Hr|].
  assert (Hsal : to_dict_records d <> []).
  { intro H0. rewrite H0 in Hr. exact Hr. }
  apply to_dict_records_In in Hr. destruct Hr as [Hcols [fila [_ Hfila]]].
  assert (Hne : filas d <> []).
  { intro H0. rewrite H0 in Hfila. exact Hfila. }
  destruct (crear_dataframe_to_dict_records_forma d Hb Hs Hne Hcols) as [Hnom [Hfilas Hnul]].
  destruct (calcular_metricas_calidad_no_vacio _ Hsal) as [marcas [_ [m [Hm [Hc [_ [_ Hcn]]]]]]].
  exists m. split; [exact Hm|].
  rewrite Hc, Hcn. rewrite (contar_si_concat_sin_nulos _ Hnul).
  split; [|reflexivity]. cbv zeta. rewrite Nat.sub_0_r.
  set (total := (_ * _)%nat).
  assert (Ht : (0 < total)%nat).
  { subst total. rewrite Hfilas.
    assert (Hl : List.length (columnas (crear_dataframe (to_dict_records d)))
                 = List.length (columnas d)).
    { rewrite <- (length_map fst (columnas (crear_dataframe _))).
      fold (nombres (crear_dataframe (to_dict_records d))). rewrite Hnom.
      unfold nombres. apply length_map. }
    rewrite Hl. destruct (filas d); [contradiction|]. destruct (columnas d); [contradiction|].
    cbn [List.length]. lia. }
  rewrite (proj2 (Nat.ltb_lt 0 total) Ht). apply round2_total, Ht.
Qed.

(** X14.  What comes out of the cleansing transformer under "eliminar"
    with the date stage off and the duplicate stage keeping first
    appearances over all columns is consistent for the quality scorer,
    provided float64 holds its integers exactly (none beyond 2^53 in
    absolute value): when a record is left, the scorer counts no
    duplicate and reports a consistency of 100, whatever the outlier and
    validation stages removed afterwards.  (The scorer may store larger
    integers in a float64 column, where two of them can become one
    value.) *)
Theorem limpieza_primero_consistencia_total :
  forall (c : Configuracion) (datos salida : list Registro),
    estrategia (manejo_nulos (configuracion_final c)) = "eliminar" ->
    fechas_habilitada (normalizacion_fechas (configuracion_final c)) = false ->
    duplicados_habilitado (manejo_duplicados (configuracion_final c)) = true ->
    mantener (manejo_duplicados (configuracion_final c)) = "primero" ->
    subset (manejo_duplicados (configuracion_final c)) = None ->
    transformar repr_racional moda_objeto normalizar_columna_fecha c datos = Ok salida ->
    salida <> [] ->
    enteros_exactos salida ->
    exists m, calcular_metricas_calidad salida = Ok m
      /\ consistencia m = 100%Q
      /\ registros_duplicados m = Some 0%nat.
Proof.
  intros c datos salida He Hf Hdh Hdm Hds H Hsal Hexactos.
  destruct (transformar_eliminar _ _ _ c datos salida He Hf H)
    as [->|[d [Hd [-> [Hb Hs]]]]]; [contradiction|].
  assert (Hcols : columnas d <> []).
  { intro H0. apply Hsal. apply to_dict_records_sin_columnas. exact H0. }
  assert (Hne : filas d <> []).
  { intro H0. apply Hsal. rewrite to_dict_records_columnas by exact Hcols.
    rewrite H0. reflexivity. }
  destruct (crear_dataframe_to_dict_records d Hb Hs Hne Hcols Hexactos)
    as [Hnom [Hfilas Hnul]].
  destruct (calcular_metricas_calidad_no_vacio _ Hsal)
    as [marcas [Hmarcas [m [Hm [_ [Hc [Hrd _]]]]]]].
  exists m. split; [exact Hm|].
  set (df := crear_dataframe (to_dict_records d)) in *.
  assert (Hcero : contar_si (fun b : bool => b) marcas = 0%nat).
  { unfold duplicated in Hmarcas.
    destruct (es_vacio df) eqn:Hv; [inversion Hmarcas; reflexivity|].
    inversion Hmarcas as [Hm']. clear Hmarcas. cbn [duplicated_claves].
    destruct (aplicar_limpieza_eliminar _ _ _ _ _ _ He Hf Hd)
      as [d3 [d4 [_ [H4 [Hc4 [Hcd [_ Hsub]]]]]]].
    rewrite Hdh in H4. apply (manejar_duplicados_primero _ _ _ Hdm) in H4.
    rewrite Hds in H4. apply drop_duplicates_filas in H4.
    assert (Hnd : nombres d = nombres d3) by (unfold nombres; rewrite Hcd; reflexivity).
    destruct (es_vacio d3) eqn:Hv3.
    { exfalso. subst d4. unfold es_vacio in Hv3.
      destruct (columnas d3) eqn:Hc3.
      - assert (Hv' : es_vacio df = true); [|congruence].
        apply es_vacio_sin_columnas. rewrite Hnom, Hnd. unfold nombres.
        rewrite Hc3. reflexivity.
      - destruct (filas d3); [|discriminate Hv3]. inversion Hsub as [H0| |].
        apply Hne. symmetry. exact H0. }
    set (k := clave_fila d3 None) in *.
    assert (H4' : marcar_vistos [] (map k (filas d4))
                  = repeat false (List.length (map k (filas d4)))).
    { rewrite H4. cbn [con_filas filas duplicated_claves]. rewrite <- sin_marcados_map.
      apply (marcar_sobrevivientes (map k (filas d3)) [] []); [apply incl_refl|].
      apply cubre_refl. }
    pose proof (marcar_vistos_subsecuencia _ _ (subsecuencia_map k _ _ Hsub) [] []
                  (incl_refl _) H4') as Hd0.
    assert (Hk : forall fila, clave_fila df None fila = k fila).
    { intro fila. apply clave_fila_nombres. rewrite Hnom, Hnd. reflexivity. }
    rewrite (map_ext _ _ Hk).
    change (contar_si (fun b : bool => b) (marcar_vistos [] (map k (filas df))) = 0%nat).
    rewrite <- (marcar_vistos_mismo (map k (filas d)) (map k (filas df))
                  (mismas_claves_fila _ _ _ _ Hfilas) [] [] (Forall2_nil _)).
    rewrite Hd0. apply contar_si_falsos. }
  rewrite Hc, Hrd, Hcero. split; [|reflexivity]. cbv zeta. rewrite Nat.sub_0_r.
  assert (Ht : (0 < List.length (filas df))%nat).
  { rewrite <- (Forall2_length Hfilas). destruct (filas d); [contradiction|].
    cbn [List.length]. lia. }
  rewrite (proj2 (Nat.ltb_lt 0 _) Ht). apply round2_total, Ht.
Qed.

End CalidadDeLaLimpieza.

Lemma limpieza_eliminar_completitud_total_testigo :
  estrategia (manejo_nulos (configuracion_final config_eliminar_primero)) = "eliminar"
  /\ fechas_habilitada (normalizacion_fechas (configuracion_final config_eliminar_primero))
     = false
  /\ transformar_de_prueba config_eliminar_primero datos_escenario
     = Ok [[("a", VFloat (FFin 1)); ("b", VStr "X")]]
  /\ exists m, calcular_metricas_calidad [[("a", VFloat (FFin 1)); ("b", VStr "X")]] = Ok m
       /\ completitud m = 100%Q
       /\ celdas_nulas m = Some 0%nat.
Proof.
  split; [reflexivity|]. split; [reflexivity|]. split; [vm_compute; reflexivity|].
  apply (limpieza_eliminar_completitud_total repr_de_prueba moda_de_prueba fechas_de_prueba
           config_eliminar_primero datos_escenario _ eq_refl eq_refl).
  - vm_compute. reflexivity.
  - eexists. split; [left; reflexivity | discriminate].
Defined.

Lemma limpieza_primero_consistencia_total_testigo :
  estrategia (manejo_nulos (configuracion_final config_eliminar_primero)) = "eliminar"
  /\ fechas_habilitada (normalizacion_fechas (configuracion_final config_eliminar_primero))
     = false
  /\ duplicados_habilitado (manejo_duplicados (configuracion_final config_eliminar_primero))
     = true
  /\ mantener (manejo_duplicados (configuracion_final config_eliminar_primero)) = "primero"
  /\ subset (manejo_duplicados (configuracion_final config_eliminar_primero)) = None
  /\ transformar_de_prueba config_eliminar_primero datos_escenario
     = Ok [[("a", VFloat (FFin 1)); ("b", VStr "X")]]
  /\ enteros_exactos [[("a", VFloat (FFin 1)); ("b", VStr "X")]]
  /\ exists m, calcular_metricas_calidad [[("a", VFloat (FFin 1)); ("b", VStr "X")]] = Ok m
       /\ consistencia m = 100%Q
       /\ registros_duplicados m = Some 0%nat.
Proof.
  assert (He : enteros_exactos [[("a", VFloat (FFin 1)); ("b", VStr "X")]])
    by (repeat constructor).
  split; [reflexivity|]. split; [reflexivity|]. split; [reflexivity|].
  split; [reflexivity|]. split; [reflexivity|]. split; [vm_compute; reflexivity|].
  split; [exact He|].
  apply (limpieza_primero_consistencia_total repr_de_prueba moda_de_prueba fechas_de_prueba
           config_eliminar_primero datos_escenario _ eq_refl eq_refl eq_refl eq_refl
           eq_refl).
  - vm_compute. reflexivity.
  - discriminate.
  - exact He.
Defined.

(** ** The duplicate stage under the other policies *)

Lemma mismas_claves_refl (ks : list (list Valor)) : mismas_claves ks ks.
Proof.
  induction ks as [|k ks IH]; constructor; [|exact IH].
  induction k as [|v k IHk]; constructor; [left; reflexivity | exact IHk].
Qed.

Lemma manejar_duplicados_con_politica (cf : ConfiguracionFinal) (df d : DataFrame) :
  _manejar_duplicados cf df = Ok d ->
  match politica cf with
  | Some keep => drop_duplicates df (subset (manejo_duplicados cf)) keep = Ok d
  | None => d = df
  end.
Proof.
  rewrite manejar_duplicados_politica. intro H.
  destruct (duplicated df _ KeepFirst) as [antes|ex]; [|discriminate H]. cbn [ligar] in H.
  assert (Hd : forall d0, (sea despues <- duplicated d0 (subset (manejo_duplicados cf))
                                            KeepFirst ;; Ok d0)%res = Ok d -> d0 = d).
  { intros d0 H0. destruct (duplicated d0 _ KeepFirst); [|discriminate H0].
    cbn [ligar] in H0. inversion H0. reflexivity. }
  destruct (politica cf) as [keep|].
  - destruct (drop_duplicates df _ keep) as [d0|ex]; [|discriminate H].
    cbn [ligar] in H. apply Hd in H. subst d0. reflexivity.
  - cbn [ligar] in H. apply Hd in H. symmetry. exact H.
Qed.

Lemma marcar_vistos_app (l1 : list (list Valor)) :
  forall V l2,
    marcar_vistos V (l1 ++ l2)
    = (marcar_vistos V l1 ++ marcar_vistos (rev l1 ++ V) l2)%list.
Proof.
  induction l1 as [|k l1 IH]; intros V l2; [reflexivity|].
  cbn [app marcar_vistos rev]. rewrite IH, <- app_assoc. reflexivity.
Qed.

Lemma marcar_posteriores_rev (ks : list (list Valor)) :
  rev (marcar_vistos [] (rev ks)) = marcar_posteriores ks.
Proof.
  induction ks as [|k ks IH]; [reflexivity|].
  cbn [rev marcar_posteriores]. rewrite marcar_vistos_app, rev_app_distr, IH.
  cbn [marcar_vistos rev app]. rewrite rev_involutive, app_nil_r. reflexivity.
Qed.

Lemma marcar_posteriores_length (ks : list (list Valor)) :
  List.length (marcar_posteriores ks) = List.length ks.
Proof. induction ks as [|k ks IH]; cbn [marcar_posteriores List.length]; congruence. Qed.

Lemma ultima_aparicion_nth (ks : list (list Valor)) :
  forall i, (i < List.length ks)%nat ->
    (nth i (marcar_posteriores ks) true = false <->
     forall j, (i < j < List.length ks)%nat ->
               clave_eqb (nth i ks []) (nth j ks []) = false).
Proof.
  induction ks as [|k ks IH]; intros i Hi; cbn [List.length] in Hi; [lia|].
  destruct i as [|i]; cbn [marcar_posteriores nth List.length].
  - rewrite existsb_falso. split.
    + intros H [|j] Hj; [lia|]. apply H. cbn [nth]. apply nth_In. lia.
    + intros H x Hx. destruct (In_nth _ _ [] Hx) as [j [Hj <-]].
      apply (H (S j)). lia.
  - rewrite IH by lia. split.
    + intros H [|j] Hj; [lia|]. cbn [nth]. apply H. lia.
    + intros H j Hj. apply (H (S j)). lia.
Qed.

Lemma orb_listas_nth (a : list bool) :
  forall b i, List.length a = List.length b ->
              nth i (orb_listas a b) true = nth i a true || nth i b true.
Proof.
  induction a as [|x a IH]; intros [|y b] i H; cbn [List.length] in H; try discriminate H.
  - destruct i; reflexivity.
  - destruct i as [|i]; cbn [orb_listas nth]; [reflexivity|]. apply IH. lia.
Qed.

(** The rows a mask leaves, when the unmarked positions are known. *)
Lemma sin_marcados_caracterizado (fs : list (list Valor)) (marcas : list bool)
    (P : nat -> Prop) :
  List.length marcas = List.length fs ->
  (forall i, (i < List.length fs)%nat -> (nth i marcas true = false <-> P i)) ->
  exists idx,
    StronglySorted lt idx
    /\ (forall i, In i idx <-> (i < List.length fs)%nat /\ P i)
    /\ sin_marcados fs marcas = map (fun i => nth i fs []) idx.
Proof.
  intros Hlen HP. exists (indices_sin_marca 0 marcas). split; [|split].
  - apply indices_sin_marca_ordenados.
  - intro i. rewrite indices_sin_marca_In, Nat.sub_0_r, Hlen. cbn [Nat.add]. split.
    + intros [Hi Hm]. split; [lia|]. apply HP; [lia | exact Hm].
    + intros [Hi Hp]. split; [lia|]. apply HP; assumption.
  - rewrite (sin_marcados_indices [] fs marcas 0%nat Hlen).
    apply map_ext. intro i. rewrite Nat.sub_0_r. reflexivity.
Qed.

Lemma nth_clave (df : DataFrame) (sub : option (list string)) (i : nat) :
  nth i (map (clave_fila df sub) (filas df)) []
  = clave_fila df sub (nth i (filas df) []).
Proof.
  rewrite <- (clave_fila_nil df sub) at 1. apply map_nth.
Qed.

Lemma sin_marcados_ultimas (df : DataFrame) (sub : option (list string)) :
  exists idx,
    ultimas_apariciones df sub idx
    /\ sin_marcados (filas df)
         (duplicated_claves KeepLast (map (clave_fila df sub) (filas df)))
       = map (fun i => nth i (filas df) []) idx.
Proof.
  cbn [duplicated_claves]. rewrite marcar_posteriores_rev.
  set (ks := map (clave_fila df sub) (filas df)).
  assert (Hks : List.length ks = List.length (filas df)) by apply length_map.
  destruct (sin_marcados_caracterizado (filas df) (marcar_posteriores ks)
              (fun i => forall j, (i < j < List.length (filas df))%nat ->
                 ~ iguales_bajo_clave df sub (nth i (filas df) []) (nth j (filas df) [])))
    as [idx [Hs [Hin Heq]]].
  - rewrite marcar_posteriores_length. exact Hks.
  - intros i Hi. rewrite ultima_aparicion_nth by lia. rewrite Hks.
    unfold ks. split; intros H j Hj; specialize (H j Hj).
    + rewrite !nth_clave in H. apply clave_fila_distintas. exact H.
    + rewrite !nth_clave. apply clave_fila_distintas. exact H.
  - exists idx. split; [split; assumption | exact Heq].
Qed.

Lemma sin_marcados_unicas (df : DataFrame) (sub : option (list string)) :
  exists idx,
    apariciones_unicas df sub idx
    /\ sin_marcados (filas df)
         (duplicated_claves KeepFalse (map (clave_fila df sub) (filas df)))
       = map (fun i => nth i (filas df) []) idx.
Proof.
  cbn [duplicated_claves]. rewrite marcar_posteriores_rev.
  set (ks := map (clave_fila df sub) (filas df)).
  assert (Hks : List.length ks = List.length (filas df)) by apply length_map.
  assert (Hl : List.length (marcar_vistos [] ks) = List.length (marcar_posteriores ks))
    by (rewrite marcar_vistos_length, marcar_posteriores_length; reflexivity).
  destruct (sin_marcados_caracterizado (filas df)
              (orb_listas (marcar_vistos [] ks) (marcar_posteriores ks))
              (fun i => forall j, (j < List.length (filas df))%nat -> j <> i ->
                 ~ iguales_bajo_clave df sub (nth i (filas df) []) (nth j (filas df) [])))
    as [idx [Hs [Hin Heq]]].
  - rewrite orb_listas_length by exact Hl. rewrite marcar_vistos_length. exact Hks.
  - intros i Hi. rewrite orb_listas_nth by exact Hl. rewrite orb_false_iff.
    rewrite primera_aparicion_nth, ultima_aparicion_nth by lia. rewrite Hks.
    unfold ks. split.
    + intros [H1 H2] j Hj Hji. apply clave_fila_distintas.
      destruct (Nat.lt_ge_cases j i) as [Hlt|Hge].
      * specialize (H1 j Hlt). rewrite !nth_clave in H1. exact H1.
      * assert (Hj' : (i < j < List.length (filas df))%nat) by lia.
        specialize (H2 j Hj'). rewrite !nth_clave in H2. exact H2.
    + intro H. split; intros j Hj; rewrite !nth_clave; apply clave_fila_distintas, H; lia.
  - exists idx. split; [split; assumption | exact Heq].
Qed.

Lemma politica_de (cf : ConfiguracionFinal) :
  (mantener (manejo_duplicados cf) = "ultimo" -> politica cf = Some KeepLast)
  /\ (mantener (manejo_duplicados cf) = "ninguno" -> politica cf = Some KeepFalse).
Proof. unfold politica. split; intros ->; reflexivity. Qed.

Lemma filas_de_frame_vacio (df : DataFrame) :
  columnas df <> [] -> es_vacio df = true -> filas df = [].
Proof.
  unfold es_vacio. intros Hc Hv. destruct (columnas df); [contradiction|].
  destruct (filas df); [reflexivity | discriminate Hv].
Qed.

(** X15.  On a frame with at least one column, what the duplicate stage
    returns under "ultimo" keeps the columns and holds exactly the rows that
    have no key-equal row after them, in their original order: of several
    rows equal under the key only the last one survives.  Rows are equal
    under the key when their cells in the key columns hold pairwise the
    same value or are both missing; a key of a single column keeps [None]
    and NaN apart. *)
Theorem duplicados_ultimo_conserva_ultimas :
  forall (cf : ConfiguracionFinal) (df d : DataFrame),
    mantener (manejo_duplicados cf) = "ultimo" ->
    columnas df <> [] ->
    _manejar_duplicados cf df = Ok d ->
    columnas d = columnas df
    /\ exists idx, ultimas_apariciones df (subset (manejo_duplicados cf)) idx
                   /\ filas d = map (fun i => nth i (filas df) []) idx.
Proof.
  intros cf df d Hm Hcols H. apply manejar_duplicados_con_politica in H.
  rewrite (proj1 (politica_de cf) Hm) in H. apply drop_duplicates_filas in H.
  destruct (sin_marcados_ultimas df (subset (manejo_duplicados cf))) as [idx [Hp Hs]].
  destruct (es_vacio df) eqn:Hv; subst d; (split; [reflexivity|]);
    exists idx; (split; [exact Hp|]); [|exact Hs].
  rewrite <- Hs, (filas_de_frame_vacio df Hcols Hv). reflexivity.
Qed.

(** X16.  On a frame with at least one column, what the duplicate stage
    returns under "ninguno" keeps the columns and holds exactly the rows
    that no other row equals under the key, in their original order: every
    row that has a duplicate is dropped, the first appearance included.
    Rows are equal under the key when their cells in the key columns hold
    pairwise the same value or are both missing; a key of a single column
    keeps [None] and NaN apart. *)
Theorem duplicados_ninguno_conserva_unicas :
  forall (cf : ConfiguracionFinal) (df d : DataFrame),
    mantener (manejo_duplicados cf) = "ninguno" ->
    columnas df <> [] ->
    _manejar_duplicados cf df = Ok d ->
    columnas d = columnas df
    /\ exists idx, apariciones_unicas df (subset (manejo_duplicados cf)) idx
                   /\ filas d = map (fun i => nth i (filas df) []) idx.
Proof.
  intros cf df d Hm Hcols H. apply manejar_duplicados_con_politica in H.
  rewrite (proj2 (politica_de cf) Hm) in H. apply drop_duplicates_filas in H.
  destruct (sin_marcados_unicas df (subset (manejo_duplicados cf))) as [idx [Hp Hs]].
  destruct (es_vacio df) eqn:Hv; subst d; (split; [reflexivity|]);
    exists idx; (split; [exact Hp|]); [|exact Hs].
  rewrite <- Hs, (filas_de_frame_vacio df Hcols Hv). reflexivity.
Qed.

(** X17.  The duplicate stage is idempotent: applied to what it returned,
    under the same configuration, it returns it unchanged. *)
Theorem manejar_duplicados_idempotente :
  forall (cf : ConfiguracionFinal) (df d : DataFrame),
    _manejar_duplicados cf df = Ok d -> _manejar_duplicados cf d = Ok d.
Proof.
  intros cf df d H. destruct (filas d) as [|f fs] eqn:Hf.
  - apply manejar_duplicados_vacio. unfold es_vacio. rewrite Hf.
    destruct (columnas d); reflexivity.
  - apply (manejar_duplicados_estable cf df d d H).
    + rewrite Hf. discriminate.
    + unfold nombres. rewrite (proj1 (manejar_duplicados_filas cf df d H)). reflexivity.
    + apply mismas_claves_refl.
Qed.

(** X18.  The duplicate stage never raises on an empty frame (no column
    or no row), whatever [subset] is; on any other frame it returns
    exactly when [subset] is absent or a non-empty list of column labels:
    a label that is not a column raises [KeyError], and otherwise an
    empty list raises [ValueError]. *)
Theorem manejar_duplicados_devuelve_sii :
  forall (cf : ConfiguracionFinal) (df : DataFrame),
    let sub := subset (manejo_duplicados cf) in
    if es_vacio df then _manejar_duplicados cf df = Ok df
    else
      ((exists d, _manejar_duplicados cf df = Ok d) <-> subset_valido df sub)
      /\ (forall ex, _manejar_duplicados cf df = Error ex ->
            exists s, sub = Some s
              /\ tipo ex = if forallb (fun c => contiene c (nombres df)) s
                           then "ValueError" else "KeyError").
Proof.
  intros cf df sub. destruct (es_vacio df) eqn:Hv;
    [apply manejar_duplicados_vacio; exact Hv|].
  assert (Hantes : forall r, duplicated df sub KeepFirst = r ->
            match r with
            | Ok _ => subset_valido df sub
            | Error ex => exists s, sub = Some s
                /\ tipo ex = if forallb (fun c => contiene c (nombres df)) s
                             then "ValueError" else "KeyError"
            end).
  { intros r <-. unfold duplicated, subset_valido. rewrite Hv.
    destruct sub as [s|]; [|exact I].
    destruct (forallb (fun c => contiene c (nombres df)) s) eqn:Hs; cbn [negb].
    - destruct s; [exists []; rewrite Hs; split; reflexivity|].
      split; [discriminate | reflexivity].
    - exists s. rewrite Hs. split; reflexivity. }
  split; [split|].
  - intros [d H]. unfold _manejar_duplicados in H. fold sub in H.
    specialize (Hantes _ eq_refl).
    destruct (duplicated df sub KeepFirst); [exact Hantes | discriminate H].
  - apply manejar_duplicados_total.
  - intros ex H. specialize (Hantes _ eq_refl). fold sub in Hantes.
    destruct (duplicated df sub KeepFirst) as [antes|ex0] eqn:Hd.
    + destruct (manejar_duplicados_total cf df Hantes) as [d Hok]. congruence.
    + unfold _manejar_duplicados in H. fold sub in H. rewrite Hd in H. cbn [ligar] in H.
      inversion H; subst. exact Hantes.
Qed.

(** X19.  A [mantener] that is none of "primero", "ultimo", "ninguno" is
    not an error: the duplicate stage then removes nothing and returns
    its input as it is. *)
Theorem mantener_desconocido_no_elimina :
  forall (cf : ConfiguracionFinal) (df : DataFrame),
    politica cf = None ->
    subset_valido df (subset (manejo_duplicados cf)) ->
    _manejar_duplicados cf df = Ok df.
Proof.
  intros cf df Hp Hs. destruct (manejar_duplicados_total cf df Hs) as [d H].
  pose proof (manejar_duplicados_con_politica cf df d H) as Hd. rewrite Hp in Hd.
  rewrite H, Hd. reflexivity.
Qed.

(** X20.  The outlier method "isolation_forest" passes the validation of
    the configuration, and the outlier stage then removes nothing: it
    returns its input as it is. *)
Theorem isolation_forest_no_elimina :
  forall (cf : ConfiguracionFinal) (df : DataFrame),
    metodo (manejo_outliers cf) = "isolation_forest" ->
    _manejar_outliers cf df = df
    /\ (validar_configuracion cf
        = validar_configuracion
            {| manejo_nulos := manejo_nulos cf;
               manejo_outliers := manejo_outliers configuracion_default;
               manejo_duplicados := manejo_duplicados cf;
               normalizacion_texto := normalizacion_texto cf;
               normalizacion_fechas := normalizacion_fechas cf;
               validacion_datos := validacion_datos cf |}).
Proof.
  intros cf df Hm. split.
  - unfold _manejar_outliers. rewrite Hm. cbn [String.eqb Ascii.eqb Bool.eqb].
    set (paso := fun (df_limpio : list (nat * list Valor)) (c : string) => _).
    assert (Hpaso : forall cs l, fold_left paso cs l = l).
    { induction cs as [|c cs IH]; intro l; cbn [fold_left]; [reflexivity|].
      rewrite <- (IH l) at 2. f_equal. unfold paso.
      destruct (columna df c); [|reflexivity].
      destruct (dtype_de df c) as [d|]; [|reflexivity].
      destruct (es_dtype_numerico d); reflexivity. }
    rewrite Hpaso, snd_etiquetar. apply con_filas_id.
  - unfold validar_configuracion. cbn [manejo_nulos manejo_outliers]. rewrite Hm.
    reflexivity.
Qed.

Lemma duplicados_ultimo_conserva_ultimas_testigo :
  (_manejar_duplicados (duplicados_con "ultimo") (crear_dataframe datos_escenario)
   = Ok {| columnas := [("a", Float64); ("b", Object)];
           filas := [[VFloat FNaN; VStr "x"]; [VFloat (FFin 1); VStr "X"]] |}
   /\ exists idx,
        ultimas_apariciones (crear_dataframe datos_escenario) None idx
        /\ [[VFloat FNaN; VStr "x"]; [VFloat (FFin 1); VStr "X"]]
           = map (fun i => nth i (filas (crear_dataframe datos_escenario)) []) idx)
  /\ (_manejar_duplicados (duplicados_con "ultimo") (crear_dataframe datos_ausentes)
      = Ok (crear_dataframe datos_ausentes)
      /\ exists idx,
           ultimas_apariciones (crear_dataframe datos_ausentes) None idx
           /\ filas (crear_dataframe datos_ausentes)
              = map (fun i => nth i (filas (crear_dataframe datos_ausentes)) []) idx).
Proof.
  split; (split; [vm_compute; reflexivity|]).
  - refine (proj2 (duplicados_ultimo_conserva_ultimas (duplicados_con "ultimo")
                     (crear_dataframe datos_escenario) _ eq_refl _ eq_refl)).
    discriminate.
  - refine (proj2 (duplicados_ultimo_conserva_ultimas (duplicados_con "ultimo")
                     (crear_dataframe datos_ausentes) _ eq_refl _ eq_refl)).
    discriminate.
Defined.

Lemma duplicados_ninguno_conserva_unicas_testigo :
  (_manejar_duplicados (duplicados_con "ninguno") (crear_dataframe datos_escenario)
   = Ok {| columnas := [("a", Float64); ("b", Object)];
           filas := [[VFloat FNaN; VStr "x"]] |}
   /\ exists idx,
        apariciones_unicas (crear_dataframe datos_escenario) None idx
        /\ [[VFloat FNaN; VStr "x"]]
           = map (fun i => nth i (filas (crear_dataframe datos_escenario)) []) idx)
  /\ (_manejar_duplicados (duplicados_con "ninguno") (crear_dataframe datos_ausentes)
      = Ok (crear_dataframe datos_ausentes)
      /\ exists idx,
           apariciones_unicas (crear_dataframe datos_ausentes) None idx
           /\ filas (crear_dataframe datos_ausentes)
              = map (fun i => nth i (filas (crear_dataframe datos_ausentes)) []) idx).
Proof.
  split; (split; [vm_compute; reflexivity|]).
  - refine (proj2 (duplicados_ninguno_conserva_unicas (duplicados_con "ninguno")
                     (crear_dataframe datos_escenario) _ eq_refl _ eq_refl)).
    discriminate.
  - refine (proj2 (duplicados_ninguno_conserva_unicas (duplicados_con "ninguno")
                     (crear_dataframe datos_ausentes) _ eq_refl _ eq_refl)).
    discriminate.
Defined.

Lemma manejar_duplicados_idempotente_testigo :
  exists d, _manejar_duplicados configuracion_default (crear_dataframe datos_escenario) = Ok d
            /\ _manejar_duplicados configuracion_default d = Ok d.
Proof.
  eexists. split; [vm_compute; reflexivity|].
  apply (manejar_duplicados_idempotente configuracion_default
           (crear_dataframe datos_escenario)).
  vm_compute. reflexivity.
Defined.

Lemma mantener_desconocido_no_elimina_testigo :
  politica (duplicados_con "todos") = None
  /\ subset_valido (crear_dataframe datos_escenario)
       (subset (manejo_duplicados (duplicados_con "todos")))
  /\ _manejar_duplicados (duplicados_con "todos") (crear_dataframe datos_escenario)
     = Ok (crear_dataframe datos_escenario).
Proof.
  split; [reflexivity|]. split; [exact I|].
  exact (mantener_desconocido_no_elimina (duplicados_con "todos")
           (crear_dataframe datos_escenario) eq_refl I).
Defined.

Lemma isolation_forest_no_elimina_testigo :
  metodo (manejo_outliers (outliers_con "isolation_forest")) = "isolation_forest"
  /\ _manejar_outliers (outliers_con "isolation_forest") (crear_dataframe datos_outlier)
     = crear_dataframe datos_outlier
  /\ validar_configuracion (outliers_con "isolation_forest") = Ok true.
Proof.
  split; [reflexivity|].
  destruct (isolation_forest_no_elimina (outliers_con "isolation_forest")
              (crear_dataframe datos_outlier) eq_refl) as [H1 H2].
  split; [exact H1 | rewrite H2; reflexivity].
Defined.

Lemma manejar_duplicados_devuelve_sii_testigo :
  es_vacio (crear_dataframe datos_escenario) = false
  /\ ~ subset_valido (crear_dataframe datos_escenario) (Some ["z"])
  /\ exists ex, _manejar_duplicados (duplicados_sobre ["z"]) (crear_dataframe datos_escenario)
                = Error ex
                /\ tipo ex = "KeyError".
Proof.
  split; [reflexivity|]. split; [intros [_ H]; discriminate H|].
  pose proof (manejar_duplicados_devuelve_sii (duplicados_sobre ["z"])
                (crear_dataframe datos_escenario)) as H.
  cbv zeta in H.
  change (es_vacio (crear_dataframe datos_escenario)) with false in H.
  destruct H as [_ H]. eexists. split; [vm_compute; reflexivity|].
  destruct (H _ eq_refl) as [s [Hs Ht]]. injection Hs as <-. exact Ht.
Defined.

(** ** The text stage, cell by cell *)

Lemma firstn_S_nth {A} (d : A) (l : list A) :
  forall k, (k < List.length l)%nat -> firstn (S k) l = (firstn k l ++ [nth k l d])%list.
Proof.
  induction l as [|x l IH]; intros k Hk; cbn [List.length] in Hk; [lia|].
  destruct k as [|k]; [reflexivity|].
  cbn [firstn nth app]. rewrite <- IH by lia. reflexivity.
Qed.

Lemma skipn_nth {A} (d : A) (l : list A) :
  forall k, (k < List.length l)%nat -> skipn k l = nth k l d :: skipn (S k) l.
Proof.
  induction l as [|x l IH]; intros k Hk; cbn [List.length] in Hk; [lia|].
  destruct k as [|k]; [reflexivity|]. cbn [skipn nth]. apply IH. lia.
Qed.

Lemma reemplazar_app {A} (x y : A) (l1 l2 : list A) :
  reemplazar (List.length l1) x (l1 ++ y :: l2) = (l1 ++ x :: l2)%list.
Proof. induction l1 as [|z l1 IH]; cbn [List.length app reemplazar]; congruence. Qed.

Lemma reemplazar_nth {A} (d : A) (l : list A) :
  forall k, (k < List.length l)%nat -> reemplazar k (nth k l d) l = l.
Proof.
  induction l as [|x l IH]; intros k Hk; cbn [List.length] in Hk; [lia|].
  destruct k as [|k]; cbn [reemplazar nth]; [reflexivity|]. rewrite IH by lia. reflexivity.
Qed.

Lemma indice_nth (l : list string) :
  NoDup l -> forall k, (k < List.length l)%nat -> indice (nth k l "") l = Some k.
Proof.
  induction 1 as [|x l Hx _ IH]; intros k Hk; cbn [List.length] in Hk; [lia|].
  destruct k as [|k]; cbn [nth indice]; [rewrite String.eqb_refl; reflexivity|].
  destruct (String.eqb x (nth k l "")) eqn:He.
  - apply String.eqb_eq in He. exfalso. apply Hx. rewrite He. apply nth_In. lia.
  - rewrite IH by lia. reflexivity.
Qed.

Lemma combine_map_map {A B C} (f : A -> B) (g : A -> C) (l : list A) :
  combine (map f l) (map g l) = map (fun x => (f x, g x)) l.
Proof. induction l as [|x l IH]; cbn [map combine]; congruence. Qed.

Section EtapaDeTexto.

Variable repr_racional : Q -> string.
Variable cf : ConfiguracionFinal.
Variable df : DataFrame.
Hypothesis Hbien : bien_formado df.

Let h (cv : (string * DType) * Valor) : Valor :=
  celda_normalizada repr_racional (normalizacion_texto cf) (snd (fst cv)) (snd cv).

(** The row after the first [k] columns have been visited. *)
Let parcial (k : nat) (fila : list Valor) : list Valor :=
  (map h (firstn k (combine (columnas df) fila)) ++ skipn k fila)%list.

Let paso (df_limpio : DataFrame) (icd : nat * (string * DType)) : DataFrame :=
  if dtype_eqb (snd (snd icd)) Object then
    asignar_columna df_limpio (fst (snd icd)) Object
      (map (fun v => VStr (normalizar_cadena (normalizacion_texto cf)
                             (str_valor repr_racional v)))
           (columna_n df (fst icd)))
  else df_limpio.

Lemma parcial_siguiente (k : nat) (fila : list Valor) :
  (k < List.length (columnas df))%nat ->
  List.length fila = List.length (columnas df) ->
  parcial (S k) fila
  = (map h (firstn k (combine (columnas df) fila))
     ++ h (nth k (columnas df) ("", Object), nth k fila (VFloat FNaN))
     :: skipn (S k) fila)%list.
Proof.
  intros Hk Hf. unfold parcial.
  rewrite (firstn_S_nth (("", Object), VFloat FNaN)) by (rewrite length_combine; lia).
  rewrite map_app, <- app_assoc, combine_nth by (symmetry; exact Hf). reflexivity.
Qed.

Lemma normalizar_texto_prefijo (k : nat) :
  (k <= List.length (columnas df))%nat ->
  fold_left paso (firstn k (columnas_numeradas df)) df
  = {| columnas := columnas df; filas := map (parcial k) (filas df) |}.
Proof.
  destruct Hbien as [Hnd Hancho].
  induction k as [|k IH]; intro Hk.
  - cbn [firstn fold_left]. unfold parcial. cbn [firstn map app skipn].
    rewrite map_id. destruct df; reflexivity.
  - assert (Hlen : List.length (columnas_numeradas df) = List.length (columnas df))
      by apply columnas_numeradas_length.
    rewrite (firstn_S_nth (0%nat, ("", Object))) by lia.
    rewrite fold_left_app, IH by lia. cbn [fold_left].
    unfold columnas_numeradas.
    rewrite combine_nth by (rewrite length_seq; reflexivity).
    rewrite seq_nth by lia. cbn [Nat.add].
    destruct (nth k (columnas df) ("", Object)) as [c d] eqn:Hcd.
    unfold paso. cbn [fst snd].
    destruct (dtype_eqb d Object) eqn:Hd.
    + assert (d = Object) by (destruct d; try discriminate Hd; reflexivity). subst d.
      unfold asignar_columna, nombres. cbn [columnas filas].
      assert (Hc : nth k (map fst (columnas df)) "" = c).
      { change "" with (fst ("", Object)). rewrite map_nth, Hcd. reflexivity. }
      rewrite <- Hc at 1. rewrite (indice_nth _ Hnd) by (unfold nombres; rewrite length_map; lia).
      f_equal.
      * rewrite <- Hcd. apply reemplazar_nth. lia.
      * unfold columna_n. rewrite map_map, combine_map_map, map_map. cbn [fst snd].
        apply map_ext_in. intros fila Hfila.
        pose proof (proj1 (Forall_forall _ _) Hancho fila Hfila) as Hf. cbv beta in Hf.
        rewrite parcial_siguiente by (lia || exact Hf). rewrite Hcd.
        unfold parcial. rewrite (skipn_nth (VFloat FNaN)) by lia.
        assert (Hl : List.length (map h (firstn k (combine (columnas df) fila))) = k).
        { rewrite length_map, length_firstn, length_combine. lia. }
        rewrite <- Hl at 1. rewrite reemplazar_app. unfold h, celda_normalizada, celda_en.
        cbn [fst snd dtype_eqb]. reflexivity.
    + f_equal. apply map_ext_in. intros fila Hfila.
      pose proof (proj1 (Forall_forall _ _) Hancho fila Hfila) as Hf. cbv beta in Hf.
      rewrite parcial_siguiente by (lia || exact Hf). rewrite Hcd.
      unfold parcial. rewrite (skipn_nth (VFloat FNaN) fila k) by lia.
      unfold h, celda_normalizada. cbn [fst snd]. rewrite Hd. reflexivity.
Qed.

(** X21.  On a well-formed frame the text stage, which loops over the
    columns, acts cell by cell: it keeps the columns and their dtypes, and
    in every row it replaces each cell of an [object] column by the
    normalised text of that cell and leaves every other cell as it is. *)
Theorem normalizar_texto_por_celdas :
  _normalizar_texto repr_racional cf df
  = {| columnas := columnas df;
       filas := map (fila_normalizada repr_racional (normalizacion_texto cf) (columnas df))
                    (filas df) |}.
Proof.
  pose proof (normalizar_texto_prefijo (List.length (columnas df)) (Nat.le_refl _)) as H.
  rewrite <- (columnas_numeradas_length df) in H at 1. rewrite firstn_all in H.
  unfold _normalizar_texto. fold paso. rewrite H. f_equal.
  destruct Hbien as [_ Hancho].
  apply map_ext_in. intros fila Hfila.
  pose proof (proj1 (Forall_forall _ _) Hancho fila Hfila) as Hf. cbv beta in Hf.
  unfold parcial, fila_normalizada.
  rewrite firstn_all2 by (rewrite length_combine; lia).
  rewrite skipn_all2 by lia. apply app_nil_r.
Qed.

End EtapaDeTexto.

Lemma normalizar_texto_por_celdas_testigo :
  bien_formado frame_de_textos
  /\ _normalizar_texto repr_de_prueba configuracion_default frame_de_textos
     = {| columnas := columnas frame_de_textos;
          filas := map (fila_normalizada repr_de_prueba
                          (normalizacion_texto configuracion_default)
                          (columnas frame_de_textos))
                       (filas frame_de_textos) |}.
Proof.
  split; [apply crear_dataframe_bien_formado|].
  exact (normalizar_texto_por_celdas repr_de_prueba configuracion_default frame_de_textos
           (crear_dataframe_bien_formado _)).
Defined.

(** ** The normalised text *)

Lemma filtrar_texto_todos (f : ascii -> option ascii) (P Q : ascii -> bool) :
  (forall c c', P c = true -> f c = Some c' -> Q c' = true) ->
  forall s, todos_los_caracteres P s = true ->
            todos_los_caracteres Q (filtrar_texto f s) = true.
Proof.
  intros Hf s. induction s as [|c s IH]; intro H; [reflexivity|].
  cbn [todos_los_caracteres filtrar_texto] in *. apply andb_true_iff in H.
  destruct H as [Hc Hs]. destruct (f c) as [c'|] eqn:Hfc; [|exact (IH Hs)].
  cbn [todos_los_caracteres]. rewrite (Hf c c' Hc Hfc), (IH Hs). reflexivity.
Qed.

Lemma todos_los_caracteres_cualquiera (s : string) :
  todos_los_caracteres (fun _ => true) s = true.
Proof. induction s as [|c s IH]; [reflexivity | exact IH]. Qed.

(** A property of characters that holds of the 256 code points. *)
Lemma para_todo_caracter (P : ascii -> bool) :
  forallb (fun n => P (ascii_of_nat n)) (seq 0 256) = true -> forall c, P c = true.
Proof.
  intros H c. rewrite <- (ascii_nat_embedding c).
  apply (proj1 (forallb_forall _ _) H). apply in_seq.
  pose proof (nat_ascii_bounded c). lia.
Qed.

Lemma plegar_acento_ascii (c c' : ascii) : plegar_acento c = Some c' -> es_ascii c' = true.
Proof.
  intro H.
  pose proof (para_todo_caracter
                (fun c => match plegar_acento c with
                          | Some c' => es_ascii c'
                          | None => true
                          end)) as Hp.
  specialize (Hp ltac:(vm_compute; reflexivity) c). cbv beta in Hp.
  rewrite H in Hp. exact Hp.
Qed.

Lemma filtrar_texto_compuesto (f g : ascii -> option ascii) (s : string) :
  filtrar_texto g (filtrar_texto f s)
  = filtrar_texto (fun c => match f c with Some c' => g c' | None => None end) s.
Proof.
  induction s as [|c s IH]; [reflexivity|]. cbn [filtrar_texto].
  destruct (f c) as [c'|]; [|exact IH]. cbn [filtrar_texto]. rewrite IH. reflexivity.
Qed.

Lemma filtrar_texto_ext (f g : ascii -> option ascii) (s : string) :
  (forall c, f c = g c) -> filtrar_texto f s = filtrar_texto g s.
Proof.
  intro H. induction s as [|c s IH]; [reflexivity|]. cbn [filtrar_texto].
  rewrite H, IH. reflexivity.
Qed.

(** Once special characters are gone, folding accents only drops the
    white space that is not ASCII. *)
Lemma plegar_tras_especiales (c : ascii) :
  match (if es_alfanumerico_ascii c || es_espacio c then Some c else None) with
  | Some c' => plegar_acento c'
  | None => None
  end
  = if es_simple c then Some c else None.
Proof.
  pose proof (para_todo_caracter
                (fun c =>
                   match (match (if es_alfanumerico_ascii c || es_espacio c
                                 then Some c else None) with
                          | Some c' => plegar_acento c'
                          | None => None
                          end),
                         (if es_simple c then Some c else None) with
                   | Some x, Some y => Ascii.eqb x y
                   | None, None => true
                   | _, _ => false
                   end)) as Hp.
  specialize (Hp ltac:(vm_compute; reflexivity) c). cbv beta in Hp.
  destruct (match (if es_alfanumerico_ascii c || es_espacio c then Some c else None) with
            | Some c' => plegar_acento c'
            | None => None
            end) as [x|];
    destruct (if es_simple c then Some c else None) as [y|];
    try discriminate Hp; [|reflexivity].
  apply Ascii.eqb_eq in Hp. rewrite Hp. reflexivity.
Qed.

(** X22.  With [normalizar_acentos] the normalised text is pure ASCII.
    When special characters are removed as well, the result is the text
    in hand with only its ASCII letters, digits and white space kept: the
    removal comes first, so an accented letter is dropped, not folded to
    its base letter. *)
Theorem normalizar_cadena_ascii :
  forall (config_texto : ConfigTexto) (s : string),
    normalizar_acentos config_texto = true ->
    todos_los_caracteres es_ascii (normalizar_cadena config_texto s) = true
    /\ (eliminar_caracteres_especiales config_texto = true ->
        normalizar_cadena config_texto s = solo_simples (texto_previo config_texto s)).
Proof.
  intros cfg s Ha. unfold normalizar_cadena. rewrite Ha. split.
  - unfold sin_acentos.
    apply (filtrar_texto_todos _ (fun _ => true)); [|apply todos_los_caracteres_cualquiera].
    intros c c' _. apply plegar_acento_ascii.
  - intros ->. unfold sin_acentos, sin_caracteres_especiales, solo_simples, texto_previo.
    rewrite filtrar_texto_compuesto. apply filtrar_texto_ext, plegar_tras_especiales.
Qed.

Lemma normalizar_cadena_ascii_testigo :
  normalizar_acentos texto_sin_especiales = true
  /\ eliminar_caracteres_especiales texto_sin_especiales = true
  /\ todos_los_caracteres es_ascii (normalizar_cadena texto_sin_especiales texto_acentuado)
     = true
  /\ normalizar_cadena texto_sin_especiales texto_acentuado = "caf".
Proof.
  split; [reflexivity|]. split; [reflexivity|].
  destruct (normalizar_cadena_ascii texto_sin_especiales texto_acentuado eq_refl)
    as [H1 H2].
  split; [exact H1 | rewrite (H2 eq_refl); reflexivity].
Defined.

(** ** The precision score *)

Lemma col_puntuacion_no_numerica (d : DType) (serie : list Valor) :
  es_dtype_numerico d = false -> (col_puntuacion d serie <= 2)%nat.
Proof.
  intro Hd. unfold col_puntuacion, b2n. rewrite Hd.
  repeat match goal with |- context [if ?b then _ else _] => destruct b end; lia.
Qed.

Lemma list_sum_max_In {A} (f : A -> nat) (k : nat) (l : list A) :
  (forall x, In x l -> f x <= k)%nat -> (list_sum (map f l) <= k * List.length l)%nat.
Proof.
  induction l as [|x l IH]; intro H; simpl; [lia|].
  pose proof (H x (or_introl eq_refl)).
  assert (list_sum (map f l) <= k * List.length l)%nat
    by (apply IH; intros y Hy; apply H; right; exact Hy).
  lia.
Qed.

Lemma puntuacion_total_no_numerica (df : DataFrame) :
  Forall (fun cd => es_dtype_numerico (snd cd) = false) (columnas df) ->
  (puntuacion_total df <= 2 * List.length (columnas df))%nat.
Proof.
  intro H. unfold puntuacion_total. rewrite <- columnas_numeradas_length.
  apply list_sum_max_In. intros [i cd] Hin. cbn [fst snd].
  apply col_puntuacion_no_numerica. unfold columnas_numeradas in Hin.
  apply in_combine_r in Hin. exact (proj1 (Forall_forall _ _) H cd Hin).
Qed.

Lemma round2_dos_tercios (q : Q) :
  (0 <= q)%Q -> (q <= 200 # 3)%Q -> (round2 q <= 6667 # 100)%Q.
Proof.
  intros H0 H1. unfold round2. rewrite Qred_correct.
  destruct (redondear_acotado (q * 100) 6667) as [_ Hb].
  - lra.
  - change (inject_Z 6667) with (6667 # 1)%Q. lra.
  - rewrite Zle_Qle in Hb. change (inject_Z 6667) with (6667 # 1)%Q in Hb.
    apply Qle_shift_div_r; lra.
Qed.

Lemma porcentaje_dos_tercios (p n : nat) :
  (p <= 2 * n)%nat -> (0 <= porcentaje p (3 * n) <= 200 # 3)%Q.
Proof.
  intro Hp. split; [apply porcentaje_acotado; lia|].
  unfold porcentaje. destruct (Nat.ltb 0 (3 * n)) eqn:E; [|lra].
  apply Nat.ltb_lt in E. unfold razon.
  assert (Hn : (0 < inject_Z (Z.of_nat (3 * n)))%Q) by (rewrite <- (Zlt_Qlt 0); lia).
  assert (Hle : (inject_Z (Z.of_nat p) * 3 <= inject_Z (Z.of_nat (3 * n)) * 2)%Q).
  { change 3%Q with (inject_Z 3). change 2%Q with (inject_Z 2).
    rewrite <- !inject_Z_mult, <- Zle_Qle. lia. }
  assert (Hdiv : (inject_Z (Z.of_nat p) / inject_Z (Z.of_nat (3 * n)) <= 2 # 3)%Q).
  { apply Qle_shift_div_r; [exact Hn|]. lra. }
  lra.
Qed.

Lemma calcular_metricas_calidad_precision (datos : list Registro) :
  datos <> [] ->
  exists m, calcular_metricas_calidad datos = Ok m
            /\ precision m = round2 (_calcular_precision_datos (crear_dataframe datos)).
Proof.
  destruct datos as [|r datos]; [contradiction|]. intros _.
  destruct (unicos_por_resta (crear_dataframe (r :: datos))) as [marcas [Hd _]].
  unfold calcular_metricas_calidad. rewrite Hd. cbn [ligar].
  eexists. split; reflexivity.
Qed.

(** X23.  A record set whose frame has no [int64] or [float64] column
    (texts, booleans, mixed values) never scores above 66.67 in
    precision: only a numeric column can earn the three points of a
    column. *)
Theorem precision_sin_columnas_numericas :
  forall datos : list Registro,
    Forall (fun cd => es_dtype_numerico (snd cd) = false)
           (columnas (crear_dataframe datos)) ->
    exists m, calcular_metricas_calidad datos = Ok m
              /\ (precision m <= 6667 # 100)%Q.
Proof.
  intros datos H. destruct datos as [|r datos].
  { eexists. split; [reflexivity|]. cbn. discriminate. }
  destruct (calcular_metricas_calidad_precision (r :: datos)) as [m [Hm Hp]];
    [discriminate|].
  exists m. split; [exact Hm|]. rewrite Hp, precision_porcentaje.
  pose proof (porcentaje_dos_tercios _ _ (puntuacion_total_no_numerica _ H)) as [H0 H1].
  apply round2_dos_tercios; assumption.
Qed.

Lemma precision_sin_columnas_numericas_testigo :
  Forall (fun cd => es_dtype_numerico (snd cd) = false)
         (columnas (crear_dataframe datos_de_texto))
  /\ exists m, calcular_metricas_calidad datos_de_texto = Ok m
               /\ (precision m <= 6667 # 100)%Q.
Proof.
  assert (H : Forall (fun cd => es_dtype_numerico (snd cd) = false)
                     (columnas (crear_dataframe datos_de_texto)))
    by (repeat constructor).
  split; [exact H|]. exact (precision_sin_columnas_numericas datos_de_texto H).
Defined.

(** ** The text helper *)

Lemma todos_los_caracteres_app (P : ascii -> bool) (s1 s2 : string) :
  todos_los_caracteres P (s1 ++ s2)
  = todos_los_caracteres P s1 && todos_los_caracteres P s2.
Proof.
  induction s1 as [|c s1 IH]; [reflexivity|].
  cbn [append todos_los_caracteres]. rewrite IH, andb_assoc. reflexivity.
Qed.

Lemma lower_sin_mayusculas (s : string) :
  todos_los_caracteres no_es_mayuscula (lower s) = true.
Proof.
  unfold lower. induction s as [|c s IH]; [reflexivity|].
  cbn [mapear_texto todos_los_caracteres]. rewrite IH, andb_true_r.
  apply (para_todo_caracter (fun c => no_es_mayuscula (a_minuscula c))).
  vm_compute. reflexivity.
Qed.

Lemma split_desde_palabras (P : ascii -> bool) (s : string) :
  forall palabra,
    todos_los_caracteres P s = true ->
    todos_los_caracteres (fun c => P c && negb (es_espacio c)) palabra = true ->
    Forall (fun w => todos_los_caracteres (fun c => P c && negb (es_espacio c)) w = true)
           (split_desde palabra s).
Proof.
  induction s as [|c s IH]; intros palabra Hs Hp; cbn [split_desde].
  - destruct palabra; [constructor | constructor; [exact Hp | constructor]].
  - cbn [todos_los_caracteres] in Hs. apply andb_true_iff in Hs. destruct Hs as [Hc Hs].
    destruct (es_espacio c) eqn:He.
    + destruct palabra; [apply IH; [exact Hs | reflexivity]|].
      constructor; [exact Hp | apply IH; [exact Hs | reflexivity]].
    + apply IH; [exact Hs|]. rewrite todos_los_caracteres_app, Hp.
      cbn [todos_los_caracteres]. rewrite Hc, He. reflexivity.
Qed.

Lemma join_todos (Q : ascii -> bool) (sep : string) (l : list string) :
  todos_los_caracteres Q sep = true ->
  Forall (fun w => todos_los_caracteres Q w = true) l ->
  todos_los_caracteres Q (join sep l) = true.
Proof.
  intros Hsep. induction 1 as [|w l Hw Hl IH]; [reflexivity|].
  cbn [join]. destruct l as [|w' l]; [exact Hw|].
  rewrite !todos_los_caracteres_app, Hw, Hsep, IH. reflexivity.
Qed.

Lemma todos_los_caracteres_implica (P Q : ascii -> bool) (s : string) :
  (forall c, P c = true -> Q c = true) ->
  todos_los_caracteres P s = true -> todos_los_caracteres Q s = true.
Proof.
  intro H. induction s as [|c s IH]; [reflexivity|]. cbn [todos_los_caracteres].
  intro Hs. apply andb_true_iff in Hs. destruct Hs as [Hc Hs].
  rewrite (H c Hc), (IH Hs). reflexivity.
Qed.

(** X24.  The helper [normalizar_texto] applied to a text returns a text
    made of lower-case ASCII letters, digits and spaces only; applied to
    anything else it returns [str] of its argument. *)
Theorem normalizar_texto_alfabeto :
  forall (repr_racional : Q -> string) (texto : Valor),
    match texto with
    | VStr t => todos_los_caracteres es_normal (normalizar_texto repr_racional texto) = true
    | _ => normalizar_texto repr_racional texto = str_valor repr_racional texto
    end.
Proof.
  intros rp [| | |t|]; try reflexivity.
  unfold normalizar_texto, sin_caracteres_especiales.
  apply (filtrar_texto_todos _ de_palabra_o_separador).
  - intros c c' Hc H.
    destruct (es_alfanumerico_ascii c || es_espacio c) eqn:Hk; [|discriminate H].
    injection H as <-.
    pose proof (para_todo_caracter
                  (fun c => negb (de_palabra_o_separador c)
                            || negb (es_alfanumerico_ascii c || es_espacio c)
                            || es_normal c)) as Hp.
    specialize (Hp ltac:(vm_compute; reflexivity) c). cbv beta in Hp.
    rewrite Hc, Hk in Hp. exact Hp.
  - apply join_todos; [reflexivity|].
    pose proof (split_desde_palabras no_es_mayuscula (lower t) EmptyString
                  (lower_sin_mayusculas t) eq_refl) as H.
    unfold split. eapply Forall_impl; [|exact H]. intros w Hw. cbv beta in *.
    revert Hw. apply todos_los_caracteres_implica. intros c Hc.
    unfold de_palabra_o_separador. rewrite Hc. reflexivity.
Qed.

(** ** The REST extractor *)

Section PropiedadesExtractorAPI.

Variable urlparse_lanza : string -> bool.
Variable urljoin : string -> string -> Resultado string.
Variable Mundo : Type.
Variable solicitar : ExtractorAPI.Peticion -> Accion Mundo ExtractorAPI.Respuesta.
Variable dormir : Q -> Mundo -> Mundo.

Lemma paginar_paginado (cf : ExtractorAPI.Configuracion) (url : string)
    (headers : list (string * string)) (params : Registro) :
  forall (combustible : nat) (pagina : Z) (registros : list Json) (w : Mundo),
    (Z.to_nat (ExtractorAPI.max_paginas (ExtractorAPI.paginacion cf) - pagina + 1)
     <= combustible)%nat ->
    exists w' paginas,
      ExtractorAPI.paginar Mundo solicitar dormir cf combustible url headers params
        pagina registros w
      = (w', Ok (registros ++ List.concat paginas)%list)
      /\ ExtractorAPI.paginado Mundo solicitar dormir cf url headers params pagina w w'
           paginas
      /\ (List.length paginas
          <= Z.to_nat (ExtractorAPI.max_paginas (ExtractorAPI.paginacion cf) - pagina + 1))%nat.
Proof.
  induction combustible as [|n IH]; intros pagina registros w Hn.
  - exists w, []. cbn [ExtractorAPI.paginar List.concat List.length].
    rewrite app_nil_r. split; [reflexivity|]. split; [|lia].
    apply ExtractorAPI.paginado_tope. lia.
  - cbn [ExtractorAPI.paginar]. cbv zeta.
    destruct (pagina <=? ExtractorAPI.max_paginas (ExtractorAPI.paginacion cf)) eqn:Hp.
    2:{ exists w, []. cbn [List.concat List.length]. rewrite app_nil_r.
        split; [reflexivity|]. split; [|lia].
        apply ExtractorAPI.paginado_tope. apply Z.leb_gt in Hp. lia. }
    apply Z.leb_le in Hp.
    set (req := ExtractorAPI.peticion cf url headers _).
    assert (Hfalla : forall w1,
               ExtractorAPI.pagina_fallida Mundo solicitar cf url headers params pagina w w1 ->
               exists w' paginas,
                 (w1, Ok registros) = (w', Ok (registros ++ List.concat paginas)%list)
                 /\ ExtractorAPI.paginado Mundo solicitar dormir cf url headers params
                      pagina w w' paginas
                 /\ (List.length paginas
                     <= Z.to_nat (ExtractorAPI.max_paginas (ExtractorAPI.paginacion cf)
                                  - pagina + 1))%nat).
    { intros w1 Hf. exists w1, []. cbn [List.concat List.length]. rewrite app_nil_r.
      split; [reflexivity|]. split; [|lia].
      apply ExtractorAPI.paginado_falla; assumption. }
    destruct (solicitar req w) as [w1 [response|ex]] eqn:Hreq.
    2:{ apply Hfalla. unfold ExtractorAPI.pagina_fallida. cbv zeta. fold req.
        rewrite Hreq. split; [reflexivity | exact I]. }
    destruct (ExtractorAPI.status response =? 200) eqn:Hst; cbn [negb].
    2:{ apply Hfalla. unfold ExtractorAPI.pagina_fallida. cbv zeta. fold req.
        rewrite Hreq. split; [reflexivity|]. left. apply Z.eqb_neq. exact Hst. }
    apply Z.eqb_eq in Hst.
    destruct (ExtractorAPI.json response) as [data|ex] eqn:Hjson.
    2:{ apply Hfalla. unfold ExtractorAPI.pagina_fallida. cbv zeta. fold req.
        rewrite Hreq. split; [reflexivity|]. right. cbn [snd]. rewrite Hjson. exact I. }
    destruct (ExtractorAPI._extraer_registros_de_respuesta data) as [|r rp] eqn:Hrp.
    { apply Hfalla. unfold ExtractorAPI.pagina_fallida. cbv zeta. fold req.
      rewrite Hreq. split; [reflexivity|]. right. cbn [snd]. rewrite Hjson. exact Hrp. }
    assert (Hleida : ExtractorAPI.pagina_leida Mundo solicitar cf url headers params
                       pagina w w1 (r :: rp)).
    { exists response, data. fold req. rewrite Hrp. repeat split; try assumption.
      discriminate. }
    destruct (Z.of_nat (List.length (r :: rp))
              <? ExtractorAPI.tamano_pagina (ExtractorAPI.paginacion cf)) eqn:Hcorta.
    + exists w1, [r :: rp]. cbn [List.concat List.length]. rewrite app_nil_r.
      split; [reflexivity|]. split; [|lia].
      apply ExtractorAPI.paginado_ultima; [exact Hp | exact Hleida|].
      apply Z.ltb_lt. exact Hcorta.
    + apply Z.ltb_ge in Hcorta.
      fold (ExtractorAPI.pausa Mundo dormir cf w1).
      destruct (IH (pagina + 1) (registros ++ r :: rp)%list
                   (ExtractorAPI.pausa Mundo dormir cf w1))
        as [w' [paginas [Heq [Hpag Hlen]]]]; [lia|].
      exists w', ((r :: rp) :: paginas). rewrite Heq. cbn [List.concat List.length].
      rewrite <- app_assoc. split; [reflexivity|]. split; [|lia].
      eapply ExtractorAPI.paginado_sigue; eassumption.
Qed.

(** What [extraer] does once the configuration is valid and the URL is
    joined. *)
Lemma extraer_valida (url_base : string) (cf : ExtractorAPI.Configuracion)
    (parametros : Parametros) (url : string) (w : Mundo) :
  ExtractorAPI.validar_configuracion urlparse_lanza url_base cf = Ok true ->
  urljoin url_base (ExtractorAPI.endpoint cf) = Ok url ->
  let req := peticion_de cf parametros url in
  ExtractorAPI.extraer urlparse_lanza urljoin Mundo solicitar dormir url_base cf
    parametros w
  = match (if ExtractorAPI.habilitada (ExtractorAPI.paginacion cf)
           then ExtractorAPI._extraer_con_paginacion Mundo solicitar dormir cf url
                  (ExtractorAPI.peticion_headers req) (ExtractorAPI.params req) w
           else ExtractorAPI._extraer_sin_paginacion Mundo solicitar cf url
                  (ExtractorAPI.peticion_headers req) (ExtractorAPI.params req) w) with
    | (w', Ok registros) => (w', Ok registros)
    | (w', Error e) =>
        (w', Error (ErrorExtraccion ("Error en extracción API: " ++ mensaje e)))
    end.
Proof.
  intros Hv Hu req. unfold ExtractorAPI.extraer. rewrite Hv, Hu. cbv zeta.
  subst req. unfold peticion_de. cbn [ExtractorAPI.peticion_headers ExtractorAPI.params].
  destruct (ExtractorAPI.habilitada (ExtractorAPI.paginacion cf)).
  - match goal with
    | |- context [ExtractorAPI._extraer_con_paginacion ?M ?s ?d ?c ?u ?h ?p ?w0] =>
        destruct (ExtractorAPI._extraer_con_paginacion M s d c u h p w0)
          as [w' [registros|ex]]
    end; [|reflexivity].
    unfold ExtractorAPI._aplicar_transformacion.
    destruct (ExtractorAPI.transformacion_respuesta cf); reflexivity.
  - match goal with
    | |- context [ExtractorAPI._extraer_sin_paginacion ?M ?s ?c ?u ?h ?p ?w0] =>
        destruct (ExtractorAPI._extraer_sin_paginacion M s c u h p w0)
          as [w' [registros|ex]]
    end; [|reflexivity].
    unfold ExtractorAPI._aplicar_transformacion.
    destruct (ExtractorAPI.transformacion_respuesta cf); reflexivity.
Qed.

(** When [urljoin] raises, [extraer] raises before any request. *)
Lemma extraer_urljoin_lanza (url_base : string) (cf : ExtractorAPI.Configuracion)
    (parametros : Parametros) (ex : Excepcion) (w : Mundo) :
  ExtractorAPI.validar_configuracion urlparse_lanza url_base cf = Ok true ->
  urljoin url_base (ExtractorAPI.endpoint cf) = Error ex ->
  ExtractorAPI.extraer urlparse_lanza urljoin Mundo solicitar dormir url_base cf
    parametros w
  = (w, Error (ErrorExtraccion ("Error en extracción API: " ++ mensaje ex))).
Proof.
  intros Hv Hu. unfold ExtractorAPI.extraer. rewrite Hv, Hu. reflexivity.
Qed.

End PropiedadesExtractorAPI.

(** X25.  The paginated extraction always returns, and what it returns is
    the concatenation, in order, of the pages it read, starting at page 1:
    it goes on after a page of at least [tamano_pagina] records, and
    stops after a shorter page, at a turn that reads nothing (the request
    raises, the status is not 200, the body does not decode or holds no
    record) and past [max_paginas]; it never reads more than
    [max_paginas] pages. *)
Theorem paginacion_lee_paginas_en_orden :
  forall (Mundo : Type)
         (solicitar : ExtractorAPI.Peticion -> Accion Mundo ExtractorAPI.Respuesta)
         (dormir : Q -> Mundo -> Mundo) (cf : ExtractorAPI.Configuracion)
         (url : string) (headers : list (string * string)) (params : Registro)
         (w : Mundo),
    exists w' paginas,
      ExtractorAPI._extraer_con_paginacion Mundo solicitar dormir cf url headers params w
      = (w', Ok (List.concat paginas))
      /\ ExtractorAPI.paginado Mundo solicitar dormir cf url headers params 1 w w' paginas
      /\ (List.length paginas
          <= Z.to_nat (ExtractorAPI.max_paginas (ExtractorAPI.paginacion cf)))%nat.
Proof.
  intros Mundo solicitar dormir cf url headers params w.
  unfold ExtractorAPI._extraer_con_paginacion.
  destruct (paginar_paginado Mundo solicitar dormir cf url headers params
              (Z.to_nat (ExtractorAPI.max_paginas (ExtractorAPI.paginacion cf))) 1 [] w)
    as [w' [paginas [Heq [Hpag Hlen]]]].
  - replace (ExtractorAPI.max_paginas (ExtractorAPI.paginacion cf) - 1 + 1)
      with (ExtractorAPI.max_paginas (ExtractorAPI.paginacion cf)) by lia. lia.
  - exists w', paginas. split; [exact Heq|]. split; [exact Hpag|].
    replace (ExtractorAPI.max_paginas (ExtractorAPI.paginacion cf) - 1 + 1)
      with (ExtractorAPI.max_paginas (ExtractorAPI.paginacion cf)) in Hlen by lia.
    exact Hlen.
Qed.

(** X26.  With pagination on and a valid configuration, [extraer] raises
    only when [urljoin] does, and then no request is sent.  Once the URL is
    joined [extraer] never raises, whatever the server does; and when every
    request fails (it raises or is answered with a status other than 200),
    [extraer] reports a successful extraction of no record, after the one
    request for page 1, or after none when [max_paginas] is below 1. *)
Theorem paginacion_oculta_errores :
  forall (urlparse_lanza : string -> bool) (urljoin : string -> string -> Resultado string)
         (Mundo : Type)
         (solicitar : ExtractorAPI.Peticion -> Accion Mundo ExtractorAPI.Respuesta)
         (dormir : Q -> Mundo -> Mundo) (url_base : string)
         (cf : ExtractorAPI.Configuracion) (parametros : Parametros) (w : Mundo),
    ExtractorAPI.validar_configuracion urlparse_lanza url_base cf = Ok true ->
    ExtractorAPI.habilitada (ExtractorAPI.paginacion cf) = true ->
    match urljoin url_base (ExtractorAPI.endpoint cf) with
    | Error ex =>
        ExtractorAPI.extraer urlparse_lanza urljoin Mundo solicitar dormir url_base cf
          parametros w
        = (w, Error (ErrorExtraccion ("Error en extracción API: " ++ mensaje ex)))
    | Ok url =>
        (exists w' registros,
            ExtractorAPI.extraer urlparse_lanza urljoin Mundo solicitar dormir url_base cf
              parametros w = (w', Ok registros))
        /\ ((forall req w0, match snd (solicitar req w0) with
                            | Ok response => ExtractorAPI.status response <> 200
                            | Error _ => True
                            end) ->
            ExtractorAPI.extraer urlparse_lanza urljoin Mundo solicitar dormir url_base cf
              parametros w
            = (if 1 <=? ExtractorAPI.max_paginas (ExtractorAPI.paginacion cf)
               then fst (solicitar (primera_pagina cf parametros url) w)
               else w,
               Ok []))
    end.
Proof.
  intros urlparse_lanza urljoin Mundo solicitar dormir url_base cf parametros w Hv Hp.
  destruct (urljoin url_base (ExtractorAPI.endpoint cf)) as [url|ex] eqn:Hu.
  2:{ apply extraer_urljoin_lanza; assumption. }
  pose proof (extraer_valida urlparse_lanza urljoin Mundo solicitar dormir url_base cf
                parametros url w Hv Hu) as Hex.
  cbv zeta in Hex. rewrite Hp in Hex. split.
  - unfold ExtractorAPI._extraer_con_paginacion in Hex.
    destruct (paginar_paginado Mundo solicitar dormir cf url
                (ExtractorAPI.peticion_headers (peticion_de cf parametros url))
                (ExtractorAPI.params (peticion_de cf parametros url))
                (Z.to_nat (ExtractorAPI.max_paginas (ExtractorAPI.paginacion cf))) 1 [] w)
      as [w' [paginas [Heq _]]]; [lia|].
    rewrite Heq in Hex. eauto.
  - intros Hcaido. rewrite Hex.
    unfold ExtractorAPI._extraer_con_paginacion.
    destruct (1 <=? ExtractorAPI.max_paginas (ExtractorAPI.paginacion cf)) eqn:Hmax.
    + apply Z.leb_le in Hmax.
      destruct (Z.to_nat (ExtractorAPI.max_paginas (ExtractorAPI.paginacion cf)))
        as [|n] eqn:Hn; [lia|].
      cbn [ExtractorAPI.paginar]. cbv zeta.
      replace (1 <=? ExtractorAPI.max_paginas (ExtractorAPI.paginacion cf)) with true
        by (symmetry; apply Z.leb_le; exact Hmax).
      change (ExtractorAPI.peticion cf url
                (ExtractorAPI.peticion_headers (peticion_de cf parametros url))
                (asignar (ExtractorAPI.parametro_tamano (ExtractorAPI.paginacion cf))
                   (VInt (ExtractorAPI.tamano_pagina (ExtractorAPI.paginacion cf)))
                   (asignar (ExtractorAPI.parametro_pagina (ExtractorAPI.paginacion cf))
                      (VInt 1) (ExtractorAPI.params (peticion_de cf parametros url)))))
        with (primera_pagina cf parametros url).
      specialize (Hcaido (primera_pagina cf parametros url) w).
      destruct (solicitar (primera_pagina cf parametros url) w) as [w1 [response|ex]];
        cbn [fst snd] in *; [|reflexivity].
      replace (ExtractorAPI.status response =? 200) with false
        by (symmetry; apply Z.eqb_neq; exact Hcaido).
      reflexivity.
    + apply Z.leb_gt in Hmax.
      replace (Z.to_nat (ExtractorAPI.max_paginas (ExtractorAPI.paginacion cf)))
        with 0%nat by lia.
      reflexivity.
Qed.

Lemma paginacion_oculta_errores_testigo :
  ExtractorAPI.extraer urlparse_de_prueba urljoin_de_prueba nat servidor_caido
    dormir_de_prueba "http://api" (config_api true sin_autenticacion) None 0%nat
  = (1%nat, Ok [])
  /\ ExtractorAPI.extraer urlparse_de_prueba urljoin_de_prueba nat servidor_caido
       dormir_de_prueba "http://api" (config_api_endpoint true) None 0%nat
     = (0%nat, Error (ErrorExtraccion "Error en extracción API: Invalid IPv6 URL")).
Proof.
  split.
  - pose proof (paginacion_oculta_errores urlparse_de_prueba urljoin_de_prueba nat
                  servidor_caido dormir_de_prueba "http://api"
                  (config_api true sin_autenticacion) None 0%nat eq_refl eq_refl) as H.
    cbn in H. destruct H as [_ H]. apply H. intros req w0. discriminate.
  - exact (paginacion_oculta_errores urlparse_de_prueba urljoin_de_prueba nat
             servidor_caido dormir_de_prueba "http://api"
             (config_api_endpoint true) None 0%nat eq_refl eq_refl).
Defined.



(** X28.  The configuration of the REST extractor is rejected exactly
    when the base URL does not parse, the HTTP method is not one of the
    five known, the authentication type is set and unknown, or the rate
    limit is not positive; [extraer] then raises an [ErrorExtraccion]
    that carries the message of the [ErrorConfiguracion], and no request
    is sent: the world is left as it was. *)
Theorem configuracion_api_invalida_no_solicita :
  forall (urlparse_lanza : string -> bool) (urljoin : string -> string -> Resultado string)
         (Mundo : Type)
         (solicitar : ExtractorAPI.Peticion -> Accion Mundo ExtractorAPI.Respuesta)
         (dormir : Q -> Mundo -> Mundo) (url_base : string)
         (cf : ExtractorAPI.Configuracion),
    ((exists ex, ExtractorAPI.validar_configuracion urlparse_lanza url_base cf = Error ex)
     <-> (urlparse_lanza url_base = true
          \/ contiene (ExtractorAPI.metodo cf) ["GET"; "POST"; "PUT"; "DELETE"; "PATCH"]
             = false
          \/ (exists t, ExtractorAPI.auth_tipo (ExtractorAPI.autenticacion cf) = Some t
                        /\ t <> ""
                        /\ contiene t ["bearer"; "basic"; "api_key"] = false)
          \/ ExtractorAPI.rate_limit cf <= 0))
    /\ forall ex,
         ExtractorAPI.validar_configuracion urlparse_lanza url_base cf = Error ex ->
         tipo ex = "ErrorConfiguracion"
         /\ forall parametros w,
              ExtractorAPI.extraer urlparse_lanza urljoin Mundo solicitar dormir url_base cf
                parametros w
              = (w, Error (ErrorExtraccion ("Error en extracción API: " ++ mensaje ex))).
Proof.
  intros urlparse_lanza urljoin Mundo solicitar dormir url_base cf. split.
  - unfold ExtractorAPI.validar_configuracion. cbv zeta.
    destruct (urlparse_lanza url_base); [split; [left; reflexivity | eauto]|].
    destruct (contiene (ExtractorAPI.metodo cf) _) eqn:Hm; cbn [negb];
      [|split; [right; left; reflexivity | eauto]].
    destruct (ExtractorAPI.auth_tipo (ExtractorAPI.autenticacion cf)) as [t|] eqn:Ht;
      cbn [ExtractorAPI.verdadero andb negb].
    + destruct (String.eqb t "") eqn:He; cbn [negb andb].
      * apply String.eqb_eq in He.
        destruct (ExtractorAPI.rate_limit cf <=? 0) eqn:Hr.
        -- apply Z.leb_le in Hr. split; [auto | eauto].
        -- apply Z.leb_gt in Hr. split; [intros [ex H]; discriminate H|].
           intros [H|[H|[[t' [Ht' [Hne _]]]|H]]]; try discriminate H; try lia.
           injection Ht' as <-. contradiction.
      * apply String.eqb_neq in He.
        destruct (contiene t ["bearer"; "basic"; "api_key"]) eqn:Hc; cbn [negb].
        -- destruct (ExtractorAPI.rate_limit cf <=? 0) eqn:Hr.
           ++ apply Z.leb_le in Hr. split; [auto | eauto].
           ++ apply Z.leb_gt in Hr. split; [intros [ex H]; discriminate H|].
              intros [H|[H|[[t' [Ht' [_ Hc']]]|H]]]; try discriminate H; try lia.
              injection Ht' as <-. congruence.
        -- split; [|eauto]. intros _. right. right. left. exists t. auto.
    + destruct (ExtractorAPI.rate_limit cf <=? 0) eqn:Hr.
      * apply Z.leb_le in Hr. split; [auto | eauto].
      * apply Z.leb_gt in Hr. split; [intros [ex H]; discriminate H|].
        intros [H|[H|[[t' [Ht' _]]|H]]]; try discriminate H; try discriminate Ht'; lia.
  - intros ex Hex. split.
    + unfold ExtractorAPI.validar_configuracion in Hex. cbv zeta in Hex.
      repeat match type of Hex with
             | (if ?b then _ else _) = _ => destruct b
             end; inversion Hex; reflexivity.
    + intros parametros w. unfold ExtractorAPI.extraer. rewrite Hex. reflexivity.
Qed.

Lemma configuracion_api_invalida_no_solicita_testigo :
  ExtractorAPI.rate_limit config_api_sin_limite <= 0
  /\ ExtractorAPI.extraer urlparse_de_prueba urljoin_de_prueba nat servidor_caido
       dormir_de_prueba "http://api" config_api_sin_limite None 0%nat
     = (0%nat,
        Error (ErrorExtraccion "Error en extracción API: Rate limit debe ser mayor a 0")).
Proof.
  split; [cbn; lia|].
  destruct (configuracion_api_invalida_no_solicita urlparse_de_prueba urljoin_de_prueba nat
              servidor_caido dormir_de_prueba "http://api" config_api_sin_limite)
    as [_ H].
  destruct (H (ErrorConfiguracion "Rate limit debe ser mayor a 0") eq_refl) as [_ H'].
  exact (H' None 0%nat).
Defined.

(** X29.  The authentication type "basic" is accepted by the validation
    of the configuration, but [_agregar_autenticacion] writes no header
    for it: the headers of the request are those of the configuration,
    and neither the user nor the password is sent. *)
Theorem autenticacion_basica_no_se_envia :
  forall (urlparse_lanza : string -> bool) (url_base : string)
         (cf : ExtractorAPI.Configuracion),
    ExtractorAPI.auth_tipo (ExtractorAPI.autenticacion cf) = Some "basic" ->
    ExtractorAPI._agregar_autenticacion (ExtractorAPI.autenticacion cf)
      (ExtractorAPI.headers cf) = ExtractorAPI.headers cf
    /\ (urlparse_lanza url_base = false ->
        contiene (ExtractorAPI.metodo cf) ["GET"; "POST"; "PUT"; "DELETE"; "PATCH"] = true ->
        0 < ExtractorAPI.rate_limit cf ->
        ExtractorAPI.validar_configuracion urlparse_lanza url_base cf = Ok true).
Proof.
  intros urlparse_lanza url_base cf Ht. split.
  - unfold ExtractorAPI._agregar_autenticacion. rewrite Ht. reflexivity.
  - intros Hu Hm Hr. unfold ExtractorAPI.validar_configuracion. cbv zeta.
    rewrite Hu, Hm, Ht. cbn.
    replace (ExtractorAPI.rate_limit cf <=? 0) with false
      by (symmetry; apply Z.leb_gt; exact Hr).
    reflexivity.
Qed.

Lemma autenticacion_basica_no_se_envia_testigo :
  ExtractorAPI.auth_tipo (ExtractorAPI.autenticacion (config_api false autenticacion_basica))
    = Some "basic"
  /\ ExtractorAPI._agregar_autenticacion autenticacion_basica
       [("Content-Type", "application/json")]
     = [("Content-Type", "application/json")]
  /\ ExtractorAPI.validar_configuracion urlparse_de_prueba "http://api"
       (config_api false autenticacion_basica) = Ok true.
Proof.
  split; [reflexivity|].
  destruct (autenticacion_basica_no_se_envia urlparse_de_prueba "http://api"
              (config_api false autenticacion_basica) eq_refl) as [H1 H2].
  split; [exact H1|]. apply H2; [reflexivity | reflexivity | cbn; lia].
Defined.

(** ** Imputation with the mode *)

Section ImputacionConModa.

Variable repr_racional : Q -> string.
Variable moda_objeto : list Valor -> option Valor.
Variable normalizar_columna_fecha : ConfigFechas -> list Valor -> option (list Valor).

Lemma imputar_columna_error (cn : ConfigNulos) (d : DType) (vals : list Valor)
    (ex : Excepcion) :
  imputar_columna moda_objeto cn d vals = Error ex ->
  ex = {| tipo := "KeyError"; mensaje := "0" |}.
Proof.
  unfold imputar_columna. cbv zeta.
  repeat match goal with
         | |- context [if ?b then _ else _] => destruct b
         | |- context [match ?o with Some _ => _ | None => _ end] => destruct o
         end; intro H; inversion H; reflexivity.
Qed.

Lemma imputar_moda_sin_valores (cn : ConfigNulos) (d : DType) (vals : list Valor) :
  imputacion cn = "moda" -> es_dtype_numerico d = true -> sin_nan vals = [] ->
  imputar_columna moda_objeto cn d vals = Error {| tipo := "KeyError"; mensaje := "0" |}.
Proof.
  intros Hm Hd Hv. unfold imputar_columna. cbv zeta. rewrite Hm, Hd.
  cbn [String.eqb Ascii.eqb Bool.eqb]. unfold moda_numerica. rewrite Hv. reflexivity.
Qed.

Lemma imputacion_con_error (cn : ConfigNulos) (df : DataFrame)
    (l : list (nat * (string * DType))) (icd : nat * (string * DType)) :
  In icd l ->
  (exists ex, imputar_columna moda_objeto cn (snd (snd icd)) (columna_n df (fst icd))
              = Error ex) ->
  forall acc,
    fold_left
      (fun acc icd =>
         (sea df_limpio <- acc ;;
          sea dv <- imputar_columna moda_objeto cn (snd (snd icd))
                                    (columna_n df (fst icd)) ;;
          Ok (asignar_columna df_limpio (fst (snd icd)) (fst dv) (snd dv)))%res)
      l (Ok acc)
    = Error {| tipo := "KeyError"; mensaje := "0" |}.
Proof.
  intros Hin [ex Hex].
  set (F := fun (acc : Resultado DataFrame) (icd : nat * (string * DType)) => _).
  assert (Herr : forall l e, fold_left F l (Error e) = Error e).
  { induction l0 as [|y l0 IH]; intro e; [reflexivity | exact (IH e)]. }
  induction l as [|y l IH]; intro acc; [destruct Hin|].
  cbn [fold_left]. unfold F at 2. cbn [ligar].
  destruct (imputar_columna moda_objeto cn (snd (snd y)) (columna_n df (fst y)))
    as [dv|ey] eqn:Hy.
  - cbn [ligar]. destruct Hin as [->|Hin]; [congruence|]. apply IH. exact Hin.
  - cbn [ligar]. rewrite Herr. rewrite (imputar_columna_error _ _ _ _ Hy). reflexivity.
Qed.

(** X30.  Under the strategy "imputar" with the mode, a numeric column
    that holds no value (every cell is NaN) makes the null stage raise
    [KeyError]: the transformer then fails on any record set that is not
    empty, with the message of that error, whatever the other columns
    hold. *)
Theorem imputar_moda_columna_sin_valores :
  forall (c : Configuracion) (datos : list Registro) (i : nat) (col : string) (d : DType),
    let cf := configuracion_final c in
    let df := crear_dataframe datos in
    estrategia (manejo_nulos cf) = "imputar" ->
    imputacion (manejo_nulos cf) = "moda" ->
    contiene (metodo (manejo_outliers cf)) ["iqr"; "zscore"; "isolation_forest"] = true ->
    datos <> [] ->
    In (i, (col, d)) (columnas_numeradas df) ->
    es_dtype_numerico d = true ->
    sin_nan (columna_n df i) = [] ->
    _manejar_valores_nulos moda_objeto cf df = Error {| tipo := "KeyError"; mensaje := "0" |}
    /\ transformar repr_racional moda_objeto normalizar_columna_fecha c datos
       = Error (ErrorTransformacion "Error en transformación de limpieza: 0").
Proof.
  intros c datos i col d cf df He Hm Ho Hne Hin Hd Hv.
  assert (Hnulos : _manejar_valores_nulos moda_objeto cf df
                   = Error {| tipo := "KeyError"; mensaje := "0" |}).
  { unfold _manejar_valores_nulos. rewrite He. cbn [String.eqb Ascii.eqb Bool.eqb].
    apply (imputacion_con_error _ df _ (i, (col, d)) Hin).
    exists {| tipo := "KeyError"; mensaje := "0" |}. cbn [fst snd].
    apply imputar_moda_sin_valores; assumption. }
  split; [exact Hnulos|].
  unfold transformar. fold cf.
  assert (Hval : validar_configuracion cf = Ok true).
  { unfold validar_configuracion. cbv zeta. rewrite He, Hm, Ho. reflexivity. }
  rewrite Hval. cbn [ligar]. destruct datos as [|r datos]; [contradiction|].
  fold df. unfold _aplicar_limpieza. rewrite Hnulos. reflexivity.
Qed.

End ImputacionConModa.

Lemma imputar_moda_columna_sin_valores_testigo :
  transformar_de_prueba config_imputar_moda datos_sin_valores
  = Error (ErrorTransformacion "Error en transformación de limpieza: 0").
Proof.
  refine (proj2 (imputar_moda_columna_sin_valores repr_de_prueba moda_de_prueba
                   fechas_de_prueba config_imputar_moda datos_sin_valores
                   0%nat "a" Float64 eq_refl eq_refl eq_refl _ _ eq_refl eq_refl)).
  - discriminate.
  - left. reflexivity.
Defined.
